(* ===== verification/_CoqProject ===== *)
-Q . S2P
Prelude.v
JsString.v
JsNum.v
JsObject.v
JsSort.v
JsJson.v
JsFixed.v
CsvParser.v
Analytics.v
AnalyticsFacts.v
Legacy.v
Http.v
Dashboard.v
StatCard.v
Standings.v
Detail.v
Constants.v
Charts.v
SearchBar.v
App.v
Scenario.v
