(* ===== verification/Prelude.v ===== *)
(** * Verification of the retail-performance analytics pipeline

    The repository is a React dashboard for a sales tournament between
    retail stores.  Its algorithmic core is a two-stage pipeline, fed by
    an HTTP fetch and read by the dashboard's tabs:

      fetch --fetchSalesData--> CSV text --parseCSVData--> match records
            --processAnalytics--> bundle --tabs--> views

    - [src/src/api/salesApi.js]: [parseCSVData] (quote-aware CSV parser
      with its local helper [parseCSVLine]) and [fetchSalesData] (URL
      choice, [response.ok] and empty-body checks, error rewriting);
    - [src/src/utils/analytics.js]: [processAnalytics], one pass over the
      match records that accumulates per-group, per-store and per-date
      records in three JS objects, then finalises them, builds per-group
      standings with a three-key comparator and sorts the groups;
    - [src/src/utils/dataHelpers.js]: an older duplicate of the parser
      ([split(',')], no quotes) and of the group/store aggregations, not
      imported by the app;
    - [src/src/components/Dashboard.jsx]: the fetch state machine
      ([loading], [error], [rawData], [lastUpdated]) and the render choice;
      [DashboardTab.jsx]: search filter, top-10 by a metric, store
      selection and per-store figures; [StandingsTab.jsx]: group filter;
      [DashboardOverview.jsx]: key-metric cards, charts and the top-ten
      cards; [StoreSearchBar.jsx]: the search input and its dropdown;
      [StoreDetailView.jsx] and [GroupStandingsTable.jsx]: a store's
      figures and a group's table; [StatCard.jsx]: the card both views
      use; [Footer.jsx]: the last fetch time and the profile links;
    - [src/src/utils/constants.js]: colours, points and options, which no
      module imports;
    - [src/src/api/{proxy,matches,fetch-matches}.js]: serverless relays of
      the upstream feed.

    ** Layout of the development (files in dependency order)

    - [Prelude] (this file): [result] (a value or a thrown [Error]) with
      its bind notation in [analytics_scope], [result_fold] (a [forEach]
      whose body may throw), tactics, the hint databases [analytics] and
      [analytics_rw], and list lemmas (ordered sums, [lastn] = [slice(-n)]).
    - [JsString]: the string built-ins the code calls ([trim], [split],
      [replace], [toLowerCase], [includes]).
    - [JsNum]: JS numbers ([num]: exact rationals, the two infinities and
      NaN) with arithmetic, [Math.abs/max/min], [x || 0], [toFixed(f)],
      [parseFloat], [parseInt], [Number(string)].
    - [JsObject]: a plain object used as a dictionary (own properties in
      insertion order, array-index keys enumerated first, the keys
      inherited from [Object.prototype]); the [Accumulator] class of the
      "create-if-missing then update" idiom, its generic lemmas, [obj_map]
      and a simulation lemma for accumulations through a lifting.
    - [JsSort]: [Array.prototype.sort] as a stable insertion sort, with
      sortedness, permutation and stability theorems.
    - [JsJson]: [JSON.parse] (used by [proxy.js]) by fuel recursion, and
      its termination: fuel above twice the text length is enough.
    - [JsFixed]: the round trip [Number(x.toFixed(f))] = [x] rounded to
      [f] decimals ([round_fixed], with [Proper] instances for [Qeq]),
      through the digits [toFixed] prints and the literal [Number]
      reads back.
    - [CsvParser]: module [SalesApi] ([parseCSVLine] as a character state
      machine, [parseCSVData] with its two error exits); [SalesApiFacts]
      and [SalesApiTheorems]: error characterisation, field round trips.
    - [Analytics]: module [ProcessAnalytics], one definition per handler
      of the loop and per finalisation pass, composed as in the source.
    - [AnalyticsFacts]: the error characterisation of [processAnalytics];
      a refinement of the interleaved pass by independent folds; the
      per-store invariant (matches = wins + losses, points = 3 wins,
      sales sums, best/worst, recent form = last five results); the
      per-group records (match count, sales sum, extremes, distinct
      stores) from the group's matches; daily and per-store totals; standings order, positions and members;
      group order; first-seen order of stores.
    - [Legacy]: module [DataHelpers] ([dataHelpers.js]) and [LegacyFacts]:
      on inputs where both succeed, the legacy group and store records
      are the [analytics.js] ones (proved by simulation).
    - [Http]: [fetchSalesData] ([fetch] is an input function from a URL to
      a rejected or resolved outcome) and the three relay handlers over a
      [res] object; their error and relay contracts.
    - [Dashboard]: [DashboardTab], [StandingsTab], [Overview] views and
      the [Dashboard] component as a step function over its hook state
      with a reachability relation; invariants by rule induction (no two
      fetches in flight, [loading] iff a fetch is pending, [rawData] is a
      fetched body, [lastUpdated] set whenever records are held),
      liveness of a pending load, the crash condition of
      the render, the top-10 specification, and that sorting by win
      rate compares the rounded percentages (the [winRate] string read
      back by [Number]), which for stores of at most 31 matches is the
      order of the exact rates.
    - [StatCard]: the card's props and rendered text; a number value is
      [String(value)] ([JsNum.number_text]).
    - [Standings]: [GroupStandingsTable] (header with its fallbacks,
      rows, medal colours, bars) and [StandingsView] ([StandingsTab]:
      filter buttons, table order, group records); every table gets its
      group's record, row and bar medals agree, the tables shown.
    - [Detail]: [StoreDetail] ([StoreDetailView]: stat cards, figures, recent
      form, quick stats) and [OverviewView] (metric select, pie, top-ten
      cards); the ranks shown are within bounds ("#r of n" with
      [1 <= r <= n]).
    - [Constants]: [constants.js] (with [CHART_CONFIG]), which no module
      imports, and the agreement of the copies the components use.
    - [Charts]: [OverviewPage], the whole overview: the stat cards, the
      comparison chart with its tooltip formatter called as Recharts
      calls it (with the series' [name]), the pie and the daily trend;
      the formatter never formats, and the inline styles against
      [CHART_CONFIG].
    - [SearchBar]: [StoreSearchBar] (dropdown rows) and [Session], the
      tab's hooks plus the input focus and the hide callbacks [onBlur]
      schedules, as a step function over typing, focus, blur, timer,
      row and card clicks and clear; the selection stays a record of
      the bundle, so the tab never throws; a blur followed by a click
      still selects.
    - [App]: the page: [Dashboard] with [DashboardTab] mounted and
      unmounted as React does, the header, the content and the footer
      (texts, last fetch, profile links with [rel=noopener]), with the
      browser's date formats as a [Locale] instance the page takes;
      the page fails only through [processAnalytics], a refresh starts
      the tab afresh, and the main page always shows the time of the
      fetch its records came from (header and footer, for any locale).
    - [Scenario]: the spec's scenarios and the findings evaluated on
      concrete feeds and sessions, and the witnesses of the theorems
      with hypotheses.

    ** Modelling choices
    - JS numbers are exact rationals (kept reduced) plus [+Infinity],
      [-Infinity] and [NaN]; IEEE rounding and [-0] are not modelled, so
      sums are exact and [toFixed] is exact decimal rounding (half away
      from zero) below [1e21].  Counters the code increments by one are
      [nat].
    - Strings are Latin-1: one [ascii] per UTF-16 code unit below 256.
    - A thrown exception is [Throw msg]; every definition is total.  The
      only fuel is [JSON_parse]'s: twice the text length plus one, which
      [JSON_parse_fuel_adequate] proves enough (an array costs two units
      of fuel per character before its first element).
    - JS objects are association lists (insertion order fixes the output
      order of [Object.values]); sets are duplicate-free lists.
    - React's asynchrony is explicit: a fetch is split at its [await] into
      a start event and a settle event, interleaved with UI events; a
      [setTimeout] callback is a pending event counted in the state; a
      component's hooks live while it is rendered.
    - Rendering is modelled as the data a component displays: the text
      it interpolates and the class names that vary.

    ** Not modelled
    - Layout and chart geometry (sizes, axis scales, margins that depend
      on [window.innerWidth]), animation, and the icons' svg path data.
    - [String(x)] of a non-integral number (its shortest round-trip
      decimal form) is [None] in [number_text]; the cards only pass
      counts.
    - The locale formats of [toLocaleString] and [toLocaleTimeString]
      belong to the browser, not to the program: they are the class
      [App.Locale], and the page's theorems hold for every instance.
    - How Recharts computes a pie slice's [percent]: it is taken as the
      slice's share of the total.  Of Recharts' tooltip only the name it
      passes to the formatter ([name || dataKey]) is modelled. *)

From Stdlib Require Export String Ascii ZArith QArith Qreduction Qround Qabs
  Lia Lqa Bool List Permutation Sorted.
Export ListNotations.

Declare Scope analytics_scope.
Delimit Scope analytics_scope with an.
Open Scope nat_scope.
Open Scope list_scope.

(** ** Thrown exceptions *)

(** A JS computation either returns a value or throws an [Error] whose
    [message] is a string. *)
Inductive result (A : Type) : Type :=
| Ok (a : A)
| Throw (message : string).
Arguments Ok {A} a.
Arguments Throw {A} message.

Notation "x <- c ;; k" :=
  (match c with Ok x => k | Throw m => Throw m end)
  (at level 60, c at next level, right associativity) : analytics_scope.

Definition is_ok {A} (r : result A) : bool :=
  match r with Ok _ => true | Throw _ => false end.

(** [xs.forEach(x => body(x))] where [body] may throw: the first
    exception ends the loop and propagates. *)
Fixpoint result_fold {S E : Type} (f : S -> E -> result S) (s : S) (l : list E)
  : result S :=
  match l with
  | [] => Ok s
  | x :: l' => match f s x with Ok s' => result_fold f s' l' | Throw m => Throw m end
  end.

Lemma result_fold_app {S E : Type} (f : S -> E -> result S) s l1 l2 :
  result_fold f s (l1 ++ l2)
  = match result_fold f s l1 with Ok s' => result_fold f s' l2 | Throw m => Throw m end.
Proof.
  revert s. induction l1 as [|x l1 IH]; intros s; simpl; [reflexivity|].
  destruct (f s x); [apply IH | reflexivity].
Qed.

Lemma result_fold_flat_map {S E F : Type} (g : S -> F -> result S) (h : E -> list F)
  s l :
  result_fold (fun s e => result_fold g s (h e)) s l = result_fold g s (flat_map h l).
Proof.
  revert s. induction l as [|e l IH]; intros s; simpl; [reflexivity|].
  rewrite result_fold_app. destruct (result_fold g s (h e)); [apply IH | reflexivity].
Qed.

(** ** Tactics *)

Ltac inv H := inversion H; subst; clear H.

(** Case analysis on the boolean string and character equalities that
    the JS [===] tests become. *)
Ltac str_cases :=
  repeat match goal with
  | |- context [String.eqb ?a ?b] => destruct (String.eqb_spec a b); subst
  | H : context [String.eqb ?a ?b] |- _ => destruct (String.eqb_spec a b); subst
  end.

Create HintDb analytics discriminated.
Create Rewrite HintDb analytics_rw.

(** ** Ordered sums ([Array.prototype.reduce((s, x) => s + f x, 0)]) *)

Section Sums.
Context {A : Type}.

Definition nat_sum (f : A -> nat) (l : list A) : nat :=
  fold_left (fun s x => s + f x) l 0.

Lemma fold_left_add_shift (f : A -> nat) (l : list A) (n : nat) :
  fold_left (fun s x => s + f x) l n = n + nat_sum f l.
Proof.
  unfold nat_sum. revert n. induction l as [|x l IH]; intros n; simpl; [lia|].
  rewrite (IH (n + f x)), (IH (f x)). lia.
Qed.

Lemma nat_sum_nil (f : A -> nat) : nat_sum f [] = 0.
Proof. reflexivity. Qed.

Lemma nat_sum_cons (f : A -> nat) x l : nat_sum f (x :: l) = f x + nat_sum f l.
Proof. unfold nat_sum at 1. simpl. apply fold_left_add_shift. Qed.

Lemma nat_sum_app (f : A -> nat) l1 l2 :
  nat_sum f (l1 ++ l2) = nat_sum f l1 + nat_sum f l2.
Proof.
  induction l1 as [|x l1 IH]; simpl; [reflexivity|].
  rewrite !nat_sum_cons, IH. lia.
Qed.

Lemma nat_sum_perm (f : A -> nat) l1 l2 :
  Permutation l1 l2 -> nat_sum f l1 = nat_sum f l2.
Proof.
  induction 1; rewrite ?nat_sum_cons; lia.
Qed.

Lemma nat_sum_ext (f g : A -> nat) l :
  (forall x, In x l -> f x = g x) -> nat_sum f l = nat_sum g l.
Proof.
  induction l as [|x l IH]; intros H; [reflexivity|].
  rewrite !nat_sum_cons, (H x (or_introl eq_refl)), IH; [reflexivity|].
  intros y Hy. apply H. right. exact Hy.
Qed.

Lemma nat_sum_const_one l : nat_sum (fun _ => 1) l = length l.
Proof. induction l; rewrite ?nat_sum_cons; cbn [length]; [reflexivity | lia]. Qed.
End Sums.

#[export] Hint Rewrite @nat_sum_nil @nat_sum_cons @nat_sum_app : analytics_rw.

(** ** [slice(-n)]: the last [n] elements *)

Definition lastn {A} (n : nat) (l : list A) : list A := skipn (length l - n) l.

Lemma lastn_length {A} n (l : list A) : length (lastn n l) = Nat.min n (length l).
Proof. unfold lastn. rewrite length_skipn. lia. Qed.

Lemma lastn_all {A} n (l : list A) : length l <= n -> lastn n l = l.
Proof. intros H. unfold lastn. replace (length l - n) with 0 by lia. reflexivity. Qed.

Lemma lastn_app_le {A} n (l1 l2 : list A) :
  length l2 <= n -> lastn n (l1 ++ l2) = lastn (n - length l2) l1 ++ l2.
Proof.
  intros H. unfold lastn. rewrite length_app.
  replace (length l1 + length l2 - n) with (length l1 - (n - length l2)) by lia.
  rewrite skipn_app. replace (length l1 - (n - length l2) - length l1) with 0 by lia.
  reflexivity.
Qed.

(** ** Boolean list predicates *)

Lemma forallb_filter_true {A} (p q : A -> bool) l :
  forallb p l = true -> forallb p (filter q l) = true.
Proof.
  rewrite !forallb_forall. intros H x Hx. apply filter_In in Hx. apply H, Hx.
Qed.

#[export] Hint Resolve forallb_filter_true : analytics.

Lemma nat_sum_map {A B} (f : B -> nat) (g : A -> B) l :
  nat_sum f (map g l) = nat_sum (fun x => f (g x)) l.
Proof. induction l as [|x l IH]; simpl; rewrite ?nat_sum_cons, ?IH; reflexivity. Qed.

Lemma nat_sum_flat_map {A B} (f : B -> nat) (g : A -> list B) l :
  nat_sum f (flat_map g l) = nat_sum (fun x => nat_sum f (g x)) l.
Proof.
  induction l as [|x l IH]; simpl; [reflexivity|]. rewrite nat_sum_app, nat_sum_cons, IH. reflexivity.
Qed.
