(* ===== verification/JsString.v ===== *)
(** * JS string built-ins used by the parser and the dashboard

    Strings are [String.string]; each [ascii] stands for one UTF-16 code
    unit below 256, so the model covers Latin-1 text.  This file gives
    [String.prototype.trim], [split] on a one-character separator,
    [replace] with a string pattern (first occurrence only),
    [toLowerCase] and [includes], as the ECMAScript specification
    defines them on that alphabet. *)

From S2P Require Import Prelude.
Local Open Scope string_scope.

(** WhiteSpace and LineTerminator code points below 256: TAB, LF, VT,
    FF, CR, SPACE and NO-BREAK SPACE (U+00A0). *)
Definition is_js_ws (c : ascii) : bool :=
  match nat_of_ascii c with
  | 9 | 10 | 11 | 12 | 13 | 32 | 160 => true
  | _ => false
  end.

(** [trimStart]: drop the leading white space. *)
Fixpoint trim_start (s : string) : string :=
  match s with
  | EmptyString => EmptyString
  | String c r => if is_js_ws c then trim_start r else s
  end.

(** [trimEnd]: drop the trailing white space. *)
Fixpoint trim_end (s : string) : string :=
  match s with
  | EmptyString => EmptyString
  | String c r =>
      match trim_end r with
      | EmptyString => if is_js_ws c then EmptyString else String c EmptyString
      | r' => String c r'
      end
  end.

(** [String.prototype.trim]. *)
Definition trim (s : string) : string := trim_end (trim_start s).

(** [s.split(c)] for a one-character separator: the pieces between the
    separators, with an empty piece where two separators meet or at an
    end; the empty string splits into one empty piece. *)
Fixpoint split_char (c : ascii) (s : string) : list string :=
  match s with
  | EmptyString => [EmptyString]
  | String x r =>
      let parts := split_char c r in
      if Ascii.eqb x c then EmptyString :: parts
      else match parts with
           | p :: ps => String x p :: ps
           | [] => [String x EmptyString]
           end
  end.

Fixpoint str_drop (n : nat) (s : string) : string :=
  match n, s with
  | 0, _ => s
  | S n', String _ r => str_drop n' r
  | S _, EmptyString => EmptyString
  end.

(** [s.replace(pat, repl)] with a string pattern: the first occurrence
    of [pat] is replaced, the string is unchanged when there is none. *)
Fixpoint replace_first (pat repl s : string) : string :=
  if String.prefix pat s then repl ++ str_drop (String.length pat) s
  else match s with
       | EmptyString => EmptyString
       | String c r => String c (replace_first pat repl r)
       end.

(** [toLowerCase] on Latin-1: A-Z and U+00C0..U+00DE except U+00D7. *)
Definition lower_char (c : ascii) : ascii :=
  let n := nat_of_ascii c in
  if (Nat.leb 65 n && Nat.leb n 90)
     || (Nat.leb 192 n && Nat.leb n 222 && negb (Nat.eqb n 215))
  then ascii_of_nat (n + 32) else c.

Fixpoint to_lower (s : string) : string :=
  match s with
  | EmptyString => EmptyString
  | String c r => String (lower_char c) (to_lower r)
  end.

(** [s.includes(t)]: [t] occurs in [s] at some position. *)
Fixpoint includes (s t : string) : bool :=
  String.prefix t s ||
  match s with
  | EmptyString => false
  | String _ r => includes r t
  end.

(** ** Lemmas *)

Lemma split_char_nonempty c s : split_char c s <> [].
Proof.
  destruct s as [|x r]; simpl; [discriminate|].
  destruct (Ascii.eqb x c); [discriminate|]. destruct (split_char c r); discriminate.
Qed.

Lemma trim_start_idem s : trim_start (trim_start s) = trim_start s.
Proof.
  induction s as [|c r IH]; simpl; [reflexivity|].
  destruct (is_js_ws c) eqn:E; [exact IH|]. simpl. rewrite E. reflexivity.
Qed.

(** A string whose characters are not white space trims to itself. *)
Fixpoint no_ws (s : string) : bool :=
  match s with
  | EmptyString => true
  | String c r => negb (is_js_ws c) && no_ws r
  end.

Lemma trim_end_no_ws s : no_ws s = true -> trim_end s = s.
Proof.
  induction s as [|c r IH]; simpl; [reflexivity|].
  intros H. apply andb_prop in H as [Hc Hr]. rewrite IH by exact Hr.
  destruct r; [|reflexivity]. apply negb_true_iff in Hc. rewrite Hc. reflexivity.
Qed.

Lemma trim_no_ws s : no_ws s = true -> trim s = s.
Proof.
  intros H. unfold trim. destruct s as [|c r]; [reflexivity|].
  assert (Hc : is_js_ws c = false).
  { simpl in H. destruct (is_js_ws c); [discriminate | reflexivity]. }
  simpl. rewrite Hc. apply trim_end_no_ws, H.
Qed.

Lemma str_append_nil_r (s : string) : (s ++ EmptyString)%string = s.
Proof. induction s as [|c r IH]; simpl; [reflexivity | rewrite IH; reflexivity]. Qed.

Lemma str_append_assoc (a b c : string) : ((a ++ b) ++ c)%string = (a ++ (b ++ c))%string.
Proof. induction a as [|x r IH]; simpl; [reflexivity | rewrite IH; reflexivity]. Qed.
