(* ===== verification/JsNum.v ===== *)
(** * JS numbers

    A JS number is modelled as an exact rational, [+Infinity],
    [-Infinity] or [NaN].  Finite values are kept in reduced form
    ([fin] applies [Qred]) so that Leibniz equality is numeric equality.
    IEEE rounding is not modelled, and neither is [-0]: the code never
    produces it ([x || 0] maps [-0] to [0], and [x - x] is [+0]).

    The operations follow ECMAScript: [Number::add], [Number::divide],
    [Number::multiply], [Math.abs], [Math.max], [Math.min] (two
    arguments), ToBoolean (for [x || 0]), [Number.prototype.toFixed(f)],
    [parseFloat] and [parseInt] without a radix. *)

From S2P Require Import Prelude JsString.
From Stdlib Require Import DecimalString.

Inductive num : Type :=
| NFin (q : Q)
| NPosInf
| NNegInf
| NNaN.

Definition fin (q : Q) : num := NFin (Qred q).
Definition num_of_Z (z : Z) : num := fin (inject_Z z).
Definition num_of_nat (n : nat) : num := num_of_Z (Z.of_nat n).
Definition num_zero : num := fin 0.

(** A value is finite when it is neither infinite nor NaN. *)
Definition is_finite (x : num) : bool :=
  match x with NFin _ => true | _ => false end.

Definition num_neg (x : num) : num :=
  match x with
  | NFin q => fin (- q)
  | NPosInf => NNegInf
  | NNegInf => NPosInf
  | NNaN => NNaN
  end.

(** [x + y] *)
Definition num_add (x y : num) : num :=
  match x, y with
  | NNaN, _ | _, NNaN => NNaN
  | NPosInf, NNegInf | NNegInf, NPosInf => NNaN
  | NPosInf, _ | _, NPosInf => NPosInf
  | NNegInf, _ | _, NNegInf => NNegInf
  | NFin a, NFin b => fin (a + b)
  end.

(** [x - y] *)
Definition num_sub (x y : num) : num := num_add x (num_neg y).

(** [Math.abs(x)] *)
Definition num_abs (x : num) : num :=
  match x with
  | NFin q => fin (Qabs q)
  | NPosInf | NNegInf => NPosInf
  | NNaN => NNaN
  end.

Definition q_ltb (a b : Q) : bool := negb (Qle_bool b a).

(** Sign of a finite value, [0] counting as [+0]. *)
Definition q_nonneg (q : Q) : bool := Qle_bool 0 q.

(** [x * y] *)
Definition num_mul (x y : num) : num :=
  let inf (pos : bool) := if pos then NPosInf else NNegInf in
  match x, y with
  | NNaN, _ | _, NNaN => NNaN
  | NFin a, NFin b => fin (a * b)
  | NFin a, NPosInf | NPosInf, NFin a =>
      if Qeq_bool a 0 then NNaN else inf (q_nonneg a)
  | NFin a, NNegInf | NNegInf, NFin a =>
      if Qeq_bool a 0 then NNaN else inf (negb (q_nonneg a))
  | NPosInf, NPosInf | NNegInf, NNegInf => NPosInf
  | NPosInf, NNegInf | NNegInf, NPosInf => NNegInf
  end.

(** [x / y] *)
Definition num_div (x y : num) : num :=
  let inf (pos : bool) := if pos then NPosInf else NNegInf in
  match x, y with
  | NNaN, _ | _, NNaN => NNaN
  | NFin a, NFin b =>
      if Qeq_bool b 0 then
        (if Qeq_bool a 0 then NNaN else inf (q_nonneg a))
      else fin (a / b)
  | NFin _, (NPosInf | NNegInf) => num_zero
  | (NPosInf | NNegInf), (NPosInf | NNegInf) => NNaN
  | NPosInf, NFin b => inf (q_nonneg b)
  | NNegInf, NFin b => inf (negb (q_nonneg b))
  end.

(** [x < y]: false as soon as one side is NaN. *)
Definition num_lt (x y : num) : bool :=
  match x, y with
  | NNaN, _ | _, NNaN => false
  | NFin a, NFin b => q_ltb a b
  | NNegInf, NNegInf | NPosInf, _ => false
  | NNegInf, _ | _, NPosInf => true
  | NFin _, NNegInf => false
  end.

Definition is_nan (x : num) : bool := match x with NNaN => true | _ => false end.

(** [Math.max(x, y)] and [Math.min(x, y)] *)
Definition num_max (x y : num) : num :=
  if is_nan x || is_nan y then NNaN else if num_lt x y then y else x.
Definition num_min (x y : num) : num :=
  if is_nan x || is_nan y then NNaN else if num_lt y x then y else x.

(** ToBoolean: [0] and [NaN] are falsy. *)
Definition num_truthy (x : num) : bool :=
  match x with
  | NFin q => negb (Qeq_bool q 0)
  | NNaN => false
  | _ => true
  end.

(** [x || 0] on a number. *)
Definition num_or_zero (x : num) : num := if num_truthy x then x else num_zero.

(** How [Array.prototype.sort] reads a comparator's return value
    (SortCompare): NaN counts as [+0]. *)
Definition sort_compare_value (x : num) : comparison :=
  match x with
  | NFin q => Qcompare q 0
  | NPosInf => Gt
  | NNegInf => Lt
  | NNaN => Eq
  end.

(** ** [Number.prototype.toFixed(f)]

    For [x < 0] the result is ["-"] followed by the rendering of [-x].
    For [x >= 0], [n] is the integer nearest to [x * 10^f] (the larger
    one on a tie); its digits are padded with zeros on the left to at
    least [f + 1] digits and, when [f > 0], a point is put before the
    last [f].  The branch [x >= 10^21] (exponent notation) is not
    modelled: the code applies [toFixed] to percentages and to sales
    figures divided by 1000. *)

Definition digits_of_N (n : N) : string := NilEmpty.string_of_uint (N.to_uint n).

Definition zeros (n : nat) : string := string_of_list_ascii (repeat "0"%char n).

Definition fixed_of_nonneg (f : nat) (x : Q) : string :=
  let n := Z.to_N (Qfloor (x * inject_Z (10 ^ Z.of_nat f) + (1 # 2))) in
  let m := digits_of_N n in
  if Nat.eqb f 0 then m else
  let m := if Nat.leb (String.length m) f
           then (zeros (S f - String.length m) ++ m)%string else m in
  let k := String.length m in
  (substring 0 (k - f) m ++ "." ++ substring (k - f) f m)%string.

Definition toFixed (f : nat) (x : num) : string :=
  match x with
  | NNaN => "NaN"
  | NPosInf => "Infinity"
  | NNegInf => "-Infinity"
  | NFin q => if q_ltb q 0 then ("-" ++ fixed_of_nonneg f (- q))%string
              else fixed_of_nonneg f q
  end.

(** [x === y] on numbers ([NaN] differs from itself) and [x >= y]
    (false when either side is [NaN]). *)
Definition num_eqb (x y : num) : bool :=
  match x, y with
  | NFin a, NFin b => Qeq_bool a b
  | NPosInf, NPosInf | NNegInf, NNegInf => true
  | _, _ => false
  end.

Definition num_ge (x y : num) : bool :=
  negb (is_nan x || is_nan y) && negb (num_lt x y).

(** ** [parseFloat]

    The longest prefix of the string, after leading white space, that is
    a StrDecimalLiteral: an optional sign, then ["Infinity"] or digits
    with an optional fraction and an optional exponent.  No such prefix
    gives NaN.  The value is the exact rational the literal denotes. *)

Definition is_digit (c : ascii) : bool :=
  Nat.leb 48 (nat_of_ascii c) && Nat.leb (nat_of_ascii c) 57.

Fixpoint take_digits (s : string) : list Z * string :=
  match s with
  | String c r =>
      if is_digit c then
        let '(ds, rest) := take_digits r in (Z.of_nat (nat_of_ascii c - 48) :: ds, rest)
      else ([], s)
  | EmptyString => ([], EmptyString)
  end.

Definition digits_to_Z (radix : Z) (ds : list Z) : Z :=
  fold_left (fun acc d => acc * radix + d)%Z ds 0%Z.

(** ExponentPart: [e] or [E], an optional sign, at least one digit;
    without a digit the [e] is not part of the literal. *)
Definition parse_exponent (s : string) : Z :=
  match s with
  | String c r =>
      if (Ascii.eqb c "e" || Ascii.eqb c "E")%char then
        let '(sgn, r') := match r with
                          | String "+" r' => (1%Z, r')
                          | String "-" r' => ((-1)%Z, r')
                          | _ => (1%Z, r)
                          end in
        match fst (take_digits r') with
        | [] => 0%Z
        | ds => (sgn * digits_to_Z 10 ds)%Z
        end
      else 0%Z
  | EmptyString => 0%Z
  end.

(** The optional sign of a StrDecimalLiteral: [-] (negative) or [+]. *)
Definition split_sign (t : string) : bool * string :=
  match t with
  | String "-" r => (true, r)
  | String "+" r => (false, r)
  | _ => (false, t)
  end.

Definition parse_unsigned_decimal (s : string) : option num :=
  if String.prefix "Infinity" s then Some NPosInf else
  let '(d1, r1) := take_digits s in
  let '(d2, r2) := match r1 with
                   | String "." r => take_digits r
                   | _ => ([], r1)
                   end in
  match d1, d2 with
  | [], [] => None
  | _, _ => Some (fin (inject_Z (digits_to_Z 10 (d1 ++ d2))
                       * Qpower 10 (parse_exponent r2 - Z.of_nat (List.length d2))))
  end.

Definition parseFloat (s : string) : num :=
  let t := trim_start s in
  let '(neg, body) := split_sign t in
  match parse_unsigned_decimal body with
  | None => NNaN
  | Some v => if neg then num_neg v else v
  end.

(** ** [parseInt] without a radix

    After leading white space and an optional sign, a ["0x"]/["0X"]
    prefix selects radix 16, otherwise radix 10; the longest prefix of
    digits of that radix is read, and none gives NaN. *)

Definition radix_digit (c : ascii) : option Z :=
  let n := nat_of_ascii c in
  if Nat.leb 48 n && Nat.leb n 57 then Some (Z.of_nat (n - 48))
  else if Nat.leb 97 n && Nat.leb n 102 then Some (Z.of_nat (n - 87))
  else if Nat.leb 65 n && Nat.leb n 70 then Some (Z.of_nat (n - 55))
  else None.

Fixpoint take_radix_digits (radix : Z) (s : string) : list Z :=
  match s with
  | String c r =>
      match radix_digit c with
      | Some d => if (d <? radix)%Z then d :: take_radix_digits radix r else []
      | None => []
      end
  | EmptyString => []
  end.

Definition parseInt (s : string) : num :=
  let t := trim_start s in
  let '(sign, t) := match t with
                    | String "-" r => ((-1)%Z, r)
                    | String "+" r => (1%Z, r)
                    | _ => (1%Z, t)
                    end in
  let '(radix, t) := if String.prefix "0x" t || String.prefix "0X" t
                     then (16%Z, str_drop 2 t) else (10%Z, t) in
  match take_radix_digits radix t with
  | [] => NNaN
  | ds => num_of_Z (sign * digits_to_Z radix ds)
  end.

(** ** [Number(s)] on a string (StringToNumber)

    The whole string, white space trimmed, must be a numeric literal:
    empty gives 0; [0x]/[0o]/[0b] followed by digits of that radix; or
    an optional sign then ["Infinity"] or a decimal literal (digits with
    an optional fraction, or a fraction alone, then an optional
    exponent).  Anything else gives NaN. *)

Definition non_decimal_literal (t : string) : option num :=
  match t with
  | String "0" (String c r) =>
      let radix := if (Ascii.eqb c "x" || Ascii.eqb c "X")%char then 16%Z
                   else if (Ascii.eqb c "o" || Ascii.eqb c "O")%char then 8%Z
                   else if (Ascii.eqb c "b" || Ascii.eqb c "B")%char then 2%Z else 0%Z in
      let ds := take_radix_digits radix r in
      if (radix =? 0)%Z then None
      else if Nat.eqb (List.length ds) (String.length r) && negb (Nat.eqb (String.length r) 0)
      then Some (num_of_Z (digits_to_Z radix ds)) else None
  | _ => None
  end.

(** The exponent part that ends the literal: nothing, or [e]/[E], an
    optional sign and digits up to the end. *)
Definition exponent_to_end (s : string) : option Z :=
  match s with
  | EmptyString => Some 0%Z
  | String c r =>
      if (Ascii.eqb c "e" || Ascii.eqb c "E")%char then
        let '(sgn, r') := match r with
                          | String "+" r' => (1%Z, r')
                          | String "-" r' => ((-1)%Z, r')
                          | _ => (1%Z, r)
                          end in
        match take_digits r' with
        | ((_ :: _) as ds, EmptyString) => Some (sgn * digits_to_Z 10 ds)%Z
        | _ => None
        end
      else None
  end.

Definition decimal_to_end (s : string) : option Q :=
  let '(d1, r1) := take_digits s in
  let '(d2, r2) := match r1 with
                   | String "." r => take_digits r
                   | _ => ([], r1)
                   end in
  match d1 ++ d2, exponent_to_end r2 with
  | [], _ | _, None => None
  | ds, Some e => Some (inject_Z (digits_to_Z 10 ds) * Qpower 10 (e - Z.of_nat (List.length d2)))%Q
  end.

Definition string_to_number (s : string) : num :=
  let t := trim s in
  if String.eqb t EmptyString then num_zero else
  match non_decimal_literal t with
  | Some n => n
  | None =>
      let '(neg, body) := split_sign t in
      let v := if String.eqb body "Infinity" then Some NPosInf
               else option_map fin (decimal_to_end body) in
      match v with
      | None => NNaN
      | Some v => if neg then num_neg v else v
      end
  end.

(** ** Lemmas *)

Lemma fin_eq (a b : Q) : (a == b)%Q -> fin a = fin b.
Proof. intros H. unfold fin. f_equal. apply Qred_complete, H. Qed.

Lemma fin_Qred (q : Q) : fin (Qred q) = fin q.
Proof. apply fin_eq, Qred_correct. Qed.

#[export] Hint Rewrite fin_Qred : analytics_rw.

(** [x || 0] is never NaN: it is the value itself when truthy, else 0. *)
Lemma num_or_zero_not_nan x : is_nan (num_or_zero x) = false.
Proof. unfold num_or_zero. destruct x; simpl; try reflexivity. destruct (negb _); reflexivity. Qed.

(** Ordered sum [xs.reduce((s, x) => s + f(x), 0)] on numbers. *)
Definition num_sum {A} (f : A -> num) (l : list A) : num :=
  fold_left (fun s x => num_add s (f x)) l num_zero.

Definition fin_val (x : num) : Q := match x with NFin q => q | _ => 0%Q end.

Definition Qsum {A} (f : A -> Q) (l : list A) : Q := fold_right (fun x s => f x + s)%Q 0%Q l.

Lemma Qsum_app {A} (f : A -> Q) l1 l2 : (Qsum f (l1 ++ l2) == Qsum f l1 + Qsum f l2)%Q.
Proof.
  induction l1 as [|x l1 IH]; simpl; [lra|]. unfold Qsum in *. simpl. rewrite IH. lra.
Qed.

Lemma Qsum_perm {A} (f : A -> Q) l1 l2 : Permutation l1 l2 -> (Qsum f l1 == Qsum f l2)%Q.
Proof.
  induction 1; unfold Qsum in *; simpl; lra.
Qed.

Section NumSum.
Context {A : Type} (f : A -> num).

Lemma num_sum_acc_finite (l : list A) (q0 : Q) :
  forallb (fun x => is_finite (f x)) l = true ->
  fold_left (fun s x => num_add s (f x)) l (fin q0) = fin (q0 + Qsum (fun x => fin_val (f x)) l).
Proof.
  revert q0. induction l as [|x l IH]; intros q0 Hf; simpl in *.
  - apply fin_eq. lra.
  - apply andb_prop in Hf as [Hx Hl].
    destruct (f x) as [v| | |] eqn:E; try discriminate. simpl.
    change (NFin (Qred (Qred q0 + v))) with (fin (Qred q0 + v)).
    rewrite IH by exact Hl. apply fin_eq. rewrite Qred_correct. lra.
Qed.

(** With finite summands the ordered JS sum is the exact sum. *)
Lemma num_sum_finite (l : list A) :
  forallb (fun x => is_finite (f x)) l = true ->
  num_sum f l = fin (Qsum (fun x => fin_val (f x)) l).
Proof.
  intros H. unfold num_sum, num_zero. rewrite num_sum_acc_finite by exact H.
  apply fin_eq. lra.
Qed.
End NumSum.

(** ** Comparators built from subtraction *)

Lemma q_ltb_iff (a b : Q) : q_ltb a b = true <-> (a < b)%Q.
Proof.
  unfold q_ltb. rewrite negb_true_iff. split; intros H.
  - apply Qnot_le_lt. intros Hle. apply Qle_bool_iff in Hle. congruence.
  - destruct (Qle_bool b a) eqn:E; [|reflexivity]. apply Qle_bool_iff in E. exfalso. lra.
Qed.

(** [a - b] is read as negative by [sort] exactly when [a < b], for every
    pair of JS numbers, infinities and NaN included. *)
Lemma sort_compare_sub_lt (x y : num) :
  sort_compare_value (num_sub x y) = Lt <-> num_lt x y = true.
Proof.
  destruct x as [a| | |], y as [b| | |]; try (simpl; split; congruence).
  unfold num_sub, num_neg, num_add, fin. cbn -[Qred].
  rewrite q_ltb_iff, <- Qlt_alt.
  pose proof (Qred_correct (- b)). pose proof (Qred_correct (a + Qred (- b))).
  split; intros; lra.
Qed.

Lemma num_lt_asym (x y : num) : num_lt x y = true -> num_lt y x = false.
Proof.
  destruct x as [a| | |], y as [b| | |]; simpl; try congruence.
  rewrite q_ltb_iff. intros H. destruct (q_ltb b a) eqn:E; [|reflexivity].
  apply q_ltb_iff in E. lra.
Qed.

Lemma num_lt_nat (a b : nat) : num_lt (num_of_nat a) (num_of_nat b) = Nat.ltb a b.
Proof.
  unfold num_of_nat, num_of_Z, fin. cbn -[Qred Nat.ltb q_ltb]. destruct (Nat.ltb_spec a b) as [H|H].
  - apply q_ltb_iff. pose proof (Qred_correct (inject_Z (Z.of_nat a))).
    pose proof (Qred_correct (inject_Z (Z.of_nat b))).
    assert (inject_Z (Z.of_nat a) < inject_Z (Z.of_nat b))%Q by (rewrite <- Zlt_Qlt; lia).
    lra.
  - destruct (q_ltb _ _) eqn:E; [|reflexivity]. apply q_ltb_iff in E.
    pose proof (Qred_correct (inject_Z (Z.of_nat a))).
    pose proof (Qred_correct (inject_Z (Z.of_nat b))).
    assert (inject_Z (Z.of_nat b) <= inject_Z (Z.of_nat a))%Q by (rewrite <- Zle_Qle; lia).
    lra.
Qed.

(** [x || 0] is the identity on an integer. *)
Lemma num_or_zero_of_Z z : num_or_zero (num_of_Z z) = num_of_Z z.
Proof.
  unfold num_or_zero, num_truthy, num_of_Z, fin.
  destruct (Qeq_bool (Qred (inject_Z z)) 0) eqn:E; [|reflexivity].
  apply Qeq_bool_iff in E. rewrite Qred_correct in E. unfold Qeq in E. simpl in E.
  assert (z = 0%Z) by lia. subst. reflexivity.
Qed.

(** [parseInt(s) || 0] is [parseInt(s)] unless [parseInt(s)] is NaN. *)
Lemma num_or_zero_parseInt s :
  is_nan (parseInt s) = false -> num_or_zero (parseInt s) = parseInt s.
Proof.
  unfold parseInt.
  destruct (match trim_start s with
            | String "-" r => ((-1)%Z, r) | String "+" r => (1%Z, r) | _ => (1%Z, trim_start s)
            end) as [sign t].
  destruct (if String.prefix "0x" t || String.prefix "0X" t
            then (16%Z, str_drop 2 t) else (10%Z, t)) as [radix t'].
  destruct (take_radix_digits radix t'); [discriminate|]. intros _. apply num_or_zero_of_Z.
Qed.

(** [x >= y] (as [!(x < y)]) is transitive away from NaN. *)
Lemma num_not_lt_trans x y z :
  is_nan x = false -> is_nan y = false -> is_nan z = false ->
  num_lt x y = false -> num_lt y z = false -> num_lt x z = false.
Proof.
  destruct x as [a| | |], y as [b| | |], z as [c| | |]; cbn; try discriminate; try reflexivity.
  intros _ _ _ Hab Hbc. apply not_true_iff_false. rewrite q_ltb_iff. intros Hac.
  apply not_true_iff_false in Hab, Hbc. rewrite q_ltb_iff in Hab, Hbc. lra.
Qed.

Lemma num_add_of_nat a b : num_add (num_of_nat a) (num_of_nat b) = num_of_nat (a + b).
Proof.
  unfold num_of_nat, num_of_Z. cbn [num_add fin]. apply fin_eq.
  rewrite !Qred_correct, Nat2Z.inj_add, inject_Z_plus. reflexivity.
Qed.

(** [xs.reduce((s, x) => s + f(x), n)] on counts is their sum. *)
Lemma fold_num_add_nat {A} (f : A -> nat) l n :
  fold_left (fun s x => num_add s (num_of_nat (f x))) l (num_of_nat n)
  = num_of_nat (fold_left (fun s x => s + f x) l n).
Proof.
  revert n. induction l as [|x l IH]; intros n; cbn [fold_left]; [reflexivity|].
  rewrite num_add_of_nat. apply IH.
Qed.

(** ** Arithmetic on finite values *)

Lemma q_ltb_compat a b a' b' : (a == a')%Q -> (b == b')%Q -> q_ltb a b = q_ltb a' b'.
Proof.
  intros Ha Hb. destruct (q_ltb a b) eqn:E, (q_ltb a' b') eqn:E'; auto;
    rewrite <- not_true_iff_false in *; rewrite q_ltb_iff in *.
  - exfalso. apply E'. rewrite <- Ha, <- Hb. exact E.
  - exfalso. apply E. rewrite Ha, Hb. exact E'.
Qed.

Lemma num_add_zero_l q : num_add num_zero (NFin q) = fin q.
Proof. apply fin_eq. rewrite Qred_correct. ring. Qed.

Lemma num_sub_fin a b : num_sub (NFin a) (NFin b) = fin (a - b).
Proof. apply fin_eq. rewrite Qred_correct. ring. Qed.

Lemma num_div_fin a b : ~ (b == 0)%Q -> num_div (NFin a) (NFin b) = fin (a / b).
Proof.
  intros Hb. cbn [num_div]. destruct (Qeq_bool b 0) eqn:E; [|reflexivity].
  apply Qeq_bool_iff in E. contradiction.
Qed.

(** [String(n)] of a non-negative integer: its decimal digits. *)
Definition nat_text (n : nat) : string := digits_of_N (N.of_nat n).

(** [String(x)] (Number::toString) where the model knows it: NaN, the
    infinities, and integers below [10^21] in absolute value, printed as
    their decimal digits with a [-] for negatives.  Other values (a
    fraction's shortest round-tripping decimal, the exponent form) give
    [None]. *)
Definition number_text (x : num) : option string :=
  match x with
  | NNaN => Some "NaN"%string
  | NPosInf => Some "Infinity"%string
  | NNegInf => Some "-Infinity"%string
  | NFin q =>
      let q := Qred q in
      if negb (Pos.eqb (Qden q) 1) || (10 ^ 21 <=? Z.abs (Qnum q))%Z then None
      else if (Qnum q <? 0)%Z then Some ("-" ++ digits_of_N (Z.to_N (- Qnum q)))%string
      else Some (digits_of_N (Z.to_N (Qnum q)))
  end.
