(* ===== verification/JsObject.v ===== *)
(** * JS plain objects used as dictionaries

    [processAnalytics] keeps its running records in plain objects
    ([const groupStats = {}]) keyed by strings from the data.  Three
    features of JS objects matter for the results:
    - the own properties, kept here in insertion order ([obj]);
    - the enumeration order of [Object.keys]/[Object.values]
      (OrdinaryOwnPropertyKeys): array-index keys first, in ascending
      numeric order, then the other string keys in insertion order;
    - the properties inherited from [Object.prototype]: [o["toString"]]
      is a function even when [o] has no own property ["toString"], so
      the test [!o[k]] is false for these keys.

    The file also states the "create if missing, then update" idiom the
    code uses three times as an interface ([Accumulator]) and proves its
    generic lemmas once. *)

From S2P Require Import Prelude JsString JsNum.

Definition obj (V : Type) : Type := list (string * V).

Section Obj.
Context {V : Type}.

Fixpoint obj_get (o : obj V) (k : string) : option V :=
  match o with
  | [] => None
  | (k', v) :: r => if String.eqb k k' then Some v else obj_get r k
  end.

(** [o[k] = v]: an existing own property keeps its position. *)
Fixpoint obj_set (o : obj V) (k : string) (v : V) : obj V :=
  match o with
  | [] => [(k, v)]
  | (k', v') :: r => if String.eqb k k' then (k', v) :: r else (k', v') :: obj_set r k v
  end.
End Obj.

(** Properties of [Object.prototype] (ECMA-262 and Annex B). *)
Definition proto_keys : list string :=
  ["constructor"; "hasOwnProperty"; "isPrototypeOf"; "propertyIsEnumerable";
   "toLocaleString"; "toString"; "valueOf"; "__proto__";
   "__defineGetter__"; "__defineSetter__"; "__lookupGetter__"; "__lookupSetter__"]%string.

Definition is_proto_key (k : string) : bool := existsb (String.eqb k) proto_keys.

(** What [o[k]] reads. *)
Inductive prop_value (V : Type) : Type :=
| Own (v : V)
| Inherited
| Absent.
Arguments Own {V} v.
Arguments Inherited {V}.
Arguments Absent {V}.

Definition obj_prop {V} (o : obj V) (k : string) : prop_value V :=
  if is_proto_key k then Inherited
  else match obj_get o k with Some v => Own v | None => Absent end.

(** ** Enumeration order *)

(** An array index is the canonical decimal form of an integer below
    [2^32 - 1]: ["0"], or digits without a leading zero. *)
Fixpoint dec_value (s : string) (acc : N) : option N :=
  match s with
  | EmptyString => Some acc
  | String c r =>
      if is_digit c then dec_value r (acc * 10 + N.of_nat (nat_of_ascii c - 48))%N
      else None
  end.

Definition array_index (k : string) : option N :=
  match k with
  | String "0" EmptyString => Some 0%N
  | String "0" _ | EmptyString => None
  | _ => match dec_value k 0 with
         | Some n => if (n <? 4294967295)%N then Some n else None
         | None => None
         end
  end.

Definition is_array_index (k : string) : bool :=
  match array_index k with Some _ => true | None => false end.

Section Enumerate.
Context {V : Type}.

Fixpoint insert_index (n : N) (e : string * V) (l : list (N * (string * V)))
  : list (N * (string * V)) :=
  match l with
  | [] => [(n, e)]
  | (m, e') :: r => if (n <? m)%N then (n, e) :: l else (m, e') :: insert_index n e r
  end.

Fixpoint index_entries (o : obj V) : list (N * (string * V)) :=
  match o with
  | [] => []
  | (k, v) :: r =>
      match array_index k with
      | Some n => insert_index n (k, v) (index_entries r)
      | None => index_entries r
      end
  end.

(** The own properties in the order [Object.keys]/[Object.values] list them. *)
Definition obj_entries (o : obj V) : obj V :=
  map snd (index_entries o) ++ filter (fun kv => negb (is_array_index (fst kv))) o.

Definition obj_keys (o : obj V) : list string := map fst (obj_entries o).
Definition obj_values (o : obj V) : list V := map snd (obj_entries o).
End Enumerate.

(** [Object.values(o).forEach(v => ...)] mutating every value in
    place: keys and their order are unchanged. *)
Definition obj_map {A B} (f : A -> B) (o : obj A) : obj B :=
  map (fun kv => (fst kv, f (snd kv))) o.

Section ObjMap.
Context {A B : Type} (f : A -> B).

Lemma obj_get_map (o : obj A) k : obj_get (obj_map f o) k = option_map f (obj_get o k).
Proof. induction o as [|[k' v] o IH]; simpl; [reflexivity|]. destruct (String.eqb k k'); auto. Qed.

Lemma obj_prop_map (o : obj A) k :
  obj_prop (obj_map f o) k
  = match obj_prop o k with Own v => Own (f v) | Inherited => Inherited | Absent => Absent end.
Proof.
  unfold obj_prop. destruct (is_proto_key k); [reflexivity|].
  rewrite obj_get_map. destruct (obj_get o k); reflexivity.
Qed.

Lemma obj_map_set (o : obj A) k v : obj_map f (obj_set o k v) = obj_set (obj_map f o) k (f v).
Proof.
  induction o as [|[k' v'] o IH]; simpl; [reflexivity|].
  destruct (String.eqb k k'); simpl; [reflexivity|]. rewrite IH. reflexivity.
Qed.

Lemma insert_index_map n (e : string * A) l :
  map (fun p => (fst p, (fst (snd p), f (snd (snd p))))) (insert_index n e l)
  = insert_index n (fst e, f (snd e))
      (map (fun p => (fst p, (fst (snd p), f (snd (snd p))))) l).
Proof.
  induction l as [|[m e'] l IH]; simpl; [destruct e; reflexivity|].
  destruct (n <? m)%N; simpl; [destruct e; reflexivity|]. rewrite IH. reflexivity.
Qed.

Lemma index_entries_map (o : obj A) :
  index_entries (obj_map f o)
  = map (fun p => (fst p, (fst (snd p), f (snd (snd p))))) (index_entries o).
Proof.
  induction o as [|[k v] o IH]; simpl; [reflexivity|].
  destruct (array_index k); [|exact IH]. rewrite IH, insert_index_map. reflexivity.
Qed.

Lemma obj_entries_map (o : obj A) : obj_entries (obj_map f o) = obj_map f (obj_entries o).
Proof.
  unfold obj_entries. rewrite index_entries_map. unfold obj_map.
  rewrite map_app, !map_map. f_equal. induction o as [|[k v] o IH]; simpl; [reflexivity|].
  destruct (negb (is_array_index k)); simpl; rewrite ?IH; reflexivity.
Qed.

Lemma obj_values_map (o : obj A) : obj_values (obj_map f o) = map f (obj_values o).
Proof. unfold obj_values. rewrite obj_entries_map. unfold obj_map. rewrite !map_map. reflexivity. Qed.

Lemma obj_keys_map (o : obj A) : obj_keys (obj_map f o) = obj_keys o.
Proof. unfold obj_keys. rewrite obj_entries_map. unfold obj_map. rewrite map_map. reflexivity. Qed.
End ObjMap.

Lemma obj_map_ext {A B} (f g : A -> B) (o : obj A) :
  (forall x, f x = g x) -> obj_map f o = obj_map g o.
Proof. intros Hfg. unfold obj_map. apply map_ext. intros [k v]. simpl. rewrite Hfg. reflexivity. Qed.

Lemma obj_map_map {A B C} (f : B -> C) (g : A -> B) (o : obj A) :
  obj_map f (obj_map g o) = obj_map (fun x => f (g x)) o.
Proof. unfold obj_map. rewrite map_map. reflexivity. Qed.

(** ** The accumulation idiom

    [if (!o[key]) { o[key] = init; }  o[key].f = ... ;] : one event [e]
    creates the record of its key from [acc_init e] when the key is
    absent, then applies [acc_step e].  An inherited key skips the
    creation and the update runs on the inherited value: what happens
    then depends on the handler, so [upsert] reports it with [None]. *)
Class Accumulator (E V : Type) : Type := {
  acc_key : E -> string;
  acc_init : E -> V;
  acc_step : E -> V -> V
}.

Section Accumulate.
Context {E V : Type} `{Accumulator E V}.

Definition upsert (o : obj V) (e : E) : option (obj V) :=
  match obj_prop o (acc_key e) with
  | Inherited => None
  | Own v => Some (obj_set o (acc_key e) (acc_step e v))
  | Absent => Some (obj_set o (acc_key e) (acc_step e (acc_init e)))
  end.

(** A handler that throws on an inherited key stops the whole loop. *)
Fixpoint accumulate (o : obj V) (es : list E) : option (obj V) :=
  match es with
  | [] => Some o
  | e :: es' => match upsert o e with Some o' => accumulate o' es' | None => None end
  end.

(** A handler that silently updates the inherited value leaves the
    object unchanged. *)
Definition upsert_lenient (o : obj V) (e : E) : obj V :=
  match upsert o e with Some o' => o' | None => o end.

Definition accumulate_lenient (o : obj V) (es : list E) : obj V :=
  fold_left upsert_lenient es o.

(** Reference semantics of one key: its record after the events of
    that key, in order. *)
Definition key_fold (ov : option V) (es : list E) : option V :=
  fold_left (fun ov e => Some (acc_step e (match ov with Some v => v | None => acc_init e end)))
            es ov.

Definition plain_keys (es : list E) : bool :=
  forallb (fun e => negb (is_proto_key (acc_key e))) es.
End Accumulate.

(** Keys in order of first appearance. *)
Definition add_key (ks : list string) (k : string) : list string :=
  if existsb (String.eqb k) ks then ks else ks ++ [k].

Definition first_seen (ks : list string) (new : list string) : list string :=
  fold_left add_key new ks.

(** ** Lemmas on own properties *)

Section ObjLemmas.
Context {V : Type}.

Lemma obj_get_set_eq (o : obj V) k v : obj_get (obj_set o k v) k = Some v.
Proof.
  induction o as [|[k' v'] r IH]; simpl; str_cases; simpl; str_cases;
    congruence.
Qed.

Lemma obj_get_set_ne (o : obj V) k k' v :
  k <> k' -> obj_get (obj_set o k v) k' = obj_get o k'.
Proof.
  intros Hne. induction o as [|[k0 v0] r IH]; simpl; str_cases; simpl; str_cases;
    congruence.
Qed.

Lemma obj_get_set (o : obj V) k k' v :
  obj_get (obj_set o k v) k' = if String.eqb k k' then Some v else obj_get o k'.
Proof.
  str_cases; [apply obj_get_set_eq | apply obj_get_set_ne; assumption].
Qed.

Lemma obj_keys_set (o : obj V) k v : map fst (obj_set o k v) = add_key (map fst o) k.
Proof.
  unfold add_key. induction o as [|[k' v'] r IH]; simpl; [reflexivity|].
  str_cases; simpl; [reflexivity|]. rewrite IH. destruct (existsb _ _); reflexivity.
Qed.

Lemma obj_get_In (o : obj V) k v : obj_get o k = Some v -> In (k, v) o.
Proof.
  induction o as [|[k' v'] r IH]; simpl; [discriminate|]. str_cases; intros H.
  - inv H. left. reflexivity.
  - right. apply IH, H.
Qed.

Lemma obj_set_In (o : obj V) k v x : In x (obj_set o k v) -> In x o \/ x = (k, v).
Proof.
  induction o as [|[k' v'] o IH]; simpl; [intros [<-|[]]; auto|].
  destruct (String.eqb_spec k k') as [<-|]; simpl; intros [<-|Hin]; auto.
  destruct (IH Hin); auto.
Qed.

Lemma In_obj_get (o : obj V) k v : In (k, v) o -> exists v', obj_get o k = Some v'.
Proof.
  induction o as [|[k' v'] o IH]; simpl; [intros []|]. intros [E|Hin].
  - injection E as -> ->. rewrite String.eqb_refl. eauto.
  - destruct (String.eqb k k'); eauto.
Qed.
End ObjLemmas.

#[export] Hint Rewrite @obj_get_set_eq @obj_keys_set : analytics_rw.

(** ** Enumeration order is a reordering of the own properties *)

Section EnumLemmas.
Context {V : Type}.

Lemma insert_index_perm n (e : string * V) l :
  Permutation (map snd (insert_index n e l)) (e :: map snd l).
Proof.
  induction l as [|[m e'] r IH]; simpl; [reflexivity|].
  destruct (n <? m)%N; simpl; [reflexivity|].
  rewrite IH. apply perm_swap.
Qed.

Lemma index_entries_perm (o : obj V) :
  Permutation (map snd (index_entries o)) (filter (fun kv => is_array_index (fst kv)) o).
Proof.
  unfold is_array_index in *.
  induction o as [|[k v] r IH]; simpl; [reflexivity|].
  destruct (array_index k); [|exact IH].
  rewrite insert_index_perm. constructor. exact IH.
Qed.

Lemma obj_entries_perm (o : obj V) : Permutation (obj_entries o) o.
Proof.
  unfold obj_entries. rewrite index_entries_perm.
  induction o as [|[k v] r IH]; simpl; [reflexivity|].
  destruct (is_array_index k); simpl.
  - constructor. exact IH.
  - rewrite <- Permutation_middle. constructor. exact IH.
Qed.

(** Without array-index keys, enumeration is insertion order. *)
Lemma obj_entries_no_index (o : obj V) :
  forallb (fun kv => negb (is_array_index (fst kv))) o = true -> obj_entries o = o.
Proof.
  intros H. unfold obj_entries.
  assert (E : index_entries o = []).
  { induction o as [|[k v] r IH]; simpl in *; [reflexivity|].
    apply andb_prop in H as [Hk Hr]. unfold is_array_index in Hk.
    destruct (array_index k); [discriminate | apply IH, Hr]. }
  rewrite E. simpl. apply forallb_filter_id, H.
Qed.
End EnumLemmas.

(** ** Generic lemmas of the accumulation idiom *)

Section AccumulateLemmas.
Context {E V : Type} `{Accumulator E V}.

(** The record an event updates: the own one, or a fresh one. *)
Definition current (o : obj V) (e : E) : V :=
  match obj_get o (acc_key e) with Some v => v | None => acc_init e end.

Lemma upsert_plain o e :
  is_proto_key (acc_key e) = false ->
  upsert o e = Some (obj_set o (acc_key e) (acc_step e (current o e))).
Proof.
  intros Hp. unfold upsert, obj_prop, current. rewrite Hp.
  destruct (obj_get o (acc_key e)); reflexivity.
Qed.

Lemma upsert_proto o e : is_proto_key (acc_key e) = true -> upsert o e = None.
Proof. intros Hp. unfold upsert, obj_prop. rewrite Hp. reflexivity. Qed.

Lemma accumulate_app o es1 es2 :
  accumulate o (es1 ++ es2) =
  match accumulate o es1 with Some o' => accumulate o' es2 | None => None end.
Proof.
  revert o. induction es1 as [|e es1 IH]; intros o; simpl; [reflexivity|].
  destruct (upsert o e); [apply IH | reflexivity].
Qed.

(** The loop completes exactly when no key is inherited. *)
Theorem accumulate_some_iff o es :
  (exists o', accumulate o es = Some o') <-> plain_keys es = true.
Proof.
  unfold plain_keys. revert o. induction es as [|e es IH]; intros o; simpl.
  - split; eauto.
  - destruct (is_proto_key (acc_key e)) eqn:Hp; simpl.
    + rewrite upsert_proto by exact Hp. split; [intros [? ?]|]; discriminate.
    + rewrite upsert_plain by exact Hp. apply IH.
Qed.

Lemma key_fold_app ov l1 l2 : key_fold ov (l1 ++ l2) = key_fold (key_fold ov l1) l2.
Proof. unfold key_fold. apply fold_left_app. Qed.

Lemma key_fold_cons_step ov e l :
  key_fold ov (e :: l) =
  key_fold (Some (acc_step e (match ov with Some v => v | None => acc_init e end))) l.
Proof. reflexivity. Qed.

Lemma key_fold_some ov l : l <> [] -> exists v, key_fold ov l = Some v.
Proof.
  intros Hl. destruct l as [|e l] using rev_ind; [congruence|].
  rewrite key_fold_app. simpl. eauto.
Qed.

(** Refinement: the value of key [k] after the loop is the reference
    fold over the events of [k] alone. *)
Theorem accumulate_get o es o' k :
  accumulate o es = Some o' ->
  obj_get o' k = key_fold (obj_get o k) (filter (fun e => String.eqb (acc_key e) k) es).
Proof.
  revert o. induction es as [|e es IH]; intros o Hacc; simpl in Hacc.
  - inv Hacc. reflexivity.
  - destruct (is_proto_key (acc_key e)) eqn:Hp;
      [rewrite upsert_proto in Hacc by exact Hp; discriminate|].
    rewrite upsert_plain in Hacc by exact Hp. rewrite (IH _ Hacc), obj_get_set.
    simpl. unfold current. destruct (String.eqb_spec (acc_key e) k) as [<-|]; reflexivity.
Qed.

Theorem accumulate_keys o es o' :
  accumulate o es = Some o' -> map fst o' = first_seen (map fst o) (map acc_key es).
Proof.
  revert o. induction es as [|e es IH]; intros o Hacc; simpl in Hacc.
  - inv Hacc. reflexivity.
  - destruct (is_proto_key (acc_key e)) eqn:Hp;
      [rewrite upsert_proto in Hacc by exact Hp; discriminate|].
    rewrite upsert_plain in Hacc by exact Hp. rewrite (IH _ Hacc), obj_keys_set.
    reflexivity.
Qed.

Lemma obj_set_all (P : V -> Prop) (o : obj V) k v :
  (forall kv, In kv o -> P (snd kv)) -> P v ->
  forall kv, In kv (obj_set o k v) -> P (snd kv).
Proof.
  intros Ho Hv. induction o as [|[k' v'] r IH]; simpl; intros kv Hin.
  - destruct Hin as [<-|[]]. exact Hv.
  - destruct (String.eqb k k'); simpl in Hin; destruct Hin as [<-|Hin]; simpl.
    + exact Hv.
    + apply Ho. right. exact Hin.
    + apply (Ho (k', v')). left. reflexivity.
    + apply IH; [intros kv' Hkv; apply Ho; right; exact Hkv | exact Hin].
Qed.

(** Invariant principle: a property of fresh records preserved by
    every update holds of every record of the object. *)
Theorem accumulate_invariant (P : V -> Prop) o es o' :
  (forall e, P (acc_init e)) ->
  (forall e v, P v -> P (acc_step e v)) ->
  (forall kv, In kv o -> P (snd kv)) ->
  accumulate o es = Some o' -> forall kv, In kv o' -> P (snd kv).
Proof.
  intros Hinit Hstep. revert o. induction es as [|e es IH]; intros o Ho Hacc; simpl in Hacc.
  - inv Hacc. exact Ho.
  - destruct (is_proto_key (acc_key e)) eqn:Hp;
      [rewrite upsert_proto in Hacc by exact Hp; discriminate|].
    rewrite upsert_plain in Hacc by exact Hp. refine (IH _ _ Hacc).
    apply obj_set_all; [exact Ho|]. apply Hstep. unfold current.
    destruct (obj_get o (acc_key e)) eqn:Hg; [|apply Hinit].
    apply (Ho (acc_key e, v)), obj_get_In, Hg.
Qed.

(** The lenient loop skips the events whose key is inherited. *)
Theorem accumulate_lenient_filter o es :
  accumulate o (filter (fun e => negb (is_proto_key (acc_key e))) es)
  = Some (accumulate_lenient o es).
Proof.
  unfold accumulate_lenient. revert o. induction es as [|e es IH]; intros o; simpl;
    [reflexivity|].
  unfold upsert_lenient at 2. destruct (is_proto_key (acc_key e)) eqn:Hp; simpl.
  - rewrite upsert_proto by exact Hp. apply IH.
  - rewrite upsert_plain by exact Hp. apply IH.
Qed.
End AccumulateLemmas.

(** ** Additive measures over an accumulated object

    When every update adds [g e] to a measure [f] of the record it
    touches, and fresh records measure 0, the measure summed over the
    object grows by [g e] per event, whichever record the event hits. *)

Section Additive.
Context {E V : Type} `{Accumulator E V}.

Definition obj_nat_sum (f : V -> nat) (o : obj V) : nat := nat_sum (fun kv => f (snd kv)) o.

Lemma obj_nat_sum_set (f : V -> nat) (o : obj V) k v :
  obj_nat_sum f (obj_set o k v) + (match obj_get o k with Some old => f old | None => 0 end)
  = obj_nat_sum f o + f v.
Proof.
  unfold obj_nat_sum. induction o as [|[k' v'] r IH]; cbn [obj_set obj_get].
  - rewrite nat_sum_cons, nat_sum_nil. cbn [snd]. lia.
  - destruct (String.eqb k k'); rewrite !nat_sum_cons; cbn [snd]; lia.
Qed.

Theorem accumulate_nat_sum (f : V -> nat) (g : E -> nat) o es o' :
  (forall e, f (acc_init e) = 0) ->
  (forall e v, f (acc_step e v) = f v + g e) ->
  accumulate o es = Some o' -> obj_nat_sum f o' = obj_nat_sum f o + nat_sum g es.
Proof.
  intros Hinit Hstep. revert o. induction es as [|e es IH]; intros o Hacc; simpl in Hacc.
  - inv Hacc. rewrite nat_sum_nil. lia.
  - destruct (is_proto_key (acc_key e)) eqn:Hp;
      [rewrite upsert_proto in Hacc by exact Hp; discriminate|].
    rewrite upsert_plain in Hacc by exact Hp. rewrite (IH _ Hacc), nat_sum_cons.
    pose proof (obj_nat_sum_set f o (acc_key e) (acc_step e (current o e))) as Hs.
    rewrite Hstep in Hs. unfold current in *.
    destruct (obj_get o (acc_key e)); [lia|]. rewrite Hinit in Hs. lia.
Qed.

Definition obj_Qsum (f : V -> Q) (o : obj V) : Q := Qsum (fun kv => f (snd kv)) o.

Lemma obj_Qsum_set (f : V -> Q) (o : obj V) k v :
  (obj_Qsum f (obj_set o k v) + (match obj_get o k with Some old => f old | None => 0 end)
   == obj_Qsum f o + f v)%Q.
Proof.
  unfold obj_Qsum, Qsum. induction o as [|[k' v'] r IH]; simpl.
  - lra.
  - destruct (String.eqb k k'); simpl; [lra|]. lra.
Qed.

(** The same over [Q], for measures that are additive on records
    satisfying an invariant [P] (finite sums, for instance). *)
Theorem accumulate_Qsum (P : V -> Prop) (f : V -> Q) (g : E -> Q) o es o' :
  (forall e, P (acc_init e) /\ (f (acc_init e) == 0)%Q) ->
  (forall e, In e es -> forall v, P v -> P (acc_step e v) /\ (f (acc_step e v) == f v + g e)%Q) ->
  (forall kv, In kv o -> P (snd kv)) ->
  accumulate o es = Some o' -> (obj_Qsum f o' == obj_Qsum f o + Qsum g es)%Q.
Proof.
  intros Hinit. revert o. induction es as [|e es IH]; intros o Hstep Ho Hacc; simpl in Hacc.
  - inv Hacc. unfold Qsum. simpl. lra.
  - destruct (is_proto_key (acc_key e)) eqn:Hp;
      [rewrite upsert_proto in Hacc by exact Hp; discriminate|].
    rewrite upsert_plain in Hacc by exact Hp.
    assert (Hcur : P (current o e)).
    { unfold current. destruct (obj_get o (acc_key e)) eqn:Hg; [|apply Hinit].
      apply (Ho (acc_key e, v)), obj_get_In, Hg. }
    destruct (Hstep e (or_introl eq_refl) _ Hcur) as [HP Hf].
    rewrite (IH _ (fun e' He' => Hstep e' (or_intror He'))
                (obj_set_all P o _ _ Ho HP) Hacc).
    pose proof (obj_Qsum_set f o (acc_key e) (acc_step e (current o e))) as Hs.
    unfold current in *. unfold Qsum at 2. simpl. fold (Qsum g es).
    destruct (obj_get o (acc_key e)); [lra|].
    destruct (Hinit e) as [_ H0]. lra.
Qed.
End Additive.

(** ** Keys in order of first appearance *)

Lemma add_key_NoDup ks k : NoDup ks -> NoDup (add_key ks k).
Proof.
  unfold add_key. intros H. destruct (existsb (String.eqb k) ks) eqn:E; [exact H|].
  apply NoDup_app; [exact H | repeat constructor; auto |].
  intros x Hx [<-|[]].
  assert (Ht : existsb (String.eqb k) ks = true).
  { apply existsb_exists. exists k. split; [exact Hx | apply String.eqb_refl]. }
  congruence.
Qed.

Lemma first_seen_NoDup ks new : NoDup ks -> NoDup (first_seen ks new).
Proof.
  unfold first_seen. revert ks. induction new as [|k new IH]; intros ks H; simpl;
    [exact H | apply IH, add_key_NoDup, H].
Qed.

Lemma In_add_key ks k x : In x (add_key ks k) <-> In x ks \/ x = k.
Proof.
  unfold add_key. destruct (existsb (String.eqb k) ks) eqn:E.
  - split; [auto|]. intros [H|<-]; [exact H|].
    apply existsb_exists in E as [y [Hy Hk]]. apply String.eqb_eq in Hk. subst. exact Hy.
  - rewrite in_app_iff. simpl. intuition.
Qed.

Lemma In_first_seen ks new x : In x (first_seen ks new) <-> In x ks \/ In x new.
Proof.
  unfold first_seen. revert ks. induction new as [|k new IH]; intros ks; simpl.
  - tauto.
  - rewrite IH, In_add_key. intuition.
Qed.

Lemma obj_get_NoDup_In {V} (o : obj V) k v :
  NoDup (map fst o) -> In (k, v) o -> obj_get o k = Some v.
Proof.
  induction o as [|[k' v'] r IH]; simpl; intros Hnd Hin; [destruct Hin|].
  inv Hnd. destruct Hin as [Heq|Hin].
  - inv Heq. rewrite String.eqb_refl. reflexivity.
  - destruct (String.eqb_spec k k') as [->|]; [|apply IH; assumption].
    exfalso. apply H1. apply in_map_iff. exists (k', v). auto.
Qed.

(** With the keys it has, an accumulated object answers each of them
    from the event fold of that key. *)
Lemma accumulate_In {E V} `{Accumulator E V} es o' k v :
  accumulate [] es = Some o' -> In (k, v) o' ->
  key_fold None (filter (fun e => String.eqb (acc_key e) k) es) = Some v.
Proof.
  intros Hacc Hin. change (@None V) with (obj_get (@nil (string * V)) k).
  rewrite <- (accumulate_get _ _ _ k Hacc).
  apply obj_get_NoDup_In; [|exact Hin].
  rewrite (accumulate_keys _ _ _ Hacc). apply first_seen_NoDup. constructor.
Qed.

Section KeyFold.
Context {E V : Type} `{Accumulator E V}.

Lemma key_fold_Some v es :
  key_fold (Some v) es = Some (fold_left (fun v e => acc_step e v) es v).
Proof.
  revert v. induction es as [|e es IH]; intros v; [reflexivity|]. apply IH.
Qed.

(** The first event of a key creates its record. *)
Lemma key_fold_None_cons e es :
  key_fold None (e :: es) = key_fold (Some (acc_init e)) (e :: es).
Proof. reflexivity. Qed.

Lemma key_fold_None_inv es v :
  key_fold None es = Some v ->
  exists e es', es = e :: es' /\ v = fold_left (fun v e => acc_step e v) es (acc_init e).
Proof.
  destruct es as [|e es']; [discriminate|]. rewrite key_fold_None_cons, key_fold_Some.
  intros Hv. injection Hv as <-. eauto.
Qed.
End KeyFold.

(** ** Simulation of the accumulation idiom

    A handler [h] of another representation (a second implementation
    of the same loop, which may throw) simulates [upsert] through
    [lift] on the events that satisfy [P]: then the whole loop of [h]
    returns the lifted object [accumulate] computes. *)
Section Simulation.
Context {E V E' V' : Type} `{Accumulator E V}.
Variable P : E -> Prop.
Variable lift : V -> V'.
Variable to : E -> E'.
Variable h : obj V' -> E' -> result (obj V').
Hypothesis h_sim : forall o e o',
  P e -> upsert o e = Some o' -> h (obj_map lift o) (to e) = Ok (obj_map lift o').

Theorem accumulate_simulation o es o' :
  Forall P es -> accumulate o es = Some o' ->
  result_fold h (obj_map lift o) (map to es) = Ok (obj_map lift o').
Proof.
  intros HP. revert o. induction HP as [|e es He _ IH]; intros o Hacc; simpl in *.
  - inv Hacc. reflexivity.
  - destruct (upsert o e) as [o1|] eqn:Hu; [|discriminate].
    rewrite (h_sim _ _ _ He Hu). apply IH, Hacc.
Qed.
End Simulation.
