(* ===== verification/JsSort.v ===== *)
(** * [Array.prototype.sort] with a comparator

    Since ES2019 [sort] must be stable.  For a consistent comparator the
    result of a stable sort is unique, and insertion sort computes it, so
    [js_sort] models [arr.sort(cmp)]: each element, taken from the end
    of the input towards the front, is inserted before the first element
    that does not sort strictly before it.  [cmp a b] is the comparator's
    return value; SortCompare reads NaN as [+0]. *)

From S2P Require Import Prelude JsNum.

Section JsSort.
Context {A : Type} (cmp : A -> A -> num).

(** [x] sorts strictly before [y]: [cmp(x, y) < 0]. *)
Definition sorts_before (x y : A) : bool :=
  match sort_compare_value (cmp x y) with Lt => true | _ => false end.

Fixpoint sort_insert (x : A) (l : list A) : list A :=
  match l with
  | [] => [x]
  | y :: r => if sorts_before y x then y :: sort_insert x r else x :: l
  end.

Fixpoint js_sort (l : list A) : list A :=
  match l with
  | [] => []
  | x :: r => sort_insert x (js_sort r)
  end.

(** The order the result is sorted by: [y] is not strictly before [x]. *)
Definition sorted_le (x y : A) : Prop := sorts_before y x = false.

Lemma sort_insert_perm x l : Permutation (sort_insert x l) (x :: l).
Proof.
  induction l as [|y r IH]; simpl; [reflexivity|].
  destruct (sorts_before y x); [|reflexivity].
  rewrite IH. apply perm_swap.
Qed.

Theorem js_sort_perm l : Permutation (js_sort l) l.
Proof.
  induction l as [|x r IH]; simpl; [reflexivity|].
  rewrite sort_insert_perm. constructor. exact IH.
Qed.

Lemma js_sort_length l : List.length (js_sort l) = List.length l.
Proof. apply Permutation_length, js_sort_perm. Qed.

Lemma js_sort_In x l : In x (js_sort l) <-> In x l.
Proof. split; apply Permutation_in; [|symmetry]; apply js_sort_perm. Qed.

(** Sortedness needs only that the comparator is antisymmetric in
    sign: [cmp(x, y) < 0] excludes [cmp(y, x) < 0]. *)
Section Sortedness.
Hypothesis before_asym :
  forall x y, sorts_before x y = true -> sorts_before y x = false.

Lemma sort_insert_sorted x l :
  Sorted sorted_le l -> Sorted sorted_le (sort_insert x l).
Proof.
  intros Hs. induction Hs as [|y r Hr IH Hhd]; simpl; [repeat constructor|].
  destruct (sorts_before y x) eqn:Eyx.
  - constructor; [exact IH|].
    destruct r as [|z r]; simpl.
    + constructor. apply before_asym, Eyx.
    + inv Hhd. destruct (sorts_before z x); constructor;
        [assumption | apply before_asym, Eyx].
  - constructor; [constructor; assumption|]. constructor. exact Eyx.
Qed.

Theorem js_sort_sorted l : Sorted sorted_le (js_sort l).
Proof.
  induction l as [|x r IH]; simpl; [constructor|]. apply sort_insert_sorted, IH.
Qed.
End Sortedness.
End JsSort.

(** Sorting commutes with a map that preserves the comparator. *)
Lemma js_sort_map {A B} (cmp : A -> A -> num) (cmp' : B -> B -> num) (f : A -> B) l :
  (forall x y, cmp' (f x) (f y) = cmp x y) ->
  js_sort cmp' (map f l) = map f (js_sort cmp l).
Proof.
  intros Hc. induction l as [|x r IH]; simpl; [reflexivity|]. rewrite IH.
  clear IH. induction (js_sort cmp r) as [|y t IHt]; simpl; [reflexivity|].
  unfold sorts_before. rewrite Hc. fold (sorts_before cmp y x).
  destruct (sorts_before cmp y x); simpl; rewrite ?IHt; reflexivity.
Qed.

(** [arr.map((x, index) => f(x, index + 1))]: 1-based positions. *)
Fixpoint with_positions {A B} (f : A -> nat -> B) (start : nat) (l : list A) : list B :=
  match l with
  | [] => []
  | x :: r => f x start :: with_positions f (S start) r
  end.

Lemma with_positions_length {A B} (f : A -> nat -> B) n l :
  List.length (with_positions f n l) = List.length l.
Proof. revert n. induction l; simpl; auto. Qed.

Lemma with_positions_nth {A B} (f : A -> nat -> B) n l i x :
  nth_error l i = Some x -> nth_error (with_positions f n l) i = Some (f x (n + i)).
Proof.
  revert n i. induction l as [|y r IH]; intros n i H; destruct i; simpl in *; try discriminate.
  - inv H. rewrite Nat.add_0_r. reflexivity.
  - rewrite (IH (S n) i H). f_equal. f_equal. lia.
Qed.

Lemma Sorted_impl {A} (R R' : A -> A -> Prop) l :
  (forall x y, R x y -> R' x y) -> Sorted R l -> Sorted R' l.
Proof.
  intros Himp Hs. induction Hs as [|x l Hs IH Hhd]; constructor; [exact IH|].
  destruct Hhd; constructor. apply Himp. assumption.
Qed.

Lemma with_positions_nth_error {A B} (f : A -> nat -> B) n l i :
  nth_error (with_positions f n l) i = option_map (fun y => f y (n + i)) (nth_error l i).
Proof.
  revert n i. induction l as [|y r IH]; intros n i; destruct i; simpl; try reflexivity.
  - rewrite Nat.add_0_r. reflexivity.
  - rewrite IH. destruct (nth_error r i); simpl; [|reflexivity]. do 2 f_equal. lia.
Qed.

Lemma map_with_positions {A B} (f : A -> nat -> B) (g : B -> A) n l :
  (forall x k, g (f x k) = x) -> map g (with_positions f n l) = l.
Proof.
  intros Hg. revert n. induction l as [|x r IH]; intros n; simpl; [reflexivity|].
  rewrite Hg, IH. reflexivity.
Qed.

(** A sorted list whose elements all satisfy [P] is strongly sorted when
    [R] is transitive on [P]. *)
Lemma Sorted_StronglySorted_on {A} (R : A -> A -> Prop) (P : A -> Prop) l :
  (forall x y z, P x -> P y -> P z -> R x y -> R y z -> R x z) ->
  Forall P l -> Sorted R l -> StronglySorted R l.
Proof.
  intros Htr. induction l as [|x r IH]; intros HP Hs; [constructor|].
  pose proof (Forall_inv HP) as Hx. pose proof (Forall_inv_tail HP) as Hr.
  apply Sorted_inv in Hs as [Hs Hhd].
  pose proof (IH Hr Hs) as Hss. constructor; [exact Hss|].
  destruct r as [|y r']; [constructor|].
  apply HdRel_inv in Hhd. apply StronglySorted_inv in Hss as [_ Hy].
  constructor; [exact Hhd|]. apply Forall_forall. intros z Hz.
  apply (Htr x y z); auto.
  - exact (Forall_inv Hr).
  - exact (proj1 (Forall_forall _ _) (Forall_inv_tail Hr) z Hz).
  - exact (proj1 (Forall_forall _ _) Hy z Hz).
Qed.

(** In a strongly sorted [a ++ b], every element of [a] comes before
    every element of [b]. *)
Lemma StronglySorted_app_rel {A} (R : A -> A -> Prop) a b :
  StronglySorted R (a ++ b) -> forall x y, In x a -> In y b -> R x y.
Proof.
  induction a as [|x a IH]; simpl; intros Hs u v Hu Hv; [destruct Hu|].
  apply StronglySorted_inv in Hs as [Hs Hx]. destruct Hu as [<-|Hu].
  - eapply Forall_forall; [exact Hx|]. apply in_or_app. right. exact Hv.
  - eapply IH; eauto.
Qed.

Lemma StronglySorted_app_l {A} (R : A -> A -> Prop) a b :
  StronglySorted R (a ++ b) -> StronglySorted R a.
Proof.
  induction a as [|x a IH]; simpl; intros Hs; [constructor|].
  apply StronglySorted_inv in Hs as [Hs Hx]. constructor; [exact (IH Hs)|].
  apply Forall_forall. intros y Hy. eapply Forall_forall; [exact Hx|].
  apply in_or_app. left. exact Hy.
Qed.

(** A map that carries the order over keeps a list sorted. *)
Lemma Sorted_map_impl {A B} (R : A -> A -> Prop) (R' : B -> B -> Prop) (f : A -> B) l :
  (forall x y, R x y -> R' (f x) (f y)) -> Sorted R l -> Sorted R' (map f l).
Proof.
  intros Hf Hs. induction Hs as [|x r Hr IH Hhd]; simpl; constructor; [exact IH|].
  destruct Hhd; constructor. apply Hf. assumption.
Qed.

(** [arr.sort((a, b) => key(a) - key(b))] sorts by ascending key: no
    element is followed by one with a smaller key.  NaN keys compare as
    equal to everything, so they stay where the insertions put them. *)
Lemma js_sort_by_key {A} (key : A -> num) l :
  Sorted (fun x y => num_lt (key y) (key x) = false)
    (js_sort (fun a b => num_sub (key a) (key b)) l).
Proof.
  assert (Hb : forall x y, sorts_before (fun a b => num_sub (key a) (key b)) x y = true <->
                      num_lt (key x) (key y) = true).
  { intros x y. unfold sorts_before. rewrite <- sort_compare_sub_lt.
    destruct (sort_compare_value _); split; congruence. }
  apply (Sorted_impl (sorted_le (fun a b => num_sub (key a) (key b)))).
  - intros x y. unfold sorted_le. intros Hyx.
    destruct (num_lt _ _) eqn:E; [|reflexivity]. apply Hb in E. congruence.
  - apply js_sort_sorted. intros x y Hxy. apply Hb in Hxy.
    destruct (sorts_before _ y x) eqn:E; [|reflexivity].
    apply Hb in E. rewrite (num_lt_asym _ _ Hxy) in E. discriminate.
Qed.
