(* ===== verification/JsJson.v ===== *)
(** * [JSON.parse] (ECMA-404 grammar)

    [response.json()] in [src/src/api/proxy.js] reads the upstream body
    with [JSON.parse].  The parser below follows the JSON grammar: white
    space is space, tab, line feed and carriage return; a value is an
    object, an array, a string, a number or one of the three literals;
    the whole text must be one value with white space around it.
    Strings are sequences of Latin-1 code units as elsewhere in the
    development; a [\u] escape above [00FF] is kept as ['?'].  Numbers
    are exact rationals (no rounding to doubles).  Nesting is bounded by
    a fuel argument; an array costs two units of fuel per character it
    consumes before its first element, so twice the length of the text
    is enough, and [JSON_parse_fuel_adequate] proves that no larger fuel
    changes the result: the parser terminates on every text. *)

From S2P Require Import Prelude JsString JsNum.

#[local] Set Warnings "-register-all".

Inductive json : Type :=
| JNull
| JBool (b : bool)
| JNumber (n : num)
| JString (s : string)
| JArray (l : list json)
| JObject (members : list (string * json)).

Module JsonParse.
Local Open Scope string_scope.

Definition is_json_ws (c : ascii) : bool :=
  let n := nat_of_ascii c in
  Nat.eqb n 32 || Nat.eqb n 9 || Nat.eqb n 10 || Nat.eqb n 13.

Fixpoint skip_ws (s : string) : string :=
  match s with
  | String c r => if is_json_ws c then skip_ws r else s
  | EmptyString => EmptyString
  end.

Definition hex_value (c : ascii) : option nat :=
  let n := nat_of_ascii c in
  if Nat.leb 48 n && Nat.leb n 57 then Some (n - 48)
  else if Nat.leb 97 n && Nat.leb n 102 then Some (n - 87)
  else if Nat.leb 65 n && Nat.leb n 70 then Some (n - 55)
  else None.

(** [\uXXXX]: four hexadecimal digits. *)
Definition hex4 (a b c d : ascii) : option ascii :=
  match hex_value a, hex_value b, hex_value c, hex_value d with
  | Some a, Some b, Some c, Some d =>
      let n := ((a * 16 + b) * 16 + c) * 16 + d in
      Some (if Nat.ltb n 256 then ascii_of_nat n else "?"%char)
  | _, _, _, _ => None
  end.

Definition simple_escape (c : ascii) : option ascii :=
  match nat_of_ascii c with
  | 34 => Some c | 92 => Some c | 47 => Some c
  | 98 => Some (ascii_of_nat 8) | 102 => Some (ascii_of_nat 12)
  | 110 => Some (ascii_of_nat 10) | 114 => Some (ascii_of_nat 13)
  | 116 => Some (ascii_of_nat 9)
  | _ => None
  end.

(** [Some r] when [s] is the character [ch] followed by [r]. *)
Definition next_is (ch : ascii) (s : string) : option string :=
  match s with
  | String c r => if Ascii.eqb c ch then Some r else None
  | EmptyString => None
  end.

(** The characters of a string literal after its opening quote, up to
    and without the closing quote; control characters are refused. *)
Fixpoint string_body (s : string) : option (string * string) :=
  match s with
  | EmptyString => None
  | String c r =>
      let n := nat_of_ascii c in
      if Nat.eqb n 34 then Some (EmptyString, r)
      else if Nat.eqb n 92 then
          match r with
          | String e r' =>
              if Ascii.eqb e "u" then
                match r' with
                | String a (String b (String c0 (String d r''))) =>
                    match hex4 a b c0 d with
                    | Some c' =>
                        match string_body r'' with
                        | Some (t, rest) => Some (String c' t, rest)
                        | None => None
                        end
                    | None => None
                    end
                | _ => None
                end
              else
                match simple_escape e with
                | Some c' =>
                    match string_body r' with
                    | Some (t, rest) => Some (String c' t, rest)
                    | None => None
                    end
                | None => None
                end
          | EmptyString => None
          end
      else if Nat.ltb n 32 then None
      else match string_body r with
           | Some (t, rest) => Some (String c t, rest)
           | None => None
           end
  end.

(** [-? (0 | [1-9][0-9]* ) (. [0-9]+)? ([eE] [+-]? [0-9]+)?] *)
Definition number (s : string) : option (num * string) :=
  let '(neg, s) := match next_is "-" s with Some r => (true, r) | None => (false, s) end in
  let '(d1, r1) := take_digits s in
  match d1 with
  | [] => None
  | 0%Z :: _ :: _ => None
  | _ =>
      let frac := match next_is "." r1 with
                  | Some r => let '(d2, r2) := take_digits r in
                              match d2 with [] => None | _ => Some (d2, r2) end
                  | None => Some ([], r1)
                  end in
      match frac with
      | None => None
      | Some (d2, r2) =>
          let expo := match r2 with
                      | String c r =>
                          if (Ascii.eqb c "e" || Ascii.eqb c "E")%char then
                            let '(sgn, r') := match next_is "+" r, next_is "-" r with
                                              | Some r', _ => (1%Z, r')
                                              | None, Some r' => ((-1)%Z, r')
                                              | None, None => (1%Z, r)
                                              end in
                            let '(d3, r3) := take_digits r' in
                            match d3 with
                            | [] => None
                            | _ => Some ((sgn * digits_to_Z 10 d3)%Z, r3)
                            end
                          else Some (0%Z, r2)
                      | EmptyString => Some (0%Z, r2)
                      end in
          match expo with
          | None => None
          | Some (e, rest) =>
              let q := (inject_Z (digits_to_Z 10 (d1 ++ d2))
                        * Qpower 10 (e - Z.of_nat (List.length d2)))%Q in
              Some (fin (if neg then (- q)%Q else q), rest)
          end
      end
  end.

Definition quote : ascii := ascii_of_nat 34.

(** One value, an array after its [[], an object after its [{]; the
    fuel bounds the number of nested or successive calls. *)
Fixpoint value (fuel : nat) (s : string) : option (json * string) :=
  match fuel with
  | O => None
  | S f =>
      match skip_ws s with
      | String c r =>
          if Ascii.eqb c "{"%char then
            match next_is "}" (skip_ws r) with
            | Some r' => Some (JObject [], r')
            | None => members f [] r
            end
          else if Ascii.eqb c "["%char then
            match next_is "]" (skip_ws r) with
            | Some r' => Some (JArray [], r')
            | None => elements f [] r
            end
          else if Ascii.eqb c quote then
            match string_body r with Some (t, r') => Some (JString t, r') | None => None end
          else if String.prefix "true" (String c r) then Some (JBool true, str_drop 4 (String c r))
          else if String.prefix "false" (String c r) then Some (JBool false, str_drop 5 (String c r))
          else if String.prefix "null" (String c r) then Some (JNull, str_drop 4 (String c r))
          else if Ascii.eqb c "-"%char || is_digit c then
            match number (String c r) with Some (n, r') => Some (JNumber n, r') | None => None end
          else None
      | EmptyString => None
      end
  end
with elements (fuel : nat) (acc : list json) (s : string) : option (json * string) :=
  match fuel with
  | O => None
  | S f =>
      match value f s with
      | Some (v, r) =>
          match next_is "," (skip_ws r), next_is "]" (skip_ws r) with
          | Some r', _ => elements f (acc ++ [v]) r'
          | None, Some r' => Some (JArray (acc ++ [v]), r')
          | None, None => None
          end
      | None => None
      end
  end
with members (fuel : nat) (acc : list (string * json)) (s : string)
  : option (json * string) :=
  match fuel with
  | O => None
  | S f =>
      match next_is quote (skip_ws s) with
      | Some r =>
          match string_body r with
          | Some (k, r1) =>
              match next_is ":" (skip_ws r1) with
              | Some r2 =>
                  match value f r2 with
                  | Some (v, r3) =>
                      match next_is "," (skip_ws r3), next_is "}" (skip_ws r3) with
                      | Some r4, _ => members f (acc ++ [(k, v)]) r4
                      | None, Some r4 => Some (JObject (acc ++ [(k, v)]), r4)
                      | None, None => None
                      end
                  | None => None
                  end
              | None => None
              end
          | None => None
          end
      | None => None
      end
  end.

(** The characters a JSON text can start with after its white space. *)
Definition value_start (c : ascii) : bool :=
  existsb (Ascii.eqb c) ["{"; "["; quote; "t"; "f"; "n"; "-"]%char || is_digit c.
End JsonParse.

(** The parser run with a given fuel: [None] is a [SyntaxError], or
    the fuel running out. *)
Definition JSON_parse_fuel (fuel : nat) (text : string) : option json :=
  match JsonParse.value fuel text with
  | Some (v, rest) => match JsonParse.skip_ws rest with EmptyString => Some v | _ => None end
  | None => None
  end.

(** [JSON.parse(text)]; [None] is the [SyntaxError] it throws.  Twice
    the length of the text is enough fuel ([JSON_parse_fuel_adequate]). *)
Definition JSON_parse (text : string) : option json :=
  JSON_parse_fuel (S (2 * String.length text)) text.

(** A text whose first character after white space cannot start a
    value is refused. *)
Lemma JSON_parse_bad_start text c r :
  JsonParse.skip_ws text = String c r -> JsonParse.value_start c = false ->
  JSON_parse text = None.
Proof.
  intros Hs Hc. unfold JSON_parse, JSON_parse_fuel. cbn [JsonParse.value]. rewrite Hs.
  destruct c as [[] [] [] [] [] [] [] []]; try discriminate Hc; reflexivity.
Qed.

(** ** Termination: the fuel never runs out *)

Section Lengths.
Import JsonParse.

Lemma skip_ws_length s : String.length (skip_ws s) <= String.length s.
Proof. induction s as [|c s IH]; simpl; [lia|]. destruct (is_json_ws c); simpl; lia. Qed.

Lemma str_drop_length n s : String.length (str_drop n s) <= String.length s.
Proof.
  revert s. induction n as [|n IH]; intros [|c s]; simpl; try lia. specialize (IH s). lia.
Qed.

Lemma take_digits_length s ds r :
  take_digits s = (ds, r) -> String.length r <= String.length s.
Proof.
  revert ds. induction s as [|c s IH]; intros ds H; simpl in H; [injection H as <- <-; lia|].
  destruct (is_digit c); [destruct (take_digits s) as [ds' r'] eqn:E|].
  - injection H as <- <-. specialize (IH _ eq_refl). simpl. lia.
  - injection H as <- <-. lia.
Qed.


Lemma next_is_length ch s r : next_is ch s = Some r -> String.length r < String.length s.
Proof. destruct s as [|c s]; simpl; [discriminate|]. destruct (Ascii.eqb c ch); [|discriminate]. intros [= <-]. lia. Qed.

(** Case analysis on the [if]s and [match]es of a hypothesis. *)
Ltac split_matches :=
  repeat match goal with
  | H : context [if ?b then _ else _] |- _ => destruct b eqn:?
  | H : context [match ?x with _ => _ end] |- _ => destruct x eqn:?
  end.

(** Injectivity of the constructors in the context. *)
Ltac inj :=
  repeat match goal with
  | H : Some ?a = Some ?b |- _ => assert (a = b) by congruence; clear H
  | H : (?a, ?b) = (?c, ?d) |- _ =>
      assert (a = c) by congruence; assert (b = d) by congruence; clear H
  end; subst.

(** Turn the length facts of the parsing steps in the context into
    arithmetic, for [lia]. *)
Ltac lengths :=
  repeat match goal with
  | E : next_is _ _ = Some _ |- _ => apply next_is_length in E
  | E : take_digits _ = (_, _) |- _ => apply take_digits_length in E
  | E : skip_ws ?s = ?t |- _ =>
      let L := fresh "L" in pose proof (skip_ws_length s) as L; rewrite E in L; clear E
  end;
  repeat match goal with
  | H : context [skip_ws ?s] |- _ =>
      lazymatch goal with
      | _ : String.length (skip_ws s) <= _ |- _ => fail
      | _ => pose proof (skip_ws_length s)
      end
  end; cbn [String.length] in *.

Lemma string_body_length n s t r :
  String.length s <= n -> string_body s = Some (t, r) -> String.length r < String.length s.
Proof.
  revert s t r. induction n as [|n IH]; intros [|c s] t r Hn H; simpl in *; try discriminate; try lia.
  split_matches; try discriminate; injection H as <- <-; simpl in *; try lia;
    match goal with E : string_body ?x = Some (_, _) |- _ => apply IH in E; simpl in *; lia end.
Qed.

Lemma number_length s v r : number s = Some (v, r) -> String.length r <= String.length s.
Proof.
  unfold number. intros H. split_matches; try discriminate.
  all: inj; lengths; lia.
Qed.


(** What a parse leaves unread is no longer than its input. *)
Lemma parse_rest_length f :
  (forall s v r, value f s = Some (v, r) -> String.length r <= String.length s) /\
  (forall acc s v r, elements f acc s = Some (v, r) -> String.length r <= String.length s) /\
  (forall acc s v r, members f acc s = Some (v, r) -> String.length r <= String.length s).
Proof.
  induction f as [|f (IHv & IHe & IHm)]; repeat split; intros * H;
    cbn [value elements members] in H; try discriminate;
    split_matches; try discriminate;
    try match goal with H : context [str_drop ?n ?x] |- _ => pose proof (str_drop_length n x) end;
    inj;
    repeat match goal with
    | E : value f _ = Some (_, _) |- _ => apply IHv in E
    | E : elements f _ _ = Some (_, _) |- _ => apply IHe in E
    | E : members f _ _ = Some (_, _) |- _ => apply IHm in E
    | E : string_body _ = Some (_, _) |- _ => apply (string_body_length _ _ _ _ (le_n _)) in E
    | E : number _ = Some (_, _) |- _ => apply number_length in E
    end; lengths; lia.
Qed.

(** A string literal's body is shorter than what follows its quote. *)
Ltac string_body_facts :=
  repeat match goal with
  | E : string_body _ = Some (_, _) |- _ => apply (string_body_length _ _ _ _ (le_n _)) in E
  end.

(** One more unit of fuel does not change the result once the fuel
    exceeds twice the length of the input ([elements] needs one more). *)
Lemma parse_fuel_step f :
  (forall s, 2 * String.length s < f -> value f s = value (S f) s) /\
  (forall acc s, 2 * String.length s + 1 < f -> elements f acc s = elements (S f) acc s) /\
  (forall acc s, 2 * String.length s < f -> members f acc s = members (S f) acc s).
Proof.
  induction f as [|f (IHv & IHe & IHm)]; [repeat split; intros; lia|].
  pose proof (parse_rest_length f) as (Rv & _ & _).
  repeat split.
  - intros s Hf. cbn [value]. destruct (skip_ws s) as [|c r] eqn:Hs; [reflexivity|].
    destruct (Ascii.eqb c "{"%char); [|destruct (Ascii.eqb c "["%char)]; [..|reflexivity];
      (destruct (next_is _ (skip_ws r)); [reflexivity|]); [apply IHm | apply IHe]; lengths; lia.
  - intros acc s Hf. cbn [elements]. rewrite <- (IHv s) by lia.
    destruct (value f s) as [[v r]|] eqn:Hv; [|reflexivity]. apply Rv in Hv.
    destruct (next_is "," (skip_ws r)) eqn:Hc; [|reflexivity]. apply IHe. lengths; lia.
  - intros acc s Hf. cbn [members].
    destruct (next_is quote (skip_ws s)) as [r|] eqn:E1; [|reflexivity].
    destruct (string_body r) as [[k r1]|] eqn:E2; [|reflexivity].
    destruct (next_is ":" (skip_ws r1)) as [r2|] eqn:E3; [|reflexivity].
    string_body_facts. rewrite <- (IHv r2) by (lengths; lia).
    destruct (value f r2) as [[v r3]|] eqn:E4; [|reflexivity]. apply Rv in E4.
    destruct (next_is "," (skip_ws r3)) eqn:E5; [|reflexivity]. apply IHm. lengths; lia.
Qed.

End Lengths.

Lemma parse_fuel_add n k text :
  2 * String.length text < n -> JsonParse.value (n + k) text = JsonParse.value n text.
Proof.
  intros Hn. induction k as [|k IH]; [now rewrite Nat.add_0_r|].
  rewrite Nat.add_succ_r, <- IH. symmetry. apply (parse_fuel_step (n + k)). lia.
Qed.

(** [JSON.parse] terminates: for every fuel larger than twice the
    length of the text, the fuelled parser returns what [JSON_parse]
    returns, so no answer of [JSON_parse] is an artefact of the fuel
    running out. *)
Theorem JSON_parse_fuel_adequate text fuel :
  2 * String.length text < fuel -> JSON_parse_fuel fuel text = JSON_parse text.
Proof.
  intros H. unfold JSON_parse, JSON_parse_fuel.
  replace fuel with (S (2 * String.length text) + (fuel - S (2 * String.length text))) by lia.
  rewrite parse_fuel_add by lia. reflexivity.
Qed.
