(* ===== verification/JsFixed.v ===== *)
(** * [Number(x.toFixed(f))]: printing then reading a number back

    [toFixed] prints the integer nearest to [x * 10^f] with a point
    before its last [f] digits; [Number] (here [string_to_number], the
    ToNumber of a string) reads such a literal back.  The round trip
    gives [x] rounded to [f] decimals ([round_fixed]).  The dashboard
    relies on it: [winRate] is a string, and sorting by it subtracts
    the two strings, which converts them with ToNumber. *)

From S2P Require Import Prelude JsString JsNum.
From Stdlib Require Import DecimalString DecimalPos DecimalN Qpower.

(** [x] rounded to [f] decimals, halves away from zero, as [toFixed]
    rounds. *)
Definition round_nonneg (f : nat) (q : Q) : Q :=
  (inject_Z (Qfloor (q * inject_Z (10 ^ Z.of_nat f) + (1 # 2))) / inject_Z (10 ^ Z.of_nat f))%Q.

Definition round_fixed (f : nat) (q : Q) : Q :=
  if q_ltb q 0 then (- round_nonneg f (- q))%Q else round_nonneg f q.

(** Rounding respects the equality of rationals, so [Qeq] rewrites
    under it. *)
#[export] Instance round_nonneg_Proper f : Proper (Qeq ==> Qeq) (round_nonneg f).
Proof. intros a b H. unfold round_nonneg. rewrite H. reflexivity. Qed.

#[export] Instance round_fixed_Proper f : Proper (Qeq ==> Qeq) (round_fixed f).
Proof.
  intros a b H. unfold round_fixed. rewrite (q_ltb_compat a 0 b 0 H (Qeq_refl 0)).
  destruct (q_ltb b 0); rewrite H; reflexivity.
Qed.

(** ** Strings of decimal digits *)
Section Digits.
Local Open Scope string_scope.

Fixpoint all_digits (s : string) : bool :=
  match s with
  | EmptyString => true
  | String c r => is_digit c && all_digits r
  end.

Fixpoint digit_list (s : string) : list Z :=
  match s with
  | EmptyString => []
  | String c r => Z.of_nat (nat_of_ascii c - 48) :: digit_list r
  end.

(** The rest of a literal after its digits: empty, or not a digit. *)
Definition ends_digits (r : string) : bool :=
  match r with EmptyString => true | String c _ => negb (is_digit c) end.

Lemma all_digits_app a b : all_digits (a ++ b) = all_digits a && all_digits b.
Proof. induction a as [|c a IH]; simpl; [reflexivity|]. rewrite IH, andb_assoc. reflexivity. Qed.

Lemma digit_list_app a b : digit_list (a ++ b) = (digit_list a ++ digit_list b)%list.
Proof. induction a as [|c a IH]; simpl; [reflexivity|]. rewrite IH. reflexivity. Qed.

Lemma digit_list_length s : List.length (digit_list s) = String.length s.
Proof. induction s as [|c s IH]; simpl; auto. Qed.

Lemma take_digits_all s r :
  all_digits s = true -> ends_digits r = true -> take_digits (s ++ r) = (digit_list s, r).
Proof.
  induction s as [|c s IH]; simpl; intros Hs Hr.
  - destruct r as [|c r]; simpl in *; [reflexivity|]. destruct (is_digit c); [discriminate|reflexivity].
  - apply andb_prop in Hs as [Hc Hs]. rewrite Hc, IH by assumption. reflexivity.
Qed.

Lemma digits_to_Z_acc l acc :
  fold_left (fun acc d => acc * 10 + d)%Z l acc
  = (acc * 10 ^ Z.of_nat (List.length l) + digits_to_Z 10 l)%Z.
Proof.
  revert acc. induction l as [|d l IH]; intros acc; [cbn; lia|].
  unfold digits_to_Z. cbn [fold_left List.length]. rewrite !IH.
  rewrite Nat2Z.inj_succ, Z.pow_succ_r by lia. lia.
Qed.

Lemma digits_to_Z_app l1 l2 :
  digits_to_Z 10 (l1 ++ l2)%list = (digits_to_Z 10 l1 * 10 ^ Z.of_nat (List.length l2) + digits_to_Z 10 l2)%Z.
Proof. unfold digits_to_Z at 1. rewrite fold_left_app, digits_to_Z_acc. reflexivity. Qed.

Lemma zeros_digits k : all_digits (zeros k) = true /\ digits_to_Z 10 (digit_list (zeros k)) = 0%Z.
Proof.
  induction k as [|k [IH1 IH2]]; [split; reflexivity|]. split; [exact IH1|].
  change (digit_list (zeros (S k))) with (0%Z :: digit_list (zeros k)).
  unfold digits_to_Z in *. cbn [fold_left]. change ((0 * 10 + 0)%Z) with 0%Z. exact IH2.
Qed.
End Digits.

(** ** The decimal digits of a natural number *)
Section Decimal.
Import DecimalPos.Unsigned.

Lemma digits_to_Z_cons d l :
  digits_to_Z 10 (d :: l) = (d * 10 ^ Z.of_nat (List.length l) + digits_to_Z 10 l)%Z.
Proof. apply (digits_to_Z_app [d] l). Qed.

Lemma string_of_uint_value d :
  all_digits (NilEmpty.string_of_uint d) = true /\
  Z.of_nat (String.length (NilEmpty.string_of_uint d)) = Z.of_N (usize d) /\
  digits_to_Z 10 (digit_list (NilEmpty.string_of_uint d)) = Z.of_N (of_lu (Decimal.rev d)).
Proof.
  induction d; [repeat split|..]; destruct IHd as (IH1 & IH2 & IH3);
    cbn [NilEmpty.string_of_uint all_digits String.length digit_list usize];
    (split; [exact IH1|]);
    rewrite digits_to_Z_cons, digit_list_length, Nat2Z.inj_succ, IH2;
    unfold Decimal.rev; cbn [Decimal.revapp]; rewrite of_lu_revapp, IH3; cbn [of_lu];
    split; (rewrite ?N2Z.inj_succ, ?N2Z.inj_add, ?N2Z.inj_mul, ?N2Z.inj_pow; simpl Z.of_nat; simpl Z.of_N; lia).
Qed.

(** [String(n)] for a natural number [n]: at least one digit, and the
    digits denote [n]. *)
Lemma digits_of_N_value n :
  all_digits (digits_of_N n) = true /\ 1 <= String.length (digits_of_N n) /\
  digits_to_Z 10 (digit_list (digits_of_N n)) = Z.of_N n.
Proof.
  unfold digits_of_N. destruct (string_of_uint_value (N.to_uint n)) as (H1 & H2 & H3).
  rewrite H3, <- of_uint_alt. change (Pos.of_uint (N.to_uint n)) with (N.of_uint (N.to_uint n)).
  rewrite DecimalN.Unsigned.of_to. repeat split; [exact H1|].
  destruct n as [|p]; [cbn; lia|].
  destruct (N.to_uint (N.pos p)) eqn:E; cbn; try lia.
  apply (f_equal N.of_uint) in E. rewrite DecimalN.Unsigned.of_to in E. discriminate.
Qed.
End Decimal.

(** ** Cutting the digits at the decimal point *)
Section Substring.
Local Open Scope string_scope.

Lemma substring_full s : substring 0 (String.length s) s = s.
Proof. induction s as [|c r IH]; cbn; [reflexivity|rewrite IH; reflexivity]. Qed.

Lemma substring_split n s :
  n <= String.length s ->
  substring 0 n s ++ substring n (String.length s - n) s = s.
Proof.
  revert n; induction s as [|c r IH]; intros [|n] Hn; cbn in *; try lia; try reflexivity.
  - rewrite substring_full. reflexivity.
  - f_equal. apply IH. lia.
Qed.

Lemma substring_length n m s :
  n + m <= String.length s -> String.length (substring n m s) = m.
Proof.
  revert n m; induction s as [|c r IH]; intros [|n] [|m] H; cbn in *; try lia;
    try (f_equal; apply (IH 0)); try apply IH; lia.
Qed.
End Substring.

(** ** The digits of [toFixed] *)
Section Fixed.
Local Open Scope string_scope.

(** The part after the integer digits: nothing when [f = 0], else a
    point and the [f] fraction digits. *)
Definition frac_part (f : nat) (B : string) : string :=
  if Nat.eqb f 0 then EmptyString else String "." B.

Lemma zeros_length k : String.length (zeros k) = k.
Proof. induction k as [|k IH]; [reflexivity|]. cbn. f_equal. exact IH. Qed.

Lemma str_length_app a b : String.length (a ++ b) = String.length a + String.length b.
Proof. induction a as [|c r IH]; cbn; [reflexivity|]. f_equal. exact IH. Qed.

(** Padding with zeros to at least [f + 1] digits keeps the value. *)
Lemma pad_digits f m :
  all_digits m = true -> 1 <= String.length m ->
  let m' := if Nat.leb (String.length m) f then zeros (S f - String.length m) ++ m else m in
  all_digits m' = true /\ f < String.length m' /\
  digits_to_Z 10 (digit_list m') = digits_to_Z 10 (digit_list m).
Proof.
  intros Hd Hl m'. subst m'. destruct (Nat.leb_spec (String.length m) f) as [Hle|Hgt].
  - destruct (zeros_digits (S f - String.length m)) as [Hz Hv].
    rewrite all_digits_app, str_length_app, zeros_length, digit_list_app, digits_to_Z_app,
      Hz, Hv, Hd. repeat split; lia.
  - repeat split; [exact Hd | lia].
Qed.

(** The cut before the last [f] digits. *)
Lemma digits_split_at f s :
  all_digits s = true -> f < String.length s ->
  let A := substring 0 (String.length s - f) s in
  let B := substring (String.length s - f) f s in
  A ++ B = s /\ all_digits A = true /\ all_digits B = true /\
  1 <= String.length A /\ String.length B = f.
Proof.
  intros Hd Hf A B.
  assert (Hs : A ++ B = s).
  { pose proof (substring_split (String.length s - f) s ltac:(lia)) as H.
    replace (String.length s - (String.length s - f)) with f in H by lia. exact H. }
  rewrite <- Hs, all_digits_app in Hd. apply andb_prop in Hd as [HA HB].
  subst A B; repeat split; try assumption; rewrite substring_length; lia.
Qed.

Lemma fixed_of_nonneg_shape f x :
  exists A B, all_digits A = true /\ all_digits B = true /\ 1 <= String.length A /\
    String.length B = f /\ fixed_of_nonneg f x = A ++ frac_part f B /\
    digits_to_Z 10 (digit_list (A ++ B)) =
      Z.of_N (Z.to_N (Qfloor (x * inject_Z (10 ^ Z.of_nat f) + (1 # 2)))).
Proof.
  unfold fixed_of_nonneg, frac_part; cbv zeta.
  set (n := Z.to_N _). destruct (digits_of_N_value n) as (Hd & Hl & Hv).
  destruct (Nat.eqb_spec f 0) as [->|Hf].
  - exists (digits_of_N n), EmptyString. rewrite !str_append_nil_r. repeat split; assumption.
  - remember (if Nat.leb _ f then _ else _) as m eqn:Em.
    assert (Hm : all_digits m = true /\ f < String.length m /\
                 digits_to_Z 10 (digit_list m) = Z.of_N n)
      by (subst m; rewrite <- Hv; apply pad_digits; assumption).
    destruct Hm as (Hmd & Hml & Hmv).
    destruct (digits_split_at f m Hmd Hml) as (Hs & HA & HB & HlA & HlB).
    do 2 eexists; repeat split; try eassumption. rewrite Hs. exact Hmv.
Qed.
End Fixed.

(** ** Reading the literal back *)

(** Case analysis on a digit: ten concrete characters. *)
Ltac digit_destruct H :=
  repeat match type of H with
         | _ \/ _ => destruct H as [-> | H]
         | _ = _ => subst
         end.

Section Reading.
Local Open Scope string_scope.

Lemma digit_cases c :
  is_digit c = true ->
  c = "0"%char \/ c = "1"%char \/ c = "2"%char \/ c = "3"%char \/ c = "4"%char \/
  c = "5"%char \/ c = "6"%char \/ c = "7"%char \/ c = "8"%char \/ c = "9"%char.
Proof.
  destruct c as [[] [] [] [] [] [] [] []]; cbn; intros H; try discriminate H;
    repeat (first [left; reflexivity | right]); reflexivity.
Qed.

Lemma all_digits_no_ws s : all_digits s = true -> no_ws s = true.
Proof.
  induction s as [|c r IH]; cbn; [reflexivity|]. intros H. apply andb_prop in H as [Hc Hr].
  rewrite IH by exact Hr. pose proof (digit_cases c Hc) as Hd. digit_destruct Hd; reflexivity.
Qed.

Lemma no_ws_app a b : no_ws (a ++ b) = no_ws a && no_ws b.
Proof. induction a as [|c r IH]; cbn; [reflexivity|]. rewrite IH, andb_assoc. reflexivity. Qed.

Lemma split_sign_digit c r : is_digit c = true -> split_sign (String c r) = (false, String c r).
Proof. intros H. pose proof (digit_cases c H) as Hd. digit_destruct Hd; reflexivity. Qed.

(** A literal that starts with a digit followed by a digit or a point
    (or nothing) is not a [0x]/[0o]/[0b] literal. *)
Lemma non_decimal_digit c r :
  is_digit c = true ->
  match r with EmptyString => true | String d _ => is_digit d || Ascii.eqb d "." end = true ->
  non_decimal_literal (String c r) = None.
Proof.
  intros Hc Hr. pose proof (digit_cases c Hc) as Hd.
  destruct r as [|d r]; [digit_destruct Hd; reflexivity|].
  apply orb_prop in Hr as [Hr|Hr].
  - pose proof (digit_cases d Hr) as Hd'. digit_destruct Hd; digit_destruct Hd'; reflexivity.
  - apply Ascii.eqb_eq in Hr. subst d. digit_destruct Hd; reflexivity.
Qed.

Lemma take_digits_alone s : all_digits s = true -> take_digits s = (digit_list s, EmptyString).
Proof.
  intros H. rewrite <- (str_append_nil_r s) at 1. rewrite take_digits_all by (try assumption; reflexivity).
  reflexivity.
Qed.

Lemma decimal_to_end_fixed f A B :
  all_digits A = true -> all_digits B = true -> 1 <= String.length A -> String.length B = f ->
  decimal_to_end (A ++ frac_part f B) =
    Some (inject_Z (digits_to_Z 10 (digit_list (A ++ B))) * Qpower 10 (- Z.of_nat f))%Q.
Proof.
  intros HA HB HlA HlB. destruct A as [|a A]; [cbn in HlA; lia|].
  unfold decimal_to_end, frac_part. rewrite digit_list_app.
  destruct (Nat.eqb_spec f 0) as [->|Hf].
  - destruct B; [|discriminate HlB]. rewrite str_append_nil_r, take_digits_alone by exact HA.
    reflexivity.
  - rewrite take_digits_all by (try exact HA; reflexivity). cbn [fst snd].
    rewrite take_digits_alone by exact HB. rewrite digit_list_length, HlB. reflexivity.
Qed.
End Reading.

(** ** The round trip *)
Section RoundTrip.
Local Open Scope string_scope.

Lemma infinity_digit a r : is_digit a = true -> String.eqb (String a r) "Infinity" = false.
Proof. intros H. pose proof (digit_cases a H) as Hd. digit_destruct Hd; reflexivity. Qed.

(** The literal [A.B] (or [A] when [f = 0]) has the value [AB / 10^f]
    and no sign. *)
Lemma fixed_literal f A B :
  all_digits A = true -> all_digits B = true -> 1 <= String.length A -> String.length B = f ->
  let s := A ++ frac_part f B in
  no_ws s = true /\ String.eqb s EmptyString = false /\ non_decimal_literal s = None /\
  split_sign s = (false, s) /\
  (if String.eqb s "Infinity" then Some NPosInf else option_map fin (decimal_to_end s)) =
    Some (fin (inject_Z (digits_to_Z 10 (digit_list (A ++ B))) * Qpower 10 (- Z.of_nat f))).
Proof.
  intros HA HB HlA HlB s. subst s.
  rewrite decimal_to_end_fixed by assumption.
  assert (Hf : no_ws (frac_part f B) = true /\
               match frac_part f B with
               | EmptyString => true | String d _ => is_digit d || Ascii.eqb d "." end = true).
  { unfold frac_part. destruct (Nat.eqb f 0); [split; reflexivity|].
    split; [cbn; apply all_digits_no_ws; exact HB | reflexivity]. }
  destruct Hf as [Hfw Hfd].
  destruct A as [|a A]; [cbn in HlA; lia|]. cbn [all_digits] in HA.
  apply andb_prop in HA as [Ha HA].
  assert (Hnext : match A ++ frac_part f B with
                  | EmptyString => true | String d _ => is_digit d || Ascii.eqb d "." end = true).
  { destruct A as [|d A]; [exact Hfd|]. cbn in HA |- *. apply andb_prop in HA as [-> _]. reflexivity. }
  assert (Hw : no_ws (String a A ++ frac_part f B) = true).
  { rewrite no_ws_app, Hfw, all_digits_no_ws; [reflexivity|]. cbn. rewrite Ha, HA. reflexivity. }
  rewrite Hw. cbn [String.append].
  rewrite split_sign_digit, infinity_digit, non_decimal_digit by assumption.
  repeat split.
Qed.

Lemma round_floor_nonneg f x :
  (0 <= x)%Q -> (0 <= Qfloor (x * inject_Z (10 ^ Z.of_nat f) + (1 # 2)))%Z.
Proof.
  intros Hx. change 0%Z with (Qfloor 0). apply Qfloor_resp_le.
  assert (H10 : (0 <= inject_Z (10 ^ Z.of_nat f))%Q).
  { change 0%Q with (inject_Z 0). rewrite <- Zle_Qle. apply Z.pow_nonneg. lia. }
  pose proof (Qmult_le_0_compat _ _ Hx H10). lra.
Qed.

(** The digits [toFixed] prints for [x >= 0] denote [x] rounded. *)
Lemma fixed_value f x A B :
  (0 <= x)%Q ->
  digits_to_Z 10 (digit_list (A ++ B)) =
    Z.of_N (Z.to_N (Qfloor (x * inject_Z (10 ^ Z.of_nat f) + (1 # 2)))) ->
  (inject_Z (digits_to_Z 10 (digit_list (A ++ B))) * Qpower 10 (- Z.of_nat f) ==
   round_nonneg f x)%Q.
Proof.
  intros Hx ->. rewrite Z2N.id by (apply round_floor_nonneg, Hx).
  unfold round_nonneg, Qdiv. rewrite Qpower_opp.
  apply Qmult_comp; [reflexivity|]. apply Qinv_comp. symmetry. apply Zpower_Qpower. lia.
Qed.

Lemma toFixed_nonneg_number f x :
  (0 <= x)%Q ->
  exists s, fixed_of_nonneg f x = s /\ no_ws s = true /\ String.eqb s EmptyString = false /\
    non_decimal_literal s = None /\ split_sign s = (false, s) /\
    (if String.eqb s "Infinity" then Some NPosInf else option_map fin (decimal_to_end s)) =
      Some (fin (round_nonneg f x)).
Proof.
  intros Hx. destruct (fixed_of_nonneg_shape f x) as (A & B & HA & HB & HlA & HlB & Hs & Hv).
  destruct (fixed_literal f A B HA HB HlA HlB) as (Hw & He & Hn & Hsg & Hb).
  exists (A ++ frac_part f B). repeat split; try assumption.
  rewrite Hb. f_equal. apply fin_eq, fixed_value; assumption.
Qed.

(** [Number(x.toFixed(f))] is [x] rounded to [f] decimals, for every
    finite [x] (below [10^21]: the exponent form is not modelled). *)
Theorem toFixed_roundtrip f q : string_to_number (toFixed f (NFin q)) = fin (round_fixed f q).
Proof.
  unfold toFixed, round_fixed. destruct (q_ltb q 0) eqn:Hq.
  - apply q_ltb_iff in Hq.
    destruct (toFixed_nonneg_number f (- q)) as (s & -> & Hw & _ & _ & _ & Hb); [lra|].
    unfold string_to_number. rewrite trim_no_ws by exact Hw. cbn [String.append].
    change (String.eqb (String "-" s) EmptyString) with false.
    change (non_decimal_literal (String "-" s)) with (@None num).
    change (split_sign (String "-" s)) with (true, s). cbv beta iota zeta. rewrite Hb.
    cbn [num_neg fin]. apply fin_eq. rewrite Qred_correct. reflexivity.
  - assert (Hx : (0 <= q)%Q).
    { apply Qnot_lt_le. intros Hlt. apply q_ltb_iff in Hlt. congruence. }
    destruct (toFixed_nonneg_number f q Hx) as (s & -> & Hw & He & Hn & Hsg & Hb).
    unfold string_to_number. rewrite trim_no_ws, He, Hn, Hsg by exact Hw.
    cbv beta iota zeta. rewrite Hb. reflexivity.
Qed.

(** The same for a value built by the arithmetic ([fin] normalises). *)
Lemma toFixed_fin_number f q : string_to_number (toFixed f (fin q)) = fin (round_fixed f q).
Proof. unfold fin at 1. rewrite toFixed_roundtrip. apply fin_eq. rewrite Qred_correct. reflexivity. Qed.
End RoundTrip.

(** ** Percentages of a count, rounded to one decimal *)
Section Percent.

(** [round(1000 * w / m)], the rounded percentage in tenths. *)
Definition percent_key (w m : Z) : Z := ((2000 * w + m) / (2 * m))%Z.

Lemma percent_round w p :
  (0 <= w)%Z ->
  (round_fixed 1 (inject_Z w / inject_Z (Z.pos p) * 100) ==
   inject_Z (percent_key w (Z.pos p)) / inject_Z 10)%Q.
Proof.
  intros Hw. unfold round_fixed.
  assert (Hx : (inject_Z w / inject_Z (Z.pos p) * 100 ==
                (100 * w) # p)%Q) by (unfold Qeq; cbn -[Z.mul]; rewrite ?Pos.mul_1_r; lia).
  replace (q_ltb (inject_Z w / inject_Z (Z.pos p) * 100) 0) with false.
  2: { symmetry. apply not_true_iff_false. rewrite q_ltb_iff, Hx. unfold Qlt. cbn -[Z.mul]. lia. }
  rewrite Hx.
  unfold round_nonneg. cbn [Z.of_nat Z.pow Z.pow_pos Pos.iter Z.mul].
  assert (Hf : (((100 * w) # p) * inject_Z 10 + (1 # 2) == (2000 * w + Z.pos p) # (2 * p))%Q)
    by (unfold Qeq; cbn -[Z.mul]; rewrite ?Pos.mul_1_r, ?Pos2Z.inj_mul; lia).
  rewrite Hf. reflexivity.
Qed.

(** Counts of at most 31: distinct rates are more than a tenth of a
    percent apart, so the rounded percentages order exactly as the
    rates ([w1 / m1 < w2 / m2]). *)
Lemma percent_key_lt w1 m1 w2 m2 :
  (0 <= w1)%Z -> (0 <= w2)%Z -> (1 <= m1 <= 31)%Z -> (1 <= m2 <= 31)%Z ->
  (percent_key w1 m1 < percent_key w2 m2 <-> w1 * m2 < w2 * m1)%Z.
Proof.
  intros Hw1 Hw2 Hm1 Hm2. unfold percent_key.
  pose proof (Z.div_mod (2000 * w1 + m1) (2 * m1) ltac:(lia)) as E1.
  pose proof (Z.mod_pos_bound (2000 * w1 + m1) (2 * m1) ltac:(lia)) as B1.
  pose proof (Z.div_mod (2000 * w2 + m2) (2 * m2) ltac:(lia)) as E2.
  pose proof (Z.mod_pos_bound (2000 * w2 + m2) (2 * m2) ltac:(lia)) as B2.
  set (q1 := ((2000 * w1 + m1) / (2 * m1))%Z) in *.
  set (q2 := ((2000 * w2 + m2) / (2 * m2))%Z) in *.
  set (r1 := ((2000 * w1 + m1) mod (2 * m1))%Z) in *.
  set (r2 := ((2000 * w2 + m2) mod (2 * m2))%Z) in *.
  assert (L1 : (2 * m1 * m2 * q1 <= m2 * (2000 * w1 + m1) < 2 * m1 * m2 * (q1 + 1))%Z) by nia.
  assert (L2 : (2 * m1 * m2 * q2 <= m1 * (2000 * w2 + m2) < 2 * m1 * m2 * (q2 + 1))%Z) by nia.
  assert (Hmm : (1 <= m1 * m2 <= 961)%Z) by nia.
  split; intros H.
  - destruct (Z.lt_ge_cases (w1 * m2) (w2 * m1)) as [|Hge]; [assumption|exfalso].
    assert (Hq : (2 * m1 * m2 * q2 < 2 * m1 * m2 * (q1 + 1))%Z) by nia.
    apply Z.mul_lt_mono_pos_l in Hq; lia.
  - destruct (Z.lt_ge_cases q1 q2) as [|Hge]; [assumption|exfalso].
    assert (Hq : (2 * m1 * m2 * q2 <= 2 * m1 * m2 * q1)%Z) by (apply Z.mul_le_mono_nonneg_l; lia).
    lia.
Qed.
End Percent.
