(* ===== verification/CsvParser.v ===== *)
(** * CSV record parser ([src/src/api/salesApi.js], [parseCSVData])

    [parseCSVLine] is a three-variable state machine ([values],
    [current], [inQuotes]) run over the characters of one line;
    [parseCSVData] splits the trimmed text on ['\n'], skips the header,
    skips blank lines and lines with fewer than 14 fields, converts the
    rest into [MatchRecord]s, and throws when the text has fewer than two
    lines or yields no record.  Both [throw]s are caught and re-thrown
    with the prefix ["Failed to parse CSV: "]. *)

From S2P Require Import Prelude JsString JsNum.

(** One parsed row of the feed (the object literal of lines 37-52). *)
Record MatchRecord : Type := mkMatch {
  Date : string;
  Group : string;
  No : string;
  Matches : string;
  Team1 : string;
  Team2 : string;
  Team1Sales : num;
  Team2Sales : num;
  Winner : string;
  Loser : string;
  Winner_1 : num;
  Loser_2 : num;
  TotalWinner : num;
  TotalLoser : num
}.

Module SalesApi.

(** The double-quote character (code 34). *)
Definition quote_char : ascii := ascii_of_nat 34.
Definition comma_char : ascii := ascii_of_nat 44.
Definition newline_char : ascii := ascii_of_nat 10.

(** The local variables of [parseCSVLine]. *)
Record CsvState : Type := mkCsvState {
  values : list string;
  current : string;
  inQuotes : bool
}.

Definition csv_init : CsvState := mkCsvState [] EmptyString false.

(** One iteration of the [for] loop (lines 17-25). *)
Definition csv_step (st : CsvState) (char : ascii) : CsvState :=
  if Ascii.eqb char quote_char then
    mkCsvState (values st) (current st) (negb (inQuotes st))
  else if Ascii.eqb char comma_char && negb (inQuotes st) then
    mkCsvState (values st ++ [trim (current st)]) EmptyString (inQuotes st)
  else
    mkCsvState (values st) (current st ++ String char EmptyString) (inQuotes st).

Fixpoint csv_run (st : CsvState) (line : string) : CsvState :=
  match line with
  | EmptyString => st
  | String c r => csv_run (csv_step st c) r
  end.

(** [parseCSVLine] (lines 11-29): the loop, then the last field. *)
Definition parseCSVLine (line : string) : list string :=
  let st := csv_run csv_init line in
  values st ++ [trim (current st)].

(** [parseFloat(v) || 0] *)
Definition sales_field (v : string) : num := num_or_zero (parseFloat v).

(** The object pushed for a row with at least 14 fields (lines 37-52). *)
Definition row_to_record (values : list string) : MatchRecord :=
  let v i := nth i values EmptyString in
  {| Date := v 0; Group := v 1; No := v 2; Matches := v 3;
     Team1 := v 4; Team2 := v 5;
     Team1Sales := sales_field (v 6); Team2Sales := sales_field (v 7);
     Winner := v 8; Loser := v 9;
     Winner_1 := sales_field (v 10); Loser_2 := sales_field (v 11);
     TotalWinner := sales_field (v 12); TotalLoser := sales_field (v 13) |}.

(** The body of the [for] loop over the data lines (lines 32-53). *)
Definition parse_row (data : list MatchRecord) (line : string) : list MatchRecord :=
  if String.eqb (trim line) EmptyString then data
  else let values := parseCSVLine line in
       if List.length values <? 14 then data
       else data ++ [row_to_record values].

Definition parse_error_prefix : string := "Failed to parse CSV: ".

(** [parseCSVData] (lines 6-62). *)
Definition parseCSVData (csvText : string) : result (list MatchRecord) :=
  let lines := split_char newline_char (trim csvText) in
  if List.length lines <? 2 then
    Throw (parse_error_prefix ++ "CSV file is empty or invalid")
  else
    let data := fold_left parse_row (tl lines) [] in
    match data with
    | [] => Throw (parse_error_prefix ++ "No valid data found in CSV")
    | _ => Ok data
    end.

End SalesApi.

(** ** Properties of the parser *)

Module SalesApiFacts.
Import SalesApi.

(** Every character of a string satisfies [p]. *)
Fixpoint str_forallb (p : ascii -> bool) (s : string) : bool :=
  match s with
  | EmptyString => true
  | String c r => p c && str_forallb p r
  end.

Definition no_quote (c : ascii) : bool := negb (Ascii.eqb c quote_char).
Definition plain_char (c : ascii) : bool := no_quote c && negb (Ascii.eqb c comma_char).

Lemma csv_run_app st s1 s2 : csv_run st (s1 ++ s2) = csv_run (csv_run st s1) s2.
Proof. revert st. induction s1 as [|c r IH]; intros st; simpl; [reflexivity | apply IH]. Qed.

(** Inside quotes every character but the quote is appended to
    [current], commas included. *)
Lemma csv_run_in_quotes vs cur f :
  str_forallb no_quote f = true ->
  csv_run (mkCsvState vs cur true) f = mkCsvState vs (cur ++ f) true.
Proof.
  revert cur. induction f as [|c r IH]; intros cur Hf; simpl in *.
  - rewrite str_append_nil_r. reflexivity.
  - apply andb_prop in Hf as [Hc Hr]. unfold no_quote in Hc.
    apply negb_true_iff in Hc. unfold csv_step. simpl. rewrite Hc. simpl.
    rewrite andb_false_r. rewrite IH by exact Hr. f_equal. apply str_append_assoc.
Qed.

(** Outside quotes, characters that are neither quote nor comma are
    appended to [current]. *)
Lemma csv_run_plain vs cur f :
  str_forallb plain_char f = true ->
  csv_run (mkCsvState vs cur false) f = mkCsvState vs (cur ++ f) false.
Proof.
  revert cur. induction f as [|c r IH]; intros cur Hf; simpl in *.
  - rewrite str_append_nil_r. reflexivity.
  - apply andb_prop in Hf as [Hc Hr]. unfold plain_char, no_quote in Hc.
    apply andb_prop in Hc as [Hq Hcm]. apply negb_true_iff in Hq, Hcm.
    unfold csv_step. simpl. rewrite Hq, Hcm. simpl.
    rewrite IH by exact Hr. f_equal. apply str_append_assoc.
Qed.

(** ** Round trip: joining fields with commas and parsing them back *)

Definition csv_quote (f : string) : string :=
  String quote_char (f ++ String quote_char EmptyString).

Fixpoint csv_join (fs : list string) : string :=
  match fs with
  | [] => EmptyString
  | [f] => f
  | f :: r => f ++ String comma_char (csv_join r)
  end.

Lemma csv_run_quote vs f :
  str_forallb no_quote f = true ->
  csv_run (mkCsvState vs EmptyString false) (csv_quote f) = mkCsvState vs f false.
Proof.
  intros Hf. unfold csv_quote. simpl.
  change (csv_step (mkCsvState vs EmptyString false) quote_char)
    with (mkCsvState vs EmptyString true).
  rewrite csv_run_app, csv_run_in_quotes by exact Hf. reflexivity.
Qed.

(** Running the machine over encoded fields joined by commas leaves
    every field but the last in [values] and the last in [current]. *)
Lemma csv_run_join (enc : string -> string) vs fs :
  fs <> [] ->
  (forall f vs, In f fs ->
     csv_run (mkCsvState vs EmptyString false) (enc f) = mkCsvState vs f false) ->
  csv_run (mkCsvState vs EmptyString false) (csv_join (map enc fs))
  = mkCsvState (vs ++ map trim (removelast fs)) (last fs EmptyString) false.
Proof.
  revert vs. induction fs as [|f r IH]; intros vs Hne Henc; [congruence|].
  destruct r as [|g r].
  - simpl. rewrite (Henc f vs (or_introl eq_refl)), app_nil_r. reflexivity.
  - change (csv_join (map enc (f :: g :: r)))
      with (enc f ++ String comma_char (csv_join (map enc (g :: r))))%string.
    rewrite csv_run_app, (Henc f vs (or_introl eq_refl)). simpl csv_run at 1.
    change (csv_step (mkCsvState vs f false) comma_char)
      with (mkCsvState (vs ++ [trim f]) EmptyString false).
    rewrite IH; [| discriminate | intros h vs' Hh; apply Henc; right; exact Hh].
    rewrite <- app_assoc. reflexivity.
Qed.

Lemma parseCSVLine_join (enc : string -> string) fs :
  fs <> [] ->
  (forall f vs, In f fs ->
     csv_run (mkCsvState vs EmptyString false) (enc f) = mkCsvState vs f false) ->
  parseCSVLine (csv_join (map enc fs)) = map trim fs.
Proof.
  intros Hne Henc. unfold parseCSVLine, csv_init. rewrite csv_run_join by assumption.
  simpl. rewrite (app_removelast_last EmptyString Hne) at 3.
  rewrite map_app. reflexivity.
Qed.

(** ** The row loop is a filter followed by a map *)

Definition is_data_row (line : string) : bool :=
  negb (String.eqb (trim line) EmptyString) && Nat.leb 14 (List.length (parseCSVLine line)).

Definition record_of_line (line : string) : MatchRecord := row_to_record (parseCSVLine line).

Definition data_lines (csvText : string) : list string :=
  tl (split_char newline_char (trim csvText)).

Lemma fold_parse_row ls acc :
  fold_left parse_row ls acc = acc ++ map record_of_line (filter is_data_row ls).
Proof.
  revert acc. induction ls as [|l ls IH]; intros acc; [symmetry; apply app_nil_r|].
  cbn [fold_left filter]. rewrite IH. unfold parse_row, is_data_row, record_of_line.
  destruct (String.eqb (trim l) EmptyString); cbn [negb andb]; [reflexivity|].
  destruct (Nat.ltb_spec (List.length (parseCSVLine l)) 14);
    destruct (Nat.leb_spec 14 (List.length (parseCSVLine l))); try lia; cbn [map];
    [reflexivity | rewrite <- app_assoc; reflexivity].
Qed.

Lemma parseCSVData_eq text :
  parseCSVData text =
  if List.length (split_char newline_char (trim text)) <? 2 then
    Throw (parse_error_prefix ++ "CSV file is empty or invalid")
  else match map record_of_line (filter is_data_row (data_lines text)) with
       | [] => Throw (parse_error_prefix ++ "No valid data found in CSV")
       | rows => Ok rows
       end.
Proof.
  unfold parseCSVData, data_lines. rewrite fold_parse_row. simpl app.
  destruct (_ <? 2); [reflexivity|]. destruct (map record_of_line _); reflexivity.
Qed.
End SalesApiFacts.

(** ** Parser theorems *)

Module SalesApiTheorems.
Import SalesApi SalesApiFacts.

Lemma split_short_tl c s :
  List.length (split_char c s) < 2 -> tl (split_char c s) = [].
Proof.
  pose proof (split_char_nonempty c s).
  destruct (split_char c s) as [|x [|y r]]; simpl; intros; [congruence | reflexivity | lia].
Qed.

(** C26: [parseCSVLine] inverts comma-joining of quoted fields: any fields
    without a double quote, commas included, come back trimmed. *)
Theorem parseCSVLine_quoted_roundtrip fs :
  fs <> [] -> Forall (fun f => str_forallb no_quote f = true) fs ->
  parseCSVLine (csv_join (map csv_quote fs)) = map trim fs.
Proof.
  intros Hne Hq. apply parseCSVLine_join; [exact Hne|].
  intros f vs Hf. apply csv_run_quote. rewrite Forall_forall in Hq. apply Hq, Hf.
Qed.

(** Unquoted fields without commas or quotes round-trip. *)
Theorem parseCSVLine_plain_roundtrip fs :
  fs <> [] -> Forall (fun f => str_forallb plain_char f = true) fs ->
  parseCSVLine (csv_join fs) = map trim fs.
Proof.
  intros Hne Hp. rewrite <- (map_id fs) at 1. apply parseCSVLine_join; [exact Hne|].
  intros f vs Hf. rewrite csv_run_plain; [reflexivity|].
  rewrite Forall_forall in Hp. apply Hp, Hf.
Qed.

(** C6: [parseCSVData] succeeds exactly with the records of the
    non-blank data lines (after the header) that have at least 14
    fields, in input order, and only when there is one. *)
Theorem parseCSVData_ok_iff text rows :
  parseCSVData text = Ok rows <->
  rows = map record_of_line (filter is_data_row (data_lines text)) /\ rows <> [].
Proof.
  rewrite parseCSVData_eq.
  destruct (Nat.ltb_spec (List.length (split_char newline_char (trim text))) 2) as [Hs|Hs].
  - unfold data_lines. rewrite (split_short_tl _ _ Hs). simpl.
    split; [discriminate | intros [-> H]; congruence].
  - destruct (map record_of_line _) as [|r rs]; split.
    + discriminate.
    + intros [-> H]; congruence.
    + intros H. inv H. split; [reflexivity | discriminate].
    + intros [-> _]. reflexivity.
Qed.

(** [parseCSVData] throws exactly when no data line is kept. *)
Theorem parseCSVData_throws_iff text :
  (exists m, parseCSVData text = Throw m) <-> filter is_data_row (data_lines text) = [].
Proof.
  rewrite parseCSVData_eq.
  destruct (Nat.ltb_spec (List.length (split_char newline_char (trim text))) 2) as [Hs|Hs].
  - unfold data_lines. rewrite (split_short_tl _ _ Hs). simpl. split; eauto.
  - destruct (filter is_data_row (data_lines text)) as [|l ls]; simpl; split; eauto.
    + intros [m Hm]; discriminate.
    + discriminate.
Qed.

(** Numeric coercion never yields NaN: every sales figure of a
    parsed record is a number ([parseFloat(v) || 0]). *)
Theorem parseCSVData_sales_not_nan text rows :
  parseCSVData text = Ok rows ->
  Forall (fun m => is_nan (Team1Sales m) = false /\ is_nan (Team2Sales m) = false) rows.
Proof.
  intros H. apply parseCSVData_ok_iff in H as [-> _]. apply Forall_forall.
  intros m Hm. apply in_map_iff in Hm as [l [<- _]].
  split; apply num_or_zero_not_nan.
Qed.
(** Every message [parseCSVData] throws carries the prefix of the
    rethrow in its [catch] (line 60). *)
Lemma parseCSVData_error_prefix text e :
  parseCSVData text = Throw e -> String.prefix parse_error_prefix e = true.
Proof.
  rewrite parseCSVData_eq. destruct (_ <? 2); [intros H; inv H; reflexivity|].
  destruct (map record_of_line _); intros H; inv H. reflexivity.
Qed.
End SalesApiTheorems.
