(* ===== verification/Analytics.v ===== *)
(** * [processAnalytics] ([src/src/utils/analytics.js])

    The loop of lines 23-99 threads four pieces of state (three JS objects
    and one array, record [State.t]) through the match records; each
    match runs four handlers in order: the group handler (lines 29-53),
    the handler of [Team1] then of [Team2] (lines 56-89), the daily
    handler (lines 92-96) and the margin push (line 98).  Lines 102-115
    finalise the group and store records in place, lines 118-132 build
    the standings, and lines 134-140 assemble the bundle.

    The in-progress records ([GroupAcc], [StoreAcc]) are the objects
    before finalisation; their [avgSalesPerMatch: 0] and [avgSales: 0]
    placeholders are omitted because finalisation overwrites them before
    anything reads them. *)

From S2P Require Import Prelude JsString JsNum JsObject JsSort CsvParser.

Module GroupAcc.
Record t : Type := mk {
  group : string;
  groupNumber : num;
  totalSales : num;
  matches : nat;
  highestMatch : num;
  lowestMatch : num;
  stores : list string;
  totalMargin : num;
  closestMatch : num
}.
End GroupAcc.

Module GroupStats.
Record t : Type := mk {
  group : string;
  groupNumber : num;
  totalSales : num;
  matches : nat;
  avgSalesPerMatch : num;
  highestMatch : num;
  lowestMatch : num;
  stores : list string;
  totalMargin : num;
  closestMatch : num;
  avgMargin : num;
  storeCount : nat;
  competitiveness : num
}.
End GroupStats.

(** The entries of [recentForm]: the strings ['W'] and ['L']. *)
Inductive Form : Type := W | L.

Module StoreAcc.
Record t : Type := mk {
  store : string;
  group : string;
  groupNumber : num;
  totalSales : num;
  matches : nat;
  wins : nat;
  losses : nat;
  points : nat;
  bestPerformance : num;
  worstPerformance : num;
  recentForm : list Form
}.
End StoreAcc.

Module StorePerformance.
Record t : Type := mk {
  store : string;
  group : string;
  groupNumber : num;
  totalSales : num;
  matches : nat;
  wins : nat;
  losses : nat;
  avgSales : num;
  points : nat;
  bestPerformance : num;
  worstPerformance : num;
  recentForm : list Form;
  winRate : string;
  consistency : string
}.
End StorePerformance.

Module Daily.
Record t : Type := mk { date : string; totalSales : num; matches : nat }.
End Daily.

Module MatchMargin.
Record t : Type := mk { group : string; margin : num; matchSales : num }.
End MatchMargin.

(** [{...store, position: index + 1, positionChange: 0}] *)
Module Standing.
Record t : Type := mk { entry : StorePerformance.t; position : nat; positionChange : nat }.
End Standing.

Module State.
Record t : Type := mk {
  groupStats : obj GroupAcc.t;
  storePerformance : obj StoreAcc.t;
  dailyPerformance : obj Daily.t;
  matchMargins : list MatchMargin.t
}.
End State.

Module Bundle.
Record t : Type := mk {
  groupStats : list GroupStats.t;
  storePerformance : list StorePerformance.t;
  dailyPerformance : list Daily.t;
  matchMargins : list MatchMargin.t;
  groupStandings : obj (list Standing.t)
}.
End Bundle.

Module ProcessAnalytics.

(** [parseInt(group.replace('Group ', '')) || 0] (lines 33 and 64). *)
Definition group_number (group : string) : num :=
  num_or_zero (parseInt (replace_first "Group " EmptyString group)).

(** [match.Team1Sales + match.Team2Sales] (line 26). *)
Definition match_sales (m : MatchRecord) : num := num_add (Team1Sales m) (Team2Sales m).

(** [Math.abs(match.Team1Sales - match.Team2Sales)] (line 27). *)
Definition match_margin (m : MatchRecord) : num :=
  num_abs (num_sub (Team1Sales m) (Team2Sales m)).

(** *** Group handler (lines 29-53) *)

Definition group_init (m : MatchRecord) : GroupAcc.t :=
  {| GroupAcc.group := Group m;
     GroupAcc.groupNumber := group_number (Group m);
     GroupAcc.totalSales := num_zero;
     GroupAcc.matches := 0;
     GroupAcc.highestMatch := num_zero;
     GroupAcc.lowestMatch := NPosInf;
     GroupAcc.stores := [];
     GroupAcc.totalMargin := num_zero;
     GroupAcc.closestMatch := NPosInf |}.

Definition group_step (m : MatchRecord) (g : GroupAcc.t) : GroupAcc.t :=
  {| GroupAcc.group := GroupAcc.group g;
     GroupAcc.groupNumber := GroupAcc.groupNumber g;
     GroupAcc.totalSales := num_add (GroupAcc.totalSales g) (match_sales m);
     GroupAcc.matches := S (GroupAcc.matches g);
     GroupAcc.highestMatch := num_max (GroupAcc.highestMatch g) (match_sales m);
     GroupAcc.lowestMatch := num_min (GroupAcc.lowestMatch g) (match_sales m);
     GroupAcc.stores := add_key (add_key (GroupAcc.stores g) (Team1 m)) (Team2 m);
     GroupAcc.totalMargin := num_add (GroupAcc.totalMargin g) (match_margin m);
     GroupAcc.closestMatch := num_min (GroupAcc.closestMatch g) (match_margin m) |}.

#[export] Instance group_accumulator : Accumulator MatchRecord GroupAcc.t :=
  {| acc_key := Group; acc_init := group_init; acc_step := group_step |}.

(** *** Store handler (lines 56-89), run for [Team1] then [Team2] *)

Record StoreEvent : Type := mkStoreEvent {
  ev_store : string;
  ev_group : string;
  ev_sales : num;
  ev_isWinner : bool
}.

(** [[match.Team1, match.Team2].forEach((store, idx) => ...)] with
    [sales = idx === 0 ? Team1Sales : Team2Sales] and
    [isWinner = store === match.Winner]. *)
Definition store_events (m : MatchRecord) : list StoreEvent :=
  [ mkStoreEvent (Team1 m) (Group m) (Team1Sales m) (String.eqb (Team1 m) (Winner m));
    mkStoreEvent (Team2 m) (Group m) (Team2Sales m) (String.eqb (Team2 m) (Winner m)) ].

Definition outcome (isWinner : bool) : Form := if isWinner then W else L.

Definition store_init (e : StoreEvent) : StoreAcc.t :=
  {| StoreAcc.store := ev_store e;
     StoreAcc.group := ev_group e;
     StoreAcc.groupNumber := group_number (ev_group e);
     StoreAcc.totalSales := num_zero;
     StoreAcc.matches := 0;
     StoreAcc.wins := 0;
     StoreAcc.losses := 0;
     StoreAcc.points := 0;
     StoreAcc.bestPerformance := num_zero;
     StoreAcc.worstPerformance := NPosInf;
     StoreAcc.recentForm := [] |}.

Definition store_step (e : StoreEvent) (s : StoreAcc.t) : StoreAcc.t :=
  {| StoreAcc.store := StoreAcc.store s;
     StoreAcc.group := StoreAcc.group s;
     StoreAcc.groupNumber := StoreAcc.groupNumber s;
     StoreAcc.totalSales := num_add (StoreAcc.totalSales s) (ev_sales e);
     StoreAcc.matches := S (StoreAcc.matches s);
     StoreAcc.wins := if ev_isWinner e then S (StoreAcc.wins s) else StoreAcc.wins s;
     StoreAcc.losses := if ev_isWinner e then StoreAcc.losses s else S (StoreAcc.losses s);
     StoreAcc.points := if ev_isWinner e then StoreAcc.points s + 3 else StoreAcc.points s;
     StoreAcc.bestPerformance := num_max (StoreAcc.bestPerformance s) (ev_sales e);
     StoreAcc.worstPerformance := num_min (StoreAcc.worstPerformance s) (ev_sales e);
     StoreAcc.recentForm := StoreAcc.recentForm s ++ [outcome (ev_isWinner e)] |}.

#[export] Instance store_accumulator : Accumulator StoreEvent StoreAcc.t :=
  {| acc_key := ev_store; acc_init := store_init; acc_step := store_step |}.

(** *** Daily handler (lines 92-96) *)

Definition daily_init (m : MatchRecord) : Daily.t :=
  {| Daily.date := Date m; Daily.totalSales := num_zero; Daily.matches := 0 |}.

Definition daily_step (m : MatchRecord) (d : Daily.t) : Daily.t :=
  {| Daily.date := Daily.date d;
     Daily.totalSales := num_add (Daily.totalSales d) (match_sales m);
     Daily.matches := S (Daily.matches d) |}.

#[export] Instance daily_accumulator : Accumulator MatchRecord Daily.t :=
  {| acc_key := Date; acc_init := daily_init; acc_step := daily_step |}.

(** *** One iteration of [rawData.forEach] (lines 23-99)

    On an inherited group name the group handler reaches
    [undefined.add] (line 50), on an inherited store name the store
    handler reaches [undefined.push] (line 81): both throw a
    [TypeError].  On an inherited date the daily handler only writes
    properties of the inherited function and goes on. *)

Definition type_error_add : string :=
  "Cannot read properties of undefined (reading 'add')".
Definition type_error_push : string :=
  "Cannot read properties of undefined (reading 'push')".

Definition process_match (st : State.t) (m : MatchRecord) : result State.t :=
  match upsert (State.groupStats st) m with
  | None => Throw type_error_add
  | Some gs =>
      match accumulate (State.storePerformance st) (store_events m) with
      | None => Throw type_error_push
      | Some sp =>
          Ok {| State.groupStats := gs;
                State.storePerformance := sp;
                State.dailyPerformance := upsert_lenient (State.dailyPerformance st) m;
                State.matchMargins :=
                  State.matchMargins st
                  ++ [ {| MatchMargin.group := Group m;
                          MatchMargin.margin := match_margin m;
                          MatchMargin.matchSales := match_sales m |} ] |}
      end
  end.

Fixpoint process_matches (st : State.t) (ms : list MatchRecord) : result State.t :=
  match ms with
  | [] => Ok st
  | m :: ms' => match process_match st m with
                | Ok st' => process_matches st' ms'
                | Throw e => Throw e
                end
  end.

Definition init_state : State.t := State.mk [] [] [] [].

(** *** Finalisation (lines 102-115): the objects' values are mutated in place. *)

Definition finalize_group (g : GroupAcc.t) : GroupStats.t :=
  let avgSalesPerMatch := num_div (GroupAcc.totalSales g) (num_of_nat (GroupAcc.matches g)) in
  let avgMargin := num_div (GroupAcc.totalMargin g) (num_of_nat (GroupAcc.matches g)) in
  {| GroupStats.group := GroupAcc.group g;
     GroupStats.groupNumber := GroupAcc.groupNumber g;
     GroupStats.totalSales := GroupAcc.totalSales g;
     GroupStats.matches := GroupAcc.matches g;
     GroupStats.avgSalesPerMatch := avgSalesPerMatch;
     GroupStats.highestMatch := GroupAcc.highestMatch g;
     GroupStats.lowestMatch := GroupAcc.lowestMatch g;
     GroupStats.stores := GroupAcc.stores g;
     GroupStats.totalMargin := GroupAcc.totalMargin g;
     GroupStats.closestMatch := GroupAcc.closestMatch g;
     GroupStats.avgMargin := avgMargin;
     GroupStats.storeCount := List.length (GroupAcc.stores g);
     GroupStats.competitiveness :=
       num_mul (num_div avgMargin avgSalesPerMatch) (num_of_nat 100) |}.

Definition finalize_store (s : StoreAcc.t) : StorePerformance.t :=
  let avgSales := num_div (StoreAcc.totalSales s) (num_of_nat (StoreAcc.matches s)) in
  {| StorePerformance.store := StoreAcc.store s;
     StorePerformance.group := StoreAcc.group s;
     StorePerformance.groupNumber := StoreAcc.groupNumber s;
     StorePerformance.totalSales := StoreAcc.totalSales s;
     StorePerformance.matches := StoreAcc.matches s;
     StorePerformance.wins := StoreAcc.wins s;
     StorePerformance.losses := StoreAcc.losses s;
     StorePerformance.avgSales := avgSales;
     StorePerformance.points := StoreAcc.points s;
     StorePerformance.bestPerformance := StoreAcc.bestPerformance s;
     StorePerformance.worstPerformance := StoreAcc.worstPerformance s;
     StorePerformance.recentForm := lastn 5 (StoreAcc.recentForm s);
     StorePerformance.winRate :=
       toFixed 1 (num_mul (num_div (num_of_nat (StoreAcc.wins s))
                                  (num_of_nat (StoreAcc.matches s))) (num_of_nat 100));
     StorePerformance.consistency :=
       toFixed 1 (num_mul (num_div (num_sub (StoreAcc.bestPerformance s)
                                           (StoreAcc.worstPerformance s)) avgSales)
                         (num_of_nat 100)) |}.

(** *** Standings (lines 118-132) *)

(** The comparator of lines 122-126. *)
Definition standing_cmp (a b : StorePerformance.t) : num :=
  if negb (Nat.eqb (StorePerformance.points b) (StorePerformance.points a)) then
    num_sub (num_of_nat (StorePerformance.points b)) (num_of_nat (StorePerformance.points a))
  else if negb (Nat.eqb (StorePerformance.wins b) (StorePerformance.wins a)) then
    num_sub (num_of_nat (StorePerformance.wins b)) (num_of_nat (StorePerformance.wins a))
  else num_sub (StorePerformance.totalSales b) (StorePerformance.totalSales a).

Definition to_standing (s : StorePerformance.t) (position : nat) : Standing.t :=
  {| Standing.entry := s; Standing.position := position; Standing.positionChange := 0 |}.

(** [Object.values(storePerformance).filter(...).sort(...).map(...)] *)
Definition group_standing (stores : list StorePerformance.t) (group : string)
  : list Standing.t :=
  with_positions to_standing 1
    (js_sort standing_cmp
       (filter (fun s => String.eqb (StorePerformance.group s) group) stores)).

(** [Object.keys(groupStats).forEach(group => groupStandings[group] = ...)] *)
Definition build_standings (groups : list string) (stores : list StorePerformance.t)
  : obj (list Standing.t) :=
  fold_left (fun o g => obj_set o g (group_standing stores g)) groups [].

(** [(a, b) => a.groupNumber - b.groupNumber] (line 135). *)
Definition group_cmp (a b : GroupStats.t) : num :=
  num_sub (GroupStats.groupNumber a) (GroupStats.groupNumber b).

Definition empty_bundle : Bundle.t := Bundle.mk [] [] [] [] [].

(** Lines 101-140: finalise in place, build the standings from the
    finalised records, sort the groups, assemble the bundle. *)
Definition finalize_state (st : State.t) : Bundle.t :=
  let gs := obj_map finalize_group (State.groupStats st) in
  let sp := obj_map finalize_store (State.storePerformance st) in
  {| Bundle.groupStats := js_sort group_cmp (obj_values gs);
     Bundle.storePerformance := obj_values sp;
     Bundle.dailyPerformance := obj_values (State.dailyPerformance st);
     Bundle.matchMargins := State.matchMargins st;
     Bundle.groupStandings := build_standings (obj_keys gs) (obj_values sp) |}.

(** [processAnalytics] (lines 6-141): the early return on empty input,
    the loop, then the finalisation. *)
Definition processAnalytics (rawData : list MatchRecord) : result Bundle.t :=
  match rawData with
  | [] => Ok empty_bundle
  | _ =>
      match process_matches init_state rawData with
      | Throw e => Throw e
      | Ok st => Ok (finalize_state st)
      end
  end.

End ProcessAnalytics.
