(* ===== verification/AnalyticsFacts.v ===== *)
(** * Theorems about [processAnalytics]

    The central lemma [process_matches_ok_iff] replaces the interleaved
    loop (group, Team1, Team2, date, margin for each match) by three
    independent accumulations over the match list, the list of store
    events, and the match list again; every other theorem goes through
    it and the generic lemmas of [JsObject] ([accumulate_get],
    [accumulate_invariant], [accumulate_keys]). *)

From S2P Require Import Prelude JsString JsNum JsObject JsSort JsFixed CsvParser Analytics.
From Stdlib Require Import Btauto.
Import ProcessAnalytics.

Module AnalyticsFacts.

Definition margin_of (m : MatchRecord) : MatchMargin.t :=
  {| MatchMargin.group := Group m; MatchMargin.margin := match_margin m;
     MatchMargin.matchSales := match_sales m |}.

(** All store events of a match list, in the order the loop runs them. *)
Definition all_store_events (ms : list MatchRecord) : list StoreEvent :=
  flat_map store_events ms.

(** Keys that are own properties once created: no group or team name
    is a property of [Object.prototype]. *)
Definition plain_match (m : MatchRecord) : bool :=
  negb (is_proto_key (Group m)) && negb (is_proto_key (Team1 m))
  && negb (is_proto_key (Team2 m)).

Lemma process_matches_ok_iff st ms st' :
  process_matches st ms = Ok st' <->
  exists gs sp,
    accumulate (State.groupStats st) ms = Some gs /\
    accumulate (State.storePerformance st) (all_store_events ms) = Some sp /\
    st' = {| State.groupStats := gs; State.storePerformance := sp;
             State.dailyPerformance := accumulate_lenient (State.dailyPerformance st) ms;
             State.matchMargins := State.matchMargins st ++ map margin_of ms |}.
Proof.
  revert st. induction ms as [|m ms IH]; intros st.
  - simpl. split.
    + intros H. injection H as <-. exists (State.groupStats st), (State.storePerformance st).
      rewrite app_nil_r. destruct st; repeat split; reflexivity.
    + intros (gs & sp & Hg & Hs & ->). inv Hg. inv Hs. rewrite app_nil_r.
      destruct st; reflexivity.
  - unfold all_store_events. cbn [process_matches accumulate flat_map].
    rewrite accumulate_app. unfold process_match.
    destruct (upsert (State.groupStats st) m) as [gs1|];
      [|split; [discriminate | intros (? & ? & ? & ? & ?); discriminate]].
    destruct (accumulate (State.storePerformance st) (store_events m)) as [sp1|];
      [|split; [discriminate | intros (? & ? & ? & ? & ?); discriminate]].
    rewrite IH. simpl. rewrite <- app_assoc. reflexivity.
Qed.

Lemma plain_all_store_events ms :
  plain_keys (all_store_events ms) = forallb (fun m => negb (is_proto_key (Team1 m))
                                                  && negb (is_proto_key (Team2 m))) ms.
Proof.
  unfold plain_keys, all_store_events. induction ms as [|m ms IH]; simpl; [reflexivity|].
  rewrite <- IH. destruct (is_proto_key (Team1 m)), (is_proto_key (Team2 m)); reflexivity.
Qed.

Lemma forallb_plain_match ms :
  forallb plain_match ms =
  plain_keys (H := group_accumulator) ms && plain_keys (all_store_events ms).
Proof.
  rewrite plain_all_store_events. unfold plain_keys, plain_match.
  cbn [acc_key group_accumulator].
  induction ms as [|m ms IH]; simpl; [reflexivity|]. rewrite IH. btauto.
Qed.

(** The loop completes exactly on plain input. *)
Lemma process_matches_ok_plain st ms :
  (exists st', process_matches st ms = Ok st') <-> forallb plain_match ms = true.
Proof.
  rewrite forallb_plain_match, andb_true_iff.
  rewrite <- (accumulate_some_iff (State.groupStats st)),
          <- (accumulate_some_iff (State.storePerformance st)).
  split.
  - intros [st' Hst]. apply process_matches_ok_iff in Hst as (gs & sp & Hg & Hs & _). eauto.
  - intros [[gs Hg] [sp Hs]]. eexists. apply process_matches_ok_iff. eauto.
Qed.

(** ** From the bundle back to the three accumulations *)

Lemma processAnalytics_eq ms :
  processAnalytics ms =
  match process_matches init_state ms with
  | Throw e => Throw e
  | Ok st => Ok (finalize_state st)
  end.
Proof. destruct ms; reflexivity. Qed.

Lemma processAnalytics_Ok ms b :
  processAnalytics ms = Ok b ->
  exists gs sp,
    accumulate [] ms = Some gs /\
    accumulate [] (all_store_events ms) = Some sp /\
    b = finalize_state {| State.groupStats := gs; State.storePerformance := sp;
                          State.dailyPerformance := accumulate_lenient [] ms;
                          State.matchMargins := map margin_of ms |}.
Proof.
  rewrite processAnalytics_eq. destruct (process_matches init_state ms) as [st|] eqn:E;
    [|discriminate]. intros H. injection H as <-.
  apply process_matches_ok_iff in E as (gs & sp & Hg & Hs & ->). eauto.
Qed.

Lemma obj_values_map_perm {A B} (f : A -> B) (o : obj A) :
  Permutation (obj_values (obj_map f o)) (map (fun kv => f (snd kv)) o).
Proof.
  unfold obj_values, obj_map. rewrite (Permutation_map snd (obj_entries_perm _)).
  rewrite map_map. reflexivity.
Qed.

Lemma In_obj_values_map {A B} (f : A -> B) (o : obj A) x :
  In x (obj_values (obj_map f o)) -> exists kv, In kv o /\ x = f (snd kv).
Proof.
  intros Hx. eapply Permutation_in in Hx; [|apply obj_values_map_perm].
  apply in_map_iff in Hx as [kv [<- Hkv]]. eauto.
Qed.

Lemma nat_sum_obj_values_map {A B} (h : B -> nat) (f : A -> B) (o : obj A) :
  nat_sum h (obj_values (obj_map f o)) = obj_nat_sum (fun v => h (f v)) o.
Proof.
  rewrite (nat_sum_perm _ _ _ (obj_values_map_perm f o)), nat_sum_map. reflexivity.
Qed.

Lemma obj_values_perm {A} (o : obj A) : Permutation (obj_values o) (map snd o).
Proof. unfold obj_values. apply Permutation_map, obj_entries_perm. Qed.

Lemma all_store_events_length ms : List.length (all_store_events ms) = 2 * List.length ms.
Proof. unfold all_store_events. induction ms; simpl; [|rewrite IHms]; lia. Qed.

(** ** Theorems *)

(** C1: [processAnalytics] returns a bundle exactly when no group name
    and no store name is a property of [Object.prototype] (such as
    ["constructor"] or ["toString"]); otherwise the group or store
    handler throws a [TypeError]. *)
Theorem processAnalytics_ok_iff ms :
  is_ok (processAnalytics ms) = forallb plain_match ms.
Proof.
  rewrite processAnalytics_eq. destruct (forallb plain_match ms) eqn:E.
  - apply (process_matches_ok_plain init_state) in E as [st Hst]. rewrite Hst. reflexivity.
  - destruct (process_matches init_state ms) as [st|] eqn:Hst; [|reflexivity].
    assert (forallb plain_match ms = true) by (apply (process_matches_ok_plain init_state); eauto).
    congruence.
Qed.

(** The per-group match counts add up to the number of matches. *)
Lemma group_matches_sum ms b :
  processAnalytics ms = Ok b ->
  nat_sum GroupStats.matches (Bundle.groupStats b) = List.length ms.
Proof.
  intros H. apply processAnalytics_Ok in H as (gs & sp & Hg & Hs & ->).
  unfold finalize_state. cbn [Bundle.groupStats State.groupStats].
  rewrite (nat_sum_perm _ _ _ (js_sort_perm _ _)), nat_sum_obj_values_map.
  rewrite (accumulate_nat_sum _ (fun _ => 1) _ _ _ (fun _ => eq_refl)
             (fun _ _ => eq_sym (Nat.add_1_r _)) Hg).
  rewrite <- nat_sum_const_one. reflexivity.
Qed.

(** Every match is counted once for each of its two stores. *)
Theorem store_matches_total ms b :
  processAnalytics ms = Ok b ->
  nat_sum StorePerformance.matches (Bundle.storePerformance b) = 2 * List.length ms.
Proof.
  intros H. apply processAnalytics_Ok in H as (gs & sp & Hg & Hs & ->).
  unfold finalize_state. cbn [Bundle.storePerformance State.storePerformance].
  rewrite nat_sum_obj_values_map.
  rewrite (accumulate_nat_sum _ (fun _ => 1) _ _ _ (fun _ => eq_refl)
             (fun _ _ => eq_sym (Nat.add_1_r _)) Hs).
  rewrite <- all_store_events_length, <- nat_sum_const_one. reflexivity.
Qed.

(** C3: a match credits a win to each participating store whose name
    equals [Winner] and a loss to each other one: if [Winner] names
    neither team, both get a loss. *)
Theorem wins_losses_credited ms b :
  processAnalytics ms = Ok b ->
  nat_sum StorePerformance.wins (Bundle.storePerformance b)
    = nat_sum (fun m => Nat.b2n (String.eqb (Team1 m) (Winner m))
                        + Nat.b2n (String.eqb (Team2 m) (Winner m))) ms /\
  nat_sum StorePerformance.losses (Bundle.storePerformance b)
    = nat_sum (fun m => Nat.b2n (negb (String.eqb (Team1 m) (Winner m)))
                        + Nat.b2n (negb (String.eqb (Team2 m) (Winner m)))) ms.
Proof.
  intros H. apply processAnalytics_Ok in H as (gs & sp & Hg & Hs & ->).
  unfold finalize_state. cbn [Bundle.storePerformance State.storePerformance].
  rewrite !nat_sum_obj_values_map. split.
  - rewrite (@accumulate_nat_sum _ _ store_accumulator (fun v => StorePerformance.wins (finalize_store v))
               (fun e => Nat.b2n (ev_isWinner e)) _ _ _ (fun _ => eq_refl)
               (fun e v => ltac:(simpl; destruct (ev_isWinner e); simpl; lia)) Hs).
    unfold all_store_events. rewrite nat_sum_flat_map. apply nat_sum_ext.
    intros m _. unfold store_events. rewrite nat_sum_cons, nat_sum_cons, nat_sum_nil.
    cbn [ev_isWinner]. lia.
  - rewrite (@accumulate_nat_sum _ _ store_accumulator (fun v => StorePerformance.losses (finalize_store v))
               (fun e => Nat.b2n (negb (ev_isWinner e))) _ _ _
               (fun _ => eq_refl)
               (fun e v => ltac:(simpl; destruct (ev_isWinner e); simpl; lia)) Hs).
    unfold all_store_events. rewrite nat_sum_flat_map. apply nat_sum_ext.
    intros m _. unfold store_events. rewrite nat_sum_cons, nat_sum_cons, nat_sum_nil.
    cbn [ev_isWinner]. lia.
Qed.

(** C7: the daily match counts add up to the number of matches whose
    date is not a property of [Object.prototype]; a match dated
    ["toString"], say, is silently missing from the daily view. *)
Theorem daily_matches_total ms b :
  processAnalytics ms = Ok b ->
  nat_sum Daily.matches (Bundle.dailyPerformance b)
    = List.length (filter (fun m => negb (is_proto_key (Date m))) ms).
Proof.
  intros H. apply processAnalytics_Ok in H as (gs & sp & Hg & Hs & ->).
  unfold finalize_state. cbn [Bundle.dailyPerformance State.dailyPerformance].
  rewrite (nat_sum_perm _ _ _ (obj_values_perm _)), nat_sum_map.
  pose proof (accumulate_lenient_filter (H := daily_accumulator) [] ms) as Hd.
  change (nat_sum (fun kv => Daily.matches (snd kv)) (accumulate_lenient [] ms))
    with (obj_nat_sum Daily.matches (accumulate_lenient [] ms)).
  rewrite (accumulate_nat_sum _ (fun _ => 1) _ _ _ (fun _ => eq_refl)
             (fun _ _ => eq_sym (Nat.add_1_r _)) Hd).
  rewrite <- nat_sum_const_one. reflexivity.
Qed.

(** ** The record of one store *)

Definition store_events_of (k : string) (ms : list MatchRecord) : list StoreEvent :=
  filter (fun e => String.eqb (ev_store e) k) (all_store_events ms).

Definition count_wins (es : list StoreEvent) : nat := List.length (filter ev_isWinner es).
Definition count_losses (es : list StoreEvent) : nat :=
  List.length (filter (fun e => negb (ev_isWinner e)) es).

Lemma store_fold_fields v es v' :
  v' = fold_left (fun v e => store_step e v) es v ->
  StoreAcc.store v' = StoreAcc.store v /\ StoreAcc.group v' = StoreAcc.group v /\
  StoreAcc.matches v' = StoreAcc.matches v + List.length es /\
  StoreAcc.wins v' = StoreAcc.wins v + count_wins es /\
  StoreAcc.losses v' = StoreAcc.losses v + count_losses es /\
  StoreAcc.points v' = StoreAcc.points v + 3 * count_wins es /\
  StoreAcc.recentForm v' = StoreAcc.recentForm v ++ map (fun e => outcome (ev_isWinner e)) es /\
  StoreAcc.totalSales v' = fold_left (fun s e => num_add s (ev_sales e)) es (StoreAcc.totalSales v).
Proof.
  intros ->. unfold count_wins, count_losses. revert v.
  induction es as [|e es IH]; intros v; simpl.
  - rewrite app_nil_r. repeat split; lia.
  - destruct (IH (store_step e v)) as (H1 & H2 & H3 & H4 & H5 & H6 & H7 & H8).
    simpl in *. rewrite H1, H2, H3, H4, H5, H6, H7, H8, <- app_assoc.
    destruct (ev_isWinner e); simpl; repeat split; lia.
Qed.

(** Refinement for stores: every store record of the bundle is the
    finalisation of the fold of that store's own events, in order. *)
Lemma store_record_view ms b s :
  processAnalytics ms = Ok b -> In s (Bundle.storePerformance b) ->
  exists e es, store_events_of (StorePerformance.store s) ms = e :: es /\
    s = finalize_store (fold_left (fun v e => store_step e v) (e :: es) (store_init e)).
Proof.
  intros H Hin. apply processAnalytics_Ok in H as (gs & sp & Hg & Hs & ->).
  unfold finalize_state in Hin. cbn [Bundle.storePerformance State.storePerformance] in Hin.
  apply In_obj_values_map in Hin as [[k v] [Hkv ->]]. cbn [snd].
  pose proof (accumulate_In _ _ _ _ Hs Hkv) as Hf.
  apply key_fold_None_inv in Hf as (e & es & Hes & ->).
  assert (Hk : ev_store e = k).
  { assert (Hin : In e (filter (fun e => String.eqb (acc_key e) k) (all_store_events ms)))
      by (rewrite Hes; left; reflexivity).
    apply filter_In in Hin as [_ Hin]. apply String.eqb_eq, Hin. }
  destruct (store_fold_fields (store_init e) (e :: es) _ eq_refl) as (Hst & _).
  exists e, es. cbn [acc_step acc_init store_accumulator] in *.
  cbn [finalize_store StorePerformance.store]. rewrite Hes, Hst. simpl.
  rewrite Hk. split; [exact Hes | reflexivity].
Qed.

(** The outcomes of store [k] in input order: one per appearance as
    [Team1] or [Team2], a win when [k] is the recorded [Winner]. *)
Definition form_in_match (k : string) (m : MatchRecord) : list Form :=
  (if String.eqb (Team1 m) k then [outcome (String.eqb k (Winner m))] else [])
  ++ (if String.eqb (Team2 m) k then [outcome (String.eqb k (Winner m))] else []).

Definition form_history (k : string) (ms : list MatchRecord) : list Form :=
  flat_map (form_in_match k) ms.

Lemma store_events_of_form k ms :
  map (fun e => outcome (ev_isWinner e)) (store_events_of k ms) = form_history k ms.
Proof.
  unfold store_events_of, all_store_events, form_history.
  induction ms as [|m ms IH]; simpl; [reflexivity|]. rewrite <- IH.
  unfold form_in_match. simpl.
  destruct (String.eqb_spec (Team1 m) k) as [E1|E1];
    destruct (String.eqb_spec (Team2 m) k) as [E2|E2]; simpl;
    try rewrite E1; try rewrite E2; reflexivity.
Qed.

Lemma count_wins_losses es : count_wins es + count_losses es = List.length es.
Proof.
  unfold count_wins, count_losses. induction es as [|e es IH]; simpl; [reflexivity|].
  destruct (ev_isWinner e); simpl; lia.
Qed.

(** C2: in every store record, wins and losses add up to the matches
    played, points are three per win, and a listed store has played. *)
Theorem store_record_invariant ms b s :
  processAnalytics ms = Ok b -> In s (Bundle.storePerformance b) ->
  StorePerformance.wins s + StorePerformance.losses s = StorePerformance.matches s /\
  StorePerformance.points s = 3 * StorePerformance.wins s /\
  0 < StorePerformance.matches s.
Proof.
  intros H Hin. destruct (store_record_view _ _ _ H Hin) as (e & es & _ & ->).
  destruct (store_fold_fields (store_init e) (e :: es) _ eq_refl)
    as (_ & _ & Hm & Hw & Hl & Hp & _).
  cbn [finalize_store StorePerformance.wins StorePerformance.losses
       StorePerformance.matches StorePerformance.points].
  rewrite Hm, Hw, Hl, Hp. cbn [store_init StoreAcc.matches StoreAcc.wins
                               StoreAcc.losses StoreAcc.points].
  pose proof (count_wins_losses (e :: es)). simpl List.length in *. lia.
Qed.

(** C5: [recentForm] is the last five outcomes of the store in input
    order ([slice(-5)] of the full history), so it has
    [min(5, matches)] entries. *)
Theorem recent_form_last5 ms b s :
  processAnalytics ms = Ok b -> In s (Bundle.storePerformance b) ->
  StorePerformance.recentForm s = lastn 5 (form_history (StorePerformance.store s) ms) /\
  List.length (StorePerformance.recentForm s) = Nat.min 5 (StorePerformance.matches s).
Proof.
  intros H Hin. destruct (store_record_view _ _ _ H Hin) as (e & es & Hes & Hs).
  rewrite <- store_events_of_form, Hes. rewrite Hs.
  destruct (store_fold_fields (store_init e) (e :: es) _ eq_refl)
    as (_ & _ & Hm & _ & _ & _ & Hf & _).
  cbn [finalize_store StorePerformance.recentForm StorePerformance.matches].
  rewrite Hf, Hm. cbn [store_init StoreAcc.recentForm StoreAcc.matches app].
  split; [reflexivity|]. rewrite lastn_length, length_map. reflexivity.
Qed.

(** Every store record of a bundle is a finalised accumulator that
    counted at least one match. *)
Lemma store_record_final ms b s :
  processAnalytics ms = Ok b -> In s (Bundle.storePerformance b) ->
  exists acc, s = finalize_store acc /\ 0 < StoreAcc.matches acc.
Proof.
  intros H Hin. destruct (store_record_view _ _ _ H Hin) as (e & es & _ & ->).
  eexists; split; [reflexivity|].
  destruct (store_fold_fields (store_init e) (e :: es) _ eq_refl) as (_ & _ & Hm & _).
  rewrite Hm. cbn. lia.
Qed.

(** [winRate] is [(wins / matches * 100).toFixed(1)]; read back as a
    number it is the win percentage rounded to one decimal. *)
Lemma finalize_winRate_number acc :
  0 < StoreAcc.matches acc ->
  string_to_number (StorePerformance.winRate (finalize_store acc)) =
  fin (round_fixed 1 (inject_Z (Z.of_nat (StoreAcc.wins acc))
                      / inject_Z (Z.of_nat (StoreAcc.matches acc)) * 100)).
Proof.
  intros Hm. cbn [finalize_store StorePerformance.winRate]. unfold num_of_nat, num_of_Z, fin.
  rewrite num_div_fin.
  - unfold fin. cbn [num_mul]. rewrite toFixed_fin_number. apply fin_eq.
    rewrite !Qred_correct. reflexivity.
  - rewrite Qred_correct. change 0%Q with (inject_Z 0). rewrite inject_Z_injective. lia.
Qed.

(** ** Standings *)

Lemma sorts_before_sub_nat (a b : nat) :
  sort_compare_value (num_sub (num_of_nat a) (num_of_nat b)) = Lt <-> a < b.
Proof. rewrite sort_compare_sub_lt, num_lt_nat, Nat.ltb_lt. reflexivity. Qed.

Lemma is_lt_iff (c : comparison) :
  (match c with Lt => true | _ => false end = true) <-> c = Lt.
Proof. destruct c; split; congruence. Qed.

(** [x] sorts strictly before [y] in a standings table. *)
Lemma standing_before_iff x y :
  sorts_before standing_cmp x y = true <->
  StorePerformance.points y < StorePerformance.points x \/
  (StorePerformance.points y = StorePerformance.points x /\
   StorePerformance.wins y < StorePerformance.wins x) \/
  (StorePerformance.points y = StorePerformance.points x /\
   StorePerformance.wins y = StorePerformance.wins x /\
   num_lt (StorePerformance.totalSales y) (StorePerformance.totalSales x) = true).
Proof.
  unfold sorts_before, standing_cmp. rewrite is_lt_iff.
  destruct (Nat.eqb_spec (StorePerformance.points y) (StorePerformance.points x)) as [Ep|Ep];
    cbn [negb].
  - destruct (Nat.eqb_spec (StorePerformance.wins y) (StorePerformance.wins x)) as [Ew|Ew];
      cbn [negb].
    + rewrite sort_compare_sub_lt. split; [intros H; right; right; auto|].
      intros [H|[[_ H]|(_ & _ & H)]]; [lia|lia|exact H].
    + rewrite sorts_before_sub_nat. split; [intros H; right; left; auto|].
      intros [H|[[_ H]|(_ & H & _)]]; lia.
  - rewrite sorts_before_sub_nat. split; [intros H; left; exact H|].
    intros [H|[[H _]|(H & _)]]; lia.
Qed.

Lemma standing_before_asym x y :
  sorts_before standing_cmp x y = true -> sorts_before standing_cmp y x = false.
Proof.
  rewrite standing_before_iff. intros Hxy.
  destruct (sorts_before standing_cmp y x) eqn:Hyx; [|reflexivity].
  apply standing_before_iff in Hyx.
  destruct Hxy as [H|[[H1 H2]|(H1 & H2 & H3)]];
    destruct Hyx as [G|[[G1 G2]|(G1 & G2 & G3)]]; try lia.
  rewrite (num_lt_asym _ _ H3) in G3. discriminate.
Qed.

(** The order of adjacent standings rows, as the spec states it. *)
Definition standing_order (x y : StorePerformance.t) : Prop :=
  StorePerformance.points y < StorePerformance.points x \/
  (StorePerformance.points x = StorePerformance.points y /\
   StorePerformance.wins y < StorePerformance.wins x) \/
  (StorePerformance.points x = StorePerformance.points y /\
   StorePerformance.wins x = StorePerformance.wins y /\
   num_lt (StorePerformance.totalSales x) (StorePerformance.totalSales y) = false).

Lemma sorted_le_standing x y : sorted_le standing_cmp x y -> standing_order x y.
Proof.
  unfold sorted_le, standing_order. intros H.
  assert (Hn : ~ (StorePerformance.points x < StorePerformance.points y \/
                 (StorePerformance.points x = StorePerformance.points y /\
                  StorePerformance.wins x < StorePerformance.wins y) \/
                 (StorePerformance.points x = StorePerformance.points y /\
                  StorePerformance.wins x = StorePerformance.wins y /\
                  num_lt (StorePerformance.totalSales x)
                         (StorePerformance.totalSales y) = true))).
  { rewrite <- standing_before_iff. congruence. }
  destruct (Nat.lt_trichotomy (StorePerformance.points x) (StorePerformance.points y))
    as [|[Ep|]]; [tauto| |lia].
  destruct (Nat.lt_trichotomy (StorePerformance.wins x) (StorePerformance.wins y))
    as [|[Ew|]]; [tauto| |right; left; lia].
  right; right. repeat split; try assumption.
  destruct (num_lt _ _); [tauto | reflexivity].
Qed.

Lemma build_standings_get ks stores g l :
  obj_get (build_standings ks stores) g = Some l -> l = group_standing stores g.
Proof.
  unfold build_standings.
  assert (Hinv : forall o, (forall g l, obj_get o g = Some l -> l = group_standing stores g) ->
            forall g l, obj_get (fold_left (fun o g => obj_set o g (group_standing stores g)) ks o) g
                        = Some l -> l = group_standing stores g).
  { induction ks as [|k ks IH]; intros o Ho; simpl; [exact Ho|]. apply IH.
    intros g' l'. rewrite obj_get_set. destruct (String.eqb_spec k g') as [<-|]; [|apply Ho].
    intros H. injection H as <-. reflexivity. }
  apply Hinv. intros g' l' H. discriminate.
Qed.

Lemma standings_entries ms b g l :
  processAnalytics ms = Ok b -> obj_get (Bundle.groupStandings b) g = Some l ->
  map Standing.entry l =
  js_sort standing_cmp
    (filter (fun s => String.eqb (StorePerformance.group s) g) (Bundle.storePerformance b)).
Proof.
  intros H Hl. apply processAnalytics_Ok in H as (gs & sp & Hg & Hs & ->).
  unfold finalize_state in *. cbn [Bundle.groupStandings Bundle.storePerformance] in *.
  apply build_standings_get in Hl as ->. unfold group_standing.
  apply map_with_positions. reflexivity.
Qed.

(** C4: each group's standings are ordered by points, then wins, then
    total sales, all descending: for adjacent rows [x] then [y], [x]
    has more points, or as many and more wins, or as many of both and
    total sales not below [y]'s. *)
Theorem standings_sorted ms b g l :
  processAnalytics ms = Ok b -> obj_get (Bundle.groupStandings b) g = Some l ->
  Sorted standing_order (map Standing.entry l).
Proof.
  intros H Hl. rewrite (standings_entries _ _ _ _ H Hl).
  apply (Sorted_impl _ _ _ sorted_le_standing).
  apply js_sort_sorted, standing_before_asym.
Qed.

Lemma build_standings_In ks stores g l :
  In (g, l) (build_standings ks stores) -> l = group_standing stores g.
Proof.
  unfold build_standings.
  assert (Hinv : forall o, (forall g l, In (g, l) o -> l = group_standing stores g) ->
            forall g l, In (g, l) (fold_left (fun o g => obj_set o g (group_standing stores g)) ks o)
                        -> l = group_standing stores g).
  { induction ks as [|k ks IH]; intros o Ho; simpl; [exact Ho|]. apply IH.
    intros g' l' Hin. apply obj_set_In in Hin as [Hin|E]; [exact (Ho _ _ Hin)|].
    injection E as -> ->. reflexivity. }
  apply Hinv. intros g' l' [].
Qed.

(** The standing at index [i] of a group's table has position [i + 1]
    and [positionChange = 0]. *)
Lemma standings_nth ms b g l i x :
  processAnalytics ms = Ok b -> In (g, l) (Bundle.groupStandings b) ->
  nth_error l i = Some x ->
  Standing.position x = S i /\ Standing.positionChange x = 0.
Proof.
  intros H Hl Hx. apply processAnalytics_Ok in H as (gs & sp & Hg & Hs & ->).
  unfold finalize_state in Hl. cbn [Bundle.groupStandings] in Hl.
  apply build_standings_In in Hl as ->. unfold group_standing in Hx.
  rewrite with_positions_nth_error in Hx.
  destruct (nth_error _ i); simpl in Hx; [|discriminate].
  injection Hx as <-. split; reflexivity.
Qed.

(** C25: a group's standings list exactly the store records whose
    [group] (the group of the store's first match) is that group. *)
Theorem standings_members ms b g l :
  processAnalytics ms = Ok b -> obj_get (Bundle.groupStandings b) g = Some l ->
  Permutation (map Standing.entry l)
    (filter (fun s => String.eqb (StorePerformance.group s) g) (Bundle.storePerformance b)).
Proof.
  intros H Hl. rewrite (standings_entries _ _ _ _ H Hl). apply js_sort_perm.
Qed.

(** The group list is sorted by ascending [groupNumber] and holds
    one record per group object entry. *)
Theorem groups_sorted ms b :
  processAnalytics ms = Ok b ->
  Sorted (fun x y => num_lt (GroupStats.groupNumber y) (GroupStats.groupNumber x) = false)
    (Bundle.groupStats b).
Proof.
  intros H. apply processAnalytics_Ok in H as (gs & sp & Hg & Hs & ->).
  unfold finalize_state. cbn [Bundle.groupStats]. apply js_sort_by_key.
Qed.
(** ** The shape of the bundle: every store's group has a record and a
    standings entry *)

Lemma build_standings_lookup ks stores k :
  obj_get (build_standings ks stores) k
  = if existsb (String.eqb k) ks then Some (group_standing stores k) else None.
Proof.
  unfold build_standings. change (@None (list Standing.t)) with (obj_get (@nil (string * list Standing.t)) k).
  generalize (@nil (string * list Standing.t)) as o.
  induction ks as [|g ks IH]; intros o; simpl; [reflexivity|].
  rewrite IH, obj_get_set. destruct (String.eqb_spec k g) as [->|Hne].
  - rewrite String.eqb_refl. cbn [orb]. destruct (existsb _ ks); reflexivity.
  - destruct (String.eqb_spec g k); [congruence|]. reflexivity.
Qed.

Lemma group_fold_group es v :
  GroupAcc.group (fold_left (fun v e => group_step e v) es v) = GroupAcc.group v.
Proof. revert v. induction es as [|e es IH]; intros v; simpl; [reflexivity|]. rewrite IH. reflexivity. Qed.

Lemma store_group_in ms b s :
  processAnalytics ms = Ok b -> In s (Bundle.storePerformance b) ->
  exists m, In m ms /\ StorePerformance.group s = Group m.
Proof.
  intros H Hin. destruct (store_record_view _ _ _ H Hin) as (e & es & Hes & ->).
  destruct (store_fold_fields (store_init e) (e :: es) _ eq_refl) as (_ & Hg & _).
  cbn [finalize_store StorePerformance.group]. rewrite Hg.
  assert (He : In e (e :: es)) by (left; reflexivity). rewrite <- Hes in He.
  unfold store_events_of, all_store_events in He.
  apply filter_In in He as [He _]. apply in_flat_map in He as (m & Hm & He).
  exists m. split; [exact Hm|]. destruct He as [<-|[<-|[]]]; reflexivity.
Qed.

Lemma group_keys_plain ms b m :
  processAnalytics ms = Ok b -> In m ms -> is_proto_key (Group m) = false.
Proof.
  intros H Hm. apply processAnalytics_Ok in H as (gs & sp & Hg & _).
  assert (Hp : plain_keys (H := group_accumulator) ms = true)
    by (apply (accumulate_some_iff []); eauto).
  unfold plain_keys in Hp. eapply forallb_forall in Hp; [|exact Hm].
  apply negb_true_iff, Hp.
Qed.

Lemma group_record_in ms b m :
  processAnalytics ms = Ok b -> In m ms ->
  exists g, In g (Bundle.groupStats b) /\ GroupStats.group g = Group m /\
            obj_get (Bundle.groupStandings b) (Group m)
            = Some (group_standing (Bundle.storePerformance b) (Group m)).
Proof.
  intros H Hm. apply processAnalytics_Ok in H as (gs & sp & Hg & _ & ->).
  assert (Hk : In (Group m) (map fst gs)).
  { rewrite (accumulate_keys _ _ _ Hg). apply In_first_seen. right.
    apply in_map_iff. exists m. auto. }
  pose proof Hk as Hk'. apply in_map_iff in Hk as ([k v] & Hkk & Hkv). cbn [fst] in Hkk. subst k.
  pose proof (accumulate_In _ _ _ _ Hg Hkv) as Hf.
  exists (finalize_group v). unfold finalize_state. cbn [Bundle.groupStats Bundle.groupStandings].
  repeat split.
  - apply js_sort_In. eapply Permutation_in; [symmetry; apply obj_values_map_perm|].
    apply in_map_iff. exists (Group m, v). auto.
  - apply key_fold_None_inv in Hf as (e & es & Hes & Hv).
    cbn [acc_key group_accumulator] in Hes.
    assert (Hin : In e (filter (fun e => String.eqb (Group e) (Group m)) ms))
      by (rewrite Hes; left; reflexivity).
    apply filter_In in Hin as [_ Hin]. apply String.eqb_eq in Hin.
    rewrite Hv. cbn [acc_key acc_step acc_init group_accumulator]. rewrite Hes.
    cbn [finalize_group GroupStats.group fold_left]. rewrite group_fold_group. exact Hin.
  - rewrite build_standings_lookup, obj_keys_map.
    replace (existsb _ _) with true; [reflexivity|]. symmetry. apply existsb_exists.
    exists (Group m). rewrite String.eqb_refl. split; [|reflexivity].
    unfold obj_keys. eapply Permutation_in; [|exact Hk'].
    apply Permutation_map. symmetry. apply obj_entries_perm.
Qed.

(** The fields a run of the group handler accumulates. *)
Lemma group_fold_fields v es v' :
  v' = fold_left (fun v e => group_step e v) es v ->
  GroupAcc.group v' = GroupAcc.group v /\
  GroupAcc.matches v' = GroupAcc.matches v + List.length es /\
  GroupAcc.totalSales v' = fold_left (fun s m => num_add s (match_sales m)) es (GroupAcc.totalSales v) /\
  GroupAcc.highestMatch v' = fold_left (fun x m => num_max x (match_sales m)) es (GroupAcc.highestMatch v) /\
  GroupAcc.lowestMatch v' = fold_left (fun x m => num_min x (match_sales m)) es (GroupAcc.lowestMatch v) /\
  GroupAcc.stores v' = first_seen (GroupAcc.stores v) (flat_map (fun m => [Team1 m; Team2 m]) es).
Proof.
  intros ->. revert v. induction es as [|e es IH]; intros v; simpl.
  - repeat split; lia.
  - destruct (IH (group_step e v)) as (H1 & H2 & H3 & H4 & H5 & H6).
    rewrite H1, H2, H3, H4, H5, H6. cbn. repeat split; lia.
Qed.

(** The matches of group [k], in input order. *)
Definition group_matches (k : string) (ms : list MatchRecord) : list MatchRecord :=
  filter (fun m => String.eqb (Group m) k) ms.


(** C20: every group record of the bundle is what the spec defines from
    the group's own matches (in input order, at least one): [matches]
    counts them, [totalSales] sums their combined sales, [highestMatch]
    and [lowestMatch] are the running maximum from [0] and minimum from
    [Infinity] of the combined sales, and [storeCount] is the number of
    distinct teams that played in them. *)
Theorem group_record_spec ms b g :
  processAnalytics ms = Ok b -> In g (Bundle.groupStats b) ->
  let gms := group_matches (GroupStats.group g) ms in
  gms <> [] /\
  GroupStats.matches g = List.length gms /\
  GroupStats.totalSales g = fold_left (fun s m => num_add s (match_sales m)) gms num_zero /\
  GroupStats.highestMatch g = fold_left (fun x m => num_max x (match_sales m)) gms num_zero /\
  GroupStats.lowestMatch g = fold_left (fun x m => num_min x (match_sales m)) gms NPosInf /\
  GroupStats.storeCount g
    = List.length (first_seen [] (flat_map (fun m => [Team1 m; Team2 m]) gms)).
Proof.
  intros H Hin; cbv zeta. apply processAnalytics_Ok in H as (gs & sp & Hg & _ & ->).
  unfold finalize_state in Hin. cbn [Bundle.groupStats] in Hin.
  apply js_sort_In, In_obj_values_map in Hin as [[k v] [Hkv ->]]. cbn [snd].
  pose proof (accumulate_In _ _ _ _ Hg Hkv) as Hf.
  apply key_fold_None_inv in Hf as (e & es & Hes & ->).
  cbn [acc_key acc_step acc_init group_accumulator] in *.
  assert (Hk : Group e = k).
  { assert (Hin : In e (filter (fun e => String.eqb (Group e) k) ms)) by (rewrite Hes; left; auto).
    apply filter_In in Hin as [_ Hin]. apply String.eqb_eq, Hin. }
  destruct (group_fold_fields (group_init e) (e :: es) _ eq_refl) as (H1 & H2 & H3 & H4 & H5 & H6).
  cbn [finalize_group GroupStats.group GroupStats.matches GroupStats.totalSales
       GroupStats.highestMatch GroupStats.lowestMatch GroupStats.storeCount].
  rewrite Hes, H1, H2, H3, H4, H5, H6. cbn [group_init GroupAcc.group GroupAcc.matches
    GroupAcc.totalSales GroupAcc.highestMatch GroupAcc.lowestMatch GroupAcc.stores].
  unfold group_matches. rewrite Hk, Hes. split; [discriminate|]. repeat split; lia.
Qed.

(** Every key of [groupStandings] is the group of some match. *)
Lemma standings_key_group ms b k l :
  processAnalytics ms = Ok b -> In (k, l) (Bundle.groupStandings b) ->
  exists m, In m ms /\ Group m = k.
Proof.
  intros H Hin. apply processAnalytics_Ok in H as (gs & sp & Hg & _ & ->).
  unfold finalize_state in Hin. cbn [Bundle.groupStandings] in Hin.
  apply In_obj_get in Hin as (l' & Hget). rewrite build_standings_lookup in Hget.
  destruct (existsb _ _) eqn:E; [|discriminate].
  apply existsb_exists in E as (k' & Hk' & Ek). apply String.eqb_eq in Ek as <-.
  rewrite obj_keys_map in Hk'. unfold obj_keys in Hk'.
  assert (Hk : In k (map fst gs))
    by (eapply Permutation_in; [apply Permutation_map, obj_entries_perm | exact Hk']).
  rewrite (accumulate_keys _ _ _ Hg) in Hk. apply In_first_seen in Hk as [[]|Hk].
  apply in_map_iff in Hk as (m & Hm & Hin). eauto.
Qed.

Lemma obj_values_length {V} (o : obj V) : List.length (obj_values o) = List.length o.
Proof. rewrite (Permutation_length (obj_values_perm o)). apply length_map. Qed.

Lemma store_keys_teams ms :
  map ev_store (all_store_events ms) = flat_map (fun m => [Team1 m; Team2 m]) ms.
Proof. unfold all_store_events. induction ms as [|m ms IH]; simpl; [reflexivity|]. rewrite IH. reflexivity. Qed.

(** The bundle has one group record per distinct group name, one store
    record per distinct team name, and one daily record per distinct
    date that is not a property of [Object.prototype]. *)
Lemma bundle_counts ms b :
  processAnalytics ms = Ok b ->
  List.length (Bundle.groupStats b) = List.length (first_seen [] (map Group ms)) /\
  List.length (Bundle.storePerformance b)
    = List.length (first_seen [] (flat_map (fun m => [Team1 m; Team2 m]) ms)) /\
  List.length (Bundle.dailyPerformance b)
    = List.length (first_seen [] (map Date (filter (fun m => negb (is_proto_key (Date m))) ms))).
Proof.
  intros H. apply processAnalytics_Ok in H as (gs & sp & Hg & Hs & ->).
  unfold finalize_state. cbn [Bundle.groupStats Bundle.storePerformance Bundle.dailyPerformance
                              State.groupStats State.storePerformance State.dailyPerformance].
  pose proof (accumulate_lenient_filter (H := daily_accumulator) [] ms) as Hd.
  rewrite js_sort_length, !obj_values_length. unfold obj_map. rewrite !length_map.
  rewrite <- (length_map fst gs), <- (length_map fst sp),
          <- (length_map fst (accumulate_lenient [] ms)).
  rewrite (accumulate_keys _ _ _ Hg), (accumulate_keys _ _ _ Hs), (accumulate_keys _ _ _ Hd).
  cbn [map acc_key group_accumulator store_accumulator daily_accumulator].
  rewrite store_keys_teams. auto.
Qed.

(** Each store record sits under its own name. *)
Lemma store_key_field ms sp k v :
  accumulate [] (all_store_events ms) = Some sp -> In (k, v) sp -> StoreAcc.store v = k.
Proof.
  intros Hs Hkv. pose proof (accumulate_In _ _ _ _ Hs Hkv) as Hf.
  apply key_fold_None_inv in Hf as (e & es & Hes & ->).
  cbn [acc_key acc_step acc_init store_accumulator] in *. rewrite Hes.
  destruct (store_fold_fields (store_init e) (e :: es) _ eq_refl) as (Hst & _). rewrite Hst.
  assert (Hin : In e (filter (fun e => String.eqb (ev_store e) k) (all_store_events ms)))
    by (rewrite Hes; left; reflexivity).
  apply filter_In in Hin as [_ Hin]. apply String.eqb_eq, Hin.
Qed.

(** C11: when no team name is an array index (a canonical decimal integer
    such as [7]), the store list is in order of first appearance of the
    teams ([Team1] before [Team2] in each match); names that are array
    indices are listed first, in numeric order, as [Object.values]
    enumerates them. *)
Theorem stores_first_seen_order ms b :
  processAnalytics ms = Ok b ->
  forallb (fun k => negb (is_array_index k)) (flat_map (fun m => [Team1 m; Team2 m]) ms) = true ->
  map StorePerformance.store (Bundle.storePerformance b)
  = first_seen [] (flat_map (fun m => [Team1 m; Team2 m]) ms).
Proof.
  intros H Hidx. apply processAnalytics_Ok in H as (gs & sp & Hg & Hs & ->).
  unfold finalize_state. cbn [Bundle.storePerformance State.storePerformance].
  pose proof (accumulate_keys _ _ _ Hs) as Hk. cbn [map] in Hk.
  rewrite store_keys_teams in Hk.
  assert (Hsp : forallb (fun kv => negb (is_array_index (fst kv))) sp = true).
  { apply forallb_forall. intros [k v] Hkv.
    assert (Hin : In k (map fst sp)) by (apply in_map_iff; exists (k, v); auto).
    rewrite Hk in Hin. apply In_first_seen in Hin as [[]|Hin].
    exact (proj1 (forallb_forall _ _) Hidx k Hin). }
  rewrite <- Hk, obj_values_map, map_map. unfold obj_values.
  rewrite (obj_entries_no_index _ Hsp), map_map.
  apply map_ext_in. intros [k v] Hkv. apply (store_key_field ms sp); auto.
Qed.

(** The consistency string of a store with a single match of sales [x]:
    [best = Math.max(0, x)], [worst = Math.min(Infinity, x)],
    [avgSales = (0 + x) / 1]. *)
Lemma single_match_consistency_value (x : num) :
  toFixed 1 (num_mul (num_div (num_sub (num_max num_zero x) (num_min NPosInf x))
                              (num_div (num_add num_zero x) (num_of_nat 1))) (num_of_nat 100))
  = match num_add num_zero x with
    | NFin q => if q_ltb 0 q then "0.0" else if q_ltb q 0 then "-100.0" else "NaN"
    | _ => "NaN"
    end%string.
Proof.
  destruct x as [q| | |]; [|reflexivity..].
  change (num_min NPosInf (NFin q)) with (NFin q).
  change (num_max num_zero (NFin q)) with (if q_ltb 0 q then NFin q else num_zero).
  change (num_of_nat 1) with (NFin 1). change (num_of_nat 100) with (NFin 100).
  rewrite num_add_zero_l. unfold fin at 1 2.
  rewrite (num_div_fin _ 1) by discriminate.
  rewrite (q_ltb_compat 0 (Qred q) 0 q), (q_ltb_compat (Qred q) 0 q 0)
    by (try rewrite Qred_correct; reflexivity).
  destruct (q_ltb 0 q) eqn:Hpos; [|destruct (q_ltb q 0) eqn:Hneg].
  - apply q_ltb_iff in Hpos. rewrite num_sub_fin. unfold fin.
    rewrite num_div_fin by (rewrite !Qred_correct; intros E; field_simplify in E; lra).
    rewrite (fin_eq _ 0) by (rewrite !Qred_correct; field; lra). reflexivity.
  - apply q_ltb_iff in Hneg. unfold num_zero, fin. rewrite num_sub_fin. unfold fin.
    rewrite num_div_fin by (rewrite !Qred_correct; intros E; field_simplify in E; lra).
    rewrite (fin_eq _ (-1)) by (rewrite !Qred_correct; field; lra). reflexivity.
  - rewrite <- not_true_iff_false, q_ltb_iff in Hpos, Hneg.
    assert (Hz : (q == 0)%Q) by lra.
    unfold num_zero, fin. rewrite num_sub_fin. unfold fin. cbn [num_div].
    replace (Qeq_bool (Qred (Qred q / 1)) 0) with true
      by (symmetry; apply Qeq_bool_iff; rewrite Qred_correct, Hz; reflexivity).
    replace (Qeq_bool (Qred (Qred 0 - q)) 0) with true
      by (symmetry; apply Qeq_bool_iff; rewrite Qred_correct, Hz; reflexivity).
    reflexivity.
Qed.

Lemma store_fold_extremes es v :
  StoreAcc.bestPerformance (fold_left (fun v e => store_step e v) es v)
  = fold_left (fun b e => num_max b (ev_sales e)) es (StoreAcc.bestPerformance v) /\
  StoreAcc.worstPerformance (fold_left (fun v e => store_step e v) es v)
  = fold_left (fun w e => num_min w (ev_sales e)) es (StoreAcc.worstPerformance v).
Proof. revert v. induction es as [|e es IH]; intros v; [split; reflexivity|]. apply IH. Qed.

(** C10: a store's [bestPerformance] and [worstPerformance] are
    [Math.max] and [Math.min] folded over its own sales in input order,
    starting from [0] and [Infinity]: the best of a store whose sales
    are all negative is [0], not its largest sale. *)
Theorem store_extremes ms b s :
  processAnalytics ms = Ok b -> In s (Bundle.storePerformance b) ->
  StorePerformance.bestPerformance s
    = fold_left (fun b e => num_max b (ev_sales e))
                (store_events_of (StorePerformance.store s) ms) num_zero /\
  StorePerformance.worstPerformance s
    = fold_left (fun w e => num_min w (ev_sales e))
                (store_events_of (StorePerformance.store s) ms) NPosInf.
Proof.
  intros H Hin. destruct (store_record_view _ _ _ H Hin) as (e & es & Hes & Hs).
  rewrite Hes, Hs. cbn [finalize_store StorePerformance.bestPerformance
                        StorePerformance.worstPerformance].
  apply store_fold_extremes.
Qed.

(** C9: a store with a single match has consistency ["0.0"] when its
    sales are positive, ["NaN"] when they are zero (and when they are
    infinite) and ["-100.0"] when they are negative, because
    [bestPerformance] starts at [0]. *)
Theorem single_match_consistency ms b s :
  processAnalytics ms = Ok b -> In s (Bundle.storePerformance b) ->
  StorePerformance.matches s = 1 ->
  StorePerformance.consistency s
  = match StorePerformance.totalSales s with
    | NFin q => if q_ltb 0 q then "0.0" else if q_ltb q 0 then "-100.0" else "NaN"
    | _ => "NaN"
    end%string.
Proof.
  intros H Hin H1. destruct (store_record_view _ _ _ H Hin) as (e & es & _ & Hs).
  destruct (store_fold_fields (store_init e) (e :: es) _ eq_refl) as (_ & _ & Hm & _).
  rewrite Hs in H1 |- *. cbn [finalize_store StorePerformance.matches] in H1.
  rewrite Hm in H1. cbn in H1. destruct es; [|discriminate].
  apply single_match_consistency_value.
Qed.

End AnalyticsFacts.
