(* ===== verification/Legacy.v ===== *)
(** * The legacy helpers of [src/src/utils/dataHelpers.js]

    An older, unused (no module imports it) duplicate of the pipeline:
    [parseCSVData] splits on every comma, keeps every line after the
    header and never throws; [calculateGroupStats] and
    [calculateStorePerformance] repeat the group and store handlers of
    [analytics.js] without [|| 0] on the group number and without
    [recentForm]; [formatCurrency], [getRankColor] and
    [getCompetitivenessLevel] format values for display.

    A short line leaves [values[i]] [undefined]: the string fields of a
    legacy record are [option string] ([None] is [undefined]), the
    numeric ones [parseFloat(undefined)], that is NaN.  As property keys
    and in [===] tests [undefined] is the value the code sees: the key
    ["undefined"], and [undefined === undefined]. *)

From S2P Require Import Prelude JsString JsNum JsObject JsSort CsvParser Analytics AnalyticsFacts.

Module LegacyMatch.
Record t : Type := mk {
  Date : option string;
  Group : option string;
  No : option string;
  Matches : option string;
  Team1 : option string;
  Team2 : option string;
  Team1Sales : num;
  Team2Sales : num;
  Winner : option string;
  Loser : option string;
  Winner_1 : num;
  Loser_2 : num;
  TotalWinner : num;
  TotalLoser : num
}.
End LegacyMatch.

Module LegacyGroupAcc.
Record t : Type := mk {
  group : string;
  groupNumber : num;
  totalSales : num;
  matches : nat;
  highestMatch : num;
  lowestMatch : num;
  stores : list (option string);
  totalMargin : num;
  closestMatch : num
}.
End LegacyGroupAcc.

Module LegacyGroupStats.
Record t : Type := mk {
  group : string;
  groupNumber : num;
  totalSales : num;
  matches : nat;
  avgSalesPerMatch : num;
  highestMatch : num;
  lowestMatch : num;
  stores : list (option string);
  totalMargin : num;
  closestMatch : num;
  avgMargin : num;
  storeCount : nat;
  competitiveness : num
}.
End LegacyGroupStats.

Module LegacyStoreAcc.
Record t : Type := mk {
  store : option string;
  group : string;
  groupNumber : num;
  totalSales : num;
  matches : nat;
  wins : nat;
  losses : nat;
  points : nat;
  bestPerformance : num;
  worstPerformance : num
}.
End LegacyStoreAcc.

Module LegacyStorePerformance.
Record t : Type := mk {
  store : option string;
  group : string;
  groupNumber : num;
  totalSales : num;
  matches : nat;
  wins : nat;
  losses : nat;
  avgSales : num;
  points : nat;
  bestPerformance : num;
  worstPerformance : num;
  winRate : string;
  consistency : string
}.
End LegacyStorePerformance.

(** [{ level, color }] of [getCompetitivenessLevel]. *)
Module Level.
Record t : Type := mk { level : string; color : string }.
End Level.

Module DataHelpers.
Local Open Scope string_scope.

(** ** Values that may be [undefined] *)

(** ToPropertyKey and ToString: [undefined] becomes ["undefined"]. *)
Definition prop_key (v : option string) : string :=
  match v with Some s => s | None => "undefined" end.

(** [a === b] on two values that are strings or [undefined]. *)
Definition opt_eqb (a b : option string) : bool :=
  match a, b with
  | Some x, Some y => String.eqb x y
  | None, None => true
  | _, _ => false
  end.

(** [set.add(v)] on a [Set] of strings and [undefined]. *)
Definition set_add (l : list (option string)) (v : option string) : list (option string) :=
  if existsb (opt_eqb v) l then l else l ++ [v].

(** ** [parseCSVData] (lines 11-34) *)

(** [values[i]] *)
Definition field (values : list string) (i : nat) : option string := nth_error values i.

(** [parseFloat(values[i])] *)
Definition num_field (values : list string) (i : nat) : num :=
  parseFloat (prop_key (field values i)).

(** The callback of [lines.slice(1).map(line => ...)] (lines 15-33). *)
Definition parse_line (line : string) : LegacyMatch.t :=
  let values := split_char SalesApi.comma_char line in
  {| LegacyMatch.Date := field values 0;
     LegacyMatch.Group := field values 1;
     LegacyMatch.No := field values 2;
     LegacyMatch.Matches := field values 3;
     LegacyMatch.Team1 := field values 4;
     LegacyMatch.Team2 := field values 5;
     LegacyMatch.Team1Sales := num_field values 6;
     LegacyMatch.Team2Sales := num_field values 7;
     LegacyMatch.Winner := field values 8;
     LegacyMatch.Loser := field values 9;
     LegacyMatch.Winner_1 := num_field values 10;
     LegacyMatch.Loser_2 := num_field values 11;
     LegacyMatch.TotalWinner := num_field values 12;
     LegacyMatch.TotalLoser := num_field values 13 |}.

(** [lines[0].split(',')] only names the unused [headers]. *)
Definition parseCSVData (csvData : string) : list LegacyMatch.t :=
  map parse_line (tl (split_char SalesApi.newline_char (trim csvData))).

(** ** [calculateGroupStats] (lines 41-83) *)

Definition type_error_replace : string :=
  "Cannot read properties of undefined (reading 'replace')".

Definition match_sales (m : LegacyMatch.t) : num :=
  num_add (LegacyMatch.Team1Sales m) (LegacyMatch.Team2Sales m).

Definition match_margin (m : LegacyMatch.t) : num :=
  num_abs (num_sub (LegacyMatch.Team1Sales m) (LegacyMatch.Team2Sales m)).

(** [parseInt(group.replace('Group ', ''))], no [|| 0] (lines 52, 102). *)
Definition group_number (group : string) : num :=
  parseInt (replace_first "Group " EmptyString group).

Definition group_init (group : string) : LegacyGroupAcc.t :=
  {| LegacyGroupAcc.group := group;
     LegacyGroupAcc.groupNumber := group_number group;
     LegacyGroupAcc.totalSales := num_zero;
     LegacyGroupAcc.matches := 0;
     LegacyGroupAcc.highestMatch := num_zero;
     LegacyGroupAcc.lowestMatch := NPosInf;
     LegacyGroupAcc.stores := [];
     LegacyGroupAcc.totalMargin := num_zero;
     LegacyGroupAcc.closestMatch := NPosInf |}.

Definition group_step (m : LegacyMatch.t) (g : LegacyGroupAcc.t) : LegacyGroupAcc.t :=
  {| LegacyGroupAcc.group := LegacyGroupAcc.group g;
     LegacyGroupAcc.groupNumber := LegacyGroupAcc.groupNumber g;
     LegacyGroupAcc.totalSales := num_add (LegacyGroupAcc.totalSales g) (match_sales m);
     LegacyGroupAcc.matches := S (LegacyGroupAcc.matches g);
     LegacyGroupAcc.highestMatch := num_max (LegacyGroupAcc.highestMatch g) (match_sales m);
     LegacyGroupAcc.lowestMatch := num_min (LegacyGroupAcc.lowestMatch g) (match_sales m);
     LegacyGroupAcc.stores :=
       set_add (set_add (LegacyGroupAcc.stores g) (LegacyMatch.Team1 m)) (LegacyMatch.Team2 m);
     LegacyGroupAcc.totalMargin := num_add (LegacyGroupAcc.totalMargin g) (match_margin m);
     LegacyGroupAcc.closestMatch := num_min (LegacyGroupAcc.closestMatch g) (match_margin m) |}.

(** The body of [matches.forEach] (lines 44-72).  A missing record is
    created from [group.replace(...)], which throws on [undefined]; an
    inherited value (a function, or [Object.prototype] for
    [__proto__]) is truthy, skips the creation, takes the writes of
    lines 64-67 and throws at [stores.add] (line 68). *)
Definition group_handler (o : obj LegacyGroupAcc.t) (m : LegacyMatch.t)
  : result (obj LegacyGroupAcc.t) :=
  let k := prop_key (LegacyMatch.Group m) in
  match obj_prop o k with
  | Own g => Ok (obj_set o k (group_step m g))
  | Inherited => Throw ProcessAnalytics.type_error_add
  | Absent =>
      match LegacyMatch.Group m with
      | None => Throw type_error_replace
      | Some group => Ok (obj_set o k (group_step m (group_init group)))
      end
  end.

Definition finalize_group (g : LegacyGroupAcc.t) : LegacyGroupStats.t :=
  let avgSalesPerMatch :=
    num_div (LegacyGroupAcc.totalSales g) (num_of_nat (LegacyGroupAcc.matches g)) in
  let avgMargin :=
    num_div (LegacyGroupAcc.totalMargin g) (num_of_nat (LegacyGroupAcc.matches g)) in
  {| LegacyGroupStats.group := LegacyGroupAcc.group g;
     LegacyGroupStats.groupNumber := LegacyGroupAcc.groupNumber g;
     LegacyGroupStats.totalSales := LegacyGroupAcc.totalSales g;
     LegacyGroupStats.matches := LegacyGroupAcc.matches g;
     LegacyGroupStats.avgSalesPerMatch := avgSalesPerMatch;
     LegacyGroupStats.highestMatch := LegacyGroupAcc.highestMatch g;
     LegacyGroupStats.lowestMatch := LegacyGroupAcc.lowestMatch g;
     LegacyGroupStats.stores := LegacyGroupAcc.stores g;
     LegacyGroupStats.totalMargin := LegacyGroupAcc.totalMargin g;
     LegacyGroupStats.closestMatch := LegacyGroupAcc.closestMatch g;
     LegacyGroupStats.avgMargin := avgMargin;
     LegacyGroupStats.storeCount := List.length (LegacyGroupAcc.stores g);
     LegacyGroupStats.competitiveness :=
       num_mul (num_div avgMargin avgSalesPerMatch) (num_of_nat 100) |}.

(** [(a, b) => a.groupNumber - b.groupNumber] (line 82). *)
Definition group_cmp (a b : LegacyGroupStats.t) : num :=
  num_sub (LegacyGroupStats.groupNumber a) (LegacyGroupStats.groupNumber b).

Definition calculateGroupStats (matches : list LegacyMatch.t)
  : result (list LegacyGroupStats.t) :=
  match result_fold group_handler [] matches with
  | Throw e => Throw e
  | Ok groupStats => Ok (js_sort group_cmp (obj_values (obj_map finalize_group groupStats)))
  end.

(** ** [calculateStorePerformance] (lines 90-144) *)

Record StoreEvent : Type := mkStoreEvent {
  ev_store : option string;
  ev_group : option string;
  ev_sales : num;
  ev_isWinner : bool
}.

(** [[match.Team1, match.Team2].forEach((store, idx) => ...)] (lines 94-96). *)
Definition store_events (m : LegacyMatch.t) : list StoreEvent :=
  [ mkStoreEvent (LegacyMatch.Team1 m) (LegacyMatch.Group m) (LegacyMatch.Team1Sales m)
                 (opt_eqb (LegacyMatch.Team1 m) (LegacyMatch.Winner m));
    mkStoreEvent (LegacyMatch.Team2 m) (LegacyMatch.Group m) (LegacyMatch.Team2Sales m)
                 (opt_eqb (LegacyMatch.Team2 m) (LegacyMatch.Winner m)) ].

Definition store_init (store : option string) (group : string) : LegacyStoreAcc.t :=
  {| LegacyStoreAcc.store := store;
     LegacyStoreAcc.group := group;
     LegacyStoreAcc.groupNumber := group_number group;
     LegacyStoreAcc.totalSales := num_zero;
     LegacyStoreAcc.matches := 0;
     LegacyStoreAcc.wins := 0;
     LegacyStoreAcc.losses := 0;
     LegacyStoreAcc.points := 0;
     LegacyStoreAcc.bestPerformance := num_zero;
     LegacyStoreAcc.worstPerformance := NPosInf |}.

Definition store_step (e : StoreEvent) (s : LegacyStoreAcc.t) : LegacyStoreAcc.t :=
  {| LegacyStoreAcc.store := LegacyStoreAcc.store s;
     LegacyStoreAcc.group := LegacyStoreAcc.group s;
     LegacyStoreAcc.groupNumber := LegacyStoreAcc.groupNumber s;
     LegacyStoreAcc.totalSales := num_add (LegacyStoreAcc.totalSales s) (ev_sales e);
     LegacyStoreAcc.matches := S (LegacyStoreAcc.matches s);
     LegacyStoreAcc.wins :=
       if ev_isWinner e then S (LegacyStoreAcc.wins s) else LegacyStoreAcc.wins s;
     LegacyStoreAcc.losses :=
       if ev_isWinner e then LegacyStoreAcc.losses s else S (LegacyStoreAcc.losses s);
     LegacyStoreAcc.points :=
       if ev_isWinner e then LegacyStoreAcc.points s + 3 else LegacyStoreAcc.points s;
     LegacyStoreAcc.bestPerformance := num_max (LegacyStoreAcc.bestPerformance s) (ev_sales e);
     LegacyStoreAcc.worstPerformance :=
       num_min (LegacyStoreAcc.worstPerformance s) (ev_sales e) |}.

(** One store of one match (lines 95-130).  The creation evaluates
    [match.Group.replace(...)], which throws on [undefined].  An
    inherited value is truthy: the writes of lines 114-130 go to that
    function (or to [Object.prototype] for [__proto__], where they only
    leave NaN-valued, falsy properties) and nothing throws, so the store
    never reaches [Object.values(storePerformance)]. *)
Definition store_handler (o : obj LegacyStoreAcc.t) (e : StoreEvent)
  : result (obj LegacyStoreAcc.t) :=
  let k := prop_key (ev_store e) in
  match obj_prop o k with
  | Own s => Ok (obj_set o k (store_step e s))
  | Inherited => Ok o
  | Absent =>
      match ev_group e with
      | None => Throw type_error_replace
      | Some group => Ok (obj_set o k (store_step e (store_init (ev_store e) group)))
      end
  end.

Definition finalize_store (s : LegacyStoreAcc.t) : LegacyStorePerformance.t :=
  let avgSales :=
    num_div (LegacyStoreAcc.totalSales s) (num_of_nat (LegacyStoreAcc.matches s)) in
  {| LegacyStorePerformance.store := LegacyStoreAcc.store s;
     LegacyStorePerformance.group := LegacyStoreAcc.group s;
     LegacyStorePerformance.groupNumber := LegacyStoreAcc.groupNumber s;
     LegacyStorePerformance.totalSales := LegacyStoreAcc.totalSales s;
     LegacyStorePerformance.matches := LegacyStoreAcc.matches s;
     LegacyStorePerformance.wins := LegacyStoreAcc.wins s;
     LegacyStorePerformance.losses := LegacyStoreAcc.losses s;
     LegacyStorePerformance.avgSales := avgSales;
     LegacyStorePerformance.points := LegacyStoreAcc.points s;
     LegacyStorePerformance.bestPerformance := LegacyStoreAcc.bestPerformance s;
     LegacyStorePerformance.worstPerformance := LegacyStoreAcc.worstPerformance s;
     LegacyStorePerformance.winRate :=
       toFixed 1 (num_mul (num_div (num_of_nat (LegacyStoreAcc.wins s))
                                   (num_of_nat (LegacyStoreAcc.matches s))) (num_of_nat 100));
     LegacyStorePerformance.consistency :=
       toFixed 1 (num_mul (num_div (num_sub (LegacyStoreAcc.bestPerformance s)
                                            (LegacyStoreAcc.worstPerformance s)) avgSales)
                          (num_of_nat 100)) |}.

(** Both stores of one match, in order. *)
Definition store_match (o : obj LegacyStoreAcc.t) (m : LegacyMatch.t)
  : result (obj LegacyStoreAcc.t) :=
  result_fold store_handler o (store_events m).

Definition calculateStorePerformance (matches : list LegacyMatch.t)
  : result (list LegacyStorePerformance.t) :=
  match result_fold store_match [] matches with
  | Throw e => Throw e
  | Ok storePerformance => Ok (obj_values (obj_map finalize_store storePerformance))
  end.

(** ** Display helpers (lines 151-185) *)

(** [value >= 1000 ? `$${(value / 1000).toFixed(1)}K` : `$${value.toFixed(0)}`] *)
Definition formatCurrency (value : num) : string :=
  if num_ge value (num_of_nat 1000)
  then "$" ++ toFixed 1 (num_div value (num_of_nat 1000)) ++ "K"
  else "$" ++ toFixed 0 value.

Definition getRankColor (rank : num) : string :=
  if num_eqb rank (num_of_nat 0) then "text-yellow-400"
  else if num_eqb rank (num_of_nat 1) then "text-gray-300"
  else if num_eqb rank (num_of_nat 2) then "text-orange-400"
  else "text-purple-300".

Definition getCompetitivenessLevel (competitiveness : num) : Level.t :=
  let adjusted := num_sub (num_of_nat 100) competitiveness in
  if num_ge adjusted (num_of_nat 90) then Level.mk "Very High" "text-green-400"
  else if num_ge adjusted (num_of_nat 70) then Level.mk "High" "text-yellow-400"
  else Level.mk "Moderate" "text-red-400".

End DataHelpers.

(** ** The legacy helpers against [processAnalytics]

    A [MatchRecord] of the new parser has every field: [to_legacy] sees
    it as a legacy record.  The legacy records of groups and stores are
    the new ones with [stores] and [store] as values that may be
    [undefined], and without [recentForm]. *)
Module LegacyFacts.
Import ProcessAnalytics AnalyticsFacts.

Definition to_legacy (m : MatchRecord) : LegacyMatch.t :=
  {| LegacyMatch.Date := Some (Date m); LegacyMatch.Group := Some (Group m);
     LegacyMatch.No := Some (No m); LegacyMatch.Matches := Some (Matches m);
     LegacyMatch.Team1 := Some (Team1 m); LegacyMatch.Team2 := Some (Team2 m);
     LegacyMatch.Team1Sales := Team1Sales m; LegacyMatch.Team2Sales := Team2Sales m;
     LegacyMatch.Winner := Some (Winner m); LegacyMatch.Loser := Some (Loser m);
     LegacyMatch.Winner_1 := Winner_1 m; LegacyMatch.Loser_2 := Loser_2 m;
     LegacyMatch.TotalWinner := TotalWinner m; LegacyMatch.TotalLoser := TotalLoser m |}.

Definition lift_group_acc (g : GroupAcc.t) : LegacyGroupAcc.t :=
  LegacyGroupAcc.mk (GroupAcc.group g) (GroupAcc.groupNumber g) (GroupAcc.totalSales g)
    (GroupAcc.matches g) (GroupAcc.highestMatch g) (GroupAcc.lowestMatch g)
    (map Some (GroupAcc.stores g)) (GroupAcc.totalMargin g) (GroupAcc.closestMatch g).

Definition lift_group (g : GroupStats.t) : LegacyGroupStats.t :=
  LegacyGroupStats.mk (GroupStats.group g) (GroupStats.groupNumber g)
    (GroupStats.totalSales g) (GroupStats.matches g) (GroupStats.avgSalesPerMatch g)
    (GroupStats.highestMatch g) (GroupStats.lowestMatch g) (map Some (GroupStats.stores g))
    (GroupStats.totalMargin g) (GroupStats.closestMatch g) (GroupStats.avgMargin g)
    (GroupStats.storeCount g) (GroupStats.competitiveness g).

Definition lift_event (e : StoreEvent) : DataHelpers.StoreEvent :=
  DataHelpers.mkStoreEvent (Some (ev_store e)) (Some (ev_group e)) (ev_sales e) (ev_isWinner e).

Definition lift_store_acc (s : StoreAcc.t) : LegacyStoreAcc.t :=
  LegacyStoreAcc.mk (Some (StoreAcc.store s)) (StoreAcc.group s) (StoreAcc.groupNumber s)
    (StoreAcc.totalSales s) (StoreAcc.matches s) (StoreAcc.wins s) (StoreAcc.losses s)
    (StoreAcc.points s) (StoreAcc.bestPerformance s) (StoreAcc.worstPerformance s).

Definition lift_store (s : StorePerformance.t) : LegacyStorePerformance.t :=
  LegacyStorePerformance.mk (Some (StorePerformance.store s)) (StorePerformance.group s)
    (StorePerformance.groupNumber s) (StorePerformance.totalSales s)
    (StorePerformance.matches s) (StorePerformance.wins s) (StorePerformance.losses s)
    (StorePerformance.avgSales s) (StorePerformance.points s)
    (StorePerformance.bestPerformance s) (StorePerformance.worstPerformance s)
    (StorePerformance.winRate s) (StorePerformance.consistency s).

(** The group number parses: [|| 0] then changes nothing. *)
Definition group_parses (group : string) : bool :=
  negb (is_nan (DataHelpers.group_number group)).

Lemma group_number_agree g :
  group_parses g = true -> ProcessAnalytics.group_number g = DataHelpers.group_number g.
Proof. unfold group_parses. intros H. apply num_or_zero_parseInt, negb_true_iff, H. Qed.

Lemma set_add_lift l k :
  DataHelpers.set_add (map Some l) (Some k) = map Some (add_key l k).
Proof.
  unfold DataHelpers.set_add, add_key.
  replace (existsb (DataHelpers.opt_eqb (Some k)) (map Some l)) with (existsb (String.eqb k) l)
    by (induction l as [|x l IH]; simpl; congruence).
  destruct (existsb (String.eqb k) l); [reflexivity|]. rewrite map_app. reflexivity.
Qed.

Lemma group_step_lift m g :
  DataHelpers.group_step (to_legacy m) (lift_group_acc g) = lift_group_acc (group_step m g).
Proof.
  destruct g. unfold DataHelpers.group_step, lift_group_acc, group_step.
  cbn -[DataHelpers.set_add add_key]. rewrite !set_add_lift. reflexivity.
Qed.

Lemma group_init_lift m :
  group_parses (Group m) = true ->
  DataHelpers.group_init (Group m) = lift_group_acc (group_init m).
Proof. intros Hp. unfold DataHelpers.group_init. rewrite <- group_number_agree by exact Hp. reflexivity. Qed.

Lemma group_handler_sim o m o' :
  group_parses (Group m) = true -> upsert o m = Some o' ->
  DataHelpers.group_handler (obj_map lift_group_acc o) (to_legacy m)
  = Ok (obj_map lift_group_acc o').
Proof.
  intros Hp. unfold upsert, DataHelpers.group_handler. cbn [acc_key acc_step acc_init group_accumulator].
  change (DataHelpers.prop_key (LegacyMatch.Group (to_legacy m))) with (Group m).
  change (LegacyMatch.Group (to_legacy m)) with (Some (Group m)).
  rewrite obj_prop_map.
  destruct (obj_prop o (Group m)); intros Hu; inv Hu; cbn beta iota; rewrite obj_map_set;
    rewrite ?group_init_lift by exact Hp; rewrite group_step_lift; reflexivity.
Qed.
Lemma store_step_lift e s :
  DataHelpers.store_step (lift_event e) (lift_store_acc s) = lift_store_acc (store_step e s).
Proof. destruct e, s. reflexivity. Qed.

Lemma store_init_lift e :
  group_parses (ev_group e) = true ->
  DataHelpers.store_init (Some (ev_store e)) (ev_group e) = lift_store_acc (store_init e).
Proof.
  intros Hp. unfold DataHelpers.store_init. rewrite <- group_number_agree by exact Hp.
  reflexivity.
Qed.

Lemma store_handler_sim o e o' :
  group_parses (ev_group e) = true -> upsert o e = Some o' ->
  DataHelpers.store_handler (obj_map lift_store_acc o) (lift_event e)
  = Ok (obj_map lift_store_acc o').
Proof.
  intros Hp. unfold upsert, DataHelpers.store_handler. cbn [acc_key acc_step acc_init store_accumulator].
  change (DataHelpers.prop_key (DataHelpers.ev_store (lift_event e))) with (ev_store e).
  change (DataHelpers.ev_group (lift_event e)) with (Some (ev_group e)).
  change (DataHelpers.ev_store (lift_event e)) with (Some (ev_store e)).
  rewrite obj_prop_map.
  destruct (obj_prop o (ev_store e)); intros Hu; inv Hu; cbn beta iota; rewrite obj_map_set;
    rewrite ?store_init_lift by exact Hp; rewrite store_step_lift; reflexivity.
Qed.

Lemma store_match_fold o ms :
  result_fold DataHelpers.store_match o (map to_legacy ms)
  = result_fold DataHelpers.store_handler o (map lift_event (all_store_events ms)).
Proof.
  unfold DataHelpers.store_match. rewrite result_fold_flat_map. f_equal.
  unfold all_store_events. induction ms as [|m ms IH]; simpl; [reflexivity|].
  rewrite IH. reflexivity.
Qed.

Lemma all_store_events_groups (P : string -> Prop) ms :
  Forall (fun m => P (Group m)) ms -> Forall (fun e => P (ev_group e)) (all_store_events ms).
Proof.
  unfold all_store_events. induction 1; simpl; [constructor|].
  repeat constructor; assumption.
Qed.

Lemma finalize_group_lift g :
  DataHelpers.finalize_group (lift_group_acc g) = lift_group (finalize_group g).
Proof. unfold DataHelpers.finalize_group. cbn. rewrite length_map. reflexivity. Qed.

Lemma finalize_store_lift s :
  DataHelpers.finalize_store (lift_store_acc s) = lift_store (finalize_store s).
Proof. reflexivity. Qed.

Lemma forallb_group_parses ms :
  forallb (fun m => group_parses (Group m)) ms = true ->
  Forall (fun m => group_parses (Group m) = true) ms.
Proof. intros H. apply Forall_forall. intros m Hm. exact (proj1 (forallb_forall _ _) H m Hm). Qed.

(** C35: on the records of the new parser, whenever [processAnalytics]
    succeeds and every group name parses to a number, the legacy
    [calculateGroupStats] returns the same group list, in the same
    order and with the same figures (the store sets seen as values). *)
Theorem legacy_groups_agree ms b :
  processAnalytics ms = Ok b ->
  forallb (fun m => group_parses (Group m)) ms = true ->
  DataHelpers.calculateGroupStats (map to_legacy ms) = Ok (map lift_group (Bundle.groupStats b)).
Proof.
  intros H Hp. apply forallb_group_parses in Hp.
  apply processAnalytics_Ok in H as (gs & sp & Hg & Hs & ->).
  unfold DataHelpers.calculateGroupStats.
  change (@nil (string * LegacyGroupAcc.t)) with (obj_map lift_group_acc (@nil (string * GroupAcc.t))).
  rewrite (accumulate_simulation _ lift_group_acc to_legacy _ group_handler_sim [] ms gs Hp Hg).
  rewrite obj_map_map, (obj_map_ext _ (fun x => lift_group (finalize_group x))) by apply finalize_group_lift.
  rewrite <- obj_map_map, obj_values_map. unfold finalize_state. cbn [Bundle.groupStats State.groupStats].
  rewrite (js_sort_map group_cmp) by reflexivity. reflexivity.
Qed.

(** C36: under the same conditions the legacy [calculateStorePerformance]
    returns the store list of [processAnalytics], in the same order and
    with the same figures and strings, [recentForm] apart. *)
Theorem legacy_stores_agree ms b :
  processAnalytics ms = Ok b ->
  forallb (fun m => group_parses (Group m)) ms = true ->
  DataHelpers.calculateStorePerformance (map to_legacy ms)
  = Ok (map lift_store (Bundle.storePerformance b)).
Proof.
  intros H Hp. apply forallb_group_parses, (all_store_events_groups (fun g => group_parses g = true)) in Hp.
  apply processAnalytics_Ok in H as (gs & sp & Hg & Hs & ->).
  unfold DataHelpers.calculateStorePerformance. rewrite store_match_fold.
  change (@nil (string * LegacyStoreAcc.t)) with (obj_map lift_store_acc (@nil (string * StoreAcc.t))).
  rewrite (accumulate_simulation _ lift_store_acc lift_event _ store_handler_sim [] _ sp Hp Hs).
  rewrite obj_map_map, (obj_map_ext _ (fun x => lift_store (finalize_store x))) by apply finalize_store_lift.
  rewrite <- obj_map_map, obj_values_map. reflexivity.
Qed.
End LegacyFacts.
