(* ===== verification/Http.v ===== *)
(** * The HTTP layer: [fetchSalesData] and the serverless relays

    [fetch] is an input: a function from the requested URL to its
    outcome, a rejection with the [TypeError]'s message or a response
    with its status, status text and body text ([Fetch]).  A serverless
    handler builds its reply on the Node [res] object by a sequence of
    [setHeader], [status] and [send]/[json]/[end] calls; [Res] models
    that object as a value and each call as a function on it.

    - [FetchSalesData]: [fetchSalesData] of [src/src/api/salesApi.js]
      (lines 67-98): the URL choice, the [ok] and empty-body checks, the
      parser, and the rewriting of the error message in the [catch].
    - [ProxyHandler], [MatchesHandler], [FetchMatchesHandler]: the
      handlers of [src/src/api/proxy.js], [matches.js] and
      [fetch-matches.js] (with its [options] preflight handler).
    - [relay_contract]: the relay the spec describes (section 6), and
      which of the three handlers implement it. *)

From S2P Require Import Prelude JsString JsNum JsObject JsJson CsvParser.

Module Fetch.
Record Response : Type := mkResponse { status : N; statusText : string; body : string }.

(** [response.ok]: the status is in the range 200-299. *)
Definition ok (r : Response) : bool := (200 <=? status r)%N && (status r <? 300)%N.

Inductive Outcome : Type :=
| Rejected (message : string)
| Resolved (r : Response).
End Fetch.

Module FetchSalesData.
Import Fetch.
Local Open Scope string_scope.

Definition production_url : string := "https://spl.starphones.com.au".

(** [import.meta.env.MODE === 'development' ? '/api' : ...] (lines 69-72). *)
Definition base_url (mode : string) : string :=
  if String.eqb mode "development" then "/api" else production_url.

Definition csv_url (mode : string) : string := base_url mode ++ "/matches.csv".

Definition http_error_message (r : Response) : string :=
  "HTTP " ++ digits_of_N (status r) ++ ": " ++ statusText r.

Definition empty_response_message : string := "Received empty response from server".

Definition network_error_message : string :=
  "Network error: Make sure the dev server is running.".

(** The [try] block (lines 68-87). *)
Definition try_block (mode : string) (fetch : string -> Outcome) : result (list MatchRecord) :=
  match fetch (csv_url mode) with
  | Rejected message => Throw message
  | Resolved response =>
      if negb (ok response) then Throw (http_error_message response)
      else if String.eqb (body response) EmptyString
              || Nat.eqb (String.length (trim (body response))) 0
      then Throw empty_response_message
      else SalesApi.parseCSVData (body response)
  end.

(** The [catch] block (lines 88-97): only Chromium's ["Failed to fetch"]
    is rewritten. *)
Definition rewrite_message (message : string) : string :=
  if includes message "Failed to fetch" then network_error_message else message.

Definition fetchSalesData (mode : string) (fetch : string -> Outcome)
  : result (list MatchRecord) :=
  match try_block mode fetch with
  | Ok data => Ok data
  | Throw message => Throw (rewrite_message message)
  end.
End FetchSalesData.

(** ** The [res] object of a serverless handler *)
Module Res.
Inductive Body : Type :=
| NoBody
| Text (s : string)
| Json (v : json).

Record t : Type := mk { statusCode : N; headers : obj string; body : Body }.

(** A fresh [res]: status 200, no header, nothing sent. *)
Definition init : t := mk 200 [] NoBody.

Definition setHeader (name value : string) (r : t) : t :=
  mk (statusCode r) (obj_set (headers r) name value) (body r).
Definition status (code : N) (r : t) : t := mk code (headers r) (body r).
Definition send (s : string) (r : t) : t := mk (statusCode r) (headers r) (Text s).
Definition json (v : json) (r : t) : t := mk (statusCode r) (headers r) (Json v).
Definition end_ (r : t) : t := mk (statusCode r) (headers r) NoBody.

Definition header (r : t) (name : string) : option string := obj_get (headers r) name.
End Res.

Module ProxyHandler.
Import Fetch.
Local Open Scope string_scope.

Definition error_body : json := JObject [("error", JString "Proxy failed")].

(** [handler(req, res)] of [proxy.js] (lines 1-14): the upstream body
    goes through [response.json()]; any rejection lands in the
    [catch]. *)
Definition handler (req_url : string) (fetch : string -> Outcome) : Res.t :=
  let path := replace_first "/api/" EmptyString req_url in
  let url := "https://spl.starphones.com.au/" ++ path in
  match fetch url with
  | Rejected _ => Res.json error_body (Res.status 500 Res.init)
  | Resolved response =>
      match JSON_parse (body response) with
      | None => Res.json error_body (Res.status 500 Res.init)
      | Some data =>
          Res.json data (Res.status 200 (Res.setHeader "Content-Type" "application/json" Res.init))
      end
  end.
End ProxyHandler.

Module MatchesHandler.
Import Fetch.
Local Open Scope string_scope.

Definition targetURL : string := "https://spl.starphones.com.au/matches.csv".

(** [handler(req, res)] of [matches.js] (lines 1-25). *)
Definition handler (fetch : string -> Outcome) : Res.t :=
  match fetch targetURL with
  | Rejected _ => Res.json (JObject [("error", JString "Server proxy failed")]) (Res.status 500 Res.init)
  | Resolved response =>
      if negb (ok response) then Res.send "Error fetching CSV" (Res.status (status response) Res.init)
      else
        Res.send (body response)
          (Res.status 200
             (Res.setHeader "Content-Type" "text/csv"
                (Res.setHeader "Access-Control-Allow-Headers" "Content-Type"
                   (Res.setHeader "Access-Control-Allow-Methods" "GET"
                      (Res.setHeader "Access-Control-Allow-Origin" "*" Res.init)))))
  end.
End MatchesHandler.

Module FetchMatchesHandler.
Import Fetch.
Local Open Scope string_scope.

Definition targetURL : string := "https://spl.starphones.com.au/matches.csv".

(** The [catch] block (lines 66-75). *)
Definition error_response (message : string) : Res.t :=
  Res.json (JObject [("error", JString "Failed to fetch CSV data"); ("message", JString message)])
    (Res.status 500
       (Res.setHeader "Content-Type" "application/json"
          (Res.setHeader "Access-Control-Allow-Origin" "*" Res.init))).

(** [handler(req, res)] of [fetch-matches.js] (lines 1-76). *)
Definition handler (fetch : string -> Outcome) : Res.t :=
  match fetch targetURL with
  | Rejected message => error_response message
  | Resolved response =>
      if negb (ok response) then
        error_response ("External server error: " ++ digits_of_N (status response) ++ " "
                        ++ statusText response)
      else
        Res.send (body response)
          (Res.status 200
             (Res.setHeader "Cache-Control" "public, max-age=300, s-maxage=600"
                (Res.setHeader "Content-Type" "text/csv"
                   (Res.setHeader "Access-Control-Allow-Headers" "Content-Type"
                      (Res.setHeader "Access-Control-Allow-Methods" "GET, OPTIONS"
                         (Res.setHeader "Access-Control-Allow-Origin" "*" Res.init))))))
  end.

(** [options(req, res)] (lines 79-84). *)
Definition options : Res.t :=
  Res.end_ (Res.status 200
    (Res.setHeader "Access-Control-Allow-Headers" "Content-Type"
       (Res.setHeader "Access-Control-Allow-Methods" "GET, OPTIONS"
          (Res.setHeader "Access-Control-Allow-Origin" "*" Res.init)))).
End FetchMatchesHandler.

(** ** Theorems *)
Module HttpFacts.
Import Fetch FetchSalesData.
Local Open Scope string_scope.

Lemma rewrite_message_id m : includes m "Failed to fetch" = false -> rewrite_message m = m.
Proof. unfold rewrite_message. intros ->. reflexivity. Qed.

(** The body is blank: empty, or white space only. *)
Definition blank (s : string) : bool :=
  String.eqb s EmptyString || Nat.eqb (String.length (trim s)) 0.

Lemma fetchSalesData_Ok mode fetch rows :
  fetchSalesData mode fetch = Ok rows ->
  exists r, fetch (csv_url mode) = Resolved r /\ ok r = true /\ blank (body r) = false /\
            SalesApi.parseCSVData (body r) = Ok rows.
Proof.
  unfold fetchSalesData, try_block, blank.
  destruct (fetch (csv_url mode)) as [m|r]; [discriminate|].
  destruct (ok r) eqn:Hok; [|discriminate]. cbn [negb].
  destruct (_ || _) eqn:Hb; [discriminate|].
  destruct (SalesApi.parseCSVData (body r)) eqn:Hp; intros H; inv H. eauto 6.
Qed.

(** [fetchSalesData] resolves with [rows] exactly when the request
    to [<base>/matches.csv] got a 2xx response whose body is not blank
    and parses into [rows]. *)
Theorem fetchSalesData_ok_iff mode fetch rows :
  fetchSalesData mode fetch = Ok rows <->
  exists r, fetch (csv_url mode) = Resolved r /\ ok r = true /\ blank (body r) = false /\
            SalesApi.parseCSVData (body r) = Ok rows.
Proof.
  split; [apply fetchSalesData_Ok|].
  intros (r & Hf & Hok & Hb & Hp). unfold fetchSalesData, try_block, blank in *.
  rewrite Hf, Hok, Hb, Hp. reflexivity.
Qed.

(** C27: a 2xx response with a blank body is reported as the
    empty-response error, distinct from the parser's errors: the
    request rejects with ["Received empty response from server"]
    exactly when the body is empty or white space only.  (Without the
    check of line 82 the parser would reject the blank body with its
    own ["Failed to parse CSV: "] error.) *)
Theorem blank_body_empty_response mode fetch r :
  fetch (csv_url mode) = Resolved r -> ok r = true ->
  fetchSalesData mode fetch = Throw empty_response_message <-> blank (body r) = true.
Proof.
  intros Hf Hok. unfold fetchSalesData, try_block. rewrite Hf, Hok. cbn [negb].
  unfold blank. destruct (_ || _) eqn:Hb; [split; reflexivity|].
  split; [|discriminate].
  destruct (SalesApi.parseCSVData (body r)) as [rows|e] eqn:Hp; [discriminate|].
  apply SalesApiTheorems.parseCSVData_error_prefix in Hp.
  unfold rewrite_message. destruct (includes e "Failed to fetch"); [discriminate|].
  intros H. injection H as ->. discriminate Hp.
Qed.

(** Every message [fetchSalesData] rejects with is one of the error
    kinds of the spec: the rewritten network error, the rejection
    message of [fetch] itself (when it does not say [Failed to
    fetch]), an HTTP status error, the empty-response error, or the
    parser's error (prefixed [Failed to parse CSV: ]). *)
Theorem fetchSalesData_error_kinds mode fetch m :
  fetchSalesData mode fetch = Throw m ->
  m = network_error_message \/
  (exists msg, fetch (csv_url mode) = Rejected msg /\ m = msg) \/
  (exists r, fetch (csv_url mode) = Resolved r /\ ok r = false /\ m = http_error_message r) \/
  (exists r, fetch (csv_url mode) = Resolved r /\ ok r = true /\ blank (body r) = true /\
             m = empty_response_message) \/
  (exists r e, fetch (csv_url mode) = Resolved r /\ ok r = true /\ blank (body r) = false /\
               SalesApi.parseCSVData (body r) = Throw e /\ m = e /\
               String.prefix SalesApi.parse_error_prefix e = true).
Proof.
  unfold fetchSalesData, blank.
  destruct (try_block mode fetch) eqn:Ht; [discriminate|].
  intros H; inv H. unfold rewrite_message.
  destruct (includes message "Failed to fetch"); [left; reflexivity|right].
  unfold try_block in Ht. destruct (fetch (csv_url mode)) as [msg|r]; [inv Ht; eauto|].
  destruct (ok r) eqn:Hok; cbn [negb] in Ht; [|inv Ht; eauto 6].
  destruct (_ || _) eqn:Hb; [inv Ht; eauto 8|].
  right. right. right. exists r, message. repeat split; auto.
  eapply SalesApiTheorems.parseCSVData_error_prefix; eassumption.
Qed.

(** *** The relay of the spec (section 6)

    [GET /matches.csv] answers 200 with [Content-Type: text/csv], the
    CORS origin header and the upstream body when the upstream answers
    2xx; otherwise (non-2xx upstream or transport failure) it answers
    500 with a JSON body [{error, message}]. *)
Definition json_error_body (b : Res.Body) : Prop :=
  exists e m, b = Res.Json (JObject [("error", JString e); ("message", JString m)]).

Definition relay_contract (h : (string -> Outcome) -> Res.t) (upstream : string) : Prop :=
  forall fetch,
    match fetch upstream with
    | Resolved r =>
        if ok r then
          Res.statusCode (h fetch) = 200%N /\
          Res.header (h fetch) "Content-Type" = Some "text/csv" /\
          Res.header (h fetch) "Access-Control-Allow-Origin" = Some "*" /\
          Res.body (h fetch) = Res.Text (body r)
        else Res.statusCode (h fetch) = 500%N /\ json_error_body (Res.body (h fetch))
    | Rejected _ => Res.statusCode (h fetch) = 500%N /\ json_error_body (Res.body (h fetch))
    end.

(** The preflight answer of the spec. *)
Definition preflight_contract (r : Res.t) : Prop :=
  Res.statusCode r = 200%N /\
  Res.header r "Access-Control-Allow-Origin" = Some "*" /\
  Res.header r "Access-Control-Allow-Methods" = Some "GET, OPTIONS" /\
  Res.header r "Access-Control-Allow-Headers" = Some "Content-Type".

(** C28: the handler of [fetch-matches.js] implements the relay of the
    spec for every upstream behaviour. *)
Theorem fetch_matches_relay_contract :
  relay_contract FetchMatchesHandler.handler FetchMatchesHandler.targetURL.
Proof.
  intros fetch. unfold FetchMatchesHandler.handler.
  destruct (fetch FetchMatchesHandler.targetURL) as [m|r].
  - split; [reflexivity | do 2 eexists; reflexivity].
  - destruct (ok r); cbn [negb]; [repeat split | split; [reflexivity | do 2 eexists; reflexivity]].
Qed.

(** The [options] handler of [fetch-matches.js] answers the CORS
    preflight as the spec requires. *)
Theorem fetch_matches_preflight : preflight_contract FetchMatchesHandler.options.
Proof. repeat split. Qed.

(** The handler of [matches.js] does not implement the relay: a
    non-2xx upstream status is forwarded as is, with a plain-text body
    and without the CORS header. *)
Theorem matches_handler_forwards_status :
  ~ relay_contract MatchesHandler.handler MatchesHandler.targetURL /\
  forall fetch r, fetch MatchesHandler.targetURL = Resolved r -> ok r = false ->
    Res.statusCode (MatchesHandler.handler fetch) = status r /\
    Res.header (MatchesHandler.handler fetch) "Access-Control-Allow-Origin" = None.
Proof.
  split.
  - intros H. specialize (H (fun _ => Resolved (mkResponse 404 "Not Found" EmptyString))).
    destruct H as [H _]. discriminate.
  - intros fetch r Hf Hok. unfold MatchesHandler.handler. rewrite Hf, Hok. split; reflexivity.
Qed.

(** C37: the handler of [proxy.js] answers 500 for every upstream body
    that is not JSON, whatever the upstream status: in particular for
    the CSV file, whose first character is the [D] of its header. *)
Theorem proxy_rejects_non_json req_url fetch r c rest :
  fetch ("https://spl.starphones.com.au/" ++ replace_first "/api/" EmptyString req_url) = Resolved r ->
  JsonParse.skip_ws (body r) = String c rest -> JsonParse.value_start c = false ->
  ProxyHandler.handler req_url fetch = Res.json ProxyHandler.error_body (Res.status 500 Res.init).
Proof.
  intros Hf Hs Hc. unfold ProxyHandler.handler. cbv zeta. rewrite Hf.
  rewrite (JSON_parse_bad_start _ _ _ Hs Hc). reflexivity.
Qed.
End HttpFacts.
