(* ===== verification/Dashboard.v ===== *)
(** * The dashboard: data flow and the derived views of the tabs

    - [DashboardTab] ([src/src/components/DashboardTab.jsx]): the store
      search ([filteredStores]), the top ten by the selected metric
      ([topStores]), the selection handlers and the figures of the
      selected store ([storeAnalytics]: its group, its rank in the group
      and overall, the radar values).
    - [StandingsTab] ([StandingsTab.jsx]): the group filter of the
      standings.
    - [Dashboard] ([Dashboard.jsx]): the component's state, the
      [fetchData] flow and the render choice, as a step function over
      UI events and fetch settlements, with its reachable states. *)

From S2P Require Import Prelude JsString JsNum JsObject JsSort JsFixed CsvParser Analytics AnalyticsFacts Http.

(** A property value read by [obj[key]] and used as a number. *)
Inductive jsval : Type :=
| VNum (n : num)
| VStr (s : string)
| VArr (items : list string)
| VUndef.

Module DashboardTab.
Local Open Scope string_scope.

Definition form_string (f : Form) : string := match f with W => "W" | L => "L" end.

(** [store[key]] on a record of [analytics.storePerformance]. *)
Definition store_field (s : StorePerformance.t) (key : string) : jsval :=
  if String.eqb key "store" then VStr (StorePerformance.store s)
  else if String.eqb key "group" then VStr (StorePerformance.group s)
  else if String.eqb key "groupNumber" then VNum (StorePerformance.groupNumber s)
  else if String.eqb key "totalSales" then VNum (StorePerformance.totalSales s)
  else if String.eqb key "matches" then VNum (num_of_nat (StorePerformance.matches s))
  else if String.eqb key "wins" then VNum (num_of_nat (StorePerformance.wins s))
  else if String.eqb key "losses" then VNum (num_of_nat (StorePerformance.losses s))
  else if String.eqb key "avgSales" then VNum (StorePerformance.avgSales s)
  else if String.eqb key "points" then VNum (num_of_nat (StorePerformance.points s))
  else if String.eqb key "bestPerformance" then VNum (StorePerformance.bestPerformance s)
  else if String.eqb key "worstPerformance" then VNum (StorePerformance.worstPerformance s)
  else if String.eqb key "recentForm" then VArr (map form_string (StorePerformance.recentForm s))
  else if String.eqb key "winRate" then VStr (StorePerformance.winRate s)
  else if String.eqb key "consistency" then VStr (StorePerformance.consistency s)
  else VUndef.

(** ToNumber, as the operands of [-] are converted: an array through
    its [join(',')], [undefined] (or an inherited method) to NaN. *)
Definition to_number (v : jsval) : num :=
  match v with
  | VNum n => n
  | VStr s => string_to_number s
  | VArr items =>
      match items with
      | [] => num_zero
      | [x] => string_to_number x
      | _ => NNaN
      end
  | VUndef => NNaN
  end.

Definition metric_value (metric : string) (s : StorePerformance.t) : num :=
  to_number (store_field s metric).

(** [store.store.toLowerCase().includes(searchQuery.toLowerCase())] *)
Definition matches_query (query : string) (s : StorePerformance.t) : bool :=
  includes (to_lower (StorePerformance.store s)) (to_lower query).

(** [filteredStores] (lines 11-16). *)
Definition filteredStores (searchQuery : string) (stores : list StorePerformance.t)
  : list StorePerformance.t :=
  if String.eqb searchQuery EmptyString then []
  else firstn 10 (filter (matches_query searchQuery) stores).

(** [(a, b) => b[selectedMetric] - a[selectedMetric]] (line 21). *)
Definition metric_cmp (metric : string) (a b : StorePerformance.t) : num :=
  num_sub (metric_value metric b) (metric_value metric a).

(** [topStores] (lines 19-23): a sorted copy, its first ten. *)
Definition topStores (selectedMetric : string) (stores : list StorePerformance.t)
  : list StorePerformance.t :=
  firstn 10 (js_sort (metric_cmp selectedMetric) stores).

(** The local state of the tab (lines 6-8) and its two handlers
    (lines 26-36). *)
Record UiState : Type := mkUi {
  searchQuery : string;
  selectedStore : option StorePerformance.t;
  showDropdown : bool
}.

Definition ui_init : UiState := mkUi EmptyString None false.

Definition handleStoreSelect (store : StorePerformance.t) (_ : UiState) : UiState :=
  mkUi (StorePerformance.store store) (Some store) false.

Definition handleClearStore (_ : UiState) : UiState := mkUi EmptyString None false.

(** [arr.findIndex(p) + 1]: the 1-based position of the first match, or
    [0] when there is none ([-1 + 1]). *)
Fixpoint find_index {A} (p : A -> bool) (l : list A) : option nat :=
  match l with
  | [] => None
  | x :: r => if p x then Some 0 else option_map S (find_index p r)
  end.

Definition rank {A} (p : A -> bool) (l : list A) : nat :=
  match find_index p l with Some i => S i | None => 0 end.

Module StoreAnalytics.
Record t : Type := mk {
  groupInfo : GroupStats.t;
  rankInGroup : nat;
  overallRank : nat;
  radarData : list (string * jsval);
  groupStandings : list Standing.t
}.
End StoreAnalytics.

Definition type_error_totalSales : string :=
  "Cannot read properties of undefined (reading 'totalSales')".
Definition type_error_findIndex : string := "groupStandings.findIndex is not a function".

(** [(a, b) => b.totalSales - a.totalSales] (line 45). *)
Definition sales_cmp (a b : StorePerformance.t) : num :=
  num_sub (StorePerformance.totalSales b) (StorePerformance.totalSales a).

(** The radar values of lines 48-54, given the store's group record. *)
Definition radar (s : StorePerformance.t) (g : GroupStats.t) : list (string * jsval) :=
  let hundred := num_of_nat 100 in
  [ ("Sales", VStr (toFixed 0 (num_mul (num_div (StorePerformance.totalSales s)
                                                (GroupStats.totalSales g)) hundred)));
    ("Win Rate", VStr (StorePerformance.winRate s));
    ("Avg Sales", VStr (toFixed 0 (num_mul (num_div (StorePerformance.avgSales s)
                                                    (GroupStats.avgSalesPerMatch g)) hundred)));
    ("Consistency", VNum (num_max num_zero
                            (num_sub hundred (parseFloat (StorePerformance.consistency s)))));
    ("Points", VStr (toFixed 0 (num_mul (num_div (num_of_nat (StorePerformance.points s))
                                                 (num_mul (num_of_nat (StorePerformance.matches s))
                                                          (num_of_nat 3))) hundred))) ].

(** [storeAnalytics] (lines 39-57).  [groupStandings[group] || []]
    reads an inherited method for a group named like one, whose
    [findIndex] call throws; a group without a record leaves
    [groupInfo] undefined and line 49 throws. *)
Definition storeAnalytics (selected : option StorePerformance.t) (analytics : Bundle.t)
  : result (option StoreAnalytics.t) :=
  match selected with
  | None => Ok None
  | Some s =>
      let groupInfo := find (fun g => String.eqb (GroupStats.group g) (StorePerformance.group s))
                            (Bundle.groupStats analytics) in
      match obj_prop (Bundle.groupStandings analytics) (StorePerformance.group s) with
      | Inherited => Throw type_error_findIndex
      | own_or_absent =>
          let standings := match own_or_absent with Own l => l | _ => [] end in
          let rankInGroup :=
            rank (fun st => String.eqb (StorePerformance.store (Standing.entry st))
                                       (StorePerformance.store s)) standings in
          let allStores := js_sort sales_cmp (Bundle.storePerformance analytics) in
          let overallRank :=
            rank (fun st => String.eqb (StorePerformance.store st) (StorePerformance.store s))
                 allStores in
          match groupInfo with
          | None => Throw type_error_totalSales
          | Some g => Ok (Some (StoreAnalytics.mk g rankInGroup overallRank (radar s g) standings))
          end
      end
  end.

(** Lines 60-89: the detail view when a store is selected and its
    figures exist, the overview otherwise. *)
Inductive TabView : Type :=
| StoreDetailView (s : StorePerformance.t) (a : StoreAnalytics.t)
| DashboardOverview (top : list StorePerformance.t).

Definition view (selectedMetric : string) (ui : UiState) (analytics : Bundle.t)
  : result TabView :=
  match storeAnalytics (selectedStore ui) analytics with
  | Throw e => Throw e
  | Ok sa =>
      match selectedStore ui, sa with
      | Some s, Some a => Ok (StoreDetailView s a)
      | _, _ => Ok (DashboardOverview (topStores selectedMetric (Bundle.storePerformance analytics)))
      end
  end.
End DashboardTab.

Module StandingsTab.
Local Open Scope string_scope.

(** [filteredGroupStandings] (lines 5-7). *)
Definition filteredGroupStandings (standingsGroupFilter : string) (analytics : Bundle.t)
  : obj (list Standing.t) :=
  if String.eqb standingsGroupFilter "all" then obj_entries (Bundle.groupStandings analytics)
  else filter (fun kv => String.eqb (fst kv) standingsGroupFilter)
              (obj_entries (Bundle.groupStandings analytics)).
End StandingsTab.

Module Overview.
Local Open Scope string_scope.

(** [analytics.groupStats.reduce((sum, g) => sum + g.f, 0)] *)
Definition group_sum (f : GroupStats.t -> num) (analytics : Bundle.t) : num :=
  fold_left (fun sum g => num_add sum (f g)) (Bundle.groupStats analytics) num_zero.

(** The five stat cards of [DashboardOverview.jsx] (lines 56-85). *)
Record KeyMetrics : Type := mkKeyMetrics {
  totalSales : string;
  totalMatches : num;
  activeStores : nat;
  groups : nat;
  days : nat
}.

Definition key_metrics (analytics : Bundle.t) : KeyMetrics :=
  {| totalSales := "$" ++ toFixed 0 (num_div (group_sum GroupStats.totalSales analytics)
                                             (num_of_nat 1000)) ++ "K";
     totalMatches := group_sum (fun g => num_of_nat (GroupStats.matches g)) analytics;
     activeStores := List.length (Bundle.storePerformance analytics);
     groups := List.length (Bundle.groupStats analytics);
     days := List.length (Bundle.dailyPerformance analytics) |}.

(** [groupComparisonData] (lines 21-27). *)
Definition groupComparisonData (analytics : Bundle.t) : list (string * num * num * nat * num) :=
  map (fun g => (replace_first "Group " "G" (GroupStats.group g), GroupStats.totalSales g,
                 GroupStats.avgSalesPerMatch g, GroupStats.storeCount g,
                 num_sub (num_of_nat 100) (GroupStats.competitiveness g)))
      (Bundle.groupStats analytics).
End Overview.

Module Dashboard.
Local Open Scope string_scope.

(** The state of [Dashboard] (lines 11-17), with the number of
    [fetchData] calls still awaiting [fetchSalesData] and whether the
    mount effect (lines 33-35) has run. *)
Record t : Type := mk {
  selectedMetric : string;
  rawData : list MatchRecord;
  loading : bool;
  error : option string;
  lastUpdated : option Z;
  activeTab : string;
  standingsGroupFilter : string;
  inFlight : nat;
  mounted : bool
}.

Definition init : t := mk "totalSales" [] true None None "dashboard" "all" 0 false.

(** What the component renders.  [useMemo(() => processAnalytics(rawData))]
    (line 37) runs before the [loading] test: a throw there fails the
    render whatever the state. *)
Inductive View : Type :=
| Crash (message : string)
| LoadingScreen
| ErrorScreen (message : string)
| NoData
| Main (analytics : Bundle.t).

(** [if (error)]: [null] and the empty string are falsy. *)
Definition error_shown (e : option string) : option string :=
  match e with
  | Some m => if String.eqb m EmptyString then None else Some m
  | None => None
  end.

Definition render (st : t) : View :=
  match ProcessAnalytics.processAnalytics (rawData st) with
  | Throw m => Crash m
  | Ok analytics =>
      if loading st then LoadingScreen
      else match error_shown (error st) with
           | Some m => ErrorScreen m
           | None => match rawData st with [] => NoData | _ => Main analytics end
           end
  end.

Definition is_main (v : View) : bool := match v with Main _ => true | _ => false end.
Definition is_error_screen (v : View) : bool := match v with ErrorScreen _ => true | _ => false end.

Inductive event : Type :=
| Mount
| ClickRefresh
| ClickRetry
| Settle (outcome : Fetch.Outcome) (now : Z)
| SelectTab (tab : string)
| SelectMetric (metric : string)
| SetGroupFilter (group : string).

(** [fetchData] up to its [await] (lines 20-23). *)
Definition start_fetch (st : t) : t :=
  mk (selectedMetric st) (rawData st) true None (lastUpdated st) (activeTab st)
     (standingsGroupFilter st) (S (inFlight st)) (mounted st).

(** [fetchData] after its [await] (lines 24-29). *)
Definition settle (mode : string) (outcome : Fetch.Outcome) (now : Z) (st : t) : t :=
  match FetchSalesData.fetchSalesData mode (fun _ => outcome) with
  | Ok data =>
      mk (selectedMetric st) data false (error st) (Some now) (activeTab st)
         (standingsGroupFilter st) (pred (inFlight st)) (mounted st)
  | Throw message =>
      mk (selectedMetric st) (rawData st) false (Some message) (lastUpdated st) (activeTab st)
         (standingsGroupFilter st) (pred (inFlight st)) (mounted st)
  end.

(** The mount effect (lines 33-35): [useEffect(() => fetchData(), [])]
    runs once, after the first render. *)
Definition mount (st : t) : option t :=
  if mounted st then None
  else Some (start_fetch (mk (selectedMetric st) (rawData st) (loading st) (error st)
                             (lastUpdated st) (activeTab st) (standingsGroupFilter st)
                             (inFlight st) true)).

(** One event, when it can happen in state [st]: the mount effect
    once; Retry on the error screen (line 62); Refresh, the tabs, the
    metric select (in the dashboard tab) and the group filter (in the
    standings tab) on the main screen, Refresh only when not loading
    (line 118); a settlement while a fetch is awaited. *)
Definition step (mode : string) (st : t) (e : event) : option t :=
  match e with
  | Mount => mount st
  | ClickRetry => if is_error_screen (render st) then Some (start_fetch st) else None
  | ClickRefresh => if is_main (render st) && negb (loading st) then Some (start_fetch st) else None
  | Settle outcome now => match inFlight st with
                          | O => None
                          | S _ => Some (settle mode outcome now st)
                          end
  | SelectTab tab =>
      if is_main (render st) then
        Some (mk (selectedMetric st) (rawData st) (loading st) (error st) (lastUpdated st) tab
                 (standingsGroupFilter st) (inFlight st) (mounted st))
      else None
  | SelectMetric metric =>
      if is_main (render st) && String.eqb (activeTab st) "dashboard" then
        Some (mk metric (rawData st) (loading st) (error st) (lastUpdated st) (activeTab st)
                 (standingsGroupFilter st) (inFlight st) (mounted st))
      else None
  | SetGroupFilter group =>
      if is_main (render st) && String.eqb (activeTab st) "standings" then
        Some (mk (selectedMetric st) (rawData st) (loading st) (error st) (lastUpdated st)
                 (activeTab st) group (inFlight st) (mounted st))
      else None
  end.

(** The states a session can reach from the first render. *)
Inductive reachable (mode : string) : t -> Prop :=
| reach_init : reachable mode init
| reach_step st e st' : reachable mode st -> step mode st e = Some st' -> reachable mode st'.

(** A session as a sequence of events, each of which must be enabled. *)
Fixpoint run (mode : string) (st : t) (es : list event) : option t :=
  match es with
  | [] => Some st
  | e :: es' => match step mode st e with Some st' => run mode st' es' | None => None end
  end.
End Dashboard.

(** ** Theorems on the dashboard's data flow *)
Module DashboardFacts.
Import Dashboard.

Section Flow.
Variable mode : string.

(** The invariant of the data flow. *)
Definition flow_inv (st : t) : Prop :=
  inFlight st <= 1 /\
  (mounted st = false -> inFlight st = 0 /\ loading st = true) /\
  (mounted st = true -> (loading st = true <-> inFlight st = 1)) /\
  (loading st = true -> error st = None) /\
  (rawData st = [] \/ exists o, FetchSalesData.fetchSalesData mode (fun _ => o) = Ok (rawData st)).

Lemma render_not_loading st :
  is_main (render st) || is_error_screen (render st) = true -> loading st = false.
Proof.
  unfold render. destruct (ProcessAnalytics.processAnalytics (rawData st)); [|discriminate].
  destruct (loading st); [discriminate | reflexivity].
Qed.

Lemma start_fetch_inv st :
  flow_inv st -> mounted st = true -> loading st = false -> flow_inv (start_fetch st).
Proof.
  intros (H1 & H2 & H3 & H4 & H5) Hm Hl. specialize (H3 Hm).
  assert (inFlight st <> 1) by (intros E; apply H3 in E; congruence).
  assert (Hz : inFlight st = 0) by lia.
  unfold start_fetch, flow_inv; cbn. rewrite Hz. repeat split; auto; congruence.
Qed.

Lemma step_inv st e st' : flow_inv st -> step mode st e = Some st' -> flow_inv st'.
Proof.
  intros Hinv. pose proof Hinv as (H1 & H2 & H3 & H4 & H5).
  destruct e; cbn [step].
  - unfold mount. destruct (mounted st) eqn:Hm; intros Hs; inv Hs.
    destruct (H2 eq_refl) as [H0 _]. unfold flow_inv, start_fetch; cbn. rewrite H0.
    repeat split; auto; congruence.
  - destruct (is_main _ && _) eqn:Hc; intros Hs; inv Hs. apply andb_prop in Hc as [Hc _].
    assert (Hl : loading st = false) by (apply render_not_loading; rewrite Hc; reflexivity).
    apply start_fetch_inv; auto. destruct (mounted st) eqn:Hm; auto.
    destruct (H2 eq_refl); congruence.
  - destruct (is_error_screen _) eqn:Hc; intros Hs; inv Hs.
    assert (Hl : loading st = false)
      by (apply render_not_loading; rewrite Hc, orb_true_r; reflexivity).
    apply start_fetch_inv; auto. destruct (mounted st) eqn:Hm; auto.
    destruct (H2 eq_refl); congruence.
  - destruct (inFlight st) as [|n] eqn:Hf; intros Hs; inv Hs.
    assert (Hm : mounted st = true) by (destruct (mounted st) eqn:Hm; auto;
                                        destruct (H2 eq_refl); congruence).
    unfold settle, flow_inv.
    destruct (FetchSalesData.fetchSalesData mode (fun _ => outcome)) eqn:Hr; cbn;
      rewrite Hf; (repeat split); cbn; try lia; try congruence; eauto.
  - destruct (is_main _); intros Hs; inv Hs. exact Hinv.
  - destruct (_ && _); intros Hs; inv Hs. exact Hinv.
  - destruct (_ && _); intros Hs; inv Hs. exact Hinv.
Qed.

Lemma run_reachable st es st' :
  reachable mode st -> run mode st es = Some st' -> reachable mode st'.
Proof.
  revert st. induction es as [|e es IH]; intros st Hr; cbn [run]; [intros H; inv H; exact Hr|].
  destruct (step mode st e) as [st1|] eqn:Hs; [|discriminate]. apply IH. econstructor; eauto.
Qed.

Lemma reachable_inv st : reachable mode st -> flow_inv st.
Proof.
  induction 1 as [|st e st' _ IH Hs]; [|exact (step_inv _ _ _ IH Hs)].
  unfold flow_inv; cbn. repeat split; auto; try discriminate; lia.
Qed.

(** Holding records means a fetch succeeded and stamped its time: the
    two are set together in [fetchData] (lines 24-25). *)
Definition updated_inv (st : t) : Prop := rawData st <> [] -> lastUpdated st <> None.

Lemma step_updated_inv st e st' : updated_inv st -> step mode st e = Some st' -> updated_inv st'.
Proof.
  intros Hu. destruct e; cbn [step].
  - unfold mount. destruct (mounted st); intros Hs; inv Hs. exact Hu.
  - destruct (_ && _); intros Hs; inv Hs. exact Hu.
  - destruct (is_error_screen _); intros Hs; inv Hs. exact Hu.
  - destruct (inFlight st); intros Hs; inv Hs. unfold settle, updated_inv.
    destruct (FetchSalesData.fetchSalesData _ _); cbn; [intros _; discriminate | exact Hu].
  - destruct (is_main _); intros Hs; inv Hs. exact Hu.
  - destruct (_ && _); intros Hs; inv Hs. exact Hu.
  - destruct (_ && _); intros Hs; inv Hs. exact Hu.
Qed.

Lemma reachable_updated st : reachable mode st -> updated_inv st.
Proof.
  induction 1 as [|st e st' _ IH Hs]; [|exact (step_updated_inv _ _ _ IH Hs)].
  intros H. contradiction.
Qed.

(** C29: in every reachable state at most one [fetchSalesData] call is
    awaited: the Refresh button is disabled while loading and the
    loading screen replaces it, Retry only exists on the error screen,
    and the mount effect runs once, so the UI never starts overlapping
    fetches. *)
Theorem no_overlapping_fetches st : reachable mode st -> inFlight st <= 1.
Proof. intros H. apply reachable_inv in H as (H & _). exact H. Qed.

(** C30: once mounted, the dashboard is loading exactly while a fetch is
    awaited, and no error is kept while it loads. *)
Theorem loading_iff_pending st :
  reachable mode st -> mounted st = true ->
  (loading st = true <-> inFlight st = 1) /\ (loading st = true -> error st = None).
Proof. intros H Hm. apply reachable_inv in H as (_ & _ & H3 & H4 & _). auto. Qed.

(** C31: the records the dashboard holds are, when there are any, the
    parse of the body of a 2xx response that is not blank. *)
Theorem raw_data_from_fetch st :
  reachable mode st -> rawData st <> [] ->
  exists r, Fetch.ok r = true /\ HttpFacts.blank (Fetch.body r) = false /\
            SalesApi.parseCSVData (Fetch.body r) = Ok (rawData st).
Proof.
  intros H Hne. apply reachable_inv in H as (_ & _ & _ & _ & [H|[o Ho]]); [contradiction|].
  apply HttpFacts.fetchSalesData_Ok in Ho as (r & _ & Hok & Hb & Hp). eauto.
Qed.

(** C32: a pending load always ends: whatever the fetch outcome, its
    settlement is a step of the dashboard and leaves it not loading. *)
Theorem pending_load_settles st outcome now :
  reachable mode st -> mounted st = true -> loading st = true ->
  exists st', step mode st (Settle outcome now) = Some st' /\ loading st' = false /\
              inFlight st' = 0.
Proof.
  intros H Hm Hl. apply reachable_inv in H as (_ & _ & H3 & _ & _).
  apply (H3 Hm) in Hl. cbn [step]. rewrite Hl. eexists. split; [reflexivity|].
  unfold settle. destruct (FetchSalesData.fetchSalesData _ _); cbn; rewrite Hl; auto.
Qed.
End Flow.

(** C33: the whole dashboard fails to render, loading or not, exactly
    when the held records name a group or a store like a property of
    [Object.prototype]: [processAnalytics] throws inside [useMemo]. *)
Theorem dashboard_crash_iff st :
  (exists m, render st = Crash m) <-> forallb AnalyticsFacts.AnalyticsFacts.plain_match (rawData st) = false.
Proof.
  unfold render. rewrite AnalyticsFacts.AnalyticsFacts.processAnalytics_eq.
  destruct (forallb AnalyticsFacts.AnalyticsFacts.plain_match (rawData st)) eqn:E.
  - apply (AnalyticsFacts.AnalyticsFacts.process_matches_ok_plain ProcessAnalytics.init_state)
      in E as [st' ->].
    split; [intros [m Hm] | discriminate].
    destruct (loading st); [discriminate|]. destruct (error_shown _); [discriminate|].
    destruct (rawData st); discriminate.
  - destruct (ProcessAnalytics.process_matches _ _) as [st'|m] eqn:Hp; [|split; eauto].
    exfalso. assert (Hok : exists st'', ProcessAnalytics.process_matches
                                          ProcessAnalytics.init_state (rawData st) = Ok st'')
      by eauto.
    apply AnalyticsFacts.AnalyticsFacts.process_matches_ok_plain in Hok. congruence.
Qed.
End DashboardFacts.

(** ** Theorems on the dashboard tab *)
Module DashboardTabFacts.
Import DashboardTab.

(** The [k] elements of [l] with the largest [key], largest first: the
    rest of [l] has no key above any of them. *)
Definition top_k_spec {A} (k : nat) (key : A -> num) (l top : list A) : Prop :=
  exists rest, Permutation l (top ++ rest) /\ List.length top = Nat.min k (List.length l) /\
  Sorted (fun x y => num_lt (key x) (key y) = false) top /\
  (forall x y, In x top -> In y rest -> num_lt (key x) (key y) = false).

Lemma sorts_before_metric m x y :
  sorts_before (metric_cmp m) x y = num_lt (metric_value m y) (metric_value m x).
Proof.
  unfold sorts_before, metric_cmp.
  destruct (num_lt (metric_value m y) (metric_value m x)) eqn:E.
  - apply sort_compare_sub_lt in E. rewrite E. reflexivity.
  - destruct (sort_compare_value _) eqn:Ec; try reflexivity.
    apply sort_compare_sub_lt in Ec. congruence.
Qed.

Lemma metric_sorted m l :
  Sorted (fun x y => num_lt (metric_value m x) (metric_value m y) = false)
         (js_sort (metric_cmp m) l).
Proof.
  eapply Sorted_impl; [|apply js_sort_sorted].
  - intros x y. unfold sorted_le. rewrite sorts_before_metric. auto.
  - intros x y. rewrite !sorts_before_metric. apply num_lt_asym.
Qed.

(** C34: when no store's value of the selected metric is NaN, [topStores]
    lists ten stores (all, if fewer) with the largest values, largest
    first, and no other store has a larger value. *)
Theorem topStores_spec m stores :
  forallb (fun s => negb (is_nan (metric_value m s))) stores = true ->
  top_k_spec 10 (metric_value m) stores (topStores m stores).
Proof.
  intros Hnan. set (sorted := js_sort (metric_cmp m) stores).
  assert (Hf : Forall (fun s => is_nan (metric_value m s) = false) sorted).
  { apply Forall_forall. intros s Hs. apply js_sort_In in Hs.
    eapply forallb_forall in Hnan; [|exact Hs]. apply negb_true_iff, Hnan. }
  assert (Hss : StronglySorted (fun x y => num_lt (metric_value m x) (metric_value m y) = false)
                               sorted).
  { eapply Sorted_StronglySorted_on; [|exact Hf|apply metric_sorted].
    intros x y z; apply num_not_lt_trans. }
  exists (skipn 10 sorted). unfold topStores. fold sorted. repeat split.
  - rewrite firstn_skipn. symmetry. apply js_sort_perm.
  - rewrite length_firstn. unfold sorted. rewrite js_sort_length. reflexivity.
  - apply StronglySorted_Sorted. rewrite <- (firstn_skipn 10 sorted) in Hss.
    exact (StronglySorted_app_l _ _ _ Hss).
  - apply StronglySorted_app_rel. rewrite firstn_skipn. exact Hss.
Qed.

(** C18: sorting by win rate compares numbers: for every store of a
    [processAnalytics] bundle, the [winRate] string converted by the
    subtraction of [metric_cmp] is the win percentage
    [wins / matches * 100] rounded to one decimal, a finite number. *)
Theorem winRate_metric_rounded ms b s :
  ProcessAnalytics.processAnalytics ms = Ok b -> In s (Bundle.storePerformance b) ->
  metric_value "winRate" s =
  fin (round_fixed 1 (inject_Z (Z.of_nat (StorePerformance.wins s))
                      / inject_Z (Z.of_nat (StorePerformance.matches s)) * 100)).
Proof.
  intros H Hin.
  destruct (AnalyticsFacts.AnalyticsFacts.store_record_final _ _ _ H Hin) as (acc & -> & Hm).
  change (metric_value "winRate" ?x) with (string_to_number (StorePerformance.winRate x)).
  apply AnalyticsFacts.AnalyticsFacts.finalize_winRate_number, Hm.
Qed.

(** The win-rate value of a finalised store, as a key in tenths of a
    percent. *)
Lemma winRate_metric_key acc :
  0 < StoreAcc.matches acc ->
  metric_value "winRate" (ProcessAnalytics.finalize_store acc) =
  fin (inject_Z (percent_key (Z.of_nat (StoreAcc.wins acc)) (Z.of_nat (StoreAcc.matches acc)))
       / inject_Z 10).
Proof.
  intros Hm. change (metric_value "winRate" ?x) with (string_to_number (StorePerformance.winRate x)).
  rewrite AnalyticsFacts.AnalyticsFacts.finalize_winRate_number by exact Hm.
  apply fin_eq. destruct (StoreAcc.matches acc) as [|m]; [lia|].
  change (Z.of_nat (S m)) with (Z.pos (Pos.of_succ_nat m)). apply percent_round. lia.
Qed.

(** C19: for stores of at most 31 matches, ranking by the [winRate]
    string is ranking by the exact win rate: the rounded percentages
    compare as [wins / matches] do, so rounding to one decimal never
    creates a tie or swaps two stores.  (At 34 and 35 matches, [1/34]
    and [1/35] both print ["2.9"].) *)
Theorem winRate_order_exact ms b x y :
  ProcessAnalytics.processAnalytics ms = Ok b ->
  In x (Bundle.storePerformance b) -> In y (Bundle.storePerformance b) ->
  StorePerformance.matches x <= 31 -> StorePerformance.matches y <= 31 ->
  num_lt (metric_value "winRate" x) (metric_value "winRate" y) = true <->
  StorePerformance.wins x * StorePerformance.matches y
    < StorePerformance.wins y * StorePerformance.matches x.
Proof.
  intros H Hx Hy Hmx Hmy.
  destruct (AnalyticsFacts.AnalyticsFacts.store_record_final _ _ _ H Hx) as (ax & -> & Hax).
  destruct (AnalyticsFacts.AnalyticsFacts.store_record_final _ _ _ H Hy) as (ay & -> & Hay).
  rewrite !winRate_metric_key by assumption. cbn [ProcessAnalytics.finalize_store StorePerformance.matches StorePerformance.wins] in *.
  unfold fin, num_lt. rewrite q_ltb_iff, Qred_lt.
  unfold Qdiv. rewrite (Qmult_lt_r _ _ (/ inject_Z 10)) by reflexivity. rewrite <- Zlt_Qlt.
  rewrite percent_key_lt by lia. lia.
Qed.

Lemma find_In_exists {A} (p : A -> bool) l x :
  In x l -> p x = true -> exists y, find p l = Some y.
Proof.
  intros Hx Hp. destruct (find p l) as [y|] eqn:Hf; [eauto|].
  rewrite (find_none _ _ Hf _ Hx) in Hp. discriminate.
Qed.

Lemma rank_pos {A} (p : A -> bool) l x : In x l -> p x = true -> 1 <= rank p l.
Proof.
  unfold rank. induction l as [|y l IH]; intros Hx Hp; [destruct Hx|]. cbn [find_index].
  destruct (p y) eqn:E; [lia|]. destruct Hx as [->|Hx]; [congruence|].
  specialize (IH Hx Hp). destruct (find_index p l); cbn; lia.
Qed.

(** C17: selecting any store of the bundle opens its detail view without
    an exception: its group has a record (so [groupInfo.totalSales] is
    defined), its group's standings are an own entry, and the store is
    found both in them and in the overall ranking (both ranks are at
    least 1). *)
Theorem storeAnalytics_total ms b s :
  ProcessAnalytics.processAnalytics ms = Ok b -> In s (Bundle.storePerformance b) ->
  exists a, storeAnalytics (Some s) b = Ok (Some a) /\
    In (StoreAnalytics.groupInfo a) (Bundle.groupStats b) /\
    GroupStats.group (StoreAnalytics.groupInfo a) = StorePerformance.group s /\
    1 <= StoreAnalytics.rankInGroup a /\ 1 <= StoreAnalytics.overallRank a.
Proof.
  intros H Hin.
  destruct (AnalyticsFacts.AnalyticsFacts.store_group_in _ _ _ H Hin) as (m & Hm & Hgrp).
  destruct (AnalyticsFacts.AnalyticsFacts.group_record_in _ _ _ H Hm) as (g & Hg & Hgg & Hst).
  pose proof (AnalyticsFacts.AnalyticsFacts.group_keys_plain _ _ _ H Hm) as Hplain.
  destruct (find_In_exists (fun g => String.eqb (GroupStats.group g) (Group m)) _ g Hg)
    as [g' Hf]; [rewrite Hgg; apply String.eqb_refl|].
  unfold storeAnalytics. rewrite Hgrp. unfold obj_prop. rewrite Hplain, Hst, Hf.
  eexists. split; [reflexivity|]. cbn [StoreAnalytics.groupInfo StoreAnalytics.rankInGroup
                                       StoreAnalytics.overallRank].
  apply find_some in Hf as [Hg' Hp]. apply String.eqb_eq in Hp. repeat split; auto.
  - assert (Hs : In s (map Standing.entry
                         (ProcessAnalytics.group_standing (Bundle.storePerformance b) (Group m)))).
    { unfold ProcessAnalytics.group_standing. rewrite map_with_positions by reflexivity.
      apply js_sort_In, filter_In. split; [exact Hin|]. rewrite Hgrp. apply String.eqb_refl. }
    apply in_map_iff in Hs as (st & Hst' & Hsin).
    apply (rank_pos _ _ st Hsin). rewrite Hst'. apply String.eqb_refl.
  - apply (rank_pos _ _ s); [apply js_sort_In, Hin | apply String.eqb_refl].
Qed.
End DashboardTabFacts.

(** ** Theorems on the overview cards *)
Module OverviewFacts.
Import Overview.

(** C8: on every bundle of [processAnalytics], the Total Matches card
    shows the number of matches, Active Stores the number of distinct
    team names, Groups the number of distinct group names, and Days the
    number of distinct dates that are not [Object.prototype] property
    names. *)
Theorem overview_key_metrics ms b :
  ProcessAnalytics.processAnalytics ms = Ok b ->
  totalMatches (key_metrics b) = num_of_nat (List.length ms) /\
  activeStores (key_metrics b)
    = List.length (first_seen [] (flat_map (fun m => [Team1 m; Team2 m]) ms)) /\
  groups (key_metrics b) = List.length (first_seen [] (map Group ms)) /\
  days (key_metrics b)
    = List.length (first_seen [] (map Date (filter (fun m => negb (is_proto_key (Date m))) ms))).
Proof.
  intros H. pose proof (AnalyticsFacts.AnalyticsFacts.bundle_counts _ _ H) as (Hg & Hs & Hd).
  cbn [key_metrics totalMatches activeStores groups days]. repeat split; auto.
  unfold group_sum. change num_zero with (num_of_nat 0). rewrite fold_num_add_nat.
  fold (nat_sum GroupStats.matches (Bundle.groupStats b)).
  rewrite (AnalyticsFacts.AnalyticsFacts.group_matches_sum _ _ H). reflexivity.
Qed.
End OverviewFacts.
