(* ===== verification/StatCard.v ===== *)
(** * [StatCard.jsx]: the stat card of the overview and the detail view

    A card shows a title, an icon and a value on a gradient.  Its props
    are [StatCard.props]; [StatCard.render] gives the text and classes
    of the rendered card.  A number passed as [value] is rendered by
    React as [String(value)] ([number_text]). *)

From S2P Require Import Prelude JsString JsNum.

Module StatCard.
Local Open Scope string_scope.

(** The [lucide-react] icons the cards pass as [icon]. *)
Inductive Icon : Type :=
| TrendingUp | Target | Store | Users | Calendar | Award | Flame.

(** A React child: a string, or a number rendered as [String(n)]. *)
Inductive Value : Type :=
| VText (s : string)
| VNumber (n : num).

Record props : Type := mkProps {
  title : string;
  value : Value;
  icon : Icon;
  gradient : string
}.

Record View : Type := mkView {
  cardClass : string;
  titleClass : string;
  titleText : string;
  iconOf : Icon;
  iconClass : string;
  iconSize : nat;
  valueClass : string;
  valueText : option string
}.

Definition value_text (v : Value) : option string :=
  match v with
  | VText s => Some s
  | VNumber n => number_text n
  end.

(** [StatCard] (lines 3-11). *)
Definition render (p : props) : View :=
  {| cardClass := "bg-gradient-to-br " ++ gradient p
                  ++ " rounded-xl p-6 text-white shadow-xl transform hover:scale-105 transition-transform";
     titleClass := "text-white/80 text-sm font-medium";
     titleText := title p;
     iconOf := icon p;
     iconClass := "text-white/60";
     iconSize := 24;
     valueClass := "text-3xl font-bold";
     valueText := value_text (value p) |}.
End StatCard.

(** ** Printing counts *)
Section NumberText.

Lemma Qred_inject_Z z : Qred (inject_Z z) = inject_Z z.
Proof.
  unfold Qred, inject_Z. pose proof (Z.ggcd_gcd z 1) as Hg.
  pose proof (Z.ggcd_correct_divisors z 1) as Hd.
  destruct (Z.ggcd z 1) as [g [a b]]. cbn [fst snd] in *. rewrite Z.gcd_1_r in Hg. subst g.
  destruct Hd as [-> Hb]. rewrite Z.mul_1_l. rewrite Z.mul_1_l in Hb. subst b. reflexivity.
Qed.

(** A count prints as its digits (below [10^21]). *)
Lemma number_text_nat n :
  (Z.of_nat n < 10 ^ 21)%Z -> number_text (num_of_nat n) = Some (nat_text n).
Proof.
  intros Hn. unfold number_text, num_of_nat, num_of_Z, fin, nat_text.
  rewrite !Qred_inject_Z. cbn [Qnum Qden inject_Z Pos.eqb negb orb].
  rewrite Z.abs_eq by lia. destruct (Z.leb_spec (10 ^ 21) (Z.of_nat n)); [lia|].
  destruct (Z.ltb_spec (Z.of_nat n) 0); [lia|]. cbn [orb]. rewrite <- nat_N_Z, N2Z.id. reflexivity.
Qed.
End NumberText.
