(* ===== verification/Standings.v ===== *)
(** * The standings tab ([StandingsTab.jsx], [GroupStandingsTable.jsx])

    [StandingsTab] shows a filter button per group and one
    [GroupStandingsTable] per entry of [analytics.groupStandings] that
    passes the group filter, sorted by the number in the group name,
    each given the group's record found in [analytics.groupStats].
    A table renders a header from the group record (with [?.] and
    [|| 0] fallbacks), one row per standing (medal colours by
    [position]) and a bar chart whose cells are coloured by index.
    The rendering is modelled as the data each element displays: its
    text and its class names; layout classes that never vary are left
    out. *)

From S2P Require Import Prelude JsString JsNum JsObject JsSort Analytics AnalyticsFacts Dashboard.

Module GroupStandingsTable.
Local Open Scope string_scope.

(** [groupInfo?.f || 0]: an absent record reads [undefined], and
    [undefined || 0], like [NaN || 0], is [0]. *)
Definition info_num (f : GroupStats.t -> num) (groupInfo : option GroupStats.t) : num :=
  match groupInfo with Some g => num_or_zero (f g) | None => num_zero end.

Definition info_nat (f : GroupStats.t -> nat) (groupInfo : option GroupStats.t) : nat :=
  match groupInfo with Some g => f g | None => 0 end.

(** The header and the three mini stats (lines 9-39). *)
Record Header : Type := mkHeader {
  title : string;
  matchesPlayed : nat;
  storeCount : nat;
  totalSales : string;
  avgMatch : string;
  highest : string;
  competitive : string
}.

Definition header (groupName : string) (groupInfo : option GroupStats.t) : Header :=
  {| title := groupName;
     matchesPlayed := info_nat GroupStats.matches groupInfo;
     storeCount := info_nat GroupStats.storeCount groupInfo;
     totalSales := "$" ++ toFixed 0 (info_num (fun g => num_div (GroupStats.totalSales g)
                                                               (num_of_nat 1000)) groupInfo) ++ "K";
     avgMatch := "$" ++ toFixed 0 (info_num GroupStats.avgSalesPerMatch groupInfo);
     highest := "$" ++ toFixed 0 (info_num GroupStats.highestMatch groupInfo);
     competitive := toFixed 0 (num_sub (num_of_nat 100)
                                       (info_num GroupStats.competitiveness groupInfo)) ++ "%" |}.

(** The row background and the position colour (lines 60-71). *)
Definition row_highlight (position : nat) : string :=
  if Nat.eqb position 1 then "bg-yellow-500/10"
  else if Nat.eqb position 2 then "bg-gray-400/10"
  else if Nat.eqb position 3 then "bg-orange-500/10"
  else "".

Definition position_colour (position : nat) : string :=
  if Nat.eqb position 1 then "text-yellow-400"
  else if Nat.eqb position 2 then "text-gray-300"
  else if Nat.eqb position 3 then "text-orange-400"
  else "text-purple-300".

(** A form badge: its text, its colour and its [title] (lines 94-105). *)
Definition form_badge (f : Form) : string * string * string :=
  match f with
  | W => ("W", "bg-emerald-500 text-white", "Win")
  | L => ("L", "bg-red-500 text-white", "Loss")
  end.

Record Row : Type := mkRow {
  rowClass : string;
  positionClass : string;
  position : nat;
  crown : bool;
  store : string;
  played : nat;
  won : nat;
  lost : nat;
  sales : string;
  average : string;
  form : list (string * string * string);
  points : nat
}.

(** One row of the table (lines 57-113). *)
Definition row (st : Standing.t) : Row :=
  let s := Standing.entry st in
  {| rowClass := row_highlight (Standing.position st);
     positionClass := position_colour (Standing.position st);
     position := Standing.position st;
     crown := Nat.eqb (Standing.position st) 1;
     store := StorePerformance.store s;
     played := StorePerformance.matches s;
     won := StorePerformance.wins s;
     lost := StorePerformance.losses s;
     sales := "$" ++ toFixed 1 (num_div (StorePerformance.totalSales s) (num_of_nat 1000)) ++ "K";
     average := "$" ++ toFixed 0 (StorePerformance.avgSales s) ++ " avg";
     form := map form_badge (StorePerformance.recentForm s);
     points := StorePerformance.points s |}.

(** The fill of the bar at [index] (lines 172-182). *)
Definition cell_fill (index : nat) : string :=
  if Nat.eqb index 0 then "#FACC15"
  else if Nat.eqb index 1 then "#D1D5DB"
  else if Nat.eqb index 2 then "#F97316"
  else "#8B5CF6".

(** The tooltip of a bar (line 163). *)
Definition tooltip (value : num) : string * string := ("$" ++ toFixed 0 value, "Total Sales").

(** The whole table: its props, the header, the rows, and the bars
    (one per standing, in order, with their store, value and fill). *)
Record t : Type := mk {
  groupName : string;
  groupInfo : option GroupStats.t;
  head : Header;
  rows : list Row;
  bars : list (string * num * string)
}.

Definition render (groupName : string) (standings : list Standing.t)
    (groupInfo : option GroupStats.t) : t :=
  {| groupName := groupName;
     groupInfo := groupInfo;
     head := header groupName groupInfo;
     rows := map row standings;
     bars := map (fun '(i, st) => (StorePerformance.store (Standing.entry st),
                                   StorePerformance.totalSales (Standing.entry st), cell_fill i))
                 (combine (seq 0 (List.length standings)) standings) |}.
End GroupStandingsTable.

Module StandingsView.
Local Open Scope string_scope.

Definition active_class : string := "bg-purple-600 text-white shadow-lg".
Definition inactive_class : string := "bg-white/10 text-purple-200 hover:bg-white/20".

(** A filter button: its label, its class and the event its click
    sends to [Dashboard] (lines 14-34). *)
Record Button : Type := mkButton {
  label : string;
  buttonClass : string;
  onClick : Dashboard.event
}.

Definition all_button (standingsGroupFilter : string) : Button :=
  mkButton "All Groups"
    (if String.eqb standingsGroupFilter "all" then active_class else inactive_class)
    (Dashboard.SetGroupFilter "all").

Definition group_button (standingsGroupFilter : string) (g : GroupStats.t) : Button :=
  mkButton (replace_first "Group " "G" (GroupStats.group g))
    (if String.eqb standingsGroupFilter (GroupStats.group g) then active_class else inactive_class)
    (Dashboard.SetGroupFilter (GroupStats.group g)).

(** [parseInt(a.replace('Group ', ''))] (lines 42-43); no [|| 0] here. *)
Definition table_number (groupName : string) : num :=
  parseInt (replace_first "Group " EmptyString groupName).

(** [([a], [b]) => aNum - bNum] (lines 41-45). *)
Definition table_cmp (a b : string * list Standing.t) : num :=
  num_sub (table_number (fst a)) (table_number (fst b)).

(** [analytics.groupStats.find(g => g.group === groupName)] (line 47). *)
Definition group_info (analytics : Bundle.t) (groupName : string) : option GroupStats.t :=
  find (fun g => String.eqb (GroupStats.group g) groupName) (Bundle.groupStats analytics).

(** What the tab renders: the buttons and the tables (lines 9-58). *)
Record t : Type := mk {
  buttons : list Button;
  tables : list GroupStandingsTable.t
}.

Definition render (analytics : Bundle.t) (standingsGroupFilter : string) : t :=
  {| buttons := all_button standingsGroupFilter
                :: map (group_button standingsGroupFilter) (Bundle.groupStats analytics);
     tables := map (fun '(groupName, standings) =>
                      GroupStandingsTable.render groupName standings (group_info analytics groupName))
                   (js_sort table_cmp (StandingsTab.filteredGroupStandings standingsGroupFilter analytics))
  |}.
End StandingsView.

Module StandingsFacts.
Import ProcessAnalytics AnalyticsFacts GroupStandingsTable StandingsView.
Local Open Scope string_scope.

Lemma nth_error_combine_seq {A} (l : list A) k i :
  nth_error (combine (seq k (List.length l)) l) i = option_map (fun x => (k + i, x)) (nth_error l i).
Proof.
  revert k i. induction l as [|x l IH]; intros k [|i]; simpl; try reflexivity.
  - rewrite Nat.add_0_r. reflexivity.
  - rewrite IH, Nat.add_succ_r. reflexivity.
Qed.

(** A table of the tab is the rendering of an entry of [groupStandings]
    with the record [find] returns. *)
Lemma table_entry b f tb :
  In tb (tables (StandingsView.render b f)) ->
  exists name l, In (name, l) (Bundle.groupStandings b) /\
                 tb = GroupStandingsTable.render name l (group_info b name).
Proof.
  cbn [tables StandingsView.render]. intros Hin.
  apply in_map_iff in Hin as ([name l] & <- & Hin). exists name, l. split; [|reflexivity].
  apply js_sort_In in Hin. unfold StandingsTab.filteredGroupStandings in Hin.
  destruct (String.eqb f "all"); [|apply filter_In in Hin as [Hin _]];
    (eapply Permutation_in; [apply obj_entries_perm | exact Hin]).
Qed.

(** C15: every table of the standings tab receives its group's record:
    [groupInfo] is never [undefined], so the [?.] and [|| 0] fallbacks
    of the header never apply to a bundle [processAnalytics] returns. *)
Theorem standings_tables_group_record ms b f tb :
  processAnalytics ms = Ok b -> In tb (tables (StandingsView.render b f)) ->
  exists g, GroupStandingsTable.groupInfo tb = Some g /\
            GroupStats.group g = GroupStandingsTable.groupName tb /\ In g (Bundle.groupStats b).
Proof.
  intros H Hin. apply table_entry in Hin as (name & l & Hin & ->). cbn.
  destruct (standings_key_group _ _ _ _ H Hin) as (m & Hm & <-).
  destruct (group_record_in _ _ _ H Hm) as (g0 & Hg0 & Eg0 & _).
  unfold group_info. destruct (find _ _) as [g|] eqn:F.
  - apply find_some in F as [Hg Eg]. apply String.eqb_eq in Eg. eauto.
  - apply (find_none _ _ F) in Hg0. rewrite Eg0, String.eqb_refl in Hg0. discriminate.
Qed.

(** C14: in every table, the row and the bar of the same store carry the
    same medal: the crowned row is the gold bar, the silver row the
    silver bar and the bronze row the bronze bar (rows are coloured by
    [position], bars by index). *)
Theorem standings_medals_agree ms b f tb i r c :
  processAnalytics ms = Ok b -> In tb (tables (StandingsView.render b f)) ->
  nth_error (rows tb) i = Some r -> nth_error (bars tb) i = Some c ->
  (crown r = true <-> snd c = "#FACC15") /\
  (rowClass r = "bg-gray-400/10" <-> snd c = "#D1D5DB") /\
  (rowClass r = "bg-orange-500/10" <-> snd c = "#F97316").
Proof.
  intros H Hin Hr Hc. apply table_entry in Hin as (name & l & Hin & ->).
  cbn [rows bars GroupStandingsTable.render] in Hr, Hc.
  rewrite nth_error_map in Hr, Hc. rewrite nth_error_combine_seq in Hc.
  destruct (nth_error l i) as [x|] eqn:Hx; [|discriminate].
  injection Hr as <-. injection Hc as <-.
  destruct (standings_nth _ _ _ _ _ _ H Hin Hx) as [Hp _].
  cbn [row crown rowClass snd]. rewrite Hp.
  destruct i as [|[|[|i]]]; cbn; repeat split; congruence.
Qed.

(** The tables are in ascending order of the number in the group
    name, and they are the entries of [groupStandings] the filter
    keeps: all of them for ['all'], the selected group's otherwise. *)
Theorem standings_tables_shown b f :
  Sorted (fun x y => num_lt (table_number (groupName y)) (table_number (groupName x)) = false)
    (tables (StandingsView.render b f)) /\
  Permutation (map groupName (tables (StandingsView.render b f)))
    (filter (fun k => String.eqb f "all" || String.eqb k f) (obj_keys (Bundle.groupStandings b))).
Proof.
  cbn [tables StandingsView.render]. split.
  - refine (Sorted_map_impl _ _ _ _ _
              (js_sort_by_key (fun kv => table_number (fst kv)) _)).
    intros [n l] [n' l']. exact (fun H => H).
  - rewrite map_map.
    replace (map _ _) with (map fst (js_sort table_cmp (StandingsTab.filteredGroupStandings f b)))
      by (apply map_ext; intros [n l]; reflexivity).
    rewrite js_sort_perm. unfold StandingsTab.filteredGroupStandings, obj_keys.
    destruct (String.eqb f "all"); cbn [orb].
    + rewrite filter_true. reflexivity.
    + rewrite filter_map_swap. reflexivity.
Qed.
End StandingsFacts.
