(* ===== verification/Detail.v ===== *)
(** * The store detail view and the overview ([StoreDetailView.jsx],
      [DashboardOverview.jsx])

    Both views of the dashboard tab, as the data they display: the
    stat cards, the list of figures, the recent form, the quick stats
    and the group table of the selected store; the metric select, the
    pie chart's labels and colours and the cards of the top ten in the
    overview.  Text is modelled as the strings the JSX interpolates;
    [toFixed] is the one of [JsNum].  Chart geometry (sizes, axes,
    gradients) is not modelled. *)

From S2P Require Import Prelude JsString JsNum JsObject JsSort CsvParser Analytics AnalyticsFacts Dashboard StatCard Standings.

Module StoreDetail.
Local Open Scope string_scope.
Import DashboardTab.

Definition thousands (f : nat) (x : num) : string :=
  "$" ++ toFixed f (num_div x (num_of_nat 1000)) ++ "K".

(** The four stat cards (lines 35-60): title, value, icon and
    gradient. *)
Definition cards (s : StorePerformance.t) (a : StoreAnalytics.t) : list StatCard.props :=
  [ StatCard.mkProps "Overall Rank" (StatCard.VText ("#" ++ nat_text (StoreAnalytics.overallRank a)))
      StatCard.Award "from-yellow-500 to-orange-600";
    StatCard.mkProps "Group Rank"
      (StatCard.VText ("#" ++ nat_text (StoreAnalytics.rankInGroup a) ++ " of "
                       ++ nat_text (GroupStats.storeCount (StoreAnalytics.groupInfo a))))
      StatCard.Target "from-purple-500 to-purple-700";
    StatCard.mkProps "Total Sales" (StatCard.VText (thousands 1 (StorePerformance.totalSales s)))
      StatCard.TrendingUp "from-emerald-500 to-emerald-700";
    StatCard.mkProps "Win Rate" (StatCard.VText (StorePerformance.winRate s ++ "%"))
      StatCard.Flame "from-pink-500 to-pink-700" ].

(** The performance figures (lines 71-84): label, value and colour. *)
Definition stats (s : StorePerformance.t) : list (string * string * string) :=
  [ ("Matches Played", nat_text (StorePerformance.matches s), "text-white");
    ("Wins", nat_text (StorePerformance.wins s), "text-emerald-400");
    ("Losses", nat_text (StorePerformance.losses s), "text-red-400");
    ("Points", nat_text (StorePerformance.points s), "text-white");
    ("Average Sales", "$" ++ toFixed 0 (StorePerformance.avgSales s), "text-white");
    ("Best Performance", "$" ++ toFixed 0 (StorePerformance.bestPerformance s), "text-emerald-400");
    ("Worst Performance", "$" ++ toFixed 0 (StorePerformance.worstPerformance s), "text-red-400") ].

Definition is_W (f : Form) : bool := match f with W => true | L => false end.

(** The recent form (lines 120-145): one badge per result and the
    counts [recentForm.filter(r => r === 'W').length] and the same for
    ['L']. *)
Definition form_badges (s : StorePerformance.t) : list (string * string) :=
  map (fun f => let '(t, c, _) := GroupStandingsTable.form_badge f in (t, c))
      (StorePerformance.recentForm s).

Definition form_counts (s : StorePerformance.t) : nat * nat :=
  (List.length (filter is_W (StorePerformance.recentForm s)),
   List.length (filter (fun f => negb (is_W f)) (StorePerformance.recentForm s))).

(** The quick stats of the group (lines 147-178). *)
Record QuickStats : Type := mkQuick {
  storesInGroup : nat;
  groupTotal : string;
  contribution : string;
  vsAvgClass : string;
  vsAvg : string
}.

Definition quick_stats (s : StorePerformance.t) (g : GroupStats.t) : QuickStats :=
  let above := num_lt (GroupStats.avgSalesPerMatch g) (StorePerformance.avgSales s) in
  {| storesInGroup := GroupStats.storeCount g;
     groupTotal := thousands 0 (GroupStats.totalSales g);
     contribution := toFixed 1 (num_mul (num_div (StorePerformance.totalSales s)
                                                 (GroupStats.totalSales g)) (num_of_nat 100)) ++ "%";
     vsAvgClass := if above then "text-emerald-400" else "text-red-400";
     vsAvg := (if above then "+" else "")
              ++ toFixed 1 (num_mul (num_div (num_sub (StorePerformance.avgSales s)
                                                      (GroupStats.avgSalesPerMatch g))
                                             (GroupStats.avgSalesPerMatch g)) (num_of_nat 100))
              ++ "%" |}.

Record t : Type := mk {
  statCards : list StatCard.View;
  figures : list (string * string * string);
  radar : list (string * jsval);
  form : list (string * string);
  formCounts : nat * nat;
  quick : QuickStats;
  table : GroupStandingsTable.t
}.

(** [StoreDetailView] (lines 8-188). *)
Definition render (s : StorePerformance.t) (a : StoreAnalytics.t) : t :=
  {| statCards := map StatCard.render (cards s a);
     figures := stats s;
     radar := StoreAnalytics.radarData a;
     form := form_badges s;
     formCounts := form_counts s;
     quick := quick_stats s (StoreAnalytics.groupInfo a);
     table := GroupStandingsTable.render (StorePerformance.group s) (StoreAnalytics.groupStandings a)
                                         (Some (StoreAnalytics.groupInfo a)) |}.
End StoreDetail.

Module OverviewView.
Local Open Scope string_scope.

(** The metric select (lines 42-51): value and label of each option;
    a change sends [SelectMetric] to [Dashboard]. *)
Definition metric_options : list (string * string) :=
  [("totalSales", "Total Sales"); ("avgSales", "Average Sales"); ("points", "Points");
   ("winRate", "Win Rate")].

Definition COLORS : list string :=
  ["#8B5CF6"; "#EC4899"; "#3B82F6"; "#10B981"; "#F59E0B"; "#EF4444"; "#6366F1"; "#14B8A6";
   "#F97316"; "#84CC16"].

(** [COLORS[index % COLORS.length]] (line 145). *)
Definition pie_colour (index : nat) : string := nth (Nat.modulo index (List.length COLORS)) COLORS "".

(** The label of a pie slice (line 140); Recharts passes the slice's
    share of the total as [percent]. *)
Definition pie_label (g : GroupStats.t) (percent : num) : string :=
  replace_first "Group " "G" (GroupStats.group g) ++ ": "
  ++ toFixed 0 (num_mul percent (num_of_nat 100)) ++ "%".

Definition pie (analytics : Bundle.t) : list (string * string) :=
  let total := Overview.group_sum GroupStats.totalSales analytics in
  map (fun '(i, g) => (pie_label g (num_div (GroupStats.totalSales g) total), pie_colour i))
      (combine (seq 0 (List.length (Bundle.groupStats analytics))) (Bundle.groupStats analytics)).

(** The rank badge of a card of the top ten (lines 194-198). *)
Definition badge (index : nat) : string :=
  if Nat.eqb index 0 then "bg-yellow-500 text-yellow-900"
  else if Nat.eqb index 1 then "bg-gray-300 text-gray-800"
  else if Nat.eqb index 2 then "bg-orange-500 text-orange-900"
  else "bg-purple-500/30 text-purple-300".

(** The value of a card (lines 207-212): each [&&] whose metric is the
    selected one renders its text, the others render nothing. *)
Definition metric_text (selectedMetric : string) (s : StorePerformance.t) : string :=
  (if String.eqb selectedMetric "totalSales" then StoreDetail.thousands 1 (StorePerformance.totalSales s) else "")
  ++ (if String.eqb selectedMetric "avgSales" then "$" ++ toFixed 0 (StorePerformance.avgSales s) else "")
  ++ (if String.eqb selectedMetric "points" then nat_text (StorePerformance.points s) ++ " pts" else "")
  ++ (if String.eqb selectedMetric "winRate" then StorePerformance.winRate s ++ "%" else "").

Record Card : Type := mkCard {
  badgeClass : string;
  rankLabel : string;
  store : string;
  group : string;
  value : string;
  record : string
}.

Definition card (selectedMetric : string) (index : nat) (s : StorePerformance.t) : Card :=
  {| badgeClass := badge index;
     rankLabel := "#" ++ nat_text (S index);
     store := StorePerformance.store s;
     group := StorePerformance.group s;
     value := metric_text selectedMetric s;
     record := nat_text (StorePerformance.wins s) ++ "W-" ++ nat_text (StorePerformance.losses s) ++ "L" |}.

(** The cards of the top ten (lines 186-217). *)
Definition cards (selectedMetric : string) (topStores : list StorePerformance.t) : list Card :=
  map (fun '(i, s) => card selectedMetric i s) (combine (seq 0 (List.length topStores)) topStores).
End OverviewView.

(** ** Theorems on the detail view *)
Module DetailFacts.
Import SalesApi ProcessAnalytics AnalyticsFacts DashboardTab.

Lemma rank_le_length {A} (p : A -> bool) l : rank p l <= List.length l.
Proof.
  unfold rank. induction l as [|x l IH]; cbn [find_index List.length]; [lia|].
  destruct (p x); [lia|]. destruct (find_index p l); cbn in *; lia.
Qed.

(** A store record's group is the group of a match the store played. *)
Lemma store_first_match ms b s :
  processAnalytics ms = Ok b -> In s (Bundle.storePerformance b) ->
  exists m, In m ms /\ StorePerformance.group s = Group m /\
            (StorePerformance.store s = Team1 m \/ StorePerformance.store s = Team2 m).
Proof.
  intros H Hin. destruct (store_record_view _ _ _ H Hin) as (e & es & Hes & Hs).
  assert (He : In e (e :: es)) by (left; reflexivity). rewrite <- Hes in He.
  unfold store_events_of, all_store_events in He.
  apply filter_In in He as [He Hk]. apply String.eqb_eq in Hk.
  apply in_flat_map in He as (m & Hm & He). exists m. split; [exact Hm|].
  rewrite <- Hk. rewrite Hs at 1.
  destruct (store_fold_fields (store_init e) (e :: es) _ eq_refl) as (_ & Hg & _).
  cbn [finalize_store StorePerformance.group]. rewrite Hg.
  destruct He as [<-|[<-|[]]]; cbn; auto.
Qed.

Lemma group_fold_stores es v x :
  In x (GroupAcc.stores v) \/ (exists m, In m es /\ (x = Team1 m \/ x = Team2 m)) ->
  In x (GroupAcc.stores (fold_left (fun v e => group_step e v) es v)).
Proof.
  revert v. induction es as [|m es IH]; intros v Hx; simpl.
  - destruct Hx as [Hx|(m & [] & _)]. exact Hx.
  - apply IH. destruct Hx as [Hx|(m' & [<-|Hm'] & Ex)].
    + left. cbn. apply In_add_key. left. apply In_add_key. auto.
    + left. cbn. apply In_add_key. destruct Ex as [->| ->]; [left; apply In_add_key|]; auto.
    + right. eauto.
Qed.

(** A group record counts the distinct teams of its matches, every team
    of a match of the group among them. *)
Lemma group_record_stores ms b g :
  processAnalytics ms = Ok b -> In g (Bundle.groupStats b) ->
  GroupStats.storeCount g = List.length (GroupStats.stores g) /\
  forall m, In m ms -> Group m = GroupStats.group g ->
            In (Team1 m) (GroupStats.stores g) /\ In (Team2 m) (GroupStats.stores g).
Proof.
  intros H Hin. apply processAnalytics_Ok in H as (gs & sp & Hg & _ & ->).
  unfold finalize_state in Hin. cbn [Bundle.groupStats] in Hin.
  apply js_sort_In, In_obj_values_map in Hin as [[k v] [Hkv ->]]. cbn [snd].
  split; [reflexivity|]. intros m Hm Em.
  pose proof (accumulate_In _ _ _ _ Hg Hkv) as Hf.
  apply key_fold_None_inv in Hf as (e & es & Hes & ->).
  cbn [acc_key acc_step acc_init group_accumulator] in *.
  assert (Hk : Group e = k).
  { assert (Hin : In e (filter (fun e => String.eqb (Group e) k) ms)) by (rewrite Hes; left; auto).
    apply filter_In in Hin as [_ Hin]. apply String.eqb_eq, Hin. }
  cbn [finalize_group GroupStats.group GroupStats.stores] in *.
  rewrite group_fold_group in Em. cbn [group_init GroupAcc.group] in Em.
  assert (Hm' : In m (filter (fun e => String.eqb (Group e) k) ms))
    by (apply filter_In; split; [exact Hm | apply String.eqb_eq; congruence]).
  split; apply group_fold_stores; right; exists m; auto.
Qed.

(** Store names are unique among the store records. *)
Lemma store_names_NoDup ms b :
  processAnalytics ms = Ok b -> NoDup (map StorePerformance.store (Bundle.storePerformance b)).
Proof.
  intros H. apply processAnalytics_Ok in H as (gs & sp & _ & Hs & ->).
  unfold finalize_state. cbn [Bundle.storePerformance State.storePerformance].
  rewrite obj_values_map. unfold obj_values. rewrite !map_map.
  rewrite (map_ext_in _ fst (obj_entries sp)).
  - eapply Permutation_NoDup; [apply Permutation_map; symmetry; apply obj_entries_perm|].
    rewrite (accumulate_keys _ _ _ Hs). apply first_seen_NoDup. constructor.
  - intros [k v] Hin. apply (Permutation_in _ (obj_entries_perm sp)) in Hin.
    exact (store_key_field _ _ _ _ Hs Hin).
Qed.

Lemma NoDup_map_filter {A B} (f : A -> B) (p : A -> bool) l :
  NoDup (map f l) -> NoDup (map f (filter p l)).
Proof.
  induction l as [|x l IH]; simpl; [auto|]. intros Hn. inv Hn.
  destruct (p x); simpl; [|auto]. constructor; [|auto].
  intros Hin. apply in_map_iff in Hin as (y & Ey & Hy). apply filter_In in Hy as [Hy _].
  apply H1, in_map_iff. eauto.
Qed.

(** The figures [storeAnalytics] computes for a store. *)
Lemma storeAnalytics_fields s b a :
  storeAnalytics (Some s) b = Ok (Some a) ->
  let l := match obj_get (Bundle.groupStandings b) (StorePerformance.group s) with
           | Some l => l | None => [] end in
  find (fun g => String.eqb (GroupStats.group g) (StorePerformance.group s)) (Bundle.groupStats b)
    = Some (StoreAnalytics.groupInfo a) /\
  StoreAnalytics.groupStandings a = l /\
  StoreAnalytics.rankInGroup a
    = rank (fun st => String.eqb (StorePerformance.store (Standing.entry st)) (StorePerformance.store s)) l /\
  StoreAnalytics.overallRank a
    = rank (fun st => String.eqb (StorePerformance.store st) (StorePerformance.store s))
           (js_sort sales_cmp (Bundle.storePerformance b)).
Proof.
  unfold storeAnalytics, obj_prop.
  destruct (is_proto_key _); [discriminate|].
  destruct (find _ _) as [g|]; [|destruct (obj_get _ _); discriminate].
  destruct (obj_get _ _); intros E; inv E; auto.
Qed.

(** C16: the ranks the detail view shows are within bounds: the card
    ["#r of n"] has [1 <= r <= n], [n] the group's [storeCount], and
    the overall rank is between 1 and the number of stores. *)
Theorem detail_ranks_bounded ms b s a :
  processAnalytics ms = Ok b -> In s (Bundle.storePerformance b) ->
  storeAnalytics (Some s) b = Ok (Some a) ->
  1 <= StoreAnalytics.rankInGroup a <= GroupStats.storeCount (StoreAnalytics.groupInfo a) /\
  1 <= StoreAnalytics.overallRank a <= List.length (Bundle.storePerformance b).
Proof.
  intros H Hin Ha. destruct (storeAnalytics_fields _ _ _ Ha) as (Hg & _ & Hr & Ho).
  destruct (store_first_match _ _ _ H Hin) as (m & Hm & Egs & _).
  destruct (group_record_in _ _ _ H Hm) as (_ & _ & _ & Hl).
  rewrite Egs, Hl in Hr. rewrite Egs in Hg. rewrite Hr, Ho. clear Hr Ho.
  apply find_some in Hg as [Hgi Eg]. apply String.eqb_eq in Eg.
  destruct (group_record_stores _ _ _ H Hgi) as [Hc Hteams].
  set (gi := StoreAnalytics.groupInfo a) in *. unfold group_standing. split; split.
  - assert (Hs : In s (map Standing.entry (with_positions to_standing 1
              (js_sort standing_cmp (filter (fun s' => String.eqb (StorePerformance.group s')
                                                              (Group m)) (Bundle.storePerformance b))))))
      by (rewrite map_with_positions by reflexivity; apply js_sort_In, filter_In;
          rewrite Egs, String.eqb_refl; auto).
    apply in_map_iff in Hs as (x & Ex & Hx).
    apply (DashboardTabFacts.rank_pos _ _ x Hx). rewrite Ex. apply String.eqb_refl.
  - rewrite Hc. etransitivity; [apply rank_le_length|].
    rewrite with_positions_length, js_sort_length, <- (length_map StorePerformance.store).
    apply NoDup_incl_length; [apply NoDup_map_filter, (store_names_NoDup _ _ H)|].
    intros y Hy. apply in_map_iff in Hy as (s' & <- & Hs').
    apply filter_In in Hs' as [Hs' Eg']. apply String.eqb_eq in Eg'.
    destruct (store_first_match _ _ _ H Hs') as (m' & Hm' & Eg'' & Ht).
    destruct (Hteams m' Hm') as [H1 H2]; [congruence|]. destruct Ht as [-> | ->]; assumption.
  - apply (DashboardTabFacts.rank_pos _ _ s); [apply js_sort_In, Hin | apply String.eqb_refl].
  - rewrite <- (js_sort_length sales_cmp). apply rank_le_length.
Qed.
End DetailFacts.
