(* ===== verification/Constants.v ===== *)
(** * The constants of [src/src/utils/constants.js]

    No module imports this file: the overview declares its own colour
    list and metric options and [processAnalytics] writes the points of
    a win as the literal [3].  The constants are modelled as they are
    declared, with lemmas that the copies the components use agree
    with them. *)

From S2P Require Import Prelude JsString JsNum CsvParser Analytics AnalyticsFacts Dashboard Detail.

Module Constants.
Local Open Scope string_scope.

Definition CHART_COLORS : list string :=
  ["#8B5CF6"; "#EC4899"; "#3B82F6"; "#10B981"; "#F59E0B"; "#EF4444"; "#6366F1"; "#14B8A6";
   "#F97316"; "#84CC16"].

Record CardGradients : Type := mkGradients {
  purple : string; pink : string; blue : string; emerald : string; orange : string
}.

Definition CARD_GRADIENTS : CardGradients :=
  {| purple := "from-purple-500 to-purple-700"; pink := "from-pink-500 to-pink-700";
     blue := "from-blue-500 to-blue-700"; emerald := "from-emerald-500 to-emerald-700";
     orange := "from-orange-500 to-orange-700" |}.

Definition POINTS_PER_WIN : nat := 3.
Definition POINTS_PER_LOSS : nat := 0.

Record GroupTiers : Type := mkTiers { premium : list nat; midTier : list nat; developing : list nat }.

Definition GROUP_TIERS : GroupTiers := mkTiers [1; 2; 3] [4; 5; 6] [7; 8; 9; 10].

Record TooltipColors : Type := mkTooltipColors {
  background : string; border : string; borderRadius : string
}.
Record ChartColors : Type := mkChartColors { grid : string; axis : string; tooltip : TooltipColors }.
Record Animation : Type := mkAnimation { animationDuration : nat }.
Record ChartConfig : Type := mkChartConfig { colors : ChartColors; animation : Animation }.

Definition CHART_CONFIG : ChartConfig :=
  {| colors := {| grid := "rgba(255,255,255,0.1)"; axis := "#fff";
                  tooltip := {| background := "rgba(0,0,0,0.9)"; border := "none";
                                borderRadius := "12px" |} |};
     animation := {| animationDuration := 300 |} |}.

Definition METRIC_OPTIONS : list (string * string) :=
  [("totalSales", "Total Sales"); ("avgSales", "Average Sales"); ("points", "Points");
   ("winRate", "Win Rate")].

Record TournamentDates : Type := mkDates { start : string; end_ : string; duration : nat }.

Definition TOURNAMENT_DATES : TournamentDates := mkDates "28/11/2025" "30/11/2025" 3.
End Constants.

Module ConstantsFacts.
Import Constants.

(** The overview's own colour list and select options are the
    constants' values. *)
Lemma overview_colors_agree : OverviewView.COLORS = CHART_COLORS.
Proof. reflexivity. Qed.

Lemma overview_metric_options_agree : OverviewView.metric_options = METRIC_OPTIONS.
Proof. reflexivity. Qed.

(** The three tiers split the groups 1 to 10 in order. *)
Lemma tiers_partition_groups :
  premium GROUP_TIERS ++ midTier GROUP_TIERS ++ developing GROUP_TIERS = seq 1 10.
Proof. reflexivity. Qed.

(** A store's handler adds [POINTS_PER_WIN] for a win and
    [POINTS_PER_LOSS] for a loss. *)
Lemma store_step_points e s :
  StoreAcc.points (ProcessAnalytics.store_step e s)
  = StoreAcc.points s + (if ProcessAnalytics.ev_isWinner e then POINTS_PER_WIN else POINTS_PER_LOSS).
Proof.
  unfold ProcessAnalytics.store_step, POINTS_PER_WIN, POINTS_PER_LOSS. cbn.
  destruct (ProcessAnalytics.ev_isWinner e); lia.
Qed.
End ConstantsFacts.
