(* ===== verification/Charts.v ===== *)
(** * The overview page of [DashboardOverview.jsx]: cards and charts

    [OverviewPage] models what the overview renders: the five stat
    cards (through [StatCard.render]), the group comparison chart with
    its tooltip formatter, the sales distribution pie and the daily
    trend, and the cards of the top ten ([OverviewView.cards]).  The
    charts are Recharts components: the model keeps their props (data,
    keys, names, colours) and what the tooltip shows for a data point.
    Recharts gives a series' tooltip entry the name [props.name] when
    the series has one, and its [dataKey] otherwise
    ([tooltip_name]); the formatter receives that name. *)

From S2P Require Import Prelude JsString JsNum CsvParser Analytics Dashboard StatCard Detail Constants.

Module OverviewPage.
Local Open Scope string_scope.

(** The five stat cards (lines 55-85). *)
Definition overview_cards (analytics : Bundle.t) : list StatCard.props :=
  let km := Overview.key_metrics analytics in
  [ StatCard.mkProps "Total Sales" (StatCard.VText (Overview.totalSales km)) StatCard.TrendingUp
      "from-purple-500 to-purple-700";
    StatCard.mkProps "Total Matches" (StatCard.VNumber (Overview.totalMatches km)) StatCard.Target
      "from-pink-500 to-pink-700";
    StatCard.mkProps "Active Stores" (StatCard.VNumber (num_of_nat (Overview.activeStores km)))
      StatCard.Store "from-blue-500 to-blue-700";
    StatCard.mkProps "Groups" (StatCard.VNumber (num_of_nat (Overview.groups km))) StatCard.Users
      "from-emerald-500 to-emerald-700";
    StatCard.mkProps "Days" (StatCard.VNumber (num_of_nat (Overview.days km))) StatCard.Calendar
      "from-orange-500 to-orange-700" ].

(** A tooltip's [contentStyle]. *)
Record ContentStyle : Type := mkStyle {
  backgroundColor : string; border : string; borderRadius : string; color : string;
  padding : option string
}.

Inductive SeriesKind : Type := AreaSeries | BarSeries | LineSeries.

(** A series of a chart: its kind, axis, key, [name] prop and colour. *)
Record Series : Type := mkSeries {
  kind : SeriesKind;
  yAxisId : option string;
  dataKey : string;
  seriesName : option string;
  colour : string
}.

(** The name Recharts gives a series' tooltip entry: [name || dataKey]. *)
Definition tooltip_name (s : Series) : string :=
  match seriesName s with Some n => n | None => dataKey s end.

(** The three series of the comparison chart (lines 122-124). *)
Definition comparison_series : list Series :=
  [ mkSeries AreaSeries (Some "left") "totalSales" (Some "Total Sales") "#8B5CF6";
    mkSeries BarSeries (Some "left") "avgMatch" (Some "Avg Match Sales") "#EC4899";
    mkSeries LineSeries (Some "right") "competitiveness" (Some "Competitive Index") "#10B981" ].

(** A row of [groupComparisonData] read by a [dataKey]. *)
Definition row_value (key : string)
    (row : string * num * num * nat * num) : option num :=
  let '(_, totalSales, avgMatch, stores, competitiveness) := row in
  if String.eqb key "totalSales" then Some totalSales
  else if String.eqb key "avgMatch" then Some avgMatch
  else if String.eqb key "stores" then Some (num_of_nat stores)
  else if String.eqb key "competitiveness" then Some competitiveness
  else None.

(** What a tooltip shows for a value: a formatted string, or the value
    itself. *)
Inductive TooltipValue : Type := Formatted (s : string) | RawValue (v : num).

(** The formatter of the comparison tooltip (lines 114-119). *)
Definition comparison_formatter (value : num) (name : string) : TooltipValue * string :=
  if String.eqb name "totalSales" then (Formatted ("$" ++ toFixed 0 value), "Total Sales")
  else if String.eqb name "avgMatch" then (Formatted ("$" ++ toFixed 0 value), "Avg Match")
  else if String.eqb name "competitiveness" then
    (Formatted (toFixed 1 value ++ "%"), "Competitive Index")
  else (RawValue value, name).

(** The tooltip line of series [s] at a data row. *)
Definition comparison_tooltip (row : string * num * num * nat * num) (s : Series)
  : option (TooltipValue * string) :=
  option_map (fun v => comparison_formatter v (tooltip_name s)) (row_value (dataKey s) row).

(** The comparison chart (lines 94-126). *)
Record ComparisonChart : Type := mkComparison {
  comparisonHeight : nat;
  comparisonData : list (string * num * num * nat * num);
  comparisonGrid : string;
  comparisonXKey : string;
  comparisonAxisStroke : string;
  rightAxisStroke : string;
  comparisonStyle : ContentStyle;
  series : list Series
}.

Definition comparison_chart (analytics : Bundle.t) : ComparisonChart :=
  {| comparisonHeight := 400;
     comparisonData := Overview.groupComparisonData analytics;
     comparisonGrid := "rgba(255,255,255,0.1)";
     comparisonXKey := "group";
     comparisonAxisStroke := "#fff";
     rightAxisStroke := "#10B981";
     comparisonStyle := mkStyle "rgba(0,0,0,0.9)" "none" "12px" "#fff" (Some "12px");
     series := comparison_series |}.

(** The formatter of the pie and daily tooltips (lines 150 and 171). *)
Definition dollar_formatter (value : num) : string := "$" ++ toFixed 0 value.

(** The tooltip style of the pie and daily charts (lines 149 and 170). *)
Definition small_style : ContentStyle := mkStyle "rgba(0,0,0,0.9)" "none" "8px" "#fff" None.

(** The daily trend (lines 158-174): one point per day, the date on the
    x axis and the day's sales in the tooltip. *)
Record DailyChart : Type := mkDaily {
  dailyHeight : nat;
  points : list (string * string);
  dailyGrid : string;
  dailyAxisStroke : string;
  dailyStyle : ContentStyle;
  dailyStroke : string
}.

Definition daily_chart (analytics : Bundle.t) : DailyChart :=
  {| dailyHeight := 350;
     points := map (fun d => (Daily.date d, dollar_formatter (Daily.totalSales d)))
                   (Bundle.dailyPerformance analytics);
     dailyGrid := "rgba(255,255,255,0.1)";
     dailyAxisStroke := "#fff";
     dailyStyle := small_style;
     dailyStroke := "#3B82F6" |}.

(** The pie (lines 133-153): slices with label and colour, and the
    tooltip text of each slice. *)
Record PieChart : Type := mkPie {
  slices : list (string * string);
  sliceTooltips : list string;
  pieStyle : ContentStyle
}.

Definition pie_chart (analytics : Bundle.t) : PieChart :=
  {| slices := OverviewView.pie analytics;
     sliceTooltips := map (fun g => dollar_formatter (GroupStats.totalSales g))
                          (Bundle.groupStats analytics);
     pieStyle := small_style |}.

Record t : Type := mk {
  cards : list StatCard.View;
  comparison : ComparisonChart;
  pie : PieChart;
  daily : DailyChart;
  top : list OverviewView.Card
}.

(** [DashboardOverview] (lines 7-222); the search bar and the metric
    select are [SearchBar.v] and [OverviewView.metric_options]. *)
Definition render (analytics : Bundle.t) (selectedMetric : string)
    (topStores : list StorePerformance.t) : t :=
  {| cards := map StatCard.render (overview_cards analytics);
     comparison := comparison_chart analytics;
     pie := pie_chart analytics;
     daily := daily_chart analytics;
     top := OverviewView.cards selectedMetric topStores |}.
End OverviewPage.

(** ** Theorems on the overview charts *)
Module ChartFacts.
Import OverviewPage.
Local Open Scope string_scope.

(** The comparison tooltip never formats: every series of the chart
    has a [name], so Recharts hands the formatter ["Total Sales"],
    ["Avg Match Sales"] or ["Competitive Index"], none of which is a key
    the formatter tests; the tooltip shows the raw value under the
    series name.  Had the formatter been given the [dataKey], it would
    have formatted the value. *)
Theorem comparison_tooltip_unformatted row s :
  In s comparison_series ->
  exists v, row_value (dataKey s) row = Some v /\
    comparison_tooltip row s = Some (RawValue v, tooltip_name s) /\
    exists text, fst (comparison_formatter v (dataKey s)) = Formatted text.
Proof.
  intros Hs. destruct row as [[[[g ts] am] st] c].
  destruct Hs as [<-|[<-|[<-|[]]]]; eexists; (split; [reflexivity|]);
    (split; [reflexivity|]); eexists; reflexivity.
Qed.

(** The comparison chart takes its grid, axis and tooltip colours from
    [CHART_CONFIG]'s values (it writes them out). *)
Lemma comparison_chart_config analytics :
  let c := Constants.colors Constants.CHART_CONFIG in
  comparisonGrid (comparison_chart analytics) = Constants.grid c /\
  comparisonAxisStroke (comparison_chart analytics) = Constants.axis c /\
  backgroundColor (comparisonStyle (comparison_chart analytics))
    = Constants.background (Constants.tooltip c) /\
  border (comparisonStyle (comparison_chart analytics)) = Constants.border (Constants.tooltip c) /\
  borderRadius (comparisonStyle (comparison_chart analytics))
    = Constants.borderRadius (Constants.tooltip c).
Proof. repeat split. Qed.

(** The pie and daily tooltips have a rounder corner than
    [CHART_CONFIG] gives. *)
Lemma small_style_radius_differs :
  borderRadius small_style <> Constants.borderRadius (Constants.tooltip (Constants.colors Constants.CHART_CONFIG)).
Proof. discriminate. Qed.

(** The overview's card gradients are [CARD_GRADIENTS]'s, in the order
    purple, pink, blue, emerald, orange. *)
Lemma overview_gradients analytics :
  map StatCard.gradient (overview_cards analytics)
  = [Constants.purple Constants.CARD_GRADIENTS; Constants.pink Constants.CARD_GRADIENTS;
     Constants.blue Constants.CARD_GRADIENTS; Constants.emerald Constants.CARD_GRADIENTS;
     Constants.orange Constants.CARD_GRADIENTS].
Proof. reflexivity. Qed.
End ChartFacts.
