(* ===== verification/SearchBar.v ===== *)
(** * The store search of the dashboard tab ([StoreSearchBar.jsx] and
      the handlers of [DashboardTab.jsx])

    The tab keeps three hooks: [searchQuery], [selectedStore] and
    [showDropdown].  The search bar updates them on typing and focus,
    and its [onBlur] schedules [setShowDropdown(false)] for 200 ms
    later, so that a click on a row of the dropdown lands before the
    dropdown disappears.  The dropdown lists [filteredStores] when
    [showDropdown] is set and the list is not empty; a click on a row,
    or on a card of the top ten, selects a store; the clear button of
    the detail view resets the three hooks.

    [Session.t] adds to the hooks what the browser holds: whether the
    input has the focus and how many hide callbacks are scheduled.
    Events carry the index of the row or card clicked.  [Session.step]
    is a partial function: [None] when the event cannot happen in the
    state (a click on a row that is not displayed). *)

From S2P Require Import Prelude JsString JsNum JsObject JsSort Analytics AnalyticsFacts Dashboard.

Module StoreSearchBar.
Local Open Scope string_scope.

(** A row of the dropdown (lines 50-67): the store, its group, its
    sales in thousands, its record, and the separator class all rows
    but the last have. *)
Record Item : Type := mkItem {
  store : string;
  group : string;
  sales : string;
  record : string;
  itemClass : string
}.

Definition item (count index : nat) (s : StorePerformance.t) : Item :=
  {| store := StorePerformance.store s;
     group := StorePerformance.group s;
     sales := "$" ++ toFixed 1 (num_div (StorePerformance.totalSales s) (num_of_nat 1000)) ++ "K";
     record := nat_text (StorePerformance.wins s) ++ "W-" ++ nat_text (StorePerformance.losses s) ++ "L";
     itemClass := if Nat.eqb index (count - 1) then "" else "border-b border-white/10" |}.

(** The dropdown (line 39): shown when [showDropdown] is set and there
    is at least one store to list. *)
Definition dropdown (showDropdown : bool) (filteredStores : list StorePerformance.t) : list Item :=
  if showDropdown && negb (Nat.eqb (List.length filteredStores) 0) then
    map (fun '(i, s) => item (List.length filteredStores) i s)
        (combine (seq 0 (List.length filteredStores)) filteredStores)
  else [].

(** The clear button is rendered only when [onClear] is passed (line
    29), that is in the detail view. *)
Definition has_clear_button (v : DashboardTab.TabView) : bool :=
  match v with DashboardTab.StoreDetailView _ _ => true | DashboardTab.DashboardOverview _ => false end.
End StoreSearchBar.

Module Session.
Local Open Scope string_scope.
Import DashboardTab.

Record t : Type := mk {
  ui : UiState;
  focused : bool;
  timers : nat
}.

Definition init : t := mk ui_init false 0.

Inductive event : Type :=
| Change (value : string)
| Focus
| Blur
| TimerFires
| PickRow (index : nat)
| PickTopStore (index : nat)
| ClickClear.

(** The stores of the dropdown and of the top ten in state [st]. *)
Definition filtered (analytics : Bundle.t) (st : t) : list StorePerformance.t :=
  filteredStores (searchQuery (ui st)) (Bundle.storePerformance analytics).

Definition dropdown_shown (analytics : Bundle.t) (st : t) : bool :=
  showDropdown (ui st) && negb (Nat.eqb (List.length (filtered analytics st)) 0).

Definition current_view (metric : string) (analytics : Bundle.t) (st : t) : option TabView :=
  match view metric (ui st) analytics with Ok v => Some v | Throw _ => None end.

(** One event of the search bar or the tab.  [onChange] (lines 19-22)
    sets the query and shows the dropdown; [onFocus] shows it; [onBlur]
    schedules the hide callback; a scheduled callback hides it; a click
    on a row of the dropdown (line 53) or on a card of the top ten
    ([DashboardOverview.jsx] line 189) runs [handleStoreSelect]; the
    clear button runs [handleClearStore]. *)
Definition step (metric : string) (analytics : Bundle.t) (st : t) (e : event) : option t :=
  let u := ui st in
  match e with
  | Change v =>
      if focused st then Some (mk (mkUi v (selectedStore u) true) true (timers st)) else None
  | Focus =>
      if focused st then None
      else Some (mk (mkUi (searchQuery u) (selectedStore u) true) true (timers st))
  | Blur => if focused st then Some (mk u false (S (timers st))) else None
  | TimerFires =>
      match timers st with
      | O => None
      | S n => Some (mk (mkUi (searchQuery u) (selectedStore u) false) (focused st) n)
      end
  | PickRow i =>
      if dropdown_shown analytics st then
        match nth_error (filtered analytics st) i with
        | Some s => Some (mk (handleStoreSelect s u) (focused st) (timers st))
        | None => None
        end
      else None
  | PickTopStore i =>
      match current_view metric analytics st with
      | Some (DashboardOverview top) =>
          match nth_error top i with
          | Some s => Some (mk (handleStoreSelect s u) (focused st) (timers st))
          | None => None
          end
      | _ => None
      end
  | ClickClear =>
      match current_view metric analytics st with
      | Some v => if StoreSearchBar.has_clear_button v
                  then Some (mk (handleClearStore u) (focused st) (timers st)) else None
      | None => None
      end
  end.

Fixpoint run (metric : string) (analytics : Bundle.t) (st : t) (es : list event) : option t :=
  match es with
  | [] => Some st
  | e :: es' => match step metric analytics st e with
                | Some st' => run metric analytics st' es'
                | None => None
                end
  end.
End Session.

(** ** Theorems on the search session *)
Module SessionFacts.
Import ProcessAnalytics AnalyticsFacts DashboardTab Session.

(** The states the tab reaches from its first render, the metric of
    each event being whatever [Dashboard] holds at the time. *)
Inductive reachable (analytics : Bundle.t) : t -> Prop :=
| reach_init : reachable analytics init
| reach_step metric st e st' :
    reachable analytics st -> step metric analytics st e = Some st' -> reachable analytics st'.

Lemma session_run_reachable metric b st es st' :
  reachable b st -> run metric b st es = Some st' -> reachable b st'.
Proof.
  revert st. induction es as [|e es IH]; intros st Hr; cbn [run]; [intros H; inv H; exact Hr|].
  destruct (step metric b st e) as [st1|] eqn:Hs; [|discriminate]. apply IH. econstructor; eauto.
Qed.

Lemma firstn_incl {A} n (l : list A) x : In x (firstn n l) -> In x l.
Proof. intros H. rewrite <- (firstn_skipn n l). apply in_or_app. left. exact H. Qed.

Lemma filteredStores_incl q l s : In s (filteredStores q l) -> In s l.
Proof.
  unfold filteredStores. destruct (String.eqb q EmptyString); [intros []|].
  intros H. apply firstn_incl, filter_In in H as [H _]. exact H.
Qed.

Lemma topStores_incl m l s : In s (topStores m l) -> In s l.
Proof. unfold topStores. intros H. apply firstn_incl, js_sort_In in H. exact H. Qed.

Lemma view_overview metric u b top :
  view metric u b = Ok (DashboardOverview top) -> top = topStores metric (Bundle.storePerformance b).
Proof.
  unfold view. destruct (storeAnalytics _ _) as [sa|]; [|discriminate].
  destruct (selectedStore u), sa; intros H; inv H; reflexivity.
Qed.

(** The selected store is a record of the bundle the tab shows. *)
Definition selection_in (b : Bundle.t) (st : t) : Prop :=
  forall s, selectedStore (ui st) = Some s -> In s (Bundle.storePerformance b).

Lemma step_selection_in metric b st e st' :
  selection_in b st -> step metric b st e = Some st' -> selection_in b st'.
Proof.
  intros Hs. destruct e; cbn [step].
  - destruct (focused st); intros H; inv H. exact Hs.
  - destruct (focused st); intros H; inv H. exact Hs.
  - destruct (focused st); intros H; inv H. exact Hs.
  - destruct (timers st); intros H; inv H. exact Hs.
  - destruct (dropdown_shown b st); [|discriminate].
    destruct (nth_error _ index) as [s|] eqn:Hn; intros H; inv H.
    intros s' H. injection H as <-. apply nth_error_In in Hn.
    exact (filteredStores_incl _ _ _ Hn).
  - unfold current_view. destruct (view metric (ui st) b) as [[|top]|] eqn:Hv;
      try discriminate.
    destruct (nth_error top index) as [s|] eqn:Hn; intros H; inv H.
    intros s' H. injection H as <-. apply nth_error_In in Hn.
    apply view_overview in Hv as ->. exact (topStores_incl _ _ _ Hn).
  - destruct (current_view _ _ _) as [v|]; [|discriminate].
    destruct (StoreSearchBar.has_clear_button v); intros H; inv H. intros s H. discriminate.
Qed.

Lemma reachable_selection_in b st : reachable b st -> selection_in b st.
Proof.
  induction 1 as [|metric st e st' _ IH Hs]; [intros s H; discriminate|].
  exact (step_selection_in _ _ _ _ _ IH Hs).
Qed.

Lemma obj_prop_plain {V} (o : obj V) k :
  is_proto_key k = false -> obj_prop o k <> Inherited.
Proof. unfold obj_prop. intros ->. destruct (obj_get o k); discriminate. Qed.

(** For a store of a bundle [processAnalytics] returns, the figures of
    [storeAnalytics] exist: its group has a record and is an own key. *)
Lemma storeAnalytics_defined ms b s :
  processAnalytics ms = Ok b -> In s (Bundle.storePerformance b) ->
  exists a, storeAnalytics (Some s) b = Ok (Some a).
Proof.
  intros H Hin. destruct (store_group_in _ _ _ H Hin) as (m & Hm & Hg).
  destruct (group_record_in _ _ _ H Hm) as (g & Hg0 & Eg & _).
  pose proof (obj_prop_plain (Bundle.groupStandings b) _ (group_keys_plain _ _ _ H Hm)) as Hp.
  unfold storeAnalytics. rewrite Hg.
  destruct (obj_prop _ _) as [l| |]; [| contradiction |];
    (destruct (find _ _) as [g'|] eqn:F; [eexists; reflexivity|]);
    apply (find_none _ _ F) in Hg0; rewrite Eg, String.eqb_refl in Hg0; discriminate.
Qed.

Lemma view_defined ms b metric u :
  processAnalytics ms = Ok b ->
  (forall s, selectedStore u = Some s -> In s (Bundle.storePerformance b)) ->
  exists v, view metric u b = Ok v.
Proof.
  intros H Hsel. unfold view. destruct (selectedStore u) as [s|] eqn:Es.
  - destruct (storeAnalytics_defined _ _ _ H (Hsel s eq_refl)) as [a ->]. eauto.
  - cbn. eauto.
Qed.
(** C13: in every state the tab can reach on a bundle [processAnalytics]
    returned, whatever the metric, the tab renders without throwing: a
    store can only be selected from the dropdown or the top ten, so
    its group has a record and [storeAnalytics] never reads
    [undefined.totalSales]. *)
Theorem tab_view_never_throws ms b st metric :
  processAnalytics ms = Ok b -> reachable b st -> exists v, view metric (ui st) b = Ok v.
Proof.
  intros H Hr. apply (view_defined _ _ _ _ H). exact (reachable_selection_in _ _ Hr).
Qed.

(** C23: a click on the [i]-th row of the dropdown selects that store:
    the query becomes its name, the dropdown closes and the tab shows
    the store's detail view. *)
Theorem pick_row_opens_detail ms b metric st i st' :
  processAnalytics ms = Ok b -> step metric b st (PickRow i) = Some st' ->
  exists s a, nth_error (filtered b st) i = Some s /\
              view metric (ui st') b = Ok (StoreDetailView s a) /\
              searchQuery (ui st') = StorePerformance.store s /\ showDropdown (ui st') = false.
Proof.
  intros H. cbn [step]. destruct (dropdown_shown b st); [|discriminate].
  destruct (nth_error _ i) as [s|] eqn:Hn; intros Hs; inv Hs.
  pose proof (filteredStores_incl _ _ _ (nth_error_In _ _ Hn)) as Hin.
  destruct (storeAnalytics_defined _ _ _ H Hin) as [a Ha].
  exists s, a. cbn. unfold view. cbn [selectedStore ui handleStoreSelect]. rewrite Ha. auto.
Qed.

(** C24: the 200 ms delay of [onBlur] does its job: when the input loses
    the focus because a row of the open dropdown is being clicked, the
    click that follows still selects that row. *)
Theorem blur_then_pick_selects metric b st i s :
  focused st = true -> dropdown_shown b st = true -> nth_error (filtered b st) i = Some s ->
  exists st1 st2, step metric b st Blur = Some st1 /\ step metric b st1 (PickRow i) = Some st2 /\
                  selectedStore (ui st2) = Some s.
Proof.
  intros Hf Hd Hn. cbn [step]. rewrite Hf. eexists _, _. split; [reflexivity|].
  cbn [step]. unfold dropdown_shown, filtered in *. cbn [ui]. rewrite Hd, Hn. auto.
Qed.

End SessionFacts.
