(* ===== verification/App.v ===== *)
(** * The page: [Dashboard] with its tabs mounted and unmounted

    [Dashboard.jsx] renders the loading, error or empty screen, or the
    main page: a header (last update, Refresh button, tab buttons), the
    active tab and the [Footer].  [DashboardTab] is rendered only on
    the main page with the dashboard tab active (line 154); React keeps
    its hooks while it stays rendered and starts them afresh when it is
    rendered again after it was not.  [App.t] pairs the state of
    [Dashboard] with the state of the tab's search session when the tab
    is rendered; [App.step] runs a dashboard event or a tab event and
    applies this mount rule. *)

From S2P Require Import Prelude JsString JsNum JsObject JsSort CsvParser Analytics AnalyticsFacts Http Dashboard Standings SearchBar.

(** The browser's locale formats of a [Date] ([toLocaleString],
    [toLocaleTimeString]): they depend on the user's locale and time
    zone, not on the program, so the page is rendered for any of them. *)
Class Locale : Type := {
  toLocaleString : Z -> string;
  toLocaleTimeString : Z -> string
}.

Module Footer.
Local Open Scope string_scope.

(** [Last fetch: {lastUpdated ? lastUpdated.toLocaleTimeString() : 'N/A'}]
    ([Footer.jsx] line 13); the locale's time format is not modelled. *)
Inductive LastFetch : Type := FetchedAt (time : Z) | NotAvailable.

Definition last_fetch (lastUpdated : option Z) : LastFetch :=
  match lastUpdated with Some t => FetchedAt t | None => NotAvailable end.

(** The icon of a link: an [svg] of class [w-5 h-5], hidden from
    assistive technology; its path data is not modelled. *)
Inductive LinkIcon : Type := GitHubMark | LinkedInMark.

Record Link : Type := mkLink {
  href : string;
  target : string;
  rel : string;
  linkClass : string;
  ariaLabel : string;
  icon : LinkIcon;
  label : string
}.

Definition link_class : string :=
  "flex items-center gap-1.5 text-purple-300 hover:text-white transition-colors duration-200 hover:scale-110".

(** The two profile links (lines 32-72). *)
Definition links : list Link :=
  [ mkLink "https://github.com/thesaugat" "_blank" "noopener noreferrer" link_class
      "GitHub Profile" GitHubMark "GitHub";
    mkLink "https://www.linkedin.com/in/thesaugat" "_blank" "noopener noreferrer" link_class
      "LinkedIn Profile" LinkedInMark "LinkedIn" ].

(** The rendered footer.  The info line joins its three parts with
    U+2022 and the credit puts U+2665 in a [text-purple-400] span; both
    characters lie outside the Latin-1 alphabet of the model, so the
    texts are kept as the parts around them. *)
Record View : Type := mkView {
  info : list string;
  lastFetch : LastFetch;
  creditBefore : string;
  heartClass : string;
  creditAfter : string;
  profileLinks : list Link
}.

(** [Footer] (lines 3-79). *)
Definition render (lastUpdated : option Z) : View :=
  {| info := ["Sales Tournament Dashboard"; "Live Data from StarPhones SPL";
              "Built with React & Recharts"];
     lastFetch := last_fetch lastUpdated;
     creditBefore := "Made with ";
     heartClass := "text-purple-400";
     creditAfter := " by Saugat Timilsina";
     profileLinks := links |}.

(** The time of the last fetch line (line 13):
    [lastUpdated ? lastUpdated.toLocaleTimeString() : 'N/A']. *)
Definition fetch_text `{Locale} (v : View) : string :=
  match lastFetch v with
  | FetchedAt t => toLocaleTimeString t
  | NotAvailable => "N/A"
  end.
End Footer.

Module App.
Local Open Scope string_scope.

Record t : Type := mk {
  dash : Dashboard.t;
  tab : option Session.t
}.

Definition init : t := mk Dashboard.init None.

(** [DashboardTab] is rendered (line 154). *)
Definition tab_mounted (d : Dashboard.t) : bool :=
  match Dashboard.render d with
  | Dashboard.Main _ => String.eqb (Dashboard.activeTab d) "dashboard"
  | _ => false
  end.

Inductive event : Type :=
| Dash (e : Dashboard.event)
| Tab (e : Session.event).

(** A dashboard event, then the mount rule; or a tab event, which needs
    the tab rendered and runs on the bundle and metric of the page. *)
Definition step (mode : string) (a : t) (e : event) : option t :=
  match e with
  | Dash de =>
      match Dashboard.step mode (dash a) de with
      | Some d' =>
          Some (mk d' (if tab_mounted d'
                       then (if tab_mounted (dash a) then tab a else Some Session.init)
                       else None))
      | None => None
      end
  | Tab te =>
      match tab a, Dashboard.render (dash a) with
      | Some ts, Dashboard.Main b =>
          match Session.step (Dashboard.selectedMetric (dash a)) b ts te with
          | Some ts' => Some (mk (dash a) (Some ts'))
          | None => None
          end
      | _, _ => None
      end
  end.

Inductive reachable (mode : string) : t -> Prop :=
| reach_init : reachable mode init
| reach_step a e a' : reachable mode a -> step mode a e = Some a' -> reachable mode a'.

Fixpoint run (mode : string) (a : t) (es : list event) : option t :=
  match es with
  | [] => Some a
  | e :: es' => match step mode a e with Some a' => run mode a' es' | None => None end
  end.

(** The header of the main page (lines 89-151): the logo's [alt], the
    title and subtitle, the last update, the Refresh button's
    [disabled] attribute and icon class, and the classes and labels
    (wide, then narrow screens) of the two tab buttons. *)
Record Header : Type := mkHeader {
  logoAlt : string;
  title : string;
  subtitle : string;
  lastUpdated : option Z;
  refreshDisabled : bool;
  refreshIconClass : string;
  dashboardButton : string;
  standingsButton : string;
  dashboardLabels : string * string;
  standingsLabels : string * string
}.

(** The [Last updated] line of the header (lines 107-111): present only
    when [lastUpdated] is set. *)
Definition header_line `{Locale} (h : Header) : option string :=
  option_map (fun t => "Last updated: " ++ toLocaleString t) (lastUpdated h).

Definition tab_class (active : bool) : string :=
  if active then "bg-purple-600 text-white shadow-lg" else "bg-white/10 text-purple-200 hover:bg-white/20".

Definition header (d : Dashboard.t) : Header :=
  {| logoAlt := "StarPhones SPL Logo";
     title := "Sales Tournament Analytics";
     subtitle := "Live Data from StarPhones SPL";
     lastUpdated := Dashboard.lastUpdated d;
     refreshDisabled := Dashboard.loading d;
     refreshIconClass := if Dashboard.loading d then "animate-spin" else "";
     dashboardButton := tab_class (String.eqb (Dashboard.activeTab d) "dashboard");
     standingsButton := tab_class (String.eqb (Dashboard.activeTab d) "standings");
     dashboardLabels := ("Dashboard", "Dash");
     standingsLabels := ("Standings", "Groups") |}.

(** The active tab's content (lines 154-168); a thrown render of the
    dashboard tab is [TabCrash]. *)
Inductive Content : Type :=
| DashboardContent (v : DashboardTab.TabView)
| StandingsContent (v : StandingsView.t)
| TabCrash (message : string)
| NoContent.

Inductive Page : Type :=
| Crash (message : string)
| LoadingScreen
| ErrorScreen (message : string)
| NoData
| MainPage (h : Header) (content : Content) (footer : Footer.View).

Definition content (a : t) (b : Bundle.t) : Content :=
  let d := dash a in
  if String.eqb (Dashboard.activeTab d) "dashboard" then
    match tab a with
    | Some ts => match DashboardTab.view (Dashboard.selectedMetric d) (Session.ui ts) b with
                 | Ok v => DashboardContent v
                 | Throw m => TabCrash m
                 end
    | None => DashboardContent (DashboardTab.DashboardOverview
                                  (DashboardTab.topStores (Dashboard.selectedMetric d)
                                     (Bundle.storePerformance b)))
    end
  else if String.eqb (Dashboard.activeTab d) "standings" then
    StandingsContent (StandingsView.render b (Dashboard.standingsGroupFilter d))
  else NoContent.

Definition page (a : t) : Page :=
  match Dashboard.render (dash a) with
  | Dashboard.Crash m => Crash m
  | Dashboard.LoadingScreen => LoadingScreen
  | Dashboard.ErrorScreen m => ErrorScreen m
  | Dashboard.NoData => NoData
  | Dashboard.Main b =>
      MainPage (header (dash a)) (content a b) (Footer.render (Dashboard.lastUpdated (dash a)))
  end.
End App.

(** ** Theorems on the page *)
Module AppFacts.
Import App.

Lemma app_run_reachable mode a es a' :
  reachable mode a -> run mode a es = Some a' -> reachable mode a'.
Proof.
  revert a. induction es as [|e es IH]; intros a Hr; cbn [run]; [intros H; inv H; exact Hr|].
  destruct (step mode a e) as [a1|] eqn:Hs; [|discriminate]. apply IH. econstructor; eauto.
Qed.

Lemma loading_not_mounted d : Dashboard.loading d = true -> tab_mounted d = false.
Proof.
  unfold tab_mounted, Dashboard.render. intros ->.
  destruct (ProcessAnalytics.processAnalytics _); reflexivity.
Qed.

Lemma tab_mounted_main d :
  tab_mounted d = true ->
  exists b, Dashboard.render d = Dashboard.Main b /\
            ProcessAnalytics.processAnalytics (Dashboard.rawData d) = Ok b.
Proof.
  unfold tab_mounted. destruct (Dashboard.render d) as [| | | |b] eqn:Hr; try discriminate.
  intros _. exists b. split; [reflexivity|]. unfold Dashboard.render in Hr.
  destruct (ProcessAnalytics.processAnalytics _); [|discriminate].
  destruct (Dashboard.loading d); [discriminate|].
  destruct (Dashboard.error_shown _); [discriminate|].
  destruct (Dashboard.rawData d); congruence.
Qed.

(** A settlement can only happen while loading, so never while the
    dashboard tab is rendered. *)
Lemma settle_not_mounted mode d o now d' :
  DashboardFacts.flow_inv mode d -> Dashboard.step mode d (Dashboard.Settle o now) = Some d' ->
  tab_mounted d = false.
Proof.
  intros (H1 & H2 & H3 & _) Hs. cbn [Dashboard.step] in Hs.
  destruct (Dashboard.inFlight d) as [|n] eqn:Hf; [discriminate|].
  apply loading_not_mounted. destruct (Dashboard.mounted d) eqn:Hmo.
  - apply (H3 eq_refl). lia.
  - destruct (H2 eq_refl); congruence.
Qed.

(** While the dashboard tab is rendered, no dashboard event changes the
    records: a settlement only happens while loading, when the tab is
    not rendered. *)
Lemma dash_step_keeps_data mode d e d' :
  DashboardFacts.flow_inv mode d -> Dashboard.step mode d e = Some d' -> tab_mounted d = true ->
  Dashboard.rawData d' = Dashboard.rawData d.
Proof.
  intros (H1 & H2 & H3 & Hrest) Hs Hm.
  assert (Hl : Dashboard.loading d = false)
    by (destruct (Dashboard.loading d) eqn:E; [rewrite loading_not_mounted in Hm|]; auto).
  destruct e; cbn [Dashboard.step] in Hs.
  - unfold Dashboard.mount in Hs. destruct (Dashboard.mounted d) eqn:Hmo; [discriminate|]. destruct (H2 eq_refl); congruence.
  - destruct (_ && _); inv Hs; reflexivity.
  - destruct (Dashboard.is_error_screen _); inv Hs; reflexivity.
  - rewrite (settle_not_mounted _ _ _ _ _ (conj H1 (conj H2 (conj H3 Hrest))) Hs) in Hm.
    discriminate.
  - destruct (Dashboard.is_main _); inv Hs; reflexivity.
  - destruct (_ && _); inv Hs; reflexivity.
  - destruct (_ && _); inv Hs; reflexivity.
Qed.

(** The invariant of the page: the dashboard's own invariant, the tab's
    state present exactly when the tab is rendered, and its selection a
    record of the bundle on the page. *)
Definition app_inv (mode : string) (a : t) : Prop :=
  DashboardFacts.flow_inv mode (dash a) /\
  (tab a = None -> tab_mounted (dash a) = false) /\
  (forall ts, tab a = Some ts ->
     exists b, Dashboard.render (dash a) = Dashboard.Main b /\ tab_mounted (dash a) = true /\
               SessionFacts.selection_in b ts).

Lemma fresh_tab_inv d :
  tab_mounted d = true ->
  exists b, Dashboard.render d = Dashboard.Main b /\ tab_mounted d = true /\
            SessionFacts.selection_in b Session.init.
Proof.
  intros Hm. destruct (tab_mounted_main _ Hm) as (b & Hr & _).
  exists b. repeat split; auto. intros s H. discriminate.
Qed.

Lemma step_app_inv mode a e a' : app_inv mode a -> step mode a e = Some a' -> app_inv mode a'.
Proof.
  intros (Hf & Hn & Hs). destruct e as [de|te]; cbn [step].
  - destruct (Dashboard.step mode (dash a) de) as [d'|] eqn:Hd; intros H; inv H.
    pose proof (DashboardFacts.step_inv _ _ _ _ Hf Hd) as Hf'.
    split; [exact Hf'|]. cbn [dash tab].
    destruct (tab_mounted d') eqn:Hm'; [|split; [reflexivity | discriminate]].
    destruct (tab_mounted (dash a)) eqn:Hm.
    + assert (Hdata := dash_step_keeps_data _ _ _ _ Hf Hd Hm).
      destruct (tab a) as [ts|] eqn:Ht; [|specialize (Hn eq_refl); congruence].
      split; [discriminate|]. intros ts' E. injection E as <-.
      destruct (Hs ts eq_refl) as (b & Hr & _ & Hsel).
      destruct (tab_mounted_main _ Hm') as (b' & Hr' & Hb').
      destruct (tab_mounted_main _ Hm) as (b0 & Hr0 & Hb0).
      rewrite Hdata, Hb0 in Hb'. injection Hb' as <-. rewrite Hr in Hr0. injection Hr0 as ->.
      exists b0. auto.
    + split; [discriminate|]. intros ts E. injection E as <-.
      destruct (fresh_tab_inv _ Hm') as (b & ? & _ & ?). eauto.
  - destruct (tab a) as [ts|] eqn:Ht; [|discriminate].
    destruct (Dashboard.render (dash a)) as [| | | |b] eqn:Hr; try discriminate.
    destruct (Session.step _ b ts te) as [ts'|] eqn:Hts; intros H; inv H.
    destruct (Hs ts eq_refl) as (b' & Hr' & Hm & Hsel). injection Hr' as <-.
    split; [exact Hf|]. cbn [dash tab]. split; [discriminate|].
    intros ts'' E. injection E as <-. exists b. repeat split; auto.
    exact (SessionFacts.step_selection_in _ _ _ _ _ Hsel Hts).
Qed.

Lemma reachable_app_inv mode a : reachable mode a -> app_inv mode a.
Proof.
  induction 1 as [|a e a' _ IH Hs]; [|exact (step_app_inv _ _ _ _ IH Hs)].
  split; [apply DashboardFacts.reachable_inv, Dashboard.reach_init|].
  split; [reflexivity | discriminate].
Qed.

(** C12: in every state a session reaches, the dashboard tab renders
    without throwing: the page fails only through [processAnalytics]
    (the [Crash] screen), never inside the tab. *)
Theorem page_never_tab_crash mode a :
  reachable mode a -> forall h m f, page a <> MainPage h (TabCrash m) f.
Proof.
  intros Hr h m f. apply reachable_app_inv in Hr as (_ & _ & Hs). unfold page.
  destruct (Dashboard.render (dash a)) as [| | | |b] eqn:Hr; try discriminate.
  unfold content. destruct (String.eqb _ "dashboard") eqn:Ht.
  - destruct (tab a) as [ts|] eqn:Hta; [|discriminate].
    destruct (Hs ts eq_refl) as (b' & Hr' & Hm & Hsel). injection Hr' as <-.
    destruct (tab_mounted_main _ Hm) as (b' & Hr' & Hb). rewrite Hr in Hr'. injection Hr' as <-.
    destruct (SessionFacts.view_defined _ _ (Dashboard.selectedMetric (dash a)) (Session.ui ts) Hb Hsel)
      as [v ->].
    discriminate.
  - destruct (String.eqb _ "standings"); discriminate.
Qed.

(** C22: a refresh always starts the dashboard tab afresh: when a fetch
    settles, the tab is not rendered (the loading screen is), so if it
    is rendered after, its query, selection and dropdown are the
    initial ones. *)
Theorem settle_resets_tab mode a o now a' :
  reachable mode a -> step mode a (Dash (Dashboard.Settle o now)) = Some a' ->
  forall ts, tab a' = Some ts -> ts = Session.init.
Proof.
  intros Hr Hs ts Hts. apply reachable_app_inv in Hr as (Hf & _).
  cbn [step] in Hs. destruct (Dashboard.step _ _ _) as [d'|] eqn:Hd; [|discriminate].
  rewrite (settle_not_mounted _ _ _ _ _ Hf Hd) in Hs. injection Hs as <-. cbn [tab] in Hts.
  destruct (tab_mounted d'); [injection Hts as <-; reflexivity | discriminate].
Qed.

(** The main page is shown only when the dashboard is not loading and
    holds records; its header and footer are those of [dash a]. *)
Lemma page_main a h c f :
  page a = MainPage h c f ->
  Dashboard.loading (dash a) = false /\ Dashboard.rawData (dash a) <> [] /\
  h = header (dash a) /\ f = Footer.render (Dashboard.lastUpdated (dash a)).
Proof.
  unfold page, Dashboard.render.
  destruct (ProcessAnalytics.processAnalytics _); [|discriminate].
  destruct (Dashboard.loading (dash a)) eqn:Hl; [discriminate|].
  destruct (Dashboard.error_shown _); [discriminate|].
  destruct (Dashboard.rawData (dash a)); [discriminate|].
  intros H. injection H as <- _ <-. repeat split; [discriminate].
Qed.

(** On the main page the Refresh button is never disabled and its
    icon never spins: [disabled={loading}] and the [animate-spin] class
    are dead code, since a loading dashboard renders the loading
    screen instead of the page. *)
Theorem refresh_button_never_disabled a h c f :
  page a = MainPage h c f -> refreshDisabled h = false /\ refreshIconClass h = EmptyString.
Proof.
  intros H. destruct (page_main _ _ _ _ H) as (Hl & _ & -> & _). cbn. rewrite Hl. auto.
Qed.

Lemma app_dash_reachable mode a : reachable mode a -> Dashboard.reachable mode (dash a).
Proof.
  induction 1 as [|a e a' _ IH Hs]; [apply Dashboard.reach_init|].
  destruct e as [de|te]; cbn [step] in Hs.
  - destruct (Dashboard.step mode (dash a) de) as [d'|] eqn:Hd; [|discriminate].
    injection Hs as <-. exact (Dashboard.reach_step _ _ _ _ IH Hd).
  - destruct (tab a), (Dashboard.render (dash a)); try discriminate.
    destruct (Session.step _ _ _ _); [|discriminate]. injection Hs as <-. exact IH.
Qed.

(** C21: in every reachable state, the main page shows when the data was
    fetched, in the header and in the footer, formatted from the same
    instant for any locale: [lastUpdated] is set whenever the dashboard
    holds records, so the header's [lastUpdated &&] guard always passes
    and the footer's ['N/A'] never shows on the page. *)
Theorem main_page_shows_fetch_time `{Locale} mode a h c f :
  reachable mode a -> page a = MainPage h c f ->
  exists t, Dashboard.lastUpdated (dash a) = Some t /\
    header_line h = Some ("Last updated: " ++ toLocaleString t)%string /\
    Footer.fetch_text f = toLocaleTimeString t.
Proof.
  intros Hr Hp. destruct (page_main _ _ _ _ Hp) as (_ & Hd & -> & ->).
  pose proof (DashboardFacts.reachable_updated _ _ (app_dash_reachable _ _ Hr) Hd) as Hu.
  destruct (Dashboard.lastUpdated (dash a)) as [t|] eqn:Ht; [|contradiction].
  exists t. unfold header_line, Footer.fetch_text. cbn. rewrite Ht. auto.
Qed.

(** The footer's links open a new tab without giving it [window.opener]
    or the referrer: each [target=_blank] link has
    [rel="noopener noreferrer"]. *)
Lemma footer_links_noopener lastUpdated :
  Forall (fun l => String.eqb (Footer.target l) "_blank"%string = true ->
                   includes (Footer.rel l) "noopener"%string = true /\
                   includes (Footer.rel l) "noreferrer"%string = true)
         (Footer.profileLinks (Footer.render lastUpdated)).
Proof. repeat constructor. Qed.
End AppFacts.
