(* ===== verification/Scenario.v ===== *)
(** * The spec's scenarios, run through the model

    The feeds of the spec's scenarios, parsed and aggregated by
    evaluation; concrete runs that exhibit behaviours the spec does not
    describe; and one concrete instance of each theorem with
    hypotheses, showing that the hypotheses hold on real data. *)

From S2P Require Import Prelude JsString JsNum JsObject JsSort JsJson JsFixed CsvParser Analytics AnalyticsFacts Legacy Http Dashboard StatCard Standings Detail Constants Charts SearchBar App.
Import SalesApi SalesApiFacts SalesApiTheorems ProcessAnalytics AnalyticsFacts.

Module Scenario.
Local Open Scope string_scope.

Definition nl : string := String newline_char EmptyString.

Definition header : string :=
  "Date,Group,No,Matches,Team1,Team2,Team1Sales,Team2Sales,Winner,Loser,Winner_1,Loser_2,TotalWinner,TotalLoser".
Definition row1 : string := "2025-11-28,Group 1,1,M1,Alpha,Beta,100,200,Beta,Alpha,0,0,0,0".
Definition row2 : string := "2025-11-28,Group 1,2,M2,Alpha,Gamma,300,50,Alpha,Gamma,0,0,0,0".

Definition sample_csv : string := header ++ nl ++ row1 ++ nl ++ row2 ++ nl.

Definition sample_matches : list MatchRecord :=
  match parseCSVData sample_csv with Ok ms => ms | Throw _ => [] end.

Definition sample_bundle : Bundle.t :=
  match processAnalytics sample_matches with Ok b => b | Throw _ => empty_bundle end.

(** The bundle of an input that [processAnalytics] accepts. *)
Definition finalize_state_of (ms : list MatchRecord) : Bundle.t :=
  match processAnalytics ms with Ok b => b | Throw _ => empty_bundle end.

Definition dummy_store : StorePerformance.t :=
  finalize_store (store_init (mkStoreEvent EmptyString EmptyString num_zero false)).

Definition first_store : StorePerformance.t :=
  match Bundle.storePerformance sample_bundle with s :: _ => s | [] => dummy_store end.

Definition group1_standings : list Standing.t :=
  match obj_get (Bundle.groupStandings sample_bundle) "Group 1" with
  | Some l => l | None => []
  end.

Definition second_row : Standing.t :=
  nth 1 group1_standings (to_standing dummy_store 0).

(** A match of Group 1 on the spec's date, with the given teams, sales
    and winner. *)
Definition match_of (no team1 team2 : string) (sales1 sales2 : num) (winner date : string)
  : MatchRecord :=
  mkMatch date "Group 1" no "M" team1 team2 sales1 sales2 winner
    (if String.eqb winner team1 then team2 else team1) num_zero num_zero num_zero num_zero.

(** The spec's feed and a third match dated [toString]. *)
Definition toString_matches : list MatchRecord :=
  sample_matches ++ [match_of "3" "Beta" "Gamma" (num_of_nat 10) (num_of_nat 20) "Gamma" "toString"].

(** A single match whose first store sold nothing. *)
Definition zero_sales_matches : list MatchRecord :=
  [match_of "1" "Alpha" "Beta" num_zero (num_of_nat 100) "Beta" "2025-11-28"].

Definition zero_sales_bundle : Bundle.t :=
  match processAnalytics zero_sales_matches with Ok b => b | Throw _ => empty_bundle end.

Definition zero_sales_store : StorePerformance.t :=
  match Bundle.storePerformance zero_sales_bundle with s :: _ => s | [] => dummy_store end.

(** A response of the upstream server. *)
Definition csv_response : Fetch.Response := Fetch.mkResponse 200 "OK" sample_csv.

Definition session (es : list Dashboard.event) : Dashboard.t :=
  match Dashboard.run "production" Dashboard.init es with
  | Some st => st
  | None => Dashboard.init
  end.

Definition loading_session : Dashboard.t := session [Dashboard.Mount].
Definition loaded_session : Dashboard.t :=
  session [Dashboard.Mount; Dashboard.Settle (Fetch.Resolved csv_response) 0%Z].

(** ** The spec's two-row scenario *)

(** The spec's example feed (header and two rows of Group 1) parses
    into two records, and aggregates to one group with total sales
    650, 2 matches and 3 stores, and to Alpha with total sales 400,
    2 matches, 1 win, 1 loss and 3 points. *)
Example spec_two_row_scenario :
  parseCSVData sample_csv = Ok sample_matches /\
  List.length sample_matches = 2 /\
  processAnalytics sample_matches = Ok sample_bundle /\
  map (fun g => (GroupStats.group g, GroupStats.totalSales g, GroupStats.matches g,
                 GroupStats.storeCount g)) (Bundle.groupStats sample_bundle)
    = [("Group 1", fin 650, 2, 3)] /\
  map (fun s => (StorePerformance.totalSales s, StorePerformance.matches s,
                 StorePerformance.wins s, StorePerformance.losses s,
                 StorePerformance.points s))
      (filter (fun s => String.eqb (StorePerformance.store s) "Alpha")
              (Bundle.storePerformance sample_bundle))
    = [(fin 400, 2, 1, 1, 3)].
Proof. vm_compute. repeat split. Qed.

(** The spec's malformed-row scenarios: a row of 10 fields is
    dropped, so a file whose only data row is short throws the
    no-valid-data error; a sales field [N/A] parses to [0]. *)
Example spec_malformed_row_scenario :
  parseCSVData (header ++ nl ++ "2025-11-28,Group 1,1,M1,Alpha,Beta,100,200,Beta,Alpha")
    = Throw "Failed to parse CSV: No valid data found in CSV" /\
  (match parseCSVData (header ++ nl ++ "2025-11-28,Group 1,1,M1,Alpha,Beta,N/A,200,Beta,Alpha,0,0,0,0")
   with Ok rows => map Team1Sales rows | Throw _ => [] end) = [num_zero].
Proof. split; vm_compute; reflexivity. Qed.

(** ** Behaviours the spec does not describe *)

(** A store whose name is an array index is listed before the
    others: with [Beta] met before [7], the store list starts with [7]. *)
Example numeric_store_listed_first :
  (match processAnalytics [match_of "1" "Beta" "7" (num_of_nat 100) (num_of_nat 200) "7" "2025-11-28"]
   with Ok b => map StorePerformance.store (Bundle.storePerformance b) | Throw _ => [] end)
  = ["7"; "Beta"].
Proof. vm_compute. reflexivity. Qed.

(** The parser keeps negative and infinite sales figures:
    [parseFloat('-5') || 0] is [-5] and [parseFloat('Infinity') || 0]
    is [Infinity]. *)
Example negative_sales_accepted :
  (match parseCSVData (header ++ nl ++ "2025-11-28,Group 1,1,M1,Alpha,Beta,-5,Infinity,Beta,Alpha,0,0,0,0")
   with Ok rows => map (fun m => (Team1Sales m, Team2Sales m)) rows | Throw _ => [] end)
  = [(num_of_Z (-5), NPosInf)].
Proof. vm_compute. reflexivity. Qed.

(** In the unused legacy helpers, a line with only a date and a
    group leaves both teams and the winner [undefined]; as
    [undefined === undefined], the single store ["undefined"] is
    credited two wins and six points. *)
Example legacy_short_row_phantom_store :
  (match DataHelpers.calculateStorePerformance
           (DataHelpers.parseCSVData (header ++ nl ++ "2025-11-28,Group 1")) with
   | Ok l => map (fun s => (LegacyStorePerformance.store s, LegacyStorePerformance.matches s,
                            LegacyStorePerformance.wins s, LegacyStorePerformance.points s)) l
   | Throw _ => []
   end) = [(None, 2, 2, 6)].
Proof. vm_compute. reflexivity. Qed.

(** Only Chromium's rejection message [Failed to fetch] is replaced
    by the network hint; the message another browser gives for the
    same failure reaches the user unchanged. *)
Example other_browser_network_error_kept :
  FetchSalesData.fetchSalesData "production"
    (fun _ => Fetch.Rejected "NetworkError when attempting to fetch resource.")
    = Throw "NetworkError when attempting to fetch resource." /\
  FetchSalesData.fetchSalesData "production" (fun _ => Fetch.Rejected "Failed to fetch")
    = Throw FetchSalesData.network_error_message.
Proof. split; reflexivity. Qed.

(** ** Witnesses *)

Lemma parseCSVLine_quoted_roundtrip_witness :
  ["Group 1"; " a,b "] <> [] /\
  Forall (fun f => str_forallb no_quote f = true) ["Group 1"; " a,b "] /\
  parseCSVLine (csv_join (map csv_quote ["Group 1"; " a,b "])) = map trim ["Group 1"; " a,b "].
Proof.
  assert (H1 : ["Group 1"; " a,b "] <> []) by discriminate.
  assert (H2 : Forall (fun f => str_forallb no_quote f = true) ["Group 1"; " a,b "])
    by (repeat constructor).
  exact (conj H1 (conj H2 (parseCSVLine_quoted_roundtrip _ H1 H2))).
Defined.

Lemma parseCSVLine_plain_roundtrip_witness :
  ["2025-11-28"; " Group 1 "] <> [] /\
  Forall (fun f => str_forallb plain_char f = true) ["2025-11-28"; " Group 1 "] /\
  parseCSVLine (csv_join ["2025-11-28"; " Group 1 "]) = map trim ["2025-11-28"; " Group 1 "].
Proof.
  assert (H1 : ["2025-11-28"; " Group 1 "] <> []) by discriminate.
  assert (H2 : Forall (fun f => str_forallb plain_char f = true) ["2025-11-28"; " Group 1 "])
    by (repeat constructor).
  exact (conj H1 (conj H2 (parseCSVLine_plain_roundtrip _ H1 H2))).
Defined.

Lemma parseCSVData_sales_not_nan_witness :
  parseCSVData sample_csv = Ok sample_matches /\
  Forall (fun m => is_nan (Team1Sales m) = false /\ is_nan (Team2Sales m) = false)
    sample_matches.
Proof.
  assert (H : parseCSVData sample_csv = Ok sample_matches) by (vm_compute; reflexivity).
  exact (conj H (parseCSVData_sales_not_nan _ _ H)).
Defined.

Lemma store_matches_total_witness :
  processAnalytics sample_matches = Ok sample_bundle /\
  nat_sum StorePerformance.matches (Bundle.storePerformance sample_bundle)
    = 2 * List.length sample_matches.
Proof.
  assert (H : processAnalytics sample_matches = Ok sample_bundle) by (vm_compute; reflexivity).
  exact (conj H (store_matches_total _ _ H)).
Defined.

Lemma wins_losses_credited_witness :
  processAnalytics sample_matches = Ok sample_bundle /\
  nat_sum StorePerformance.wins (Bundle.storePerformance sample_bundle)
    = nat_sum (fun m => Nat.b2n (String.eqb (Team1 m) (Winner m))
                        + Nat.b2n (String.eqb (Team2 m) (Winner m))) sample_matches.
Proof.
  assert (H : processAnalytics sample_matches = Ok sample_bundle) by (vm_compute; reflexivity).
  exact (conj H (proj1 (wins_losses_credited _ _ H))).
Defined.

Lemma daily_matches_total_witness :
  processAnalytics toString_matches = Ok (finalize_state_of toString_matches) /\
  nat_sum Daily.matches (Bundle.dailyPerformance (finalize_state_of toString_matches))
    = List.length (filter (fun m => negb (is_proto_key (Date m))) toString_matches).
Proof.
  assert (H : processAnalytics toString_matches = Ok (finalize_state_of toString_matches))
    by (vm_compute; reflexivity).
  exact (conj H (daily_matches_total _ _ H)).
Defined.

Lemma store_record_invariant_witness :
  processAnalytics sample_matches = Ok sample_bundle /\
  In first_store (Bundle.storePerformance sample_bundle) /\
  StorePerformance.wins first_store + StorePerformance.losses first_store
    = StorePerformance.matches first_store.
Proof.
  assert (H : processAnalytics sample_matches = Ok sample_bundle) by (vm_compute; reflexivity).
  assert (Hin : In first_store (Bundle.storePerformance sample_bundle))
    by (vm_compute; left; reflexivity).
  exact (conj H (conj Hin (proj1 (store_record_invariant _ _ _ H Hin)))).
Defined.

Lemma recent_form_last5_witness :
  processAnalytics sample_matches = Ok sample_bundle /\
  In first_store (Bundle.storePerformance sample_bundle) /\
  StorePerformance.recentForm first_store
    = lastn 5 (form_history (StorePerformance.store first_store) sample_matches).
Proof.
  assert (H : processAnalytics sample_matches = Ok sample_bundle) by (vm_compute; reflexivity).
  assert (Hin : In first_store (Bundle.storePerformance sample_bundle))
    by (vm_compute; left; reflexivity).
  exact (conj H (conj Hin (proj1 (recent_form_last5 _ _ _ H Hin)))).
Defined.

Lemma winRate_metric_rounded_witness :
  processAnalytics sample_matches = Ok sample_bundle /\
  In first_store (Bundle.storePerformance sample_bundle) /\
  DashboardTab.metric_value "winRate" first_store =
    fin (round_fixed 1 (inject_Z (Z.of_nat (StorePerformance.wins first_store))
                        / inject_Z (Z.of_nat (StorePerformance.matches first_store)) * 100)).
Proof.
  assert (H : processAnalytics sample_matches = Ok sample_bundle) by (vm_compute; reflexivity).
  assert (Hin : In first_store (Bundle.storePerformance sample_bundle))
    by (vm_compute; left; reflexivity).
  exact (conj H (conj Hin (DashboardTabFacts.winRate_metric_rounded _ _ _ H Hin))).
Defined.

(** Two wins in three matches print as ["66.7"], which reads back as
    [66.7], the percentage rounded: the sort compares [66.7], not
    [200/3]. *)
Example win_rate_two_of_three :
  string_to_number (toFixed 1 (num_mul (num_div (num_of_nat 2) (num_of_nat 3)) (num_of_nat 100)))
  = fin (667 # 10) /\ toFixed 1 (num_mul (num_div (num_of_nat 2) (num_of_nat 3)) (num_of_nat 100))
  = "66.7".
Proof. split; vm_compute; reflexivity. Qed.

Definition second_store : StorePerformance.t :=
  nth 1 (Bundle.storePerformance sample_bundle) dummy_store.

Lemma winRate_order_exact_witness :
  processAnalytics sample_matches = Ok sample_bundle /\
  In first_store (Bundle.storePerformance sample_bundle) /\
  In second_store (Bundle.storePerformance sample_bundle) /\
  StorePerformance.matches first_store <= 31 /\ StorePerformance.matches second_store <= 31 /\
  (num_lt (DashboardTab.metric_value "winRate" first_store)
          (DashboardTab.metric_value "winRate" second_store) = true <->
   StorePerformance.wins first_store * StorePerformance.matches second_store
     < StorePerformance.wins second_store * StorePerformance.matches first_store).
Proof.
  assert (H : processAnalytics sample_matches = Ok sample_bundle) by (vm_compute; reflexivity).
  assert (Hx : In first_store (Bundle.storePerformance sample_bundle))
    by (vm_compute; left; reflexivity).
  assert (Hy : In second_store (Bundle.storePerformance sample_bundle))
    by (vm_compute; right; left; reflexivity).
  assert (Hmx : StorePerformance.matches first_store <= 31) by (vm_compute; lia).
  assert (Hmy : StorePerformance.matches second_store <= 31) by (vm_compute; lia).
  exact (conj H (conj Hx (conj Hy (conj Hmx (conj Hmy
           (DashboardTabFacts.winRate_order_exact _ _ _ _ H Hx Hy Hmx Hmy)))))).
Defined.

(** Beyond 34 matches rounding creates ties: one win in 34 and one win
    in 35 both print ["2.9"]. *)
Example win_rate_tie_35 :
  toFixed 1 (num_mul (num_div (num_of_nat 1) (num_of_nat 34)) (num_of_nat 100)) = "2.9" /\
  toFixed 1 (num_mul (num_div (num_of_nat 1) (num_of_nat 35)) (num_of_nat 100)) = "2.9".
Proof. split; vm_compute; reflexivity. Qed.

Definition first_group : GroupStats.t :=
  match Bundle.groupStats sample_bundle with
  | g :: _ => g
  | [] => finalize_group (group_init (match_of "0" EmptyString EmptyString num_zero num_zero
                                               EmptyString EmptyString))
  end.

Lemma group_record_spec_witness :
  processAnalytics sample_matches = Ok sample_bundle /\
  In first_group (Bundle.groupStats sample_bundle) /\
  GroupStats.storeCount first_group
    = List.length (first_seen [] (flat_map (fun m => [Team1 m; Team2 m])
                                    (group_matches (GroupStats.group first_group) sample_matches))).
Proof.
  assert (H : processAnalytics sample_matches = Ok sample_bundle) by (vm_compute; reflexivity).
  assert (Hin : In first_group (Bundle.groupStats sample_bundle)) by (vm_compute; left; reflexivity).
  destruct (group_record_spec _ _ _ H Hin) as (_ & _ & _ & _ & _ & Hc).
  exact (conj H (conj Hin Hc)).
Defined.

Lemma standings_sorted_witness :
  processAnalytics sample_matches = Ok sample_bundle /\
  obj_get (Bundle.groupStandings sample_bundle) "Group 1" = Some group1_standings /\
  Sorted standing_order (map Standing.entry group1_standings).
Proof.
  assert (H : processAnalytics sample_matches = Ok sample_bundle) by (vm_compute; reflexivity).
  assert (Hg : obj_get (Bundle.groupStandings sample_bundle) "Group 1" = Some group1_standings)
    by (vm_compute; reflexivity).
  exact (conj H (conj Hg (standings_sorted _ _ _ _ H Hg))).
Defined.

Lemma standings_members_witness :
  processAnalytics sample_matches = Ok sample_bundle /\
  obj_get (Bundle.groupStandings sample_bundle) "Group 1" = Some group1_standings /\
  Permutation (map Standing.entry group1_standings)
    (filter (fun s => String.eqb (StorePerformance.group s) "Group 1")
            (Bundle.storePerformance sample_bundle)).
Proof.
  assert (H : processAnalytics sample_matches = Ok sample_bundle) by (vm_compute; reflexivity).
  assert (Hg : obj_get (Bundle.groupStandings sample_bundle) "Group 1" = Some group1_standings)
    by (vm_compute; reflexivity).
  exact (conj H (conj Hg (standings_members _ _ _ _ H Hg))).
Defined.

Lemma groups_sorted_witness :
  processAnalytics sample_matches = Ok sample_bundle /\
  Sorted (fun x y => num_lt (GroupStats.groupNumber y) (GroupStats.groupNumber x) = false)
    (Bundle.groupStats sample_bundle).
Proof.
  assert (H : processAnalytics sample_matches = Ok sample_bundle) by (vm_compute; reflexivity).
  exact (conj H (groups_sorted _ _ H)).
Defined.
Lemma stores_first_seen_order_witness :
  processAnalytics sample_matches = Ok sample_bundle /\
  forallb (fun k => negb (is_array_index k))
    (flat_map (fun m => [Team1 m; Team2 m]) sample_matches) = true /\
  map StorePerformance.store (Bundle.storePerformance sample_bundle)
  = first_seen [] (flat_map (fun m => [Team1 m; Team2 m]) sample_matches).
Proof.
  assert (H : processAnalytics sample_matches = Ok sample_bundle) by (vm_compute; reflexivity).
  assert (Hi : forallb (fun k => negb (is_array_index k))
                 (flat_map (fun m => [Team1 m; Team2 m]) sample_matches) = true)
    by (vm_compute; reflexivity).
  exact (conj H (conj Hi (stores_first_seen_order _ _ H Hi))).
Defined.

Lemma store_extremes_witness :
  processAnalytics sample_matches = Ok sample_bundle /\
  In first_store (Bundle.storePerformance sample_bundle) /\
  StorePerformance.bestPerformance first_store
    = fold_left (fun b e => num_max b (ev_sales e))
                (store_events_of (StorePerformance.store first_store) sample_matches) num_zero.
Proof.
  assert (H : processAnalytics sample_matches = Ok sample_bundle) by (vm_compute; reflexivity).
  assert (Hin : In first_store (Bundle.storePerformance sample_bundle))
    by (vm_compute; left; reflexivity).
  exact (conj H (conj Hin (proj1 (store_extremes _ _ _ H Hin)))).
Defined.

(** The zero-sales store of a single match: its consistency is ["NaN"]. *)
Lemma single_match_consistency_witness :
  processAnalytics zero_sales_matches = Ok zero_sales_bundle /\
  In zero_sales_store (Bundle.storePerformance zero_sales_bundle) /\
  StorePerformance.matches zero_sales_store = 1 /\
  StorePerformance.consistency zero_sales_store = "NaN".
Proof.
  assert (H : processAnalytics zero_sales_matches = Ok zero_sales_bundle)
    by (vm_compute; reflexivity).
  assert (Hin : In zero_sales_store (Bundle.storePerformance zero_sales_bundle))
    by (vm_compute; left; reflexivity).
  assert (H1 : StorePerformance.matches zero_sales_store = 1) by (vm_compute; reflexivity).
  refine (conj H (conj Hin (conj H1 _))).
  rewrite (single_match_consistency _ _ _ H Hin H1). vm_compute. reflexivity.
Defined.

Lemma legacy_groups_agree_witness :
  processAnalytics sample_matches = Ok sample_bundle /\
  forallb (fun m => LegacyFacts.group_parses (Group m)) sample_matches = true /\
  DataHelpers.calculateGroupStats (map LegacyFacts.to_legacy sample_matches)
  = Ok (map LegacyFacts.lift_group (Bundle.groupStats sample_bundle)).
Proof.
  assert (H : processAnalytics sample_matches = Ok sample_bundle) by (vm_compute; reflexivity).
  assert (Hp : forallb (fun m => LegacyFacts.group_parses (Group m)) sample_matches = true)
    by (vm_compute; reflexivity).
  exact (conj H (conj Hp (LegacyFacts.legacy_groups_agree _ _ H Hp))).
Defined.

Lemma legacy_stores_agree_witness :
  processAnalytics sample_matches = Ok sample_bundle /\
  forallb (fun m => LegacyFacts.group_parses (Group m)) sample_matches = true /\
  DataHelpers.calculateStorePerformance (map LegacyFacts.to_legacy sample_matches)
  = Ok (map LegacyFacts.lift_store (Bundle.storePerformance sample_bundle)).
Proof.
  assert (H : processAnalytics sample_matches = Ok sample_bundle) by (vm_compute; reflexivity).
  assert (Hp : forallb (fun m => LegacyFacts.group_parses (Group m)) sample_matches = true)
    by (vm_compute; reflexivity).
  exact (conj H (conj Hp (LegacyFacts.legacy_stores_agree _ _ H Hp))).
Defined.

(** A 404 from the upstream server. *)
Definition fetch_404 (_ : string) : Fetch.Outcome :=
  Fetch.Resolved (Fetch.mkResponse 404 "Not Found" EmptyString).

Definition msg_404 : string := "HTTP 404: Not Found".

Lemma fetchSalesData_error_kinds_witness :
  FetchSalesData.fetchSalesData "production" fetch_404 = Throw msg_404 /\
  (msg_404 = FetchSalesData.network_error_message \/
   (exists msg, fetch_404 (FetchSalesData.csv_url "production") = Fetch.Rejected msg /\ msg_404 = msg) \/
   (exists r, fetch_404 (FetchSalesData.csv_url "production") = Fetch.Resolved r /\
              Fetch.ok r = false /\ msg_404 = FetchSalesData.http_error_message r) \/
   (exists r, fetch_404 (FetchSalesData.csv_url "production") = Fetch.Resolved r /\
              Fetch.ok r = true /\ HttpFacts.blank (Fetch.body r) = true /\
              msg_404 = FetchSalesData.empty_response_message) \/
   (exists r e, fetch_404 (FetchSalesData.csv_url "production") = Fetch.Resolved r /\
                Fetch.ok r = true /\ HttpFacts.blank (Fetch.body r) = false /\
                SalesApi.parseCSVData (Fetch.body r) = Throw e /\ msg_404 = e /\
                String.prefix SalesApi.parse_error_prefix e = true)).
Proof.
  assert (H : FetchSalesData.fetchSalesData "production" fetch_404 = Throw msg_404)
    by reflexivity.
  exact (conj H (HttpFacts.fetchSalesData_error_kinds _ _ _ H)).
Defined.

(** The CSV feed relayed through [proxy.js]: its body starts with the
    [D] of [Date]. *)
Definition fetch_csv (_ : string) : Fetch.Outcome := Fetch.Resolved csv_response.

Lemma proxy_rejects_non_json_witness :
  fetch_csv ("https://spl.starphones.com.au/" ++ replace_first "/api/" EmptyString "/api/matches.csv")
    = Fetch.Resolved csv_response /\
  JsonParse.skip_ws (Fetch.body csv_response) = String "D" (str_drop 1 sample_csv) /\
  JsonParse.value_start "D" = false /\
  ProxyHandler.handler "/api/matches.csv" fetch_csv
    = Res.json ProxyHandler.error_body (Res.status 500 Res.init).
Proof.
  assert (H1 : fetch_csv ("https://spl.starphones.com.au/"
                          ++ replace_first "/api/" EmptyString "/api/matches.csv")
               = Fetch.Resolved csv_response) by reflexivity.
  assert (H2 : JsonParse.skip_ws (Fetch.body csv_response) = String "D" (str_drop 1 sample_csv))
    by (vm_compute; reflexivity).
  assert (H3 : JsonParse.value_start "D" = false) by reflexivity.
  exact (conj H1 (conj H2 (conj H3 (HttpFacts.proxy_rejects_non_json _ _ _ _ _ H1 H2 H3)))).
Defined.

Lemma loading_session_reachable : Dashboard.reachable "production" loading_session.
Proof.
  apply (DashboardFacts.run_reachable "production" Dashboard.init [Dashboard.Mount]);
    [constructor | vm_compute; reflexivity].
Qed.

Lemma loaded_session_reachable : Dashboard.reachable "production" loaded_session.
Proof.
  apply (DashboardFacts.run_reachable "production" Dashboard.init
           [Dashboard.Mount; Dashboard.Settle (Fetch.Resolved csv_response) 0%Z]);
    [constructor | vm_compute; reflexivity].
Qed.

Lemma no_overlapping_fetches_witness :
  Dashboard.reachable "production" loading_session /\ Dashboard.inFlight loading_session <= 1.
Proof.
  exact (conj loading_session_reachable
              (DashboardFacts.no_overlapping_fetches _ _ loading_session_reachable)).
Defined.

Lemma loading_iff_pending_witness :
  Dashboard.reachable "production" loading_session /\
  Dashboard.mounted loading_session = true /\
  (Dashboard.loading loading_session = true <-> Dashboard.inFlight loading_session = 1).
Proof.
  assert (Hm : Dashboard.mounted loading_session = true) by (vm_compute; reflexivity).
  exact (conj loading_session_reachable
          (conj Hm (proj1 (DashboardFacts.loading_iff_pending _ _ loading_session_reachable Hm)))).
Defined.

Lemma raw_data_from_fetch_witness :
  Dashboard.reachable "production" loaded_session /\ Dashboard.rawData loaded_session <> [] /\
  exists r, Fetch.ok r = true /\ HttpFacts.blank (Fetch.body r) = false /\
            SalesApi.parseCSVData (Fetch.body r) = Ok (Dashboard.rawData loaded_session).
Proof.
  assert (Hne : Dashboard.rawData loaded_session <> []) by (vm_compute; discriminate).
  exact (conj loaded_session_reachable
          (conj Hne (DashboardFacts.raw_data_from_fetch _ _ loaded_session_reachable Hne))).
Defined.

Lemma pending_load_settles_witness :
  Dashboard.reachable "production" loading_session /\
  Dashboard.mounted loading_session = true /\ Dashboard.loading loading_session = true /\
  exists st', Dashboard.step "production" loading_session
                (Dashboard.Settle (Fetch.Resolved csv_response) 0%Z) = Some st' /\
              Dashboard.loading st' = false /\ Dashboard.inFlight st' = 0.
Proof.
  assert (Hm : Dashboard.mounted loading_session = true) by (vm_compute; reflexivity).
  assert (Hl : Dashboard.loading loading_session = true) by (vm_compute; reflexivity).
  exact (conj loading_session_reachable (conj Hm (conj Hl
           (DashboardFacts.pending_load_settles _ _ _ _ loading_session_reachable Hm Hl)))).
Defined.

(** The top stores by win rate, a string field the comparator converts. *)
Lemma topStores_spec_witness :
  forallb (fun s => negb (is_nan (DashboardTab.metric_value "winRate" s)))
    (Bundle.storePerformance sample_bundle) = true /\
  DashboardTabFacts.top_k_spec 10 (DashboardTab.metric_value "winRate")
    (Bundle.storePerformance sample_bundle)
    (DashboardTab.topStores "winRate" (Bundle.storePerformance sample_bundle)).
Proof.
  assert (H : forallb (fun s => negb (is_nan (DashboardTab.metric_value "winRate" s)))
                (Bundle.storePerformance sample_bundle) = true) by (vm_compute; reflexivity).
  exact (conj H (DashboardTabFacts.topStores_spec _ _ H)).
Defined.

Lemma storeAnalytics_total_witness :
  processAnalytics sample_matches = Ok sample_bundle /\
  In first_store (Bundle.storePerformance sample_bundle) /\
  exists a, DashboardTab.storeAnalytics (Some first_store) sample_bundle = Ok (Some a) /\
    In (DashboardTab.StoreAnalytics.groupInfo a) (Bundle.groupStats sample_bundle) /\
    GroupStats.group (DashboardTab.StoreAnalytics.groupInfo a) = StorePerformance.group first_store /\
    1 <= DashboardTab.StoreAnalytics.rankInGroup a /\ 1 <= DashboardTab.StoreAnalytics.overallRank a.
Proof.
  assert (H : processAnalytics sample_matches = Ok sample_bundle) by (vm_compute; reflexivity).
  assert (Hin : In first_store (Bundle.storePerformance sample_bundle))
    by (vm_compute; left; reflexivity).
  exact (conj H (conj Hin (DashboardTabFacts.storeAnalytics_total _ _ _ H Hin))).
Defined.

Lemma overview_key_metrics_witness :
  processAnalytics sample_matches = Ok sample_bundle /\
  Overview.totalMatches (Overview.key_metrics sample_bundle)
    = num_of_nat (List.length sample_matches).
Proof.
  assert (H : processAnalytics sample_matches = Ok sample_bundle) by (vm_compute; reflexivity).
  exact (conj H (proj1 (OverviewFacts.overview_key_metrics _ _ H))).
Defined.

(** The first table of the standings tab on the sample feed. *)
Definition first_table : GroupStandingsTable.t :=
  nth 0 (StandingsView.tables (StandingsView.render sample_bundle "all"))
      (GroupStandingsTable.render "" [] None).

Lemma standings_tables_group_record_witness :
  processAnalytics sample_matches = Ok sample_bundle /\
  In first_table (StandingsView.tables (StandingsView.render sample_bundle "all")) /\
  exists g, GroupStandingsTable.groupInfo first_table = Some g /\
            GroupStats.group g = GroupStandingsTable.groupName first_table /\
            In g (Bundle.groupStats sample_bundle).
Proof.
  assert (H : processAnalytics sample_matches = Ok sample_bundle) by (vm_compute; reflexivity).
  assert (Hin : In first_table (StandingsView.tables (StandingsView.render sample_bundle "all")))
    by (apply nth_In; vm_compute; lia).
  exact (conj H (conj Hin (StandingsFacts.standings_tables_group_record _ _ _ _ H Hin))).
Defined.

Lemma standings_medals_agree_witness :
  processAnalytics sample_matches = Ok sample_bundle /\
  In first_table (StandingsView.tables (StandingsView.render sample_bundle "all")) /\
  nth_error (GroupStandingsTable.rows first_table) 0
    = Some (GroupStandingsTable.row (nth 0 group1_standings second_row)) /\
  nth_error (GroupStandingsTable.bars first_table) 0
    = Some (StorePerformance.store (Standing.entry (nth 0 group1_standings second_row)),
            StorePerformance.totalSales (Standing.entry (nth 0 group1_standings second_row)),
            "#FACC15") /\
  GroupStandingsTable.crown (GroupStandingsTable.row (nth 0 group1_standings second_row)) = true.
Proof.
  assert (H : processAnalytics sample_matches = Ok sample_bundle) by (vm_compute; reflexivity).
  assert (Hin : In first_table (StandingsView.tables (StandingsView.render sample_bundle "all")))
    by (apply nth_In; vm_compute; lia).
  assert (Hr : nth_error (GroupStandingsTable.rows first_table) 0
               = Some (GroupStandingsTable.row (nth 0 group1_standings second_row)))
    by (vm_compute; reflexivity).
  assert (Hc : nth_error (GroupStandingsTable.bars first_table) 0
    = Some (StorePerformance.store (Standing.entry (nth 0 group1_standings second_row)),
            StorePerformance.totalSales (Standing.entry (nth 0 group1_standings second_row)),
            "#FACC15")) by (vm_compute; reflexivity).
  destruct (StandingsFacts.standings_medals_agree _ _ _ _ _ _ _ H Hin Hr Hc) as [Hg _].
  exact (conj H (conj Hin (conj Hr (conj Hc (proj2 Hg eq_refl))))).
Defined.

Lemma JSON_parse_fuel_adequate_witness :
  2 * String.length "[1,[2]]" < 20 /\ JSON_parse_fuel 20 "[1,[2]]" = JSON_parse "[1,[2]]".
Proof.
  assert (H : 2 * String.length "[1,[2]]" < 20) by (cbn; lia).
  exact (conj H (JSON_parse_fuel_adequate _ _ H)).
Defined.

(** ** Sessions of the search bar and of the page *)

(** The user focuses the search, types ["Al"] and picks the first row. *)
Definition typed_events : list Session.event := [Session.Focus; Session.Change "Al"].

Definition search_session (es : list Session.event) : Session.t :=
  match Session.run "totalSales" sample_bundle Session.init es with
  | Some st => st
  | None => Session.init
  end.

Definition typed : Session.t := search_session typed_events.
Definition picked : Session.t := search_session (typed_events ++ [Session.PickRow 0]).

Lemma typed_reachable : SessionFacts.reachable sample_bundle typed.
Proof.
  apply (SessionFacts.session_run_reachable "totalSales" sample_bundle Session.init typed_events);
    [constructor | vm_compute; reflexivity].
Qed.

Lemma tab_view_never_throws_witness :
  processAnalytics sample_matches = Ok sample_bundle /\ SessionFacts.reachable sample_bundle typed /\
  exists v, DashboardTab.view "points" (Session.ui typed) sample_bundle = Ok v.
Proof.
  assert (H : processAnalytics sample_matches = Ok sample_bundle) by (vm_compute; reflexivity).
  exact (conj H (conj typed_reachable
    (SessionFacts.tab_view_never_throws _ _ _ "points" H typed_reachable))).
Defined.

Lemma pick_row_opens_detail_witness :
  processAnalytics sample_matches = Ok sample_bundle /\
  Session.step "totalSales" sample_bundle typed (Session.PickRow 0) = Some picked /\
  exists s a, nth_error (Session.filtered sample_bundle typed) 0 = Some s /\
    DashboardTab.view "totalSales" (Session.ui picked) sample_bundle = Ok (DashboardTab.StoreDetailView s a) /\
    DashboardTab.searchQuery (Session.ui picked) = StorePerformance.store s /\
    DashboardTab.showDropdown (Session.ui picked) = false.
Proof.
  assert (H : processAnalytics sample_matches = Ok sample_bundle) by (vm_compute; reflexivity).
  assert (Hs : Session.step "totalSales" sample_bundle typed (Session.PickRow 0) = Some picked)
    by (vm_compute; reflexivity).
  exact (conj H (conj Hs (SessionFacts.pick_row_opens_detail _ _ _ _ _ _ H Hs))).
Defined.

Lemma blur_then_pick_selects_witness :
  Session.focused typed = true /\ Session.dropdown_shown sample_bundle typed = true /\
  nth_error (Session.filtered sample_bundle typed) 0 = Some first_store /\
  exists st1 st2, Session.step "totalSales" sample_bundle typed Session.Blur = Some st1 /\
    Session.step "totalSales" sample_bundle st1 (Session.PickRow 0) = Some st2 /\
    DashboardTab.selectedStore (Session.ui st2) = Some first_store.
Proof.
  assert (H1 : Session.focused typed = true) by (vm_compute; reflexivity).
  assert (H2 : Session.dropdown_shown sample_bundle typed = true) by (vm_compute; reflexivity).
  assert (H3 : nth_error (Session.filtered sample_bundle typed) 0 = Some first_store)
    by (vm_compute; reflexivity).
  exact (conj H1 (conj H2 (conj H3
    (SessionFacts.blur_then_pick_selects "totalSales" _ _ _ _ H1 H2 H3)))).
Defined.

Definition app_session (es : list App.event) : App.t :=
  match App.run "production" App.init es with
  | Some a => a
  | None => App.init
  end.

Definition loading_app : App.t := app_session [App.Dash Dashboard.Mount].
Definition loaded_app : App.t :=
  app_session [App.Dash Dashboard.Mount;
               App.Dash (Dashboard.Settle (Fetch.Resolved csv_response) 0%Z)].
Definition picked_app : App.t :=
  app_session [App.Dash Dashboard.Mount;
               App.Dash (Dashboard.Settle (Fetch.Resolved csv_response) 0%Z);
               App.Tab Session.Focus; App.Tab (Session.Change "Al"); App.Tab (Session.PickRow 0)].

Lemma loading_app_reachable : App.reachable "production" loading_app.
Proof.
  apply (AppFacts.app_run_reachable "production" App.init [App.Dash Dashboard.Mount]);
    [constructor | vm_compute; reflexivity].
Qed.

Lemma page_never_tab_crash_witness :
  App.reachable "production" picked_app /\
  (forall h m f, App.page picked_app <> App.MainPage h (App.TabCrash m) f).
Proof.
  assert (H : App.reachable "production" picked_app).
  { apply (AppFacts.app_run_reachable "production" App.init
             [App.Dash Dashboard.Mount;
              App.Dash (Dashboard.Settle (Fetch.Resolved csv_response) 0%Z);
              App.Tab Session.Focus; App.Tab (Session.Change "Al"); App.Tab (Session.PickRow 0)]);
      [constructor | vm_compute; reflexivity]. }
  exact (conj H (AppFacts.page_never_tab_crash _ _ H)).
Defined.

Lemma settle_resets_tab_witness :
  App.reachable "production" loading_app /\
  App.step "production" loading_app (App.Dash (Dashboard.Settle (Fetch.Resolved csv_response) 0%Z))
    = Some loaded_app /\
  (forall ts, App.tab loaded_app = Some ts -> ts = Session.init).
Proof.
  assert (Hs : App.step "production" loading_app
                 (App.Dash (Dashboard.Settle (Fetch.Resolved csv_response) 0%Z)) = Some loaded_app)
    by (vm_compute; reflexivity).
  exact (conj loading_app_reachable (conj Hs
    (AppFacts.settle_resets_tab _ _ _ _ _ loading_app_reachable Hs))).
Defined.

Definition loaded_header : App.Header := App.header (App.dash loaded_app).
Definition loaded_content : App.Content :=
  match App.page loaded_app with App.MainPage _ c _ => c | _ => App.NoContent end.

Lemma refresh_button_never_disabled_witness :
  App.page loaded_app = App.MainPage loaded_header loaded_content (Footer.render (Some 0%Z)) /\
  App.refreshDisabled loaded_header = false /\ App.refreshIconClass loaded_header = EmptyString.
Proof.
  assert (H : App.page loaded_app = App.MainPage loaded_header loaded_content (Footer.render (Some 0%Z)))
    by (vm_compute; reflexivity).
  exact (conj H (AppFacts.refresh_button_never_disabled _ _ _ _ H)).
Defined.

(** A locale that prints an instant as its milliseconds since the
    epoch; the page theorems hold for every locale. *)
#[local] Instance epoch_locale : Locale :=
  {| toLocaleString t := digits_of_N (Z.to_N t); toLocaleTimeString t := digits_of_N (Z.to_N t) |}.

Lemma main_page_shows_fetch_time_witness :
  App.reachable "production" loaded_app /\
  App.page loaded_app = App.MainPage loaded_header loaded_content (Footer.render (Some 0%Z)) /\
  exists t, Dashboard.lastUpdated (App.dash loaded_app) = Some t /\
    App.header_line loaded_header = Some ("Last updated: " ++ toLocaleString t) /\
    Footer.fetch_text (Footer.render (Some 0%Z)) = toLocaleTimeString t.
Proof.
  assert (Hr : App.reachable "production" loaded_app).
  { apply (AppFacts.app_run_reachable "production" App.init
             [App.Dash Dashboard.Mount;
              App.Dash (Dashboard.Settle (Fetch.Resolved csv_response) 0%Z)]);
      [constructor | vm_compute; reflexivity]. }
  assert (H : App.page loaded_app = App.MainPage loaded_header loaded_content (Footer.render (Some 0%Z)))
    by (vm_compute; reflexivity).
  exact (conj Hr (conj H (AppFacts.main_page_shows_fetch_time _ _ _ _ _ Hr H))).
Defined.

Definition first_analytics : DashboardTab.StoreAnalytics.t :=
  match DashboardTab.storeAnalytics (Some first_store) sample_bundle with
  | Ok (Some a) => a
  | _ => DashboardTab.StoreAnalytics.mk (GroupStats.mk "" num_zero num_zero 0 num_zero num_zero
           num_zero [] num_zero num_zero num_zero 0 num_zero) 0 0 [] []
  end.

Lemma detail_ranks_bounded_witness :
  processAnalytics sample_matches = Ok sample_bundle /\
  In first_store (Bundle.storePerformance sample_bundle) /\
  DashboardTab.storeAnalytics (Some first_store) sample_bundle = Ok (Some first_analytics) /\
  1 <= DashboardTab.StoreAnalytics.rankInGroup first_analytics
    <= GroupStats.storeCount (DashboardTab.StoreAnalytics.groupInfo first_analytics) /\
  1 <= DashboardTab.StoreAnalytics.overallRank first_analytics
    <= List.length (Bundle.storePerformance sample_bundle).
Proof.
  assert (H : processAnalytics sample_matches = Ok sample_bundle) by (vm_compute; reflexivity).
  assert (Hin : In first_store (Bundle.storePerformance sample_bundle))
    by (vm_compute; left; reflexivity).
  assert (Ha : DashboardTab.storeAnalytics (Some first_store) sample_bundle = Ok (Some first_analytics))
    by (vm_compute; reflexivity).
  exact (conj H (conj Hin (conj Ha (DetailFacts.detail_ranks_bounded _ _ _ _ H Hin Ha)))).
Defined.

(** Focusing the search again within 200 ms of leaving it hides the
    dropdown while the input has the focus and the query still matches
    stores: the hide callback scheduled by the first [onBlur] is never
    cancelled. *)
Example refocus_hides_dropdown :
  let st := search_session [Session.Focus; Session.Change "Al"; Session.Blur; Session.Focus;
                            Session.TimerFires] in
  Session.run "totalSales" sample_bundle Session.init
    [Session.Focus; Session.Change "Al"; Session.Blur; Session.Focus; Session.TimerFires] = Some st /\
  Session.focused st = true /\ Session.filtered sample_bundle st <> [] /\
  Session.dropdown_shown sample_bundle st = false.
Proof. vm_compute. repeat split; discriminate. Qed.

(** A store that plays in two groups: Alpha's first match is in Group 1,
    its second, with larger sales, in Group 2. *)
Definition two_group_matches : list MatchRecord :=
  [ match_of "1" "Alpha" "Beta" (num_of_nat 10) (num_of_nat 5) "Alpha" "2025-11-28";
    mkMatch "2025-11-29" "Group 2" "2" "M" "Alpha" "Gamma" (num_of_nat 1000) (num_of_nat 5)
      "Alpha" "Gamma" num_zero num_zero num_zero num_zero ].

Definition two_group_bundle : Bundle.t :=
  match processAnalytics two_group_matches with Ok b => b | Throw _ => empty_bundle end.

Definition alpha_record : StorePerformance.t :=
  match Bundle.storePerformance two_group_bundle with s :: _ => s | [] => dummy_store end.

(** The detail view of a store that also played in another group shows
    a contribution to its group above 100%: its total sales cover all
    its matches, its group's total only the group's matches. *)
Example two_group_contribution_over_100 :
  StorePerformance.store alpha_record = "Alpha" /\
  StorePerformance.group alpha_record = "Group 1" /\
  (exists a, DashboardTab.storeAnalytics (Some alpha_record) two_group_bundle = Ok (Some a) /\
     StoreDetail.contribution (StoreDetail.quick_stats alpha_record (DashboardTab.StoreAnalytics.groupInfo a))
     = "6733.3%").
Proof. vm_compute. split; [reflexivity|]. split; [reflexivity|]. eexists. split; reflexivity. Qed.

(** The first row of the comparison chart on the spec's feed, and its
    Total Sales series. *)
Definition sample_row : string * num * num * nat * num :=
  match Overview.groupComparisonData sample_bundle with
  | r :: _ => r
  | [] => (EmptyString, num_zero, num_zero, 0, num_zero)
  end.

Definition total_sales_series : OverviewPage.Series :=
  OverviewPage.mkSeries OverviewPage.AreaSeries (Some "left") "totalSales" (Some "Total Sales")
    "#8B5CF6".

Lemma comparison_tooltip_unformatted_witness :
  In total_sales_series OverviewPage.comparison_series /\
  exists v, OverviewPage.row_value (OverviewPage.dataKey total_sales_series) sample_row = Some v /\
    OverviewPage.comparison_tooltip sample_row total_sales_series
      = Some (OverviewPage.RawValue v, OverviewPage.tooltip_name total_sales_series) /\
    exists text, fst (OverviewPage.comparison_formatter v (OverviewPage.dataKey total_sales_series))
                 = OverviewPage.Formatted text.
Proof.
  assert (H : In total_sales_series OverviewPage.comparison_series) by (left; reflexivity).
  exact (conj H (ChartFacts.comparison_tooltip_unformatted sample_row total_sales_series H)).
Defined.

(** On the spec's feed the Group 1 point of the comparison chart shows
    [650] under ["Total Sales"], not ["$650"]. *)
Example comparison_tooltip_sample :
  OverviewPage.comparison_tooltip sample_row total_sales_series
  = Some (OverviewPage.RawValue (num_of_nat 650), "Total Sales").
Proof. vm_compute. reflexivity. Qed.
(** [formatCurrency] switches to thousands at [1000] but rounds below
    it: [999.95] prints as ["$1000"] while [1000] prints as ["$1.0K"]. *)
Example format_currency_boundary :
  DataHelpers.formatCurrency (fin (19999 # 20)) = "$1000" /\
  DataHelpers.formatCurrency (num_of_nat 1000) = "$1.0K".
Proof. split; vm_compute; reflexivity. Qed.
(** A 2xx response whose body is only white space. *)
Definition blank_response : Fetch.Response := Fetch.mkResponse 200 "OK" "  ".
Definition fetch_blank (_ : string) : Fetch.Outcome := Fetch.Resolved blank_response.

Lemma blank_body_empty_response_witness :
  fetch_blank (FetchSalesData.csv_url "production") = Fetch.Resolved blank_response /\
  Fetch.ok blank_response = true /\
  (FetchSalesData.fetchSalesData "production" fetch_blank
     = Throw FetchSalesData.empty_response_message <->
   HttpFacts.blank (Fetch.body blank_response) = true).
Proof.
  assert (Hf : fetch_blank (FetchSalesData.csv_url "production") = Fetch.Resolved blank_response)
    by reflexivity.
  assert (Hok : Fetch.ok blank_response = true) by reflexivity.
  exact (conj Hf (conj Hok (HttpFacts.blank_body_empty_response _ _ _ Hf Hok))).
Defined.
End Scenario.
